(** * Admin API engine of librdkafka (src/rdkafka_admin.c)

    A shallow embedding of the admin worker, the admin options, the five
    response parsers, the ConfigEntry / ConfigResource accessors and the
    BROKER-resource pre-flight of rdkafka_admin.c, followed by the
    properties of the engine's specification that are checked against it.

    C data is modelled as follows.
    - [int], [int8_t], [int16_t], [int32_t], [long] and enum values are [Z];
      a cast between widths is written out ([to_int32], [to_unsigned]).
    - A [char *] is a [string] (the bytes before the terminating NUL of the
      buffer); [strcmp] and [strlen] stop at an embedded NUL as in C.
    - A nullable pointer is an [option].
    - A protocol string ([rd_kafkap_str_t]) is an [option string]: [None] is
      the null string (length -1).
    - A reply buffer is the sequence of values that the buffer reader
      yields, with every declared element count kept next to the elements
      that follow it. *)

From Stdlib Require Import ZArith String Ascii Bool Lia.
From Stdlib Require Import DecimalString DecimalN DecimalPos DecimalFacts.
From stdpp Require Import base option list.

Local Open Scope string_scope.
Local Open Scope list_scope.
Local Open Scope Z_scope.

(* ===================================================================== *)
(** ** Error codes and limits *)
(* ===================================================================== *)

Definition rd_kafka_resp_err_t := Z.

(** Modelled from the spec: rdkafka.h is not among the sources. The spec
    (sections 3, 4.4 and 7) names the codes NoError, DestroyRequested,
    TimedOut, BadMessage, InvalidArg, Conflict and the broker's
    "request timed out"; the numbers are those of the public header, and
    the development only relies on their being pairwise distinct and, but
    for NO_ERROR, non-zero. *)
Definition RD_KAFKA_RESP_ERR_NO_ERROR : rd_kafka_resp_err_t := 0.
Definition RD_KAFKA_RESP_ERR__BAD_MSG : rd_kafka_resp_err_t := -199.
Definition RD_KAFKA_RESP_ERR__DESTROY : rd_kafka_resp_err_t := -197.
Definition RD_KAFKA_RESP_ERR__INVALID_ARG : rd_kafka_resp_err_t := -186.
Definition RD_KAFKA_RESP_ERR__TIMED_OUT : rd_kafka_resp_err_t := -185.
Definition RD_KAFKA_RESP_ERR__CONFLICT : rd_kafka_resp_err_t := -173.
Definition RD_KAFKA_RESP_ERR_REQUEST_TIMED_OUT : rd_kafka_resp_err_t := 7.

Definition INT32_MAX : Z := 2147483647.
Definition INT32_MIN : Z := -2147483648.
(** [long] is taken to be 64 bits wide (LP64). *)
Definition LONG_MAX : Z := 9223372036854775807.
Definition LONG_MIN : Z := -9223372036854775808.

(** [(int32_t)x]: reduction modulo 2^32 into the signed range. *)
Definition to_int32 (x : Z) : Z := (x + 2147483648) mod 4294967296 - 2147483648.

(** [(unsigned int)x] for an [int] x. *)
Definition to_unsigned (x : Z) : Z := x mod 4294967296.

Definition is_int (x : Z) : Prop := INT32_MIN <= x <= INT32_MAX.

(* ===================================================================== *)
(** ** C strings *)
(* ===================================================================== *)

Definition uchar (c : ascii) : Z := Z.of_N (N_of_ascii c).

(** libc [strcmp]: byte-wise comparison of two NUL-terminated buffers. *)
Fixpoint strcmp (a b : string) : Z :=
  match a, b with
  | EmptyString, EmptyString => 0
  | EmptyString, String d _ => 0 - uchar d
  | String c _, EmptyString => uchar c - 0
  | String c a', String d b' =>
      if uchar c =? uchar d then
        if uchar c =? 0 then 0 else strcmp a' b'
      else uchar c - uchar d
  end.

(** The C string held by a buffer: its bytes up to the first NUL. *)
Fixpoint c_str (s : string) : string :=
  match s with
  | EmptyString => EmptyString
  | String c s' => if uchar c =? 0 then EmptyString else String c (c_str s')
  end.

(** libc [strlen]. *)
Definition strlen (s : string) : Z := Z.of_nat (String.length (c_str s)).

Definition isspace (c : ascii) : bool :=
  let n := uchar c in (n =? 32) || ((9 <=? n) && (n <=? 13)).

Definition isdigit (c : ascii) : bool :=
  let n := uchar c in (48 <=? n) && (n <=? 57).

Fixpoint skip_spaces (s : string) : nat * string :=
  match s with
  | String c s' =>
      if isspace c then let '(n, r) := skip_spaces s' in (S n, r) else (O, s)
  | EmptyString => (O, s)
  end.

(** The longest run of decimal digits at the head of [s]: how many there
    are and the number they denote after [acc]. *)
Fixpoint scan_digits (s : string) (acc : Z) : nat * Z :=
  match s with
  | String c s' =>
      if isdigit c then
        let '(n, v) := scan_digits s' (10 * acc + (uchar c - 48)) in (S n, v)
      else (O, acc)
  | EmptyString => (O, acc)
  end.

(** libc [strtol (nptr, &endptr, 10)]: optional white space, an optional
    sign, then decimal digits; the value saturates at LONG_MIN / LONG_MAX.
    The second component is [endptr - nptr], which is 0 exactly when no
    conversion was performed. *)
Definition strtol (nptr : string) : Z * nat :=
  let '(nsp, s1) := skip_spaces nptr in
  let '(nsign, neg, s2) :=
    match s1 with
    | String c s' =>
        if uchar c =? 45 then (1%nat, true, s')
        else if uchar c =? 43 then (1%nat, false, s')
        else (0%nat, false, s1)
    | EmptyString => (0%nat, false, s1)
    end in
  let '(nd, v) := scan_digits s2 0 in
  match nd with
  | O => (0, O)
  | S _ =>
      let sv := if neg then - v else v in
      (Z.max LONG_MIN (Z.min LONG_MAX sv), (nsp + nsign + nd)%nat)
  end.

(* ===================================================================== *)
(** ** rd_list_t *)
(* ===================================================================== *)

(** Modelled from the spec: rd_list_t (rdlist.c and rdlist.h are not among
    the sources). Section 3 asks for "an owned, order-preserving sequence"
    and section 4.4 for results "placed at the same positions as the
    corresponding inputs", found by a linear "find input index by key"
    (section 9). A list is the array [rl_elems[0 .. rl_cnt)]: a slot holds a
    pointer or NULL. A list filled with [rd_list_add] only has no NULL slot
    and is written as a plain [list A] (the request's args, the config
    entries, the synonyms); the result list, which [rd_list_set] fills at
    arbitrary positions, is a [list (option A)]. *)
Abbreviation rd_list_t A := (list (option A)) (only parsing).

Definition rd_list_init {A : Type} (initial_size : Z) : rd_list_t A := [].

Definition rd_list_cnt {A : Type} (rl : list A) : Z := Z.of_nat (length rl).

(** [rd_list_add]: append at position [rl_cnt]. *)
Definition rd_list_add {A : Type} (rl : list A) (elem : A) : list A :=
  rl ++ [elem].

(** [rd_list_elem]: the pointer at [idx], NULL at or after [rl_cnt]. *)
Definition rd_list_elem {A : Type} (rl : rd_list_t A) (idx : Z) : option A :=
  if idx <? 0 then None else mjoin (rl !! Z.to_nat idx).

(** [rd_list_set]: store at [idx]; a position at or after [rl_cnt] extends
    the list to [idx + 1] elements, the gap being filled with NULL. *)
Definition rd_list_set {A : Type} (rl : rd_list_t A) (idx : Z) (ptr : A)
  : rd_list_t A :=
  let i := Z.to_nat idx in
  if (length rl <=? i)%nat
  then rl ++ replicate (i - length rl) None ++ [Some ptr]
  else <[i := Some ptr]> rl.

Fixpoint rd_list_index_from {A : Type} (rl : list A) (cmp : A -> Z) (i : Z) : Z :=
  match rl with
  | [] => -1
  | elem :: rl' =>
      if cmp elem =? 0 then i else rd_list_index_from rl' cmp (i + 1)
  end.

(** [rd_list_index (rl, match, cmp)]: position of the first element that
    compares equal to [match], or -1. The comparator is given already
    applied to [match]. *)
Definition rd_list_index {A : Type} (rl : list A) (cmp : A -> Z) : Z :=
  rd_list_index_from rl cmp 0.

(* ===================================================================== *)
(** ** Admin options *)
(* ===================================================================== *)

(** Modelled from the spec: rd_kafka_confval_t and its functions
    (rdkafka_confval.c is not among the sources). Section 6 gives every
    option a type, a range and a default, and says that setting an option
    that does not apply to the chosen API fails with InvalidArg. The source
    initialises an integer option with (name, vmin, vmax, vdef); for
    [broker] these are (0, INT32_MAX, -1) and the table gives the range
    "0 ... INT32_MAX, or -1", so a value is accepted when it lies between
    [vmin] and [vmax] or is the default. *)
Record rd_kafka_confval_t := mk_confval {
  cv_name : string;
  is_enabled : bool;
  is_set : bool;
  vmin : Z;
  vmax : Z;
  vdef : Z;
  cv_v : Z
}.

Definition rd_kafka_confval_init_int (name : string) (vmin vmax vdef : Z)
  : rd_kafka_confval_t :=
  mk_confval name true false vmin vmax vdef vdef.

Definition rd_kafka_confval_disable (name : string) : rd_kafka_confval_t :=
  mk_confval name false false 0 0 0 0.

Definition rd_kafka_confval_get_int (confval : rd_kafka_confval_t) : Z :=
  cv_v confval.

Definition rd_kafka_confval_set_type (confval : rd_kafka_confval_t) (value : Z)
  : rd_kafka_resp_err_t * rd_kafka_confval_t :=
  if negb (is_enabled confval) then (RD_KAFKA_RESP_ERR__INVALID_ARG, confval)
  else if ((vmin confval <=? value) && (value <=? vmax confval))
          || (value =? vdef confval)
  then (RD_KAFKA_RESP_ERR_NO_ERROR,
        mk_confval (cv_name confval) true true (vmin confval) (vmax confval)
                   (vdef confval) value)
  else (RD_KAFKA_RESP_ERR__INVALID_ARG, confval).

Definition tolower (c : ascii) : Z :=
  let n := uchar c in if (65 <=? n) && (n <=? 90) then n + 32 else n.

(** Modelled from the spec: rd_strcasecmp (rd.h is not among the sources),
    the C library's case-insensitive string comparison: [strcmp] on the
    lower-cased bytes. Section 6 names the APIs an option applies to. *)
Fixpoint rd_strcasecmp (a b : string) : Z :=
  match a, b with
  | EmptyString, EmptyString => 0
  | EmptyString, String d _ => 0 - tolower d
  | String c _, EmptyString => tolower c - 0
  | String c a', String d b' =>
      if tolower c =? tolower d then
        if tolower c =? 0 then 0 else rd_strcasecmp a' b'
      else tolower c - tolower d
  end.

(** Modelled from the spec: the fields of rd_kafka_AdminOptions_t
    (rdkafka_admin.h is not among the sources) are the options of section
    6, each a [rd_kafka_confval_t], and the API the options were made
    for. *)
Record rd_kafka_AdminOptions_t := mk_AdminOptions {
  for_api : option string;
  request_timeout : rd_kafka_confval_t;
  operation_timeout : rd_kafka_confval_t;
  validate_only : rd_kafka_confval_t;
  incremental : rd_kafka_confval_t;
  broker : rd_kafka_confval_t;
  opaque : Z
}.

Definition for_api_is (api : option string) (names : list string) : bool :=
  match api with
  | None => true
  | Some a => existsb (fun n => rd_strcasecmp a n =? 0) names
  end.

(** [rd_kafka_AdminOptions_init]: [request_timeout_ms] is
    [rk->rk_conf.admin.request_timeout_ms]. *)
Definition rd_kafka_AdminOptions_init (request_timeout_ms : Z)
    (api : option string) : rd_kafka_AdminOptions_t :=
  {| for_api := api;
     request_timeout :=
       rd_kafka_confval_init_int "request_timeout" 0 (3600 * 1000)
                                 request_timeout_ms;
     operation_timeout :=
       if for_api_is api ["CreateTopics"; "DeleteTopics"; "CreatePartitions"]
       then rd_kafka_confval_init_int "operation_timeout" (-1) (3600 * 1000) 0
       else rd_kafka_confval_disable "operation_timeout";
     validate_only :=
       if for_api_is api ["CreateTopics"; "CreatePartitions"; "AlterConfigs"]
       then rd_kafka_confval_init_int "validate_only" 0 1 0
       else rd_kafka_confval_disable "validate_only";
     incremental :=
       if for_api_is api ["AlterConfigs"]
       then rd_kafka_confval_init_int "incremental" 0 1 0
       else rd_kafka_confval_disable "incremental";
     broker := rd_kafka_confval_init_int "broker" 0 INT32_MAX (-1);
     opaque := 0 |}.

Definition valid_apis : list string :=
  ["CreateTopics"; "DeleteTopics"; "CreatePartitions"; "AlterConfigs";
   "DescribeConfigs"].

(** [rd_kafka_AdminOptions_new]: NULL for an unsupported [for_api]. *)
Definition rd_kafka_AdminOptions_new (request_timeout_ms : Z)
    (api : option string) : option rd_kafka_AdminOptions_t :=
  if for_api_is api valid_apis
  then Some (rd_kafka_AdminOptions_init request_timeout_ms api)
  else None.

Definition set_broker_confval (options : rd_kafka_AdminOptions_t)
    (c : rd_kafka_confval_t) : rd_kafka_AdminOptions_t :=
  mk_AdminOptions (for_api options) (request_timeout options)
                  (operation_timeout options) (validate_only options)
                  (incremental options) c (opaque options).

(** [rd_kafka_AdminOptions_set_broker]: the returned code and the options
    after the call. *)
Definition rd_kafka_AdminOptions_set_broker (options : rd_kafka_AdminOptions_t)
    (broker_id : Z) : rd_kafka_resp_err_t * rd_kafka_AdminOptions_t :=
  let ibroker_id := broker_id in
  let '(err, c) := rd_kafka_confval_set_type (broker options) ibroker_id in
  (err, set_broker_confval options c).

Definition set_operation_timeout_confval (options : rd_kafka_AdminOptions_t)
    (c : rd_kafka_confval_t) : rd_kafka_AdminOptions_t :=
  mk_AdminOptions (for_api options) (request_timeout options) c
                  (validate_only options) (incremental options)
                  (broker options) (opaque options).

Definition rd_kafka_AdminOptions_set_operation_timeout
    (options : rd_kafka_AdminOptions_t) (timeout_ms : Z)
  : rd_kafka_resp_err_t * rd_kafka_AdminOptions_t :=
  let '(err, c) :=
    rd_kafka_confval_set_type (operation_timeout options) timeout_ms in
  (err, set_operation_timeout_confval options c).

(* ===================================================================== *)
(** ** Request and result ops *)
(* ===================================================================== *)

Inductive rd_kafka_admin_state_t :=
| RD_KAFKA_ADMIN_STATE_INIT
| RD_KAFKA_ADMIN_STATE_WAIT_BROKER
| RD_KAFKA_ADMIN_STATE_WAIT_CONTROLLER
| RD_KAFKA_ADMIN_STATE_CONSTRUCT_REQUEST
| RD_KAFKA_ADMIN_STATE_WAIT_RESPONSE.

Definition rd_kafka_admin_state_desc (s : rd_kafka_admin_state_t) : string :=
  match s with
  | RD_KAFKA_ADMIN_STATE_INIT => "initializing"
  | RD_KAFKA_ADMIN_STATE_WAIT_BROKER => "waiting for broker"
  | RD_KAFKA_ADMIN_STATE_WAIT_CONTROLLER => "waiting for controller"
  | RD_KAFKA_ADMIN_STATE_CONSTRUCT_REQUEST => "constructing request"
  | RD_KAFKA_ADMIN_STATE_WAIT_RESPONSE => "waiting for response from broker"
  end.

Inductive rd_kafka_op_type_t :=
| RD_KAFKA_OP_CREATETOPICS
| RD_KAFKA_OP_DELETETOPICS
| RD_KAFKA_OP_CREATEPARTITIONS
| RD_KAFKA_OP_ALTERCONFIGS
| RD_KAFKA_OP_DESCRIBECONFIGS.

Inductive rd_kafka_event_type_t :=
| RD_KAFKA_EVENT_CREATETOPICS_RESULT
| RD_KAFKA_EVENT_DELETETOPICS_RESULT
| RD_KAFKA_EVENT_CREATEPARTITIONS_RESULT
| RD_KAFKA_EVENT_ALTERCONFIGS_RESULT
| RD_KAFKA_EVENT_DESCRIBECONFIGS_RESULT.

Inductive rd_kafka_op_res_t :=
| RD_KAFKA_OP_RES_HANDLED
| RD_KAFKA_OP_RES_KEEP.

(** The places where a response parser gives up, with the values its
    diagnostic prints. *)
Inductive parse_failure :=
| Fail_more_than_requested (cnt requested : Z)
| Fail_not_in_request (restype : option Z) (name : string)
| Fail_multiple_times (restype : option Z) (name : string)
| Fail_synonym_limit (syn_cnt : Z)
| Fail_invalid_synonym
| Fail_underflow.

(** What a response parser hands back: with [PARSE_OK] the result op
    through [rko_resultp] and the return value NO_ERROR; with [PARSE_ERR]
    no result op ([rko_resultp] is left as it was), the return value [err]
    and the place where the parser gave up. [PARSE_NULL_DEREF] stands for
    a run that dereferences a NULL pointer and [PARSE_DOUBLE_FREE] for a
    run that destroys the same object twice. *)
Inductive parse_result (R : Type) :=
| PARSE_OK (rko_result : R)
| PARSE_ERR (err : rd_kafka_resp_err_t) (why : parse_failure)
| PARSE_NULL_DEREF
| PARSE_DOUBLE_FREE.
Arguments PARSE_OK {R} rko_result.
Arguments PARSE_ERR {R} err why.
Arguments PARSE_NULL_DEREF {R}.
Arguments PARSE_DOUBLE_FREE {R}.

(** The local [err] of a response parser. Each of the five parsers
    declares [rd_kafka_resp_err_t err = RD_KAFKA_RESP_ERR_NO_ERROR], no
    statement of rdkafka_admin.c assigns it, and the code at the label
    [err_parse] ends with [return err]. *)
Definition parser_err : rd_kafka_resp_err_t := RD_KAFKA_RESP_ERR_NO_ERROR.

(** Modelled from the spec: rd_kafka_buf_parse_fail (a macro of
    rdkafka_buf.h, which is not among the sources). Section 4.4, parser
    contract: on a decode failure the parser "frees any partial result".
    The macro reports the reason and jumps to the label [err_parse] of the
    parser it is used in; it is not handed the parser's local [err]. What
    the parser returns from there is the source's: the partial result op
    is destroyed and [err] is returned, which is still NO_ERROR. The
    BadMessage of section 4.4 is not what the code returns. *)
Definition rd_kafka_buf_parse_fail {R : Type} (why : parse_failure)
  : parse_result R :=
  PARSE_ERR parser_err why.

(** The text of a request-level error, by the format string that builds
    it. *)
Inductive admin_errstr :=
| Errstr_failed_while (s : rd_kafka_admin_state_t) (err : rd_kafka_resp_err_t)
| Errstr_timed_out (s : rd_kafka_admin_state_t)
| Errstr_request (errstr : string)
| Errstr_parse (name : rd_kafka_op_type_t) (why : parse_failure)
| Errstr_only_one_broker
| Errstr_expected_int32_broker_id (name : string).

(** Modelled from the spec: the admin request part of rd_kafka_op_t
    (rdkafka_op.h is not among the sources), the Request Handle of section
    3, with the fields that rdkafka_admin.c reads and writes: kind, last
    error, reply event kind, options, target broker id, absolute deadline,
    state, args and reply buffer. [A] is the type of the args and [B] the
    type of the reply buffer of the API. The notifier, the timer and the
    reply queue are seen through the calls made on them ([action]). *)
Record rd_kafka_op_t (A B : Type) := mk_op {
  rko_type : rd_kafka_op_type_t;
  rko_err : rd_kafka_resp_err_t;
  reply_event_type : rd_kafka_event_type_t;
  options : rd_kafka_AdminOptions_t;
  broker_id : Z;
  abs_timeout : Z;
  state : rd_kafka_admin_state_t;
  args : list A;
  reply_buf : option B
}.
Arguments mk_op {A B}.
Arguments rko_type {A B}.
Arguments rko_err {A B}.
Arguments reply_event_type {A B}.
Arguments options {A B}.
Arguments broker_id {A B}.
Arguments abs_timeout {A B}.
Arguments state {A B}.
Arguments args {A B}.
Arguments reply_buf {A B}.

(** Modelled from the spec: the admin result part of rd_kafka_op_t
    (rdkafka_op.h is not among the sources), the Result Object of section
    3: the reply event kind, the request kind, the application's opaque,
    and either an error code with its text or the per-element results. *)
Record rd_kafka_admin_result (R : Type) := mk_result {
  rko_evtype : rd_kafka_event_type_t;
  reqtype : rd_kafka_op_type_t;
  result_opaque : Z;
  result_err : rd_kafka_resp_err_t;
  result_errstr : option admin_errstr;
  results : rd_list_t R
}.
Arguments mk_result {R}.
Arguments rko_evtype {R}.
Arguments reqtype {R}.
Arguments result_opaque {R}.
Arguments result_err {R}.
Arguments result_errstr {R}.
Arguments results {R}.

Definition rd_kafka_admin_result_new {A B R : Type} (rko_req : rd_kafka_op_t A B)
  : rd_kafka_admin_result R :=
  mk_result (reply_event_type rko_req) (rko_type rko_req)
            (opaque (options rko_req)) RD_KAFKA_RESP_ERR_NO_ERROR None [].

Definition rd_kafka_admin_result_set_err {R : Type}
    (rko : rd_kafka_admin_result R) (err : rd_kafka_resp_err_t)
    (msg : admin_errstr) : rd_kafka_admin_result R :=
  mk_result (rko_evtype rko) (reqtype rko) (result_opaque rko) err (Some msg)
            (results rko).

Definition set_results {R : Type} (rko : rd_kafka_admin_result R)
    (rl : rd_list_t R) : rd_kafka_admin_result R :=
  mk_result (rko_evtype rko) (reqtype rko) (result_opaque rko) (result_err rko)
            (result_errstr rko) rl.

(** [rd_kafka_admin_result_ret_topics] and
    [rd_kafka_admin_result_ret_resources]: the element array and its count
    as the application receives them. *)
Definition rd_kafka_admin_result_ret {R : Type} (rko : rd_kafka_admin_result R)
  : rd_list_t R * Z :=
  (results rko, rd_list_cnt (results rko)).

(* ===================================================================== *)
(** ** The worker state machine *)
(* ===================================================================== *)

Definition rd_kafka_broker_t := Z.

(** What one invocation of the worker observes of the rest of the client,
    by the name of the call that observes it: whether the client is
    terminating, the monotonic clock, the outcome of the asynchronous
    broker and controller lookups (a broker that is up, or NULL), and
    whether stopping the timer found it still pending. These calls live
    outside rdkafka_admin.c and are taken as given. *)
Record worker_env := mk_env {
  rd_kafka_terminating : bool;
  rd_clock : Z;
  rd_kafka_broker_get_async : Z -> option rd_kafka_broker_t;
  rd_kafka_broker_controller_async : option rd_kafka_broker_t;
  rd_kafka_timer_stop : bool
}.

(** Modelled from the spec: rd_timeout_init and rd_timeout_remains_us
    (rdtime.h is not among the sources). Section 3: the absolute deadline
    is "submission time + options.request_timeout" on the monotonic clock
    (microseconds); section 4.5: the timer is armed "relative to absolute
    deadline - now". *)
Definition rd_timeout_init (now timeout_ms : Z) : Z := now + timeout_ms * 1000.

Definition rd_timeout_remains_us (abs_timeout now : Z) : Z := abs_timeout - now.

Section Worker.
Context {A B R : Type}.

(** [struct rd_kafka_admin_worker_cbs]. The request callback yields its
    return code and the error string it wrote. *)
Record rd_kafka_admin_worker_cbs := mk_cbs {
  request : rd_kafka_broker_t -> list A -> rd_kafka_AdminOptions_t ->
            rd_kafka_resp_err_t * string;
  parse : rd_kafka_op_t A B -> B -> parse_result (rd_kafka_admin_result R)
}.

(** The calls by which the worker acts on the rest of the client, in
    program order. *)
Inductive action :=
| Admin_result_enq (rko_result : rd_kafka_admin_result R)
| Enq_once_add_source (tag : string)
| Enq_once_del_source (tag : string)
| Enq_once_reenable
| Enq_once_destroy
| Timer_start_oneshot (timeout_in : Z)
| Timer_stop
| Request_sent (rkb : rd_kafka_broker_t)
| Broker_destroy (rkb : rd_kafka_broker_t).

Definition set_state (rko : rd_kafka_op_t A B) (s : rd_kafka_admin_state_t)
  : rd_kafka_op_t A B :=
  mk_op (rko_type rko) (rko_err rko) (reply_event_type rko) (options rko)
        (broker_id rko) (abs_timeout rko) s (args rko) (reply_buf rko).

Definition set_broker_id (rko : rd_kafka_op_t A B) (id : Z)
  : rd_kafka_op_t A B :=
  mk_op (rko_type rko) (rko_err rko) (reply_event_type rko) (options rko)
        id (abs_timeout rko) (state rko) (args rko) (reply_buf rko).

(** [rd_kafka_admin_result_fail]: a result op that carries the error is
    put on the application's queue. *)
Definition rd_kafka_admin_result_fail (rko_req : rd_kafka_op_t A B)
    (err : rd_kafka_resp_err_t) (msg : admin_errstr) : action :=
  Admin_result_enq
    (rd_kafka_admin_result_set_err (rd_kafka_admin_result_new rko_req) err msg).

Definition rd_kafka_admin_common_worker_destroy (env : worker_env)
  : list action :=
  let timer_was_stopped := rd_kafka_timer_stop env in
  Timer_stop ::
  (if timer_was_stopped then [Enq_once_del_source "timeout timer"] else [])
  ++ [Enq_once_destroy].

(** An invocation ends with the calls made, the hint returned to the op
    code and the request op as it was left; [None] is a failed
    [rd_assert], a NULL reply buffer handed to the parser, a parser run
    that is itself undefined, or a parser that returns NO_ERROR without
    having set the result op, which the worker then puts on the
    application's queue uninitialised. *)
Definition worker_outcome : Type :=
  option (list action * rd_kafka_op_res_t * rd_kafka_op_t A B).

(** The [destroy:] label. *)
Definition worker_goto_destroy (env : worker_env) (acts : list action)
    (rko : rd_kafka_op_t A B) : worker_outcome :=
  Some (acts ++ rd_kafka_admin_common_worker_destroy env,
        RD_KAFKA_OP_RES_HANDLED, rko).

Definition rd_kafka_admin_common_get_broker (env : worker_env) (id : Z)
  : list action * option rd_kafka_broker_t :=
  ([Enq_once_reenable], rd_kafka_broker_get_async env id).

Definition rd_kafka_admin_common_get_controller (env : worker_env)
  : list action * option rd_kafka_broker_t :=
  ([Enq_once_reenable], rd_kafka_broker_controller_async env).

(** [case RD_KAFKA_ADMIN_STATE_CONSTRUCT_REQUEST]; [rkb] is the broker
    found on the way here, NULL when the switch is entered in this
    state. *)
Definition worker_construct_request (cbs : rd_kafka_admin_worker_cbs)
    (env : worker_env) (acts : list action) (rko : rd_kafka_op_t A B)
    (rkb : option rd_kafka_broker_t) : worker_outcome :=
  match rkb with
  | None => None
  | Some b =>
      let '(err, errstr) := request cbs b (args rko) (options rko) in
      let acts := acts ++ [Enq_once_add_source "send"; Request_sent b;
                           Broker_destroy b] in
      if negb (err =? 0) then
        worker_goto_destroy env
          (acts ++ [Enq_once_del_source "send";
                    rd_kafka_admin_result_fail rko err (Errstr_request errstr)])
          rko
      else
        Some (acts, RD_KAFKA_OP_RES_KEEP,
              set_state rko RD_KAFKA_ADMIN_STATE_WAIT_RESPONSE)
  end.

(** [case RD_KAFKA_ADMIN_STATE_WAIT_BROKER]. *)
Definition worker_wait_broker (cbs : rd_kafka_admin_worker_cbs)
    (env : worker_env) (acts : list action) (rko : rd_kafka_op_t A B)
  : worker_outcome :=
  let '(a, rkb) := rd_kafka_admin_common_get_broker env (broker_id rko) in
  match rkb with
  | None => Some (acts ++ a, RD_KAFKA_OP_RES_KEEP, rko)
  | Some b =>
      worker_construct_request cbs env (acts ++ a)
        (set_state rko RD_KAFKA_ADMIN_STATE_CONSTRUCT_REQUEST) (Some b)
  end.

(** [case RD_KAFKA_ADMIN_STATE_WAIT_CONTROLLER]. *)
Definition worker_wait_controller (cbs : rd_kafka_admin_worker_cbs)
    (env : worker_env) (acts : list action) (rko : rd_kafka_op_t A B)
  : worker_outcome :=
  let '(a, rkb) := rd_kafka_admin_common_get_controller env in
  match rkb with
  | None => Some (acts ++ a, RD_KAFKA_OP_RES_KEEP, rko)
  | Some b =>
      worker_construct_request cbs env (acts ++ a)
        (set_state rko RD_KAFKA_ADMIN_STATE_CONSTRUCT_REQUEST) (Some b)
  end.

(** [case RD_KAFKA_ADMIN_STATE_INIT]. *)
Definition worker_init (cbs : rd_kafka_admin_worker_cbs) (env : worker_env)
    (timeout_in : Z) (rko : rd_kafka_op_t A B) : worker_outcome :=
  let acts := [Enq_once_add_source "timeout timer";
               Timer_start_oneshot timeout_in] in
  let broker_id' := to_int32 (rd_kafka_confval_get_int (broker (options rko))) in
  let rko := if negb (broker_id' =? -1) then set_broker_id rko broker_id'
             else rko in
  if negb (broker_id rko =? -1) then
    worker_wait_broker cbs env acts
      (set_state rko RD_KAFKA_ADMIN_STATE_WAIT_BROKER)
  else
    worker_wait_controller cbs env acts
      (set_state rko RD_KAFKA_ADMIN_STATE_WAIT_CONTROLLER).

(** [case RD_KAFKA_ADMIN_STATE_WAIT_RESPONSE]. [rko_result] is a local
    without an initial value: the parser's return value alone decides
    whether it is enqueued. *)
Definition worker_wait_response (cbs : rd_kafka_admin_worker_cbs)
    (env : worker_env) (rko : rd_kafka_op_t A B) : worker_outcome :=
  match reply_buf rko with
  | None => None
  | Some reply =>
      match parse cbs rko reply with
      | PARSE_OK rko_result =>
          worker_goto_destroy env [Admin_result_enq rko_result] rko
      | PARSE_ERR err why =>
          if negb (err =? 0) then
            worker_goto_destroy env
              [rd_kafka_admin_result_fail rko err
                 (Errstr_parse (rko_type rko) why)]
              rko
          else None
      | PARSE_NULL_DEREF => None
      | PARSE_DOUBLE_FREE => None
      end
  end.

(** The [redo:] switch on the request's state. Every [goto redo] of the
    source moves forward in the order INIT, WAIT_BROKER or
    WAIT_CONTROLLER, CONSTRUCT_REQUEST, so the jumps are calls from one
    case to the next. *)
Definition worker_dispatch (cbs : rd_kafka_admin_worker_cbs)
    (env : worker_env) (timeout_in : Z) (rko : rd_kafka_op_t A B)
  : worker_outcome :=
  match state rko with
  | RD_KAFKA_ADMIN_STATE_INIT => worker_init cbs env timeout_in rko
  | RD_KAFKA_ADMIN_STATE_WAIT_BROKER => worker_wait_broker cbs env [] rko
  | RD_KAFKA_ADMIN_STATE_WAIT_CONTROLLER =>
      worker_wait_controller cbs env [] rko
  | RD_KAFKA_ADMIN_STATE_CONSTRUCT_REQUEST =>
      worker_construct_request cbs env [] rko None
  | RD_KAFKA_ADMIN_STATE_WAIT_RESPONSE => worker_wait_response cbs env rko
  end.

(** [rd_kafka_admin_worker]. *)
Definition rd_kafka_admin_worker (cbs : rd_kafka_admin_worker_cbs)
    (env : worker_env) (rko : rd_kafka_op_t A B) : worker_outcome :=
  if rd_kafka_terminating env then worker_goto_destroy env [] rko
  else if rko_err rko =? RD_KAFKA_RESP_ERR__DESTROY
  then worker_goto_destroy env [] rko
  else if negb (rko_err rko =? 0) then
    worker_goto_destroy env
      [rd_kafka_admin_result_fail rko (rko_err rko)
         (Errstr_failed_while (state rko) (rko_err rko))]
      rko
  else
    let timeout_in := rd_timeout_remains_us (abs_timeout rko) (rd_clock env) in
    if timeout_in <=? 0 then
      worker_goto_destroy env
        [rd_kafka_admin_result_fail rko RD_KAFKA_RESP_ERR__TIMED_OUT
           (Errstr_timed_out (state rko))]
        rko
    else worker_dispatch cbs env timeout_in rko.

End Worker.
Arguments rd_kafka_admin_worker_cbs : clear implicits.
Arguments action : clear implicits.
Arguments worker_outcome : clear implicits.

(* ===================================================================== *)
(** ** Reply buffers and per-element results *)
(* ===================================================================== *)

(** Modelled from the spec: rd_kafka_buf_t and the rd_kafka_buf_read_*
    macros (rdkafka_buf.h is not among the sources). Section 1 takes the
    byte-level decoder as given ("response-reader primitives"), so a reply
    is the values those primitives yield: the negotiated version, the
    throttle time, the declared number of elements and the elements that
    the reader yields one after the other. Handing the throttle time to
    the client's throttle accounting leaves the parse untouched and is not
    represented. *)
Record rd_kafka_buf_t (E : Type) := mk_buf {
  ApiVersion : Z;
  Throttle_Time : Z;
  elem_cnt : Z;
  elems : list E
}.
Arguments mk_buf {E}.
Arguments ApiVersion {E}.
Arguments Throttle_Time {E}.
Arguments elem_cnt {E}.
Arguments elems {E}.

(** Modelled from the spec: rd_kafkap_str_t and the RD_KAFKAP_STR_*
    macros (rdkafka_proto.h is not among the sources): a protocol string is
    null or a sequence of bytes; the length of the null string counts as
    0. *)
Definition rd_kafkap_str_t := option string.

Definition RD_KAFKAP_STR_IS_NULL (kstr : rd_kafkap_str_t) : bool :=
  match kstr with None => true | Some _ => false end.

Definition RD_KAFKAP_STR_LEN (kstr : rd_kafkap_str_t) : Z :=
  match kstr with None => 0 | Some s => Z.of_nat (String.length s) end.

(** The bytes of a protocol string ([RD_KAFKAP_STR_DUPA], or a copy of
    [RD_KAFKAP_STR_LEN] bytes): empty for the null string. *)
Definition kstr_bytes (kstr : rd_kafkap_str_t) : string :=
  match kstr with None => EmptyString | Some s => s end.

(** [for (i = 0 ; i < cnt ; i++)] over a reply: every round reads the next
    element and runs the body on it. Running out of elements is a buffer
    underflow, which ends the parse at [err_parse] like
    [rd_kafka_buf_parse_fail]. *)
Fixpoint read_loop {E S : Type} (body : E -> S -> parse_result S)
    (cnt : nat) (elems : list E) (s : S) : parse_result S :=
  match cnt with
  | O => PARSE_OK s
  | S cnt' =>
      match elems with
      | [] => rd_kafka_buf_parse_fail Fail_underflow
      | e :: elems' =>
          match body e s with
          | PARSE_OK s' => read_loop body cnt' elems' s'
          | PARSE_ERR err why => PARSE_ERR err why
          | PARSE_NULL_DEREF => PARSE_NULL_DEREF
          | PARSE_DOUBLE_FREE => PARSE_DOUBLE_FREE
          end
      end
  end.

(** An error text: the static description [rd_kafka_err2str (err)], or a
    copy of a message sent by the broker. *)
Inductive errstr_t :=
| Err2str (err : rd_kafka_resp_err_t)
| Errmsg (msg : string).

(** Modelled from the spec: rd_kafka_topic_result_t and
    rd_kafka_topic_result_new (rdkafka_aux.c is not among the sources).
    Section 3: a topic result is a "topic name, error code, optional error
    string". *)
Record rd_kafka_topic_result_t := mk_topic_result {
  tr_topic : string;
  tr_err : rd_kafka_resp_err_t;
  tr_errstr : option errstr_t
}.

Definition strdup_errstr (e : errstr_t) : errstr_t :=
  match e with
  | Err2str err => Err2str err
  | Errmsg msg => Errmsg (c_str msg)
  end.

(** [rd_kafka_topic_result_new (topic, topic_size, err, errstr)]: a topic
    result with a copy of the [topic_size] bytes of the name and a copy of
    the error string. *)
Definition rd_kafka_topic_result_new (topic : rd_kafkap_str_t)
    (err : rd_kafka_resp_err_t) (errstr : option errstr_t)
  : rd_kafka_topic_result_t :=
  mk_topic_result (kstr_bytes topic) err (strdup_errstr <$> errstr).

(** The error text chosen for a non-zero element error: the broker's
    message unless it is null or empty. *)
Definition element_errstr (error_code : Z) (error_msg : rd_kafkap_str_t)
  : option errstr_t :=
  if negb (error_code =? 0) then
    if RD_KAFKAP_STR_IS_NULL error_msg || (RD_KAFKAP_STR_LEN error_msg =? 0)
    then Some (Err2str error_code)
    else Some (Errmsg (kstr_bytes error_msg))
  else None.

Definition is_null {X : Type} (p : option X) : bool :=
  match p with None => true | Some _ => false end.

(* ===================================================================== *)
(** ** ConfigEntry and ConfigResource *)
(* ===================================================================== *)

(** Modelled from the spec: the enumerations rd_kafka_ConfigSource_t and
    rd_kafka_ResourceType_t (rdkafka.h is not among the sources). Their
    members are numbered from 0 in the order of the name tables of
    [rd_kafka_ConfigSource_name] and [rd_kafka_ResourceType_name], and
    [__CNT] is the number of members. *)
Definition RD_KAFKA_CONFIG_SOURCE_UNKNOWN_CONFIG : Z := 0.
Definition RD_KAFKA_CONFIG_SOURCE_DEFAULT_CONFIG : Z := 5.
Definition RD_KAFKA_CONFIG_SOURCE__CNT : Z := 6.
Definition RD_KAFKA_RESOURCE_TOPIC : Z := 2.
Definition RD_KAFKA_RESOURCE_BROKER : Z := 4.
Definition RD_KAFKA_RESOURCE__CNT : Z := 5.

Definition RD_KAFKA_ALTER_OP_ADD : Z := 0.

(** Modelled from the spec: the fields of rd_kafka_ConfigEntry_t and
    rd_kafka_ConfigResource_t (rdkafka_admin.h is not among the sources).
    Section 3: a config entry "has name, value, source tag, readonly flag,
    default flag, sensitive flag, synonym flag, and an ordered sequence of
    synonym entries"; a config resource has a "resource-type tag, name,
    optional error code/string, and an ordered sequence of config-entry
    records". The source adds the alter operation of an entry. *)
#[warnings="-register-all"] Inductive rd_kafka_ConfigEntry_t := mk_ConfigEntry {
  kv_name : string;
  kv_value : option string;
  a_operation : Z;
  a_source : Z;
  a_is_readonly : bool;
  a_is_default : bool;
  a_is_sensitive : bool;
  a_is_synonym : bool;
  synonyms : list rd_kafka_ConfigEntry_t
}.

Record rd_kafka_ConfigResource_t := mk_ConfigResource {
  cr_restype : Z;
  cr_name : string;
  cr_config : list rd_kafka_ConfigEntry_t;
  cr_err : rd_kafka_resp_err_t;
  cr_errstr : option errstr_t
}.

(** [rd_kafka_ConfigEntry_new0]: NULL without a name; otherwise a zeroed
    entry with the name, the value and source UNKNOWN_CONFIG. *)
Definition rd_kafka_ConfigEntry_new0 (name value : rd_kafkap_str_t)
  : option rd_kafka_ConfigEntry_t :=
  match name with
  | None => None
  | Some n =>
      Some (mk_ConfigEntry n value RD_KAFKA_ALTER_OP_ADD
              RD_KAFKA_CONFIG_SOURCE_UNKNOWN_CONFIG false false false false [])
  end.

(** [rd_kafka_ConfigEntry_synonyms]: the returned array pointer and
    [*cntp]. *)
Definition rd_kafka_ConfigEntry_synonyms (entry : rd_kafka_ConfigEntry_t)
  : option (list rd_kafka_ConfigEntry_t) * Z :=
  let cnt := rd_list_cnt (synonyms entry) in
  if cnt =? 0 then (None, cnt) else (Some (synonyms entry), cnt).

(** [rd_kafka_ConfigResource_configs]: the returned array pointer and
    [*cntp]. *)
Definition rd_kafka_ConfigResource_configs (config : rd_kafka_ConfigResource_t)
  : option (list rd_kafka_ConfigEntry_t) * Z :=
  let cnt := rd_list_cnt (cr_config config) in
  if cnt =? 0 then (None, cnt) else (Some (cr_config config), cnt).

(** A C array read at an [int] index; [None] is an access outside the
    array. *)
Definition array_get {X : Type} (a : list X) (i : Z) : option X :=
  if i <? 0 then None else a !! Z.to_nat i.

Definition ConfigSource_names : list string :=
  ["UNKNOWN_CONFIG"; "DYNAMIC_TOPIC_CONFIG"; "DYNAMIC_BROKER_CONFIG";
   "DYNAMIC_DEFAULT_BROKER_CONFIG"; "STATIC_BROKER_CONFIG"; "DEFAULT_CONFIG"].

(** [rd_kafka_ConfigSource_name]; [None] would be a read outside
    [names]. *)
Definition rd_kafka_ConfigSource_name (confsource : Z) : option string :=
  if to_unsigned confsource >=? to_unsigned RD_KAFKA_CONFIG_SOURCE__CNT
  then Some "UNSUPPORTED"
  else array_get ConfigSource_names confsource.

Definition ResourceType_names : list string :=
  ["UNKNOWN"; "ANY"; "TOPIC"; "GROUP"; "BROKER"].

(** [rd_kafka_ResourceType_name]; [None] would be a read outside
    [names]. *)
Definition rd_kafka_ResourceType_name (restype : Z) : option string :=
  if to_unsigned restype >=? to_unsigned RD_KAFKA_RESOURCE__CNT
  then Some "UNSUPPORTED"
  else array_get ResourceType_names restype.

(** [rd_kafka_ConfigResource_new]: NULL for an empty name or a negative
    type. *)
Definition rd_kafka_ConfigResource_new (restype : Z) (resname : option string)
  : option rd_kafka_ConfigResource_t :=
  let namesz := match resname with Some s => strlen s | None => 0 end in
  if (namesz =? 0) || (restype <? 0) then None
  else Some (mk_ConfigResource restype (c_str (kstr_bytes resname)) []
               RD_KAFKA_RESP_ERR_NO_ERROR None).

(** [rd_kafka_ConfigResource_cmp]: by type, then by name. Both types are
    non-negative [int]s wherever the comparator is used, so the difference
    does not overflow. *)
Definition rd_kafka_ConfigResource_cmp (a b : rd_kafka_ConfigResource_t) : Z :=
  if negb (cr_restype a =? cr_restype b) then cr_restype a - cr_restype b
  else strcmp (cr_name a) (cr_name b).

(** [rd_kafka_ConfigResource_copy]: a new resource of the same type and
    name with a deep copy of the entries; on the immutable values of the
    model a deep copy of an entry is the entry. *)
Definition rd_kafka_ConfigResource_copy (src : rd_kafka_ConfigResource_t)
  : option rd_kafka_ConfigResource_t :=
  match rd_kafka_ConfigResource_new (cr_restype src) (Some (cr_name src)) with
  | None => None
  | Some dst =>
      Some (mk_ConfigResource (cr_restype dst) (cr_name dst) (cr_config src)
              (cr_err dst) (cr_errstr dst))
  end.

(* ===================================================================== *)
(** ** CreateTopics, DeleteTopics, CreatePartitions *)
(* ===================================================================== *)

(** Modelled from the spec: the fields of rd_kafka_NewTopic_t,
    rd_kafka_DeleteTopic_t and rd_kafka_NewPartitions_t (rdkafka_admin.h is
    not among the sources), as the constructors of rdkafka_admin.c fill
    them. *)
Record rd_kafka_NewTopic_t := mk_NewTopic {
  nt_topic : string;
  num_partitions : Z;
  replication_factor : Z;
  nt_replicas : list (list Z);
  nt_config : list rd_kafka_ConfigEntry_t
}.

Record rd_kafka_DeleteTopic_t := mk_DeleteTopic {
  dt_topic : string
}.

Record rd_kafka_NewPartitions_t := mk_NewPartitions {
  np_topic : string;
  total_cnt : Z;
  np_replicas : list (list Z)
}.

Definition rd_kafka_NewTopic_cmp (a b : rd_kafka_NewTopic_t) : Z :=
  strcmp (nt_topic a) (nt_topic b).

Definition rd_kafka_DeleteTopic_cmp (a b : rd_kafka_DeleteTopic_t) : Z :=
  strcmp (dt_topic a) (dt_topic b).

Definition rd_kafka_NewPartitions_cmp (a b : rd_kafka_NewPartitions_t) : Z :=
  strcmp (np_topic a) (np_topic b).

(** The [skel] of a parser: only the topic is set, and only the topic is
    read by the comparators. *)
Definition NewTopic_skel (topic : string) : rd_kafka_NewTopic_t :=
  mk_NewTopic topic 0 0 [] [].

Definition DeleteTopic_skel (topic : string) : rd_kafka_DeleteTopic_t :=
  mk_DeleteTopic topic.

Definition NewPartitions_skel (topic : string) : rd_kafka_NewPartitions_t :=
  mk_NewPartitions topic 0 [].

(** One topic of a CreateTopics, DeleteTopics or CreatePartitions reply.
    DeleteTopics carries no error message, and CreateTopics only from
    version 1 on. *)
Record topic_elem := mk_topic_elem {
  ktopic : rd_kafkap_str_t;
  error_code : Z;
  error_msg : rd_kafkap_str_t
}.

Abbreviation topics_reply := (rd_kafka_buf_t topic_elem) (only parsing).

Abbreviation topic_results := (list (option rd_kafka_topic_result_t))
  (only parsing).

(** First half of the loop body of [rd_kafka_CreateTopicsResponse_parse]:
    the topic result built from one element of the reply. *)
Definition CreateTopicsResponse_topic_result
    (rko_req : rd_kafka_op_t rd_kafka_NewTopic_t topics_reply)
    (reply : topics_reply) (e : topic_elem) : rd_kafka_topic_result_t :=
  let error_msg := if ApiVersion reply >=? 1 then error_msg e else None in
  let error_code := error_code e in
  let error_code :=
    if (error_code =? RD_KAFKA_RESP_ERR_REQUEST_TIMED_OUT)
       && (rd_kafka_confval_get_int (operation_timeout (options rko_req)) <=? 0)
    then RD_KAFKA_RESP_ERR_NO_ERROR else error_code in
  let errstr := element_errstr error_code error_msg in
  rd_kafka_topic_result_new (ktopic e) error_code errstr.

(** Body of the loop of [rd_kafka_CreateTopicsResponse_parse]. *)
Definition CreateTopicsResponse_parse_topic
    (rko_req : rd_kafka_op_t rd_kafka_NewTopic_t topics_reply)
    (reply : topics_reply) (e : topic_elem) (results : topic_results)
  : parse_result topic_results :=
  let terr := CreateTopicsResponse_topic_result rko_req reply e in
  let skel := NewTopic_skel (tr_topic terr) in
  let orig_pos := rd_list_index (args rko_req) (rd_kafka_NewTopic_cmp skel) in
  if orig_pos =? -1 then
    rd_kafka_buf_parse_fail (Fail_not_in_request None (kstr_bytes (ktopic e)))
  else if negb (is_null (rd_list_elem results orig_pos)) then
    rd_kafka_buf_parse_fail (Fail_multiple_times None (kstr_bytes (ktopic e)))
  else PARSE_OK (rd_list_set results orig_pos terr).

(** The end of a parser. After the loop the filled result op is handed
    back and NO_ERROR returned. A parse that gave up is at [err_parse]:
    the partial result op is destroyed and the parser's local [err] is
    returned, whatever made the parse give up. *)
Definition parse_return {R : Type} (rko_result : rd_kafka_admin_result R)
    (r : parse_result (rd_list_t R)) : parse_result (rd_kafka_admin_result R) :=
  match r with
  | PARSE_OK rl => PARSE_OK (set_results rko_result rl)
  | PARSE_ERR _ why => PARSE_ERR parser_err why
  | PARSE_NULL_DEREF => PARSE_NULL_DEREF
  | PARSE_DOUBLE_FREE => PARSE_DOUBLE_FREE
  end.

Definition rd_kafka_CreateTopicsResponse_parse
    (rko_req : rd_kafka_op_t rd_kafka_NewTopic_t topics_reply)
    (reply : topics_reply)
  : parse_result (rd_kafka_admin_result rd_kafka_topic_result_t) :=
  let topic_cnt := elem_cnt reply in
  if topic_cnt >? rd_list_cnt (args rko_req) then
    rd_kafka_buf_parse_fail
      (Fail_more_than_requested topic_cnt (rd_list_cnt (args rko_req)))
  else
    let rko_result := rd_kafka_admin_result_new rko_req in
    parse_return rko_result
      (read_loop (CreateTopicsResponse_parse_topic rko_req reply)
         (Z.to_nat topic_cnt) (elems reply) (rd_list_init topic_cnt)).

(** First half of the loop body of [rd_kafka_DeleteTopicsResponse_parse]. *)
Definition DeleteTopicsResponse_topic_result
    (rko_req : rd_kafka_op_t rd_kafka_DeleteTopic_t topics_reply)
    (reply : topics_reply) (e : topic_elem) : rd_kafka_topic_result_t :=
  let error_code := error_code e in
  let error_code :=
    if (error_code =? RD_KAFKA_RESP_ERR_REQUEST_TIMED_OUT)
       && (rd_kafka_confval_get_int (operation_timeout (options rko_req)) <=? 0)
    then RD_KAFKA_RESP_ERR_NO_ERROR else error_code in
  rd_kafka_topic_result_new (ktopic e) error_code
    (if negb (error_code =? 0) then Some (Err2str error_code) else None).

(** Body of the loop of [rd_kafka_DeleteTopicsResponse_parse]. *)
Definition DeleteTopicsResponse_parse_topic
    (rko_req : rd_kafka_op_t rd_kafka_DeleteTopic_t topics_reply)
    (reply : topics_reply) (e : topic_elem) (results : topic_results)
  : parse_result topic_results :=
  let terr := DeleteTopicsResponse_topic_result rko_req reply e in
  let skel := DeleteTopic_skel (tr_topic terr) in
  let orig_pos := rd_list_index (args rko_req) (rd_kafka_DeleteTopic_cmp skel) in
  if orig_pos =? -1 then
    rd_kafka_buf_parse_fail (Fail_not_in_request None (kstr_bytes (ktopic e)))
  else if negb (is_null (rd_list_elem results orig_pos)) then
    rd_kafka_buf_parse_fail (Fail_multiple_times None (kstr_bytes (ktopic e)))
  else PARSE_OK (rd_list_set results orig_pos terr).

Definition rd_kafka_DeleteTopicsResponse_parse
    (rko_req : rd_kafka_op_t rd_kafka_DeleteTopic_t topics_reply)
    (reply : topics_reply)
  : parse_result (rd_kafka_admin_result rd_kafka_topic_result_t) :=
  let topic_cnt := elem_cnt reply in
  if topic_cnt >? rd_list_cnt (args rko_req) then
    rd_kafka_buf_parse_fail
      (Fail_more_than_requested topic_cnt (rd_list_cnt (args rko_req)))
  else
    let rko_result := rd_kafka_admin_result_new rko_req in
    parse_return rko_result
      (read_loop (DeleteTopicsResponse_parse_topic rko_req reply)
         (Z.to_nat topic_cnt) (elems reply) (rd_list_init topic_cnt)).

(** First half of the loop body of
    [rd_kafka_CreatePartitionsResponse_parse]. The error text computed from
    the broker's message is not the one handed to
    [rd_kafka_topic_result_new]. *)
Definition CreatePartitionsResponse_topic_result
    (rko_req : rd_kafka_op_t rd_kafka_NewPartitions_t topics_reply)
    (reply : topics_reply) (e : topic_elem) : rd_kafka_topic_result_t :=
  let error_msg := error_msg e in
  let error_code := error_code e in
  let error_code :=
    if (error_code =? RD_KAFKA_RESP_ERR_REQUEST_TIMED_OUT)
       && (rd_kafka_confval_get_int (operation_timeout (options rko_req)) <=? 0)
    then RD_KAFKA_RESP_ERR_NO_ERROR else error_code in
  let errstr := element_errstr error_code error_msg in
  rd_kafka_topic_result_new (ktopic e) error_code
    (if negb (error_code =? 0) then Some (Err2str error_code) else None).

(** Body of the loop of [rd_kafka_CreatePartitionsResponse_parse]. *)
Definition CreatePartitionsResponse_parse_topic
    (rko_req : rd_kafka_op_t rd_kafka_NewPartitions_t topics_reply)
    (reply : topics_reply) (e : topic_elem) (results : topic_results)
  : parse_result topic_results :=
  let terr := CreatePartitionsResponse_topic_result rko_req reply e in
  let skel := NewPartitions_skel (tr_topic terr) in
  let orig_pos :=
    rd_list_index (args rko_req) (rd_kafka_NewPartitions_cmp skel) in
  if orig_pos =? -1 then
    rd_kafka_buf_parse_fail (Fail_not_in_request None (kstr_bytes (ktopic e)))
  else if negb (is_null (rd_list_elem results orig_pos)) then
    rd_kafka_buf_parse_fail (Fail_multiple_times None (kstr_bytes (ktopic e)))
  else PARSE_OK (rd_list_set results orig_pos terr).

Definition rd_kafka_CreatePartitionsResponse_parse
    (rko_req : rd_kafka_op_t rd_kafka_NewPartitions_t topics_reply)
    (reply : topics_reply)
  : parse_result (rd_kafka_admin_result rd_kafka_topic_result_t) :=
  let topic_cnt := elem_cnt reply in
  if topic_cnt >? rd_list_cnt (args rko_req) then
    rd_kafka_buf_parse_fail
      (Fail_more_than_requested topic_cnt (rd_list_cnt (args rko_req)))
  else
    let rko_result := rd_kafka_admin_result_new rko_req in
    parse_return rko_result
      (read_loop (CreatePartitionsResponse_parse_topic rko_req reply)
         (Z.to_nat topic_cnt) (elems reply) (rd_list_init topic_cnt)).

(* ===================================================================== *)
(** ** AlterConfigs and DescribeConfigs *)
(* ===================================================================== *)

(** One synonym of a DescribeConfigs (version 1) config entry. *)
Record synonym_elem := mk_synonym_elem {
  syn_name : rd_kafkap_str_t;
  syn_value : rd_kafkap_str_t;
  syn_source : Z
}.

(** One config entry of a DescribeConfigs reply. The byte after
    [is_readonly] is the [is_default] flag in version 0 and the source tag
    in later versions; the synonym count and the synonyms are present in
    version 1. *)
Record entry_elem := mk_entry_elem {
  config_name : rd_kafkap_str_t;
  config_value : rd_kafkap_str_t;
  is_readonly : Z;
  default_or_source : Z;
  is_sensitive : Z;
  syn_cnt : Z;
  syn_elems : list synonym_elem
}.

(** One resource of an AlterConfigs or DescribeConfigs reply; the entries
    are those of DescribeConfigs. *)
Record resource_elem := mk_resource_elem {
  res_error_code : Z;
  res_error_msg : rd_kafkap_str_t;
  res_type : Z;
  kres_name : rd_kafkap_str_t;
  entry_cnt : Z;
  entry_elems : list entry_elem
}.

Abbreviation configs_reply := (rd_kafka_buf_t resource_elem) (only parsing).

Abbreviation resource_results := (list (option rd_kafka_ConfigResource_t))
  (only parsing).

(** [rd_kafka_buf_read_bool]. *)
Definition read_bool (byte : Z) : bool := negb (byte =? 0).

Definition set_cr_err (config : rd_kafka_ConfigResource_t)
    (err : rd_kafka_resp_err_t) (errstr : option errstr_t)
  : rd_kafka_ConfigResource_t :=
  mk_ConfigResource (cr_restype config) (cr_name config) (cr_config config)
                    err errstr.

(** [rd_kafka_ConfigResource_add_ConfigEntry]. *)
Definition rd_kafka_ConfigResource_add_ConfigEntry
    (config : rd_kafka_ConfigResource_t) (entry : rd_kafka_ConfigEntry_t)
  : rd_kafka_ConfigResource_t :=
  mk_ConfigResource (cr_restype config) (cr_name config)
                    (rd_list_add (cr_config config) entry)
                    (cr_err config) (cr_errstr config).

Definition ConfigResource_skel (restype : Z) (name : string)
  : rd_kafka_ConfigResource_t :=
  mk_ConfigResource restype name [] 0 None.

(** Tail of the loop body of [rd_kafka_AlterConfigsResponse_parse]: the
    resource is put at the position of the request's resource of the same
    type and name. A resource that cannot be put there is destroyed before
    the parse gives up; [err_parse] does not touch it again. *)
Definition ConfigResource_insert_result
    (rko_args : list rd_kafka_ConfigResource_t) (e : resource_elem)
    (config : rd_kafka_ConfigResource_t) (results : resource_results)
  : parse_result resource_results :=
  let skel := ConfigResource_skel (cr_restype config) (cr_name config) in
  let orig_pos := rd_list_index rko_args (rd_kafka_ConfigResource_cmp skel) in
  if orig_pos =? -1 then
    rd_kafka_buf_parse_fail
      (Fail_not_in_request (Some (res_type e)) (kstr_bytes (kres_name e)))
  else if negb (is_null (rd_list_elem results orig_pos)) then
    rd_kafka_buf_parse_fail
      (Fail_multiple_times (Some (res_type e)) (kstr_bytes (kres_name e)))
  else PARSE_OK (rd_list_set results orig_pos config).

(** Tail of the loop body of [rd_kafka_DescribeConfigsResponse_parse].
    Here [config] is a variable of the function, set back to NULL only
    after [rd_list_set]: a resource that cannot be put at its position is
    destroyed before [rd_kafka_buf_parse_fail], and [err_parse], finding
    [config] non-NULL, destroys it again. *)
Definition DescribeConfigs_insert_result
    (rko_args : list rd_kafka_ConfigResource_t) (e : resource_elem)
    (config : rd_kafka_ConfigResource_t) (results : resource_results)
  : parse_result resource_results :=
  let skel := ConfigResource_skel (cr_restype config) (cr_name config) in
  let orig_pos := rd_list_index rko_args (rd_kafka_ConfigResource_cmp skel) in
  if orig_pos =? -1 then PARSE_DOUBLE_FREE
  else if negb (is_null (rd_list_elem results orig_pos)) then PARSE_DOUBLE_FREE
  else PARSE_OK (rd_list_set results orig_pos config).

(** First half of the loop body of both config parsers: the resource
    made from the element's type and name with the element's error, or NULL
    when [rd_kafka_ConfigResource_new] refuses them (the element is then
    logged and ignored). *)
Definition ConfigsResponse_new_resource (e : resource_elem)
  : option rd_kafka_ConfigResource_t :=
  let res_name := kstr_bytes (kres_name e) in
  let errstr := element_errstr (res_error_code e) (res_error_msg e) in
  match rd_kafka_ConfigResource_new (res_type e) (Some res_name) with
  | None => None
  | Some config =>
      Some (set_cr_err config (res_error_code e) (strdup_errstr <$> errstr))
  end.

(** Body of the loop of [rd_kafka_AlterConfigsResponse_parse]. *)
Definition AlterConfigsResponse_parse_resource
    (rko_req : rd_kafka_op_t rd_kafka_ConfigResource_t configs_reply)
    (reply : configs_reply) (e : resource_elem) (results : resource_results)
  : parse_result resource_results :=
  match ConfigsResponse_new_resource e with
  | None => PARSE_OK results
  | Some config =>
      ConfigResource_insert_result (args rko_req) e config results
  end.

(** [rd_kafka_AlterConfigsResponse_parse]. Its check of the declared
    count does not go through [rd_kafka_buf_parse_fail]: it returns
    RD_KAFKA_RESP_ERR__BAD_MSG itself. *)
Definition rd_kafka_AlterConfigsResponse_parse
    (rko_req : rd_kafka_op_t rd_kafka_ConfigResource_t configs_reply)
    (reply : configs_reply)
  : parse_result (rd_kafka_admin_result rd_kafka_ConfigResource_t) :=
  let res_cnt := elem_cnt reply in
  if res_cnt >? rd_list_cnt (args rko_req) then
    PARSE_ERR RD_KAFKA_RESP_ERR__BAD_MSG
      (Fail_more_than_requested res_cnt (rd_list_cnt (args rko_req)))
  else
    let rko_result := rd_kafka_admin_result_new rko_req in
    parse_return rko_result
      (read_loop (AlterConfigsResponse_parse_resource rko_req reply)
         (Z.to_nat res_cnt) (elems reply) (rd_list_init res_cnt)).

Definition set_entry_attrs (entry : rd_kafka_ConfigEntry_t)
    (source : Z) (readonly default sensitive synonym : bool)
  : rd_kafka_ConfigEntry_t :=
  mk_ConfigEntry (kv_name entry) (kv_value entry) (a_operation entry)
                 source readonly default sensitive synonym (synonyms entry).

Definition add_synonym (entry syn_entry : rd_kafka_ConfigEntry_t)
  : rd_kafka_ConfigEntry_t :=
  mk_ConfigEntry (kv_name entry) (kv_value entry) (a_operation entry)
                 (a_source entry) (a_is_readonly entry) (a_is_default entry)
                 (a_is_sensitive entry) (a_is_synonym entry)
                 (rd_list_add (synonyms entry) syn_entry).

(** Body of the synonym loop of [rd_kafka_DescribeConfigsResponse_parse]. *)
Definition DescribeConfigsResponse_parse_synonym (s : synonym_elem)
    (entry : rd_kafka_ConfigEntry_t) : parse_result rd_kafka_ConfigEntry_t :=
  match rd_kafka_ConfigEntry_new0 (syn_name s) (syn_value s) with
  | None => rd_kafka_buf_parse_fail Fail_invalid_synonym
  | Some syn_entry =>
      let syn_entry :=
        set_entry_attrs syn_entry (syn_source s) (a_is_readonly syn_entry)
          (a_is_default syn_entry) (a_is_sensitive syn_entry) true in
      PARSE_OK (add_synonym entry syn_entry)
  end.

(** The attributes of a config entry as read from the reply: the version 0
    [is_default] flag and the later source tag are converted into one
    another. *)
Definition DescribeConfigsResponse_read_attrs (reply : configs_reply)
    (c : entry_elem) (entry : rd_kafka_ConfigEntry_t) : rd_kafka_ConfigEntry_t :=
  let readonly := read_bool (is_readonly c) in
  let '(source, default) :=
    if ApiVersion reply =? 0 then
      let default := read_bool (default_or_source c) in
      (if default then RD_KAFKA_CONFIG_SOURCE_DEFAULT_CONFIG
       else a_source entry, default)
    else
      let source := default_or_source c in
      (source, if source =? RD_KAFKA_CONFIG_SOURCE_DEFAULT_CONFIG then true
               else a_is_default entry) in
  let sensitive := read_bool (is_sensitive c) in
  set_entry_attrs entry source readonly default sensitive (a_is_synonym entry).

(** Body of the config entry loop of
    [rd_kafka_DescribeConfigsResponse_parse]. An entry without a name makes
    [rd_kafka_ConfigEntry_new0] return NULL, which is then written
    through. *)
Definition DescribeConfigsResponse_parse_entry (reply : configs_reply)
    (c : entry_elem) (config : rd_kafka_ConfigResource_t)
  : parse_result rd_kafka_ConfigResource_t :=
  match rd_kafka_ConfigEntry_new0 (config_name c) (config_value c) with
  | None => PARSE_NULL_DEREF
  | Some entry =>
      let entry := DescribeConfigsResponse_read_attrs reply c entry in
      let syn_cnt' :=
        if ApiVersion reply =? 1 then
          if syn_cnt c >? 100000 then None else Some (syn_cnt c)
        else Some 0 in
      match syn_cnt' with
      | None => rd_kafka_buf_parse_fail (Fail_synonym_limit (syn_cnt c))
      | Some n =>
          match read_loop DescribeConfigsResponse_parse_synonym (Z.to_nat n)
                  (syn_elems c) entry with
          | PARSE_OK entry =>
              PARSE_OK (rd_kafka_ConfigResource_add_ConfigEntry config entry)
          | PARSE_ERR err why => PARSE_ERR err why
          | PARSE_NULL_DEREF => PARSE_NULL_DEREF
          | PARSE_DOUBLE_FREE => PARSE_DOUBLE_FREE
          end
      end
  end.

(** First half of the body of the resource loop of
    [rd_kafka_DescribeConfigsResponse_parse]: the resource with its config
    entries, or NULL for an element that is ignored. A resource that is
    ignored is left before its entries are read; the elements after it are
    whatever the reader yields from there. *)
Definition DescribeConfigsResponse_read_resource (reply : configs_reply)
    (e : resource_elem) : parse_result (option rd_kafka_ConfigResource_t) :=
  match ConfigsResponse_new_resource e with
  | None => PARSE_OK None
  | Some config =>
      match read_loop (DescribeConfigsResponse_parse_entry reply)
              (Z.to_nat (entry_cnt e)) (entry_elems e) config with
      | PARSE_OK config => PARSE_OK (Some config)
      | PARSE_ERR err why => PARSE_ERR err why
      | PARSE_NULL_DEREF => PARSE_NULL_DEREF
      | PARSE_DOUBLE_FREE => PARSE_DOUBLE_FREE
      end
  end.

(** Body of the resource loop of
    [rd_kafka_DescribeConfigsResponse_parse]. *)
Definition DescribeConfigsResponse_parse_resource
    (rko_req : rd_kafka_op_t rd_kafka_ConfigResource_t configs_reply)
    (reply : configs_reply) (e : resource_elem) (results : resource_results)
  : parse_result resource_results :=
  match DescribeConfigsResponse_read_resource reply e with
  | PARSE_OK None => PARSE_OK results
  | PARSE_OK (Some config) =>
      DescribeConfigs_insert_result (args rko_req) e config results
  | PARSE_ERR err why => PARSE_ERR err why
  | PARSE_NULL_DEREF => PARSE_NULL_DEREF
  | PARSE_DOUBLE_FREE => PARSE_DOUBLE_FREE
  end.

Definition rd_kafka_DescribeConfigsResponse_parse
    (rko_req : rd_kafka_op_t rd_kafka_ConfigResource_t configs_reply)
    (reply : configs_reply)
  : parse_result (rd_kafka_admin_result rd_kafka_ConfigResource_t) :=
  let res_cnt := elem_cnt reply in
  if res_cnt >? rd_list_cnt (args rko_req) then
    rd_kafka_buf_parse_fail
      (Fail_more_than_requested res_cnt (rd_list_cnt (args rko_req)))
  else
    let rko_result := rd_kafka_admin_result_new rko_req in
    parse_return rko_result
      (read_loop (DescribeConfigsResponse_parse_resource rko_req reply)
         (Z.to_nat res_cnt) (elems reply) (rd_list_init res_cnt)).

(* ===================================================================== *)
(** ** Submission of AlterConfigs and DescribeConfigs *)
(* ===================================================================== *)

(** "Convert string broker-id to int32" in the loop of
    [rd_kafka_ConfigResource_get_single_broker_id]: the value of [r] when
    the check that follows the conversion lets it through, [None] when it
    does not. *)
Definition broker_id_of_name (name : string) : option Z :=
  let '(v, endptr) := strtol name in
  let r := to_int32 v in
  if (r =? LONG_MIN) || (r =? LONG_MAX) || (endptr =? 0)%nat || (r <? 0)
  then None else Some r.

(** Loop of [rd_kafka_ConfigResource_get_single_broker_id]; [broker_id] is
    the local of the same name. *)
Fixpoint get_single_broker_id_loop (configs : list rd_kafka_ConfigResource_t)
    (broker_id : Z) : (rd_kafka_resp_err_t * admin_errstr) + Z :=
  match configs with
  | [] => inr broker_id
  | config :: configs' =>
      if negb (cr_restype config =? RD_KAFKA_RESOURCE_BROKER) then
        get_single_broker_id_loop configs' broker_id
      else if negb (broker_id =? -1) then
        inl (RD_KAFKA_RESP_ERR__CONFLICT, Errstr_only_one_broker)
      else
        match broker_id_of_name (cr_name config) with
        | None =>
            inl (RD_KAFKA_RESP_ERR__INVALID_ARG,
                 Errstr_expected_int32_broker_id (cr_name config))
        | Some r => get_single_broker_id_loop configs' r
        end
  end.

(** [rd_kafka_ConfigResource_get_single_broker_id]: the error with its
    text, or the value stored through [broker_idp]. *)
Definition rd_kafka_ConfigResource_get_single_broker_id
    (configs : list rd_kafka_ConfigResource_t)
  : (rd_kafka_resp_err_t * admin_errstr) + Z :=
  get_single_broker_id_loop configs (-1).

(** [rd_kafka_admin_request_op_new]; [request_timeout_ms] is the client's
    configured default and [now] the clock at the call. The args list is
    filled by the caller. *)
Definition rd_kafka_admin_request_op_new {A B : Type}
    (request_timeout_ms now : Z) (optype : rd_kafka_op_type_t)
    (reply_event_type : rd_kafka_event_type_t)
    (options : option rd_kafka_AdminOptions_t) : rd_kafka_op_t A B :=
  let options :=
    match options with
    | Some o => o
    | None => rd_kafka_AdminOptions_init request_timeout_ms None
    end in
  mk_op optype RD_KAFKA_RESP_ERR_NO_ERROR reply_event_type options (-1)
        (rd_timeout_init now (rd_kafka_confval_get_int (request_timeout options)))
        RD_KAFKA_ADMIN_STATE_INIT [] None.

Definition set_args {A B : Type} (rko : rd_kafka_op_t A B) (l : list A)
  : rd_kafka_op_t A B :=
  mk_op (rko_type rko) (rko_err rko) (reply_event_type rko) (options rko)
        (broker_id rko) (abs_timeout rko) (state rko) l (reply_buf rko).

(** How a submission ends: the request op is put on the client's ops queue
    for the worker, or a failure result is put on the application's queue
    and the op is dismantled without being enqueued. *)
Inductive submit_outcome (A B R : Type) :=
| Ops_enq (rko : rd_kafka_op_t A B)
| Submit_failed (acts : list (action R)).
Arguments Ops_enq {A B R} rko.
Arguments Submit_failed {A B R} acts.

(** Common body of [rd_kafka_AlterConfigs] and [rd_kafka_DescribeConfigs].
    [None] is a copy of a resource that [rd_kafka_ConfigResource_new]
    refuses, whose NULL result is written through. *)
Definition submit_configs (request_timeout_ms : Z) (env : worker_env)
    (optype : rd_kafka_op_type_t) (reply_event_type : rd_kafka_event_type_t)
    (configs : list rd_kafka_ConfigResource_t)
    (options : option rd_kafka_AdminOptions_t)
  : option (submit_outcome rd_kafka_ConfigResource_t configs_reply
              rd_kafka_ConfigResource_t) :=
  let rko :=
    rd_kafka_admin_request_op_new request_timeout_ms (rd_clock env) optype
      reply_event_type options in
  match mapM rd_kafka_ConfigResource_copy configs with
  | None => None
  | Some copies =>
      let rko := set_args rko copies in
      match rd_kafka_ConfigResource_get_single_broker_id (args rko) with
      | inl (err, errstr) =>
          Some (Submit_failed
                  (rd_kafka_admin_result_fail rko err errstr
                   :: rd_kafka_admin_common_worker_destroy env))
      | inr id => Some (Ops_enq (set_broker_id rko id))
      end
  end.

Definition rd_kafka_AlterConfigs (request_timeout_ms : Z) (env : worker_env)
    (configs : list rd_kafka_ConfigResource_t)
    (options : option rd_kafka_AdminOptions_t) :=
  submit_configs request_timeout_ms env RD_KAFKA_OP_ALTERCONFIGS
    RD_KAFKA_EVENT_ALTERCONFIGS_RESULT configs options.

Definition rd_kafka_DescribeConfigs (request_timeout_ms : Z) (env : worker_env)
    (configs : list rd_kafka_ConfigResource_t)
    (options : option rd_kafka_AdminOptions_t) :=
  submit_configs request_timeout_ms env RD_KAFKA_OP_DESCRIBECONFIGS
    RD_KAFKA_EVENT_DESCRIBECONFIGS_RESULT configs options.

(** The callbacks of the five APIs. The request builders
    (rdkafka_request.c) are outside this file and are parameters. *)
Definition CreateTopics_cbs request :=
  mk_cbs (A := rd_kafka_NewTopic_t) request rd_kafka_CreateTopicsResponse_parse.
Definition DeleteTopics_cbs request :=
  mk_cbs (A := rd_kafka_DeleteTopic_t) request
         rd_kafka_DeleteTopicsResponse_parse.
Definition CreatePartitions_cbs request :=
  mk_cbs (A := rd_kafka_NewPartitions_t) request
         rd_kafka_CreatePartitionsResponse_parse.
Definition AlterConfigs_cbs request :=
  mk_cbs (A := rd_kafka_ConfigResource_t) request
         rd_kafka_AlterConfigsResponse_parse.
Definition DescribeConfigs_cbs request :=
  mk_cbs (A := rd_kafka_ConfigResource_t) request
         rd_kafka_DescribeConfigsResponse_parse.

(* ===================================================================== *)
(** ** Notions used in the statements *)
(* ===================================================================== *)

(** Every loop body reads an element into a per-element result (or
    ignores the element), looks up the position of the request's entry
    that compares equal to it, and stores the result there. [place_step]
    is that shape with the reading, the comparator and the diagnostics left
    open; the properties below are proved once for it and carried over to
    the bodies. The bodies of the three topic parsers and of AlterConfigs
    are of this shape throughout; the body of DescribeConfigs is where it
    stores a result, and differs where the shape gives up. *)
Definition place_step {E A R : Type} (rko_args : list A)
    (read : E -> parse_result (option R)) (cmp : R -> A -> Z)
    (not_in_request multiple_times : E -> parse_failure)
    (e : E) (results : rd_list_t R) : parse_result (rd_list_t R) :=
  match read e with
  | PARSE_OK None => PARSE_OK results
  | PARSE_OK (Some r) =>
      let orig_pos := rd_list_index rko_args (cmp r) in
      if orig_pos =? -1 then rd_kafka_buf_parse_fail (not_in_request e)
      else if negb (is_null (rd_list_elem results orig_pos)) then
        rd_kafka_buf_parse_fail (multiple_times e)
      else PARSE_OK (rd_list_set results orig_pos r)
  | PARSE_ERR err why => PARSE_ERR err why
  | PARSE_NULL_DEREF => PARSE_NULL_DEREF
  | PARSE_DOUBLE_FREE => PARSE_DOUBLE_FREE
  end.

(** The results that a run over [l] stores: those of the elements that
    are read and not ignored. *)
Definition placed_of {E R : Type} (read : E -> parse_result (option R))
    (l : list E) : list R :=
  omap (fun e => match read e with PARSE_OK (Some r) => Some r | _ => None end)
       l.

Definition topic_cmp_NewTopic (r : rd_kafka_topic_result_t) :=
  rd_kafka_NewTopic_cmp (NewTopic_skel (tr_topic r)).
Definition topic_cmp_DeleteTopic (r : rd_kafka_topic_result_t) :=
  rd_kafka_DeleteTopic_cmp (DeleteTopic_skel (tr_topic r)).
Definition topic_cmp_NewPartitions (r : rd_kafka_topic_result_t) :=
  rd_kafka_NewPartitions_cmp (NewPartitions_skel (tr_topic r)).
Definition resource_cmp (r : rd_kafka_ConfigResource_t) :=
  rd_kafka_ConfigResource_cmp (ConfigResource_skel (cr_restype r) (cr_name r)).

Definition topic_not_in_request (e : topic_elem) : parse_failure :=
  Fail_not_in_request None (kstr_bytes (ktopic e)).
Definition topic_multiple_times (e : topic_elem) : parse_failure :=
  Fail_multiple_times None (kstr_bytes (ktopic e)).
Definition resource_not_in_request (e : resource_elem) : parse_failure :=
  Fail_not_in_request (Some (res_type e)) (kstr_bytes (kres_name e)).
Definition resource_multiple_times (e : resource_elem) : parse_failure :=
  Fail_multiple_times (Some (res_type e)) (kstr_bytes (kres_name e)).

(** [k] is the position of the first entry of [rko_args] that compares
    equal to the result [r]. *)
Definition first_match {A R : Type} (rko_args : list A) (cmp : R -> A -> Z)
    (r : R) (k : nat) : Prop :=
  (exists a, rko_args !! k = Some a /\ cmp r a = 0)
  /\ forall (j : nat) (a' : A),
       (j < k)%nat -> rko_args !! j = Some a' -> cmp r a' <> 0.

(** No entry of [rko_args] compares equal to [r]. *)
Definition no_match {A R : Type} (rko_args : list A) (cmp : R -> A -> Z)
    (r : R) : Prop :=
  Forall (fun a => cmp r a <> 0) rko_args.

(** The reply made of the first [n] elements of [reply]. *)
Definition reply_prefix {E : Type} (reply : rd_kafka_buf_t E) (n : nat)
  : rd_kafka_buf_t E :=
  mk_buf (ApiVersion reply) (Throttle_Time reply) (Z.of_nat n)
         (take n (elems reply)).

(** The resource that the DescribeConfigs parser makes of the element
    [e]: none when the element is ignored or does not decode. *)
Definition DescribeConfigs_resource (reply : configs_reply) (e : resource_elem)
  : option rd_kafka_ConfigResource_t :=
  match DescribeConfigsResponse_read_resource reply e with
  | PARSE_OK o => o
  | _ => None
  end.

(** The parser [parse] places by key: after a successful parse, the
    result [r] that [read] makes of an element read from the reply, unless
    the element is ignored, is stored at the position of the first args
    entry that compares equal to it, and nothing else is stored. *)
Definition places_by_key {E A R : Type}
    (parse : rd_kafka_op_t A (rd_kafka_buf_t E) -> rd_kafka_buf_t E ->
             parse_result (rd_kafka_admin_result R))
    (read : rd_kafka_op_t A (rd_kafka_buf_t E) -> rd_kafka_buf_t E -> E ->
            option R)
    (cmp : R -> A -> Z) : Prop :=
  forall rko_req reply res,
    parse rko_req reply = PARSE_OK res ->
    (forall e r,
        e ∈ take (Z.to_nat (elem_cnt reply)) (elems reply) ->
        read rko_req reply e = Some r ->
        exists k, first_match (args rko_req) cmp r k
                  /\ results res !! k = Some (Some r))
    /\ (forall k r,
          results res !! k = Some (Some r) ->
          first_match (args rko_req) cmp r k
          /\ exists e, e ∈ take (Z.to_nat (elem_cnt reply)) (elems reply)
                       /\ read rko_req reply e = Some r).

(** The parser [parse] gives up by key. Let [e] be the element at
    position [i] of a reply that declares it and no more elements than the
    request has args, let the elements before it be placed (the parse of
    the reply cut before [e] succeeds, with [res0]) and let [r] be the
    result that [read] makes of [e]. Then the parse of the reply hands
    back no result op and stops at [e] as "not included in the original
    request" when no args entry compares equal to [r], and as "returned
    multiple times" when the position of the first such entry holds a
    result in [res0]. The code that the parser returns is left open. *)
Definition gives_up_by_key {E A R : Type}
    (parse : rd_kafka_op_t A (rd_kafka_buf_t E) -> rd_kafka_buf_t E ->
             parse_result (rd_kafka_admin_result R))
    (read : rd_kafka_op_t A (rd_kafka_buf_t E) -> rd_kafka_buf_t E -> E ->
            option R)
    (cmp : R -> A -> Z)
    (not_in_request multiple_times : E -> parse_failure) : Prop :=
  forall rko_req reply (i : nat) e r res0,
    elems reply !! i = Some e ->
    Z.of_nat i < elem_cnt reply <= rd_list_cnt (args rko_req) ->
    parse rko_req (reply_prefix reply i) = PARSE_OK res0 ->
    read rko_req reply e = Some r ->
    (no_match (args rko_req) cmp r ->
     exists err, parse rko_req reply = PARSE_ERR err (not_in_request e))
    /\ (forall (k : nat) r',
          first_match (args rko_req) cmp r k ->
          results res0 !! k = Some (Some r') ->
          exists err, parse rko_req reply = PARSE_ERR err (multiple_times e)).

(** How a config entry of a DescribeConfigs result relates to the element
    [c] of the reply it was read from: in version 0 the flag is the one
    read and a set flag gives source DEFAULT_CONFIG; in later versions the
    source is the one read and source DEFAULT_CONFIG sets the flag; either
    way the source is DEFAULT_CONFIG exactly when the flag is set; and the
    entry is not marked as a synonym. *)
Definition normalized_entry (reply : configs_reply) (c : entry_elem)
    (entry : rd_kafka_ConfigEntry_t) : Prop :=
  (ApiVersion reply = 0 ->
   a_is_default entry = read_bool (default_or_source c)
   /\ (read_bool (default_or_source c) = true ->
       a_source entry = RD_KAFKA_CONFIG_SOURCE_DEFAULT_CONFIG))
  /\ (ApiVersion reply <> 0 ->
      a_source entry = default_or_source c
      /\ (default_or_source c = RD_KAFKA_CONFIG_SOURCE_DEFAULT_CONFIG ->
          a_is_default entry = true))
  /\ (a_source entry = RD_KAFKA_CONFIG_SOURCE_DEFAULT_CONFIG
      <-> a_is_default entry = true)
  /\ a_is_synonym entry = false.

(** How a synonym entry relates to the element [s] it was read from: it
    carries the source read and the synonym mark, and nothing sets its
    default flag. *)
Definition synonym_entry (s : synonym_elem) (entry : rd_kafka_ConfigEntry_t)
  : Prop :=
  a_source entry = syn_source s
  /\ a_is_synonym entry = true
  /\ a_is_default entry = false.

(** The results held by the non-NULL slots of a result list. *)
Definition set_slots {A : Type} (rl : rd_list_t A) : list A := omap id rl.

(** The resources of type BROKER among [configs], in order. *)
Definition broker_resources (configs : list rd_kafka_ConfigResource_t)
  : list rd_kafka_ConfigResource_t :=
  filter (fun c => cr_restype c = RD_KAFKA_RESOURCE_BROKER) configs.

(** The decimal numeral of [n]. *)
Definition decimal (n : N) : string := NilZero.string_of_uint (N.to_uint n).

(** The value of the digits of [d] after [acc]. *)
Fixpoint uint_value (d : Decimal.uint) (acc : Z) : Z :=
  match d with
  | Decimal.Nil => acc
  | Decimal.D0 d => uint_value d (10 * acc + 0)
  | Decimal.D1 d => uint_value d (10 * acc + 1)
  | Decimal.D2 d => uint_value d (10 * acc + 2)
  | Decimal.D3 d => uint_value d (10 * acc + 3)
  | Decimal.D4 d => uint_value d (10 * acc + 4)
  | Decimal.D5 d => uint_value d (10 * acc + 5)
  | Decimal.D6 d => uint_value d (10 * acc + 6)
  | Decimal.D7 d => uint_value d (10 * acc + 7)
  | Decimal.D8 d => uint_value d (10 * acc + 8)
  | Decimal.D9 d => uint_value d (10 * acc + 9)
  end.

(** A failed submission: the failure result goes to the application's
    queue and the op is dismantled. *)
Definition submit_failure {A B R : Type} (env : worker_env)
    (rko : rd_kafka_op_t A B) (err : rd_kafka_resp_err_t) (msg : admin_errstr)
  : submit_outcome A B R :=
  Submit_failed (rd_kafka_admin_result_fail rko err msg
                 :: rd_kafka_admin_common_worker_destroy env).

(** The outcome of the BROKER-resource pre-flight for a request op whose
    args are set: without a BROKER resource the op is enqueued for the
    controller (target -1); otherwise the name of the first BROKER resource
    decides: a name that does not convert fails the submission with
    INVALID_ARG, a name that converts to [r] makes [r] the target when it
    is the only BROKER resource and fails the submission with CONFLICT
    when there is another one. *)
Definition preflight_outcome {B R : Type} (env : worker_env)
    (rko : rd_kafka_op_t rd_kafka_ConfigResource_t B)
  : submit_outcome rd_kafka_ConfigResource_t B R :=
  match broker_resources (args rko) with
  | [] => Ops_enq (set_broker_id rko (-1))
  | b :: rest =>
      match broker_id_of_name (cr_name b) with
      | None =>
          submit_failure env rko RD_KAFKA_RESP_ERR__INVALID_ARG
            (Errstr_expected_int32_broker_id (cr_name b))
      | Some r =>
          match rest with
          | [] => Ops_enq (set_broker_id rko r)
          | _ :: _ =>
              submit_failure env rko RD_KAFKA_RESP_ERR__CONFLICT
                Errstr_only_one_broker
          end
      end
  end.

(* ===================================================================== *)
(** ** Sample requests and replies *)
(* ===================================================================== *)

Definition sample_options (operation_timeout_ms : Z) : rd_kafka_AdminOptions_t :=
  snd (rd_kafka_AdminOptions_set_operation_timeout
         (rd_kafka_AdminOptions_init 5000 None) operation_timeout_ms).

Definition sample_op {A B : Type} (optype : rd_kafka_op_type_t)
    (evtype : rd_kafka_event_type_t) (operation_timeout_ms : Z) (l : list A)
  : rd_kafka_op_t A B :=
  set_args
    (rd_kafka_admin_request_op_new 5000 0 optype evtype
       (Some (sample_options operation_timeout_ms)))
    l.

Definition sample_DeleteTopics (operation_timeout_ms : Z) (topics : list string)
  : rd_kafka_op_t rd_kafka_DeleteTopic_t topics_reply :=
  sample_op RD_KAFKA_OP_DELETETOPICS RD_KAFKA_EVENT_DELETETOPICS_RESULT
    operation_timeout_ms (mk_DeleteTopic <$> topics).

Definition sample_CreateTopics (operation_timeout_ms : Z) (topics : list string)
  : rd_kafka_op_t rd_kafka_NewTopic_t topics_reply :=
  sample_op RD_KAFKA_OP_CREATETOPICS RD_KAFKA_EVENT_CREATETOPICS_RESULT
    operation_timeout_ms ((fun t => mk_NewTopic t 3 1 [] []) <$> topics).

Definition sample_CreatePartitions (operation_timeout_ms : Z)
    (topics : list string)
  : rd_kafka_op_t rd_kafka_NewPartitions_t topics_reply :=
  sample_op RD_KAFKA_OP_CREATEPARTITIONS RD_KAFKA_EVENT_CREATEPARTITIONS_RESULT
    operation_timeout_ms ((fun t => mk_NewPartitions t 4 []) <$> topics).

Definition sample_resource (restype : Z) (name : string)
  : rd_kafka_ConfigResource_t :=
  mk_ConfigResource restype name [] RD_KAFKA_RESP_ERR_NO_ERROR None.

Definition sample_AlterConfigs (l : list rd_kafka_ConfigResource_t)
  : rd_kafka_op_t rd_kafka_ConfigResource_t configs_reply :=
  sample_op RD_KAFKA_OP_ALTERCONFIGS RD_KAFKA_EVENT_ALTERCONFIGS_RESULT 0 l.

Definition sample_DescribeConfigs (l : list rd_kafka_ConfigResource_t)
  : rd_kafka_op_t rd_kafka_ConfigResource_t configs_reply :=
  sample_op RD_KAFKA_OP_DESCRIBECONFIGS RD_KAFKA_EVENT_DESCRIBECONFIGS_RESULT
    0 l.

Definition sample_topic (name : string) (code : Z) : topic_elem :=
  mk_topic_elem (Some name) code None.

Definition sample_result {R : Type} (evtype : rd_kafka_event_type_t)
    (optype : rd_kafka_op_type_t) (l : rd_list_t R) : rd_kafka_admin_result R :=
  mk_result evtype optype 0 RD_KAFKA_RESP_ERR_NO_ERROR None l.

(** A client that is not terminating, with the clock at 1000 and no broker
    up; the timer of [sample_env] was never started, the one of
    [sample_env_timer] was still pending when stopped. *)
Definition sample_env : worker_env :=
  mk_env false 1000 (fun _ => None) None false.

Definition sample_env_timer : worker_env :=
  mk_env false 1000 (fun _ => None) None true.

Definition sample_worker_op (err : Z) (deadline : Z) : rd_kafka_op_t unit unit :=
  mk_op RD_KAFKA_OP_DELETETOPICS err RD_KAFKA_EVENT_DELETETOPICS_RESULT
        (rd_kafka_AdminOptions_init 5000 None) (-1) deadline
        RD_KAFKA_ADMIN_STATE_WAIT_CONTROLLER [] None.

Definition sample_cbs : rd_kafka_admin_worker_cbs unit unit unit :=
  mk_cbs (fun _ _ _ => (0, EmptyString))
         (fun _ _ => PARSE_ERR RD_KAFKA_RESP_ERR__BAD_MSG Fail_underflow).

Definition sample_v1_reply : configs_reply :=
  mk_buf 1 0 1
    [mk_resource_elem 0 None RD_KAFKA_RESOURCE_TOPIC (Some "t") 1
       [mk_entry_elem (Some "retention.ms") (Some "1000") 0 1 0 1
          [mk_synonym_elem (Some "log.retention.ms") (Some "2000")
             RD_KAFKA_CONFIG_SOURCE_DEFAULT_CONFIG]]].

(* ===================================================================== *)
(** ** Topic and resource specifications built by the application *)
(* ===================================================================== *)

(** [(size_t)x] for an [int] x ([size_t] is taken to be 64 bits wide). *)
Definition to_size_t (x : Z) : Z := x mod 18446744073709551616.

(** [!*s]: the C string held by the buffer is empty. *)
Definition is_empty_str (s : string) : bool :=
  match s with
  | EmptyString => true
  | String c _ => uchar c =? 0
  end.

(** Modelled from the spec: the remaining members of
    rd_kafka_AlterOperation_t (rdkafka.h is not among the sources). The
    spec leaves the user-facing value types aside (section 1); the members
    are numbered after ADD in the order of the enumeration, and nothing
    relies on the numbers but their being distinct. *)
Definition RD_KAFKA_ALTER_OP_SET : Z := 1.
Definition RD_KAFKA_ALTER_OP_DELETE : Z := 2.

(** The text that a constructor or setter writes to [errstr], by the
    format string that builds it. *)
Inductive setter_errstr :=
| Errstr_invalid_topic_name
| Errstr_num_partitions_range (lo hi : Z)
| Errstr_replication_factor_range (lo hi : Z)
| Errstr_new_total_cnt_range (lo hi : Z)
| Errstr_mutually_exclusive
| Errstr_partitions_in_order (expecting partition : Z)
| Errstr_too_many_brokers (brokers_max : Z).

(** [rd_kafka_ConfigEntry_new]: [rd_kafka_ConfigEntry_new0] with both
    lengths -1, that is, on the bytes up to the terminating NUL. *)
Definition rd_kafka_ConfigEntry_new (name value : option string)
  : option rd_kafka_ConfigEntry_t :=
  rd_kafka_ConfigEntry_new0 (c_str <$> name) (c_str <$> value).

(** [rd_kafka_ConfigEntry_copy]: a new entry with copies of the name and
    the value, the attributes of [src] and copies of its synonyms. [None]
    is a NULL handed back by [rd_kafka_ConfigEntry_new] and written
    through. *)
Fixpoint rd_kafka_ConfigEntry_copy (src : rd_kafka_ConfigEntry_t)
  : option rd_kafka_ConfigEntry_t :=
  match rd_kafka_ConfigEntry_new (Some (kv_name src)) (kv_value src) with
  | None => None
  | Some dst =>
      match mapM rd_kafka_ConfigEntry_copy (synonyms src) with
      | None => None
      | Some syns =>
          Some (mk_ConfigEntry (kv_name dst) (kv_value dst) (a_operation src)
                  (a_source src) (a_is_readonly src) (a_is_default src)
                  (a_is_sensitive src) (a_is_synonym src) syns)
      end
  end.

(** [rd_kafka_admin_add_config0]: the returned code and the list after the
    call. The entry is zeroed but for its name, its value and the
    operation. *)
Definition rd_kafka_admin_add_config0 (rl : list rd_kafka_ConfigEntry_t)
    (name value : option string) (operation : Z)
  : rd_kafka_resp_err_t * list rd_kafka_ConfigEntry_t :=
  match name with
  | None => (RD_KAFKA_RESP_ERR__INVALID_ARG, rl)
  | Some name =>
      let entry :=
        mk_ConfigEntry (c_str name) (c_str <$> value) operation 0
                       false false false false [] in
      (RD_KAFKA_RESP_ERR_NO_ERROR, rd_list_add rl entry)
  end.

Definition set_cr_config (config : rd_kafka_ConfigResource_t)
    (rl : list rd_kafka_ConfigEntry_t) : rd_kafka_ConfigResource_t :=
  mk_ConfigResource (cr_restype config) (cr_name config) rl
                    (cr_err config) (cr_errstr config).

(** [rd_kafka_ConfigResource_add_config]: the returned code and the
    resource after the call. *)
Definition rd_kafka_ConfigResource_add_config
    (config : rd_kafka_ConfigResource_t) (name value : option string)
  : rd_kafka_resp_err_t * rd_kafka_ConfigResource_t :=
  if is_null name || is_empty_str (default EmptyString name) || is_null value
  then (RD_KAFKA_RESP_ERR__INVALID_ARG, config)
  else
    let '(err, rl) :=
      rd_kafka_admin_add_config0 (cr_config config) name value
                                 RD_KAFKA_ALTER_OP_ADD in
    (err, set_cr_config config rl).

(** [rd_kafka_ConfigResource_set_config]. *)
Definition rd_kafka_ConfigResource_set_config
    (config : rd_kafka_ConfigResource_t) (name value : option string)
  : rd_kafka_resp_err_t * rd_kafka_ConfigResource_t :=
  if is_null name || is_empty_str (default EmptyString name) || is_null value
  then (RD_KAFKA_RESP_ERR__INVALID_ARG, config)
  else
    let '(err, rl) :=
      rd_kafka_admin_add_config0 (cr_config config) name value
                                 RD_KAFKA_ALTER_OP_SET in
    (err, set_cr_config config rl).

(** [rd_kafka_ConfigResource_delete_config]. *)
Definition rd_kafka_ConfigResource_delete_config
    (config : rd_kafka_ConfigResource_t) (name : option string)
  : rd_kafka_resp_err_t * rd_kafka_ConfigResource_t :=
  if is_null name || is_empty_str (default EmptyString name)
  then (RD_KAFKA_RESP_ERR__INVALID_ARG, config)
  else
    let '(err, rl) :=
      rd_kafka_admin_add_config0 (cr_config config) name None
                                 RD_KAFKA_ALTER_OP_DELETE in
    (err, set_cr_config config rl).

(** [rd_kafka_ConfigResource_error_string]: NULL without an error, the
    resource's own text when it has one, the static description of the
    code otherwise. *)
Definition rd_kafka_ConfigResource_error_string
    (config : rd_kafka_ConfigResource_t) : option errstr_t :=
  if cr_err config =? 0 then None
  else
    match cr_errstr config with
    | Some errstr => Some errstr
    | None => Some (Err2str (cr_err config))
    end.

(** [rd_kafka_DeleteTopic_new]; [None] is the [strlen] of a NULL topic. *)
Definition rd_kafka_DeleteTopic_new (topic : option string)
  : option rd_kafka_DeleteTopic_t :=
  match topic with
  | None => None
  | Some topic => Some (mk_DeleteTopic (c_str topic))
  end.

Definition rd_kafka_DeleteTopic_copy (src : rd_kafka_DeleteTopic_t)
  : option rd_kafka_DeleteTopic_t :=
  rd_kafka_DeleteTopic_new (Some (dt_topic src)).

Definition set_nt_replicas (new_topic : rd_kafka_NewTopic_t)
    (rl : list (list Z)) : rd_kafka_NewTopic_t :=
  mk_NewTopic (nt_topic new_topic) (num_partitions new_topic)
              (replication_factor new_topic) rl (nt_config new_topic).

Definition set_nt_config (new_topic : rd_kafka_NewTopic_t)
    (rl : list rd_kafka_ConfigEntry_t) : rd_kafka_NewTopic_t :=
  mk_NewTopic (nt_topic new_topic) (num_partitions new_topic)
              (replication_factor new_topic) (nt_replicas new_topic) rl.

Definition set_np_replicas (newp : rd_kafka_NewPartitions_t)
    (rl : list (list Z)) : rd_kafka_NewPartitions_t :=
  mk_NewPartitions (np_topic newp) (total_cnt newp) rl.

(** [rd_kafka_NewTopic_set_config]. *)
Definition rd_kafka_NewTopic_set_config (new_topic : rd_kafka_NewTopic_t)
    (name value : option string)
  : rd_kafka_resp_err_t * rd_kafka_NewTopic_t :=
  let '(err, rl) :=
    rd_kafka_admin_add_config0 (nt_config new_topic) name value
                               RD_KAFKA_ALTER_OP_ADD in
  (err, set_nt_config new_topic rl).

Section ProtocolLimits.
(** RD_KAFKAP_PARTITIONS_MAX and RD_KAFKAP_BROKERS_MAX are [int] constants
    of rdkafka_proto.h, which is not among the sources; the functions
    that compare against them take them as given. *)
Variables RD_KAFKAP_PARTITIONS_MAX RD_KAFKAP_BROKERS_MAX : Z.

(** [rd_kafka_NewTopic_new]: the new topic, or the text written to
    [errstr] when NULL is returned. The replicas list is preallocated for
    [num_partitions] elements and holds none. *)
Definition rd_kafka_NewTopic_new (topic : option string)
    (num_partitions replication_factor : Z)
  : setter_errstr + rd_kafka_NewTopic_t :=
  match topic with
  | None => inl Errstr_invalid_topic_name
  | Some topic =>
      if (num_partitions <? 1) || (num_partitions >? RD_KAFKAP_PARTITIONS_MAX)
      then inl (Errstr_num_partitions_range 1 RD_KAFKAP_PARTITIONS_MAX)
      else if (replication_factor <? -1)
              || (replication_factor >? RD_KAFKAP_BROKERS_MAX)
      then inl (Errstr_replication_factor_range (-1) RD_KAFKAP_BROKERS_MAX)
      else inr (mk_NewTopic (c_str topic) num_partitions replication_factor
                  [] [])
  end.

(** [rd_kafka_NewTopic_copy]; [None] is a failed [rd_assert (dst)], or a
    NULL copy of a config entry. [rd_list_copy_to] hands every replica
    list to [rd_list_copy_preallocated] (both of rdlist.c); on the
    immutable values of the model the copy of a list of [int32_t] values
    is the list. *)
Definition rd_kafka_NewTopic_copy (src : rd_kafka_NewTopic_t)
  : option rd_kafka_NewTopic_t :=
  match rd_kafka_NewTopic_new (Some (nt_topic src)) (num_partitions src)
          (replication_factor src) with
  | inl _ => None
  | inr dst =>
      match mapM rd_kafka_ConfigEntry_copy (nt_config src) with
      | None => None
      | Some config =>
          Some (set_nt_config (set_nt_replicas dst (nt_replicas src)) config)
      end
  end.

(** [rd_kafka_NewTopic_set_replica_assignment]: the returned code, the
    text written to [errstr] and the topic after the call. The array
    [broker_ids] with its count [broker_id_cnt] is a list. What
    [rd_list_add] does once the preallocated replicas list is full is
    rdlist.c's; the properties of stored assignments are stated for
    partitions below [num_partitions]. *)
Definition rd_kafka_NewTopic_set_replica_assignment
    (new_topic : rd_kafka_NewTopic_t) (partition : Z) (broker_ids : list Z)
  : rd_kafka_resp_err_t * option setter_errstr * rd_kafka_NewTopic_t :=
  let broker_id_cnt := Z.of_nat (length broker_ids) in
  if negb (replication_factor new_topic =? -1) then
    (RD_KAFKA_RESP_ERR__INVALID_ARG, Some Errstr_mutually_exclusive, new_topic)
  else if negb (partition =? rd_list_cnt (nt_replicas new_topic)) then
    (RD_KAFKA_RESP_ERR__INVALID_ARG,
     Some (Errstr_partitions_in_order (rd_list_cnt (nt_replicas new_topic))
             partition),
     new_topic)
  else if broker_id_cnt >? to_size_t RD_KAFKAP_BROKERS_MAX then
    (RD_KAFKA_RESP_ERR__INVALID_ARG,
     Some (Errstr_too_many_brokers RD_KAFKAP_BROKERS_MAX), new_topic)
  else
    let rl := take (Z.to_nat (to_int32 broker_id_cnt)) broker_ids in
    (RD_KAFKA_RESP_ERR_NO_ERROR, None,
     set_nt_replicas new_topic (rd_list_add (nt_replicas new_topic) rl)).

(** [rd_kafka_NewPartitions_new]: the new value or the text written to
    [errstr] when NULL is returned; [None] is the [strlen] of a NULL
    topic. [new_total_cnt] is a [size_t]. *)
Definition rd_kafka_NewPartitions_new (topic : option string)
    (new_total_cnt : Z)
  : option (setter_errstr + rd_kafka_NewPartitions_t) :=
  match topic with
  | None => None
  | Some topic =>
      if (new_total_cnt <? 1)
         || (new_total_cnt >? to_size_t RD_KAFKAP_PARTITIONS_MAX)
      then Some (inl (Errstr_new_total_cnt_range 1 RD_KAFKAP_PARTITIONS_MAX))
      else Some (inr (mk_NewPartitions (c_str topic) new_total_cnt []))
  end.

(** [rd_kafka_NewPartitions_copy]; [None] is a NULL handed back by
    [rd_kafka_NewPartitions_new] and written through. *)
Definition rd_kafka_NewPartitions_copy (src : rd_kafka_NewPartitions_t)
  : option rd_kafka_NewPartitions_t :=
  match rd_kafka_NewPartitions_new (Some (np_topic src)) (total_cnt src) with
  | Some (inr dst) => Some (set_np_replicas dst (np_replicas src))
  | _ => None
  end.

(** [rd_kafka_NewPartitions_set_replica_assignment]. *)
Definition rd_kafka_NewPartitions_set_replica_assignment
    (newp : rd_kafka_NewPartitions_t) (new_partition_idx : Z)
    (broker_ids : list Z)
  : rd_kafka_resp_err_t * option setter_errstr * rd_kafka_NewPartitions_t :=
  let broker_id_cnt := Z.of_nat (length broker_ids) in
  if negb (new_partition_idx =? rd_list_cnt (np_replicas newp)) then
    (RD_KAFKA_RESP_ERR__INVALID_ARG,
     Some (Errstr_partitions_in_order (rd_list_cnt (np_replicas newp))
             new_partition_idx),
     newp)
  else if broker_id_cnt >? to_size_t RD_KAFKAP_BROKERS_MAX then
    (RD_KAFKA_RESP_ERR__INVALID_ARG,
     Some (Errstr_too_many_brokers RD_KAFKAP_BROKERS_MAX), newp)
  else
    let rl := take (Z.to_nat (to_int32 broker_id_cnt)) broker_ids in
    (RD_KAFKA_RESP_ERR_NO_ERROR, None,
     set_np_replicas newp (rd_list_add (np_replicas newp) rl)).

(** Common body of [rd_kafka_CreateTopics], [rd_kafka_DeleteTopics] and
    [rd_kafka_CreatePartitions]: the request op with a copy of every
    element of the array is put on the client's ops queue. [None] is a
    copy that fails. *)
Definition submit_topics {A : Type} (copy : A -> option A)
    (request_timeout_ms : Z) (env : worker_env)
    (optype : rd_kafka_op_type_t) (reply_event_type : rd_kafka_event_type_t)
    (topics : list A) (options : option rd_kafka_AdminOptions_t)
  : option (rd_kafka_op_t A topics_reply) :=
  let rko :=
    rd_kafka_admin_request_op_new request_timeout_ms (rd_clock env) optype
      reply_event_type options in
  match mapM copy topics with
  | None => None
  | Some copies => Some (set_args rko copies)
  end.

Definition rd_kafka_CreateTopics (request_timeout_ms : Z) (env : worker_env)
    (new_topics : list rd_kafka_NewTopic_t)
    (options : option rd_kafka_AdminOptions_t) :=
  submit_topics rd_kafka_NewTopic_copy request_timeout_ms env
    RD_KAFKA_OP_CREATETOPICS RD_KAFKA_EVENT_CREATETOPICS_RESULT
    new_topics options.

Definition rd_kafka_CreatePartitions (request_timeout_ms : Z)
    (env : worker_env) (newps : list rd_kafka_NewPartitions_t)
    (options : option rd_kafka_AdminOptions_t) :=
  submit_topics rd_kafka_NewPartitions_copy request_timeout_ms env
    RD_KAFKA_OP_CREATEPARTITIONS RD_KAFKA_EVENT_CREATEPARTITIONS_RESULT
    newps options.

End ProtocolLimits.

Definition rd_kafka_DeleteTopics (request_timeout_ms : Z) (env : worker_env)
    (del_topics : list rd_kafka_DeleteTopic_t)
    (options : option rd_kafka_AdminOptions_t) :=
  submit_topics rd_kafka_DeleteTopic_copy request_timeout_ms env
    RD_KAFKA_OP_DELETETOPICS RD_KAFKA_EVENT_DELETETOPICS_RESULT
    del_topics options.

(* ===================================================================== *)
(** ** Responses and result accessors *)
(* ===================================================================== *)

Definition set_reply {A B : Type} (rko : rd_kafka_op_t A B)
    (reply : option B) (err : rd_kafka_resp_err_t) : rd_kafka_op_t A B :=
  mk_op (rko_type rko) err (reply_event_type rko) (options rko)
        (broker_id rko) (abs_timeout rko) (state rko) (args rko) reply.

(** [rd_kafka_admin_handle_response]. [rko] is what
    [rd_kafka_enq_once_disable] yields: the request op, or NULL when the
    notifier was triggered before. The calls made by the worker are
    returned with the op as it is left, [None] once it is destroyed; the
    outer [None] is a failed [rd_assert] or a worker run that fails. *)
Definition rd_kafka_admin_handle_response {A B R : Type}
    (cbs : rd_kafka_admin_worker_cbs A B R) (env : worker_env)
    (rko : option (rd_kafka_op_t A B)) (err : rd_kafka_resp_err_t)
    (reply : option B)
  : option (list (action R) * option (rd_kafka_op_t A B)) :=
  match rko with
  | None => Some ([], None)
  | Some rko =>
      if negb (is_null (reply_buf rko)) then None
      else
        match rd_kafka_admin_worker cbs env (set_reply rko reply err) with
        | None => None
        | Some (acts, RD_KAFKA_OP_RES_HANDLED, _) => Some (acts, None)
        | Some (acts, RD_KAFKA_OP_RES_KEEP, rko') => Some (acts, Some rko')
        end
  end.

(** [rd_kafka_admin_result_ret_topics]: the element array and its count;
    [None] is a failed [rd_assert] on the request type. The flag bits that
    the function masks off are not part of the request type of the
    model. *)
Definition rd_kafka_admin_result_ret_topics {R : Type}
    (rko : rd_kafka_admin_result R) : option (rd_list_t R * Z) :=
  match reqtype rko with
  | RD_KAFKA_OP_CREATETOPICS
  | RD_KAFKA_OP_DELETETOPICS
  | RD_KAFKA_OP_CREATEPARTITIONS =>
      Some (results rko, rd_list_cnt (results rko))
  | _ => None
  end.

(** [rd_kafka_admin_result_ret_resources]. *)
Definition rd_kafka_admin_result_ret_resources {R : Type}
    (rko : rd_kafka_admin_result R) : option (rd_list_t R * Z) :=
  match reqtype rko with
  | RD_KAFKA_OP_ALTERCONFIGS
  | RD_KAFKA_OP_DESCRIBECONFIGS =>
      Some (results rko, rd_list_cnt (results rko))
  | _ => None
  end.

(* ===================================================================== *)
(** ** Further notions used in the statements *)
(* ===================================================================== *)

(** The result ops among the calls made: those put on the application's
    queue. *)
Definition results_enqueued {R : Type} (acts : list (action R))
  : list (rd_kafka_admin_result R) :=
  omap (fun a => match a with Admin_result_enq r => Some r | _ => None end)
       acts.

(** The brokers that a request was sent to among the calls made. *)
Definition requests_sent {R : Type} (acts : list (action R))
  : list rd_kafka_broker_t :=
  omap (fun a => match a with Request_sent b => Some b | _ => None end) acts.

(** The broker references released among the calls made. *)
Definition brokers_released {R : Type} (acts : list (action R))
  : list rd_kafka_broker_t :=
  omap (fun a => match a with Broker_destroy b => Some b | _ => None end) acts.

(** A call of one of the setters of a ConfigResource. *)
Inductive config_call :=
| Call_add_config (name value : option string)
| Call_set_config (name value : option string)
| Call_delete_config (name : option string).

Definition apply_config_call (config : rd_kafka_ConfigResource_t)
    (call : config_call) : rd_kafka_resp_err_t * rd_kafka_ConfigResource_t :=
  match call with
  | Call_add_config name value =>
      rd_kafka_ConfigResource_add_config config name value
  | Call_set_config name value =>
      rd_kafka_ConfigResource_set_config config name value
  | Call_delete_config name =>
      rd_kafka_ConfigResource_delete_config config name
  end.

(** The calls made one after the other: the codes returned and the
    resource after the last call. *)
Fixpoint apply_config_calls (config : rd_kafka_ConfigResource_t)
    (calls : list config_call)
  : list rd_kafka_resp_err_t * rd_kafka_ConfigResource_t :=
  match calls with
  | [] => ([], config)
  | call :: calls' =>
      let '(err, config') := apply_config_call config call in
      let '(errs, config'') := apply_config_calls config' calls' in
      (err :: errs, config'')
  end.

(** The entry that a setter call asks for: none when the name is NULL or
    empty, or when [add_config] or [set_config] is given no value. *)
Definition entry_of_call (call : config_call) : option rd_kafka_ConfigEntry_t :=
  let entry name value operation :=
    mk_ConfigEntry (c_str name) (c_str <$> value) operation 0
                   false false false false [] in
  match call with
  | Call_add_config (Some name) (Some value) =>
      if strlen name =? 0 then None
      else Some (entry name (Some value) RD_KAFKA_ALTER_OP_ADD)
  | Call_set_config (Some name) (Some value) =>
      if strlen name =? 0 then None
      else Some (entry name (Some value) RD_KAFKA_ALTER_OP_SET)
  | Call_delete_config (Some name) =>
      if strlen name =? 0 then None
      else Some (entry name None RD_KAFKA_ALTER_OP_DELETE)
  | _ => None
  end.

(** A resource as the application can hold it: made by
    [rd_kafka_ConfigResource_new] and changed by the three setters. *)
Inductive ConfigResource_built : rd_kafka_ConfigResource_t -> Prop :=
| ConfigResource_built_new (restype : Z) (resname : option string)
    (config : rd_kafka_ConfigResource_t) :
    rd_kafka_ConfigResource_new restype resname = Some config ->
    ConfigResource_built config
| ConfigResource_built_call (config : rd_kafka_ConfigResource_t)
    (call : config_call) :
    ConfigResource_built config ->
    ConfigResource_built (snd (apply_config_call config call)).

Section BuiltTopics.
Variables RD_KAFKAP_PARTITIONS_MAX RD_KAFKAP_BROKERS_MAX : Z.

(** Replica assignments given one after the other for the partitions
    [partition], [partition + 1], ...: the codes returned and the topic
    after the last call. *)
Fixpoint NewTopic_assign_replicas (new_topic : rd_kafka_NewTopic_t)
    (partition : Z) (assignments : list (list Z))
  : list rd_kafka_resp_err_t * rd_kafka_NewTopic_t :=
  match assignments with
  | [] => ([], new_topic)
  | broker_ids :: rest =>
      let '(err, _, new_topic') :=
        rd_kafka_NewTopic_set_replica_assignment RD_KAFKAP_BROKERS_MAX
          new_topic partition broker_ids in
      let '(errs, new_topic'') :=
        NewTopic_assign_replicas new_topic' (partition + 1) rest in
      (err :: errs, new_topic'')
  end.

Fixpoint NewPartitions_assign_replicas (newp : rd_kafka_NewPartitions_t)
    (new_partition_idx : Z) (assignments : list (list Z))
  : list rd_kafka_resp_err_t * rd_kafka_NewPartitions_t :=
  match assignments with
  | [] => ([], newp)
  | broker_ids :: rest =>
      let '(err, _, newp') :=
        rd_kafka_NewPartitions_set_replica_assignment RD_KAFKAP_BROKERS_MAX
          newp new_partition_idx broker_ids in
      let '(errs, newp'') :=
        NewPartitions_assign_replicas newp' (new_partition_idx + 1) rest in
      (err :: errs, newp'')
  end.

(** A topic specification as the application can hold it: made by
    [rd_kafka_NewTopic_new] and changed by the two setters. *)
Inductive NewTopic_built : rd_kafka_NewTopic_t -> Prop :=
| NewTopic_built_new (topic : option string)
    (num_partitions replication_factor : Z) (new_topic : rd_kafka_NewTopic_t) :
    rd_kafka_NewTopic_new RD_KAFKAP_PARTITIONS_MAX RD_KAFKAP_BROKERS_MAX
      topic num_partitions replication_factor = inr new_topic ->
    NewTopic_built new_topic
| NewTopic_built_replicas (new_topic : rd_kafka_NewTopic_t) (partition : Z)
    (broker_ids : list Z) :
    NewTopic_built new_topic ->
    NewTopic_built
      (snd (rd_kafka_NewTopic_set_replica_assignment RD_KAFKAP_BROKERS_MAX
              new_topic partition broker_ids))
| NewTopic_built_config (new_topic : rd_kafka_NewTopic_t)
    (name value : option string) :
    NewTopic_built new_topic ->
    NewTopic_built (snd (rd_kafka_NewTopic_set_config new_topic name value)).

(** A partition specification as the application can hold it. *)
Inductive NewPartitions_built : rd_kafka_NewPartitions_t -> Prop :=
| NewPartitions_built_new (topic : option string) (new_total_cnt : Z)
    (newp : rd_kafka_NewPartitions_t) :
    rd_kafka_NewPartitions_new RD_KAFKAP_PARTITIONS_MAX topic new_total_cnt
    = Some (inr newp) ->
    NewPartitions_built newp
| NewPartitions_built_replicas (newp : rd_kafka_NewPartitions_t)
    (new_partition_idx : Z) (broker_ids : list Z) :
    NewPartitions_built newp ->
    NewPartitions_built
      (snd (rd_kafka_NewPartitions_set_replica_assignment
              RD_KAFKAP_BROKERS_MAX newp new_partition_idx broker_ids)).

End BuiltTopics.

(** A topic to delete as the application can hold it. *)
Definition DeleteTopic_built (del_topic : rd_kafka_DeleteTopic_t) : Prop :=
  exists topic, rd_kafka_DeleteTopic_new topic = Some del_topic.

(** [dst] is [src] with its strings cut at the first NUL, synonyms
    included. *)
#[warnings="-register-all"] Inductive ConfigEntry_same
  : rd_kafka_ConfigEntry_t -> rd_kafka_ConfigEntry_t -> Prop :=
| ConfigEntry_same_intro (src dst : rd_kafka_ConfigEntry_t) :
    kv_name dst = c_str (kv_name src) ->
    kv_value dst = (c_str <$> kv_value src) ->
    a_operation dst = a_operation src ->
    a_source dst = a_source src ->
    a_is_readonly dst = a_is_readonly src ->
    a_is_default dst = a_is_default src ->
    a_is_sensitive dst = a_is_sensitive src ->
    a_is_synonym dst = a_is_synonym src ->
    Forall2 ConfigEntry_same (synonyms src) (synonyms dst) ->
    ConfigEntry_same src dst.

(** An entry made by a setter: its strings are C strings and it has no
    synonyms. *)
Definition plain_entry (entry : rd_kafka_ConfigEntry_t) : Prop :=
  c_str (kv_name entry) = kv_name entry
  /\ (c_str <$> kv_value entry) = kv_value entry
  /\ synonyms entry = [].

(** The key by which a resource is looked up: its type and its name as a C
    string. *)
Definition resource_key (r : rd_kafka_ConfigResource_t) : Z * string :=
  (cr_restype r, c_str (cr_name r)).

(** The key of the resource that a reply element names. *)
Definition resource_elem_key (e : resource_elem) : Z * string :=
  (res_type e, c_str (kstr_bytes (kres_name e))).

(** How a synonym entry mirrors the element [s] it was read from. *)
Definition synonym_mirrors (s : synonym_elem) (syn : rd_kafka_ConfigEntry_t)
  : Prop :=
  syn_name s = Some (kv_name syn)
  /\ kv_value syn = syn_value s
  /\ a_source syn = syn_source s
  /\ a_is_synonym syn = true
  /\ a_is_readonly syn = false
  /\ a_is_sensitive syn = false
  /\ synonyms syn = [].

(** The number of synonyms that the parser reads for the entry [c]. *)
Definition synonyms_read (reply : configs_reply) (c : entry_elem) : nat :=
  if ApiVersion reply =? 1 then Z.to_nat (syn_cnt c) else 0%nat.

(** How a config entry mirrors the element [c] it was read from. *)
Definition entry_mirrors (reply : configs_reply) (c : entry_elem)
    (entry : rd_kafka_ConfigEntry_t) : Prop :=
  config_name c = Some (kv_name entry)
  /\ kv_value entry = config_value c
  /\ a_is_readonly entry = read_bool (is_readonly c)
  /\ a_is_sensitive entry = read_bool (is_sensitive c)
  /\ a_is_synonym entry = false
  /\ length (synonyms entry) = synonyms_read reply c
  /\ Forall2 synonym_mirrors (take (synonyms_read reply c) (syn_elems c))
       (synonyms entry)
  /\ (ApiVersion reply = 1 -> syn_cnt c <= 100000).

(** The text that goes with the error code of a result: none without an
    error, the description of the code when the broker's message [msg] is
    null or empty, the broker's message otherwise. *)
Definition error_text (err : rd_kafka_resp_err_t) (msg : rd_kafkap_str_t)
  : option errstr_t :=
  if err =? 0 then None
  else
    match msg with
    | None => Some (Err2str err)
    | Some m =>
        if (String.length m =? 0)%nat then Some (Err2str err)
        else Some (Errmsg (c_str m))
    end.

(** The result op [r] names the request op [rko] it answers: the reply
    event kind, the request kind and the application's opaque are those of
    the request. *)
Definition answers_request {A B R : Type} (rko : rd_kafka_op_t A B)
    (r : rd_kafka_admin_result R) : Prop :=
  rko_evtype r = reply_event_type rko
  /\ reqtype r = rko_type rko
  /\ result_opaque r = opaque (options rko).

(** The bytes of the C string held by [s], in lower case. *)
Fixpoint lower_case (s : string) : list Z :=
  match s with
  | EmptyString => []
  | String c s' => if tolower c =? 0 then [] else tolower c :: lower_case s'
  end.

(** The options that an API has besides [request_timeout], [broker] and
    [opaque]: whether [operation_timeout], [validate_only] and
    [incremental] are enabled. *)
Definition enabled_options (o : rd_kafka_AdminOptions_t) : bool * bool * bool :=
  (is_enabled (operation_timeout o), is_enabled (validate_only o),
   is_enabled (incremental o)).

(** The APIs and, for each, whether [operation_timeout], [validate_only]
    and [incremental] apply to it. *)
Definition options_table : list (string * (bool * bool * bool)) :=
  [("CreateTopics", (true, true, false));
   ("DeleteTopics", (true, false, false));
   ("CreatePartitions", (true, true, false));
   ("AlterConfigs", (false, true, true));
   ("DescribeConfigs", (false, false, false))].

(* ===================================================================== *)
(** ** Further sample values *)
(* ===================================================================== *)

(** A client whose controller (broker 7) and broker 3 are up. *)
Definition sample_env_up : worker_env :=
  mk_env false 1000 (fun id => if id =? 3 then Some 3 else None) (Some 7) false.

Definition sample_init_op (explicit_broker : Z) : rd_kafka_op_t unit unit :=
  rd_kafka_admin_request_op_new 5000 0 RD_KAFKA_OP_DELETETOPICS
    RD_KAFKA_EVENT_DELETETOPICS_RESULT
    (Some (snd (rd_kafka_AdminOptions_set_broker
                  (rd_kafka_AdminOptions_init 5000 None) explicit_broker))).

Definition sample_built_resource : rd_kafka_ConfigResource_t :=
  snd (apply_config_call (sample_resource RD_KAFKA_RESOURCE_TOPIC "t")
         (Call_set_config (Some "retention.ms") (Some "1000"))).

Definition sample_del_topics : list rd_kafka_DeleteTopic_t :=
  [mk_DeleteTopic "beta"; mk_DeleteTopic "alpha"].

(** The broker's reply to the deletion of "beta" and "alpha", in the
    other order. *)
Definition sample_topics_reply : topics_reply :=
  mk_buf 1 0 2 [sample_topic "alpha" 0; sample_topic "beta" 3].

(** Two resources, and the broker's reply to their alteration, in the
    other order. *)
Definition sample_two_resources : list rd_kafka_ConfigResource_t :=
  [sample_resource RD_KAFKA_RESOURCE_TOPIC "t";
   sample_resource RD_KAFKA_RESOURCE_BROKER "1"].

Definition sample_resources_reply : configs_reply :=
  mk_buf 0 0 2
    [mk_resource_elem 0 None RD_KAFKA_RESOURCE_BROKER (Some "1") 0 [];
     mk_resource_elem 40 (Some "bad value") RD_KAFKA_RESOURCE_TOPIC (Some "t")
       0 []].

Definition sample_described : rd_kafka_ConfigResource_t :=
  mk_ConfigResource RD_KAFKA_RESOURCE_TOPIC "t"
    [mk_ConfigEntry "retention.ms" (Some "1000") RD_KAFKA_ALTER_OP_ADD 1
       false false false false
       [mk_ConfigEntry "log.retention.ms" (Some "2000") RD_KAFKA_ALTER_OP_ADD
          RD_KAFKA_CONFIG_SOURCE_DEFAULT_CONFIG false false false true []]]
    RD_KAFKA_RESP_ERR_NO_ERROR None.

(* ===================================================================== *)
(** * Properties *)
(* ===================================================================== *)

(** ** Enum names *)

Lemma to_unsigned_nonneg (x : Z) :
  0 <= x <= INT32_MAX -> to_unsigned x = x.
Proof.
  unfold to_unsigned, INT32_MAX. intros H. apply Z.mod_small. lia.
Qed.

Lemma to_unsigned_neg (x : Z) :
  INT32_MIN <= x < 0 -> to_unsigned x = x + 4294967296.
Proof.
  unfold to_unsigned, INT32_MIN. intros H.
  Z.div_mod_to_equations. lia.
Qed.

Lemma enum_name_lookup (names : list string) (cnt x : Z) :
  cnt = Z.of_nat (length names) -> cnt <= INT32_MAX -> is_int x ->
  (if to_unsigned x >=? to_unsigned cnt then Some "UNSUPPORTED"
   else array_get names x)
  = if (0 <=? x) && (x <? cnt) then names !! Z.to_nat x
    else Some "UNSUPPORTED".
Proof.
  intros Hcnt Hmax [Hlo Hhi].
  assert (Hc : to_unsigned cnt = cnt) by (apply to_unsigned_nonneg; lia).
  rewrite Hc. unfold array_get.
  destruct (Z.ltb_spec x 0) as [Hneg | Hpos].
  - rewrite to_unsigned_neg by lia.
    replace (0 <=? x) with false by (symmetry; apply Z.leb_gt; lia).
    simpl. unfold INT32_MIN in Hlo. unfold INT32_MAX in Hmax.
    destruct (Z.geb_spec (x + 4294967296) cnt); [reflexivity | lia].
  - rewrite to_unsigned_nonneg by lia.
    replace (0 <=? x) with true by (symmetry; apply Z.leb_le; lia).
    simpl. destruct (Z.geb_spec x cnt), (Z.ltb_spec x cnt);
      try reflexivity; lia.
Qed.

(** C10. [rd_kafka_ConfigSource_name] and [rd_kafka_ResourceType_name]
    are total on every [int] value: a member of the enumeration (0 up to
    but excluding its count) yields the entry of the name table at that
    index, any other value (negative ones read as unsigned included)
    yields "UNSUPPORTED", and no read falls outside the table. *)
Theorem enum_names_total (x : Z) :
  is_int x ->
  (rd_kafka_ConfigSource_name x
   = (if (0 <=? x) && (x <? RD_KAFKA_CONFIG_SOURCE__CNT)
      then ConfigSource_names !! Z.to_nat x else Some "UNSUPPORTED")
   /\ is_Some (rd_kafka_ConfigSource_name x))
  /\ (rd_kafka_ResourceType_name x
      = (if (0 <=? x) && (x <? RD_KAFKA_RESOURCE__CNT)
         then ResourceType_names !! Z.to_nat x else Some "UNSUPPORTED")
      /\ is_Some (rd_kafka_ResourceType_name x)).
Proof.
  intros Hx.
  assert (Hs : rd_kafka_ConfigSource_name x
               = if (0 <=? x) && (x <? RD_KAFKA_CONFIG_SOURCE__CNT)
                 then ConfigSource_names !! Z.to_nat x
                 else Some "UNSUPPORTED").
  { apply enum_name_lookup;
      [reflexivity
      | unfold RD_KAFKA_CONFIG_SOURCE__CNT, RD_KAFKA_RESOURCE__CNT, INT32_MAX; lia
      | exact Hx]. }
  assert (Hr : rd_kafka_ResourceType_name x
               = if (0 <=? x) && (x <? RD_KAFKA_RESOURCE__CNT)
                 then ResourceType_names !! Z.to_nat x
                 else Some "UNSUPPORTED").
  { apply enum_name_lookup;
      [reflexivity
      | unfold RD_KAFKA_CONFIG_SOURCE__CNT, RD_KAFKA_RESOURCE__CNT, INT32_MAX; lia
      | exact Hx]. }
  split; (split; [assumption |]).
  - rewrite Hs.
    destruct (Z.leb_spec 0 x), (Z.ltb_spec x RD_KAFKA_CONFIG_SOURCE__CNT);
      simpl; eauto.
    apply lookup_lt_is_Some. unfold RD_KAFKA_CONFIG_SOURCE__CNT in *.
    simpl. lia.
  - rewrite Hr.
    destruct (Z.leb_spec 0 x), (Z.ltb_spec x RD_KAFKA_RESOURCE__CNT);
      simpl; eauto.
    apply lookup_lt_is_Some. unfold RD_KAFKA_RESOURCE__CNT in *.
    simpl. lia.
Qed.

Lemma enum_names_total_witness :
  (rd_kafka_ConfigSource_name (-1)
   = (if (0 <=? -1) && (-1 <? RD_KAFKA_CONFIG_SOURCE__CNT)
      then ConfigSource_names !! Z.to_nat (-1) else Some "UNSUPPORTED")
   /\ is_Some (rd_kafka_ConfigSource_name (-1)))
  /\ (rd_kafka_ResourceType_name (-1)
      = (if (0 <=? -1) && (-1 <? RD_KAFKA_RESOURCE__CNT)
         then ResourceType_names !! Z.to_nat (-1) else Some "UNSUPPORTED")
      /\ is_Some (rd_kafka_ResourceType_name (-1))).
Proof.
  apply (enum_names_total (-1)). unfold is_int, INT32_MIN, INT32_MAX. lia.
Defined.

Example ConfigSource_name_default :
  rd_kafka_ConfigSource_name RD_KAFKA_CONFIG_SOURCE_DEFAULT_CONFIG
  = Some "DEFAULT_CONFIG".
Proof. reflexivity. Qed.

Example ResourceType_name_broker :
  rd_kafka_ResourceType_name RD_KAFKA_RESOURCE_BROKER = Some "BROKER".
Proof. reflexivity. Qed.

Example ResourceType_name_cnt :
  rd_kafka_ResourceType_name RD_KAFKA_RESOURCE__CNT = Some "UNSUPPORTED".
Proof. reflexivity. Qed.

(** ** Accessors of empty sequences *)

(** C9. [rd_kafka_ConfigEntry_synonyms] and
    [rd_kafka_ConfigResource_configs] return NULL with a count of 0 for an
    empty list, and for a non-empty list the elements with their number:
    a non-null array is never handed out for an empty sequence. *)
Theorem empty_sequence_is_null (entry : rd_kafka_ConfigEntry_t)
    (config : rd_kafka_ConfigResource_t) :
  rd_kafka_ConfigEntry_synonyms entry
  = match synonyms entry with
    | [] => (None, 0)
    | _ :: _ => (Some (synonyms entry), Z.of_nat (length (synonyms entry)))
    end
  /\ rd_kafka_ConfigResource_configs config
     = match cr_config config with
       | [] => (None, 0)
       | _ :: _ => (Some (cr_config config),
                    Z.of_nat (length (cr_config config)))
       end
  /\ (forall arr cnt,
        rd_kafka_ConfigEntry_synonyms entry = (Some arr, cnt) ->
        arr <> [] /\ 0 < cnt)
  /\ (forall arr cnt,
        rd_kafka_ConfigResource_configs config = (Some arr, cnt) ->
        arr <> [] /\ 0 < cnt).
Proof.
  unfold rd_kafka_ConfigEntry_synonyms, rd_kafka_ConfigResource_configs,
    rd_list_cnt.
  destruct (synonyms entry) as [| s ss], (cr_config config) as [| c cs];
    simpl length; (split; [reflexivity |]); (split; [reflexivity |]);
    (split; intros arr cnt H; cbn in H; inversion H; subst;
     (split; [discriminate | lia])).
Qed.

Lemma empty_sequence_is_null_witness :
  rd_kafka_ConfigEntry_synonyms
    (mk_ConfigEntry "k" None RD_KAFKA_ALTER_OP_ADD 0 false false false false [])
  = (None, 0)
  /\ rd_kafka_ConfigResource_configs
       (sample_resource RD_KAFKA_RESOURCE_TOPIC "t")
     = (None, 0).
Proof.
  split.
  - apply (proj1 (empty_sequence_is_null
                    (mk_ConfigEntry "k" None RD_KAFKA_ALTER_OP_ADD 0 false false
                       false false [])
                    (sample_resource RD_KAFKA_RESOURCE_TOPIC "t"))).
  - apply (proj1 (proj2 (empty_sequence_is_null
                           (mk_ConfigEntry "k" None RD_KAFKA_ALTER_OP_ADD 0
                              false false false false [])
                           (sample_resource RD_KAFKA_RESOURCE_TOPIC "t")))).
Defined.

(** ** The worker's checks on entry *)

(** C1. When the client is not terminating and the op's error is not
    DESTROY, the worker checks the error before the deadline: a non-zero
    error posts a failure result with that code and dismantles the request;
    otherwise a deadline that is not ahead of the clock posts a TIMED_OUT
    failure result and dismantles the request; only otherwise is the
    request's state dispatched on. *)
Theorem worker_checks_error_then_deadline {A B R : Type}
    (cbs : rd_kafka_admin_worker_cbs A B R) (env : worker_env)
    (rko : rd_kafka_op_t A B) :
  rd_kafka_terminating env = false ->
  rko_err rko <> RD_KAFKA_RESP_ERR__DESTROY ->
  (rko_err rko <> 0 ->
   exists rko_result,
     rd_kafka_admin_worker cbs env rko
     = Some (Admin_result_enq rko_result
               :: rd_kafka_admin_common_worker_destroy env,
             RD_KAFKA_OP_RES_HANDLED, rko)
     /\ result_err rko_result = rko_err rko
     /\ rko_evtype rko_result = reply_event_type rko
     /\ results rko_result = [])
  /\ (rko_err rko = 0 -> abs_timeout rko <= rd_clock env ->
      exists rko_result,
        rd_kafka_admin_worker cbs env rko
        = Some (Admin_result_enq rko_result
                  :: rd_kafka_admin_common_worker_destroy env,
                RD_KAFKA_OP_RES_HANDLED, rko)
        /\ result_err rko_result = RD_KAFKA_RESP_ERR__TIMED_OUT
        /\ rko_evtype rko_result = reply_event_type rko
        /\ results rko_result = [])
  /\ (rko_err rko = 0 -> rd_clock env < abs_timeout rko ->
      rd_kafka_admin_worker cbs env rko
      = worker_dispatch cbs env (abs_timeout rko - rd_clock env) rko).
Proof.
  intros Hterm Hdestroy. unfold rd_kafka_admin_worker. rewrite Hterm.
  destruct (Z.eqb_spec (rko_err rko) RD_KAFKA_RESP_ERR__DESTROY) as [E | _];
    [contradiction |].
  unfold rd_timeout_remains_us.
  repeat split.
  - intros Herr.
    destruct (Z.eqb_spec (rko_err rko) 0) as [E | _]; [contradiction |].
    simpl negb. cbv iota. eexists. split; [reflexivity |].
    repeat split.
  - intros Herr Hpast. rewrite Herr. simpl negb. cbv iota.
    destruct (Z.leb_spec (abs_timeout rko - rd_clock env) 0); [| lia].
    eexists. split; [reflexivity |]. repeat split.
  - intros Herr Hahead. rewrite Herr. simpl negb. cbv iota.
    destruct (Z.leb_spec (abs_timeout rko - rd_clock env) 0); [lia |].
    reflexivity.
Qed.

Lemma worker_checks_error_then_deadline_witness :
  rd_kafka_admin_worker sample_cbs sample_env_timer
    (sample_worker_op RD_KAFKA_RESP_ERR__TIMED_OUT 5000)
  = Some ([Admin_result_enq
             (mk_result RD_KAFKA_EVENT_DELETETOPICS_RESULT
                RD_KAFKA_OP_DELETETOPICS 0 RD_KAFKA_RESP_ERR__TIMED_OUT
                (Some (Errstr_failed_while RD_KAFKA_ADMIN_STATE_WAIT_CONTROLLER
                         RD_KAFKA_RESP_ERR__TIMED_OUT)) []);
           Timer_stop; Enq_once_del_source "timeout timer"; Enq_once_destroy],
          RD_KAFKA_OP_RES_HANDLED,
          sample_worker_op RD_KAFKA_RESP_ERR__TIMED_OUT 5000)
  /\ rd_kafka_admin_worker sample_cbs sample_env_timer (sample_worker_op 0 5000)
     = worker_dispatch sample_cbs sample_env_timer (5000 - 1000) (sample_worker_op 0 5000).
Proof.
  split; [reflexivity |].
  apply (worker_checks_error_then_deadline sample_cbs sample_env_timer
           (sample_worker_op 0 5000)); [reflexivity | discriminate | reflexivity |].
  simpl. lia.
Defined.

Example worker_error_wins_over_deadline :
  rd_kafka_admin_worker sample_cbs sample_env_timer (sample_worker_op (-195) 0)
  = Some ([Admin_result_enq
             (mk_result RD_KAFKA_EVENT_DELETETOPICS_RESULT
                RD_KAFKA_OP_DELETETOPICS 0 (-195)
                (Some (Errstr_failed_while RD_KAFKA_ADMIN_STATE_WAIT_CONTROLLER
                         (-195))) []);
           Timer_stop; Enq_once_del_source "timeout timer"; Enq_once_destroy],
          RD_KAFKA_OP_RES_HANDLED, sample_worker_op (-195) 0).
Proof. reflexivity. Qed.

Example worker_deadline_passed :
  rd_kafka_admin_worker sample_cbs sample_env_timer (sample_worker_op 0 1000)
  = Some ([Admin_result_enq
             (mk_result RD_KAFKA_EVENT_DELETETOPICS_RESULT
                RD_KAFKA_OP_DELETETOPICS 0 RD_KAFKA_RESP_ERR__TIMED_OUT
                (Some (Errstr_timed_out RD_KAFKA_ADMIN_STATE_WAIT_CONTROLLER))
                []);
           Timer_stop; Enq_once_del_source "timeout timer"; Enq_once_destroy],
          RD_KAFKA_OP_RES_HANDLED, sample_worker_op 0 1000).
Proof. reflexivity. Qed.

Example worker_init_sends_request :
  rd_kafka_admin_worker (DeleteTopics_cbs (fun _ _ _ => (0, EmptyString)))
    (mk_env false 1000 (fun _ => None) (Some 1) true)
    (mk_op RD_KAFKA_OP_DELETETOPICS 0 RD_KAFKA_EVENT_DELETETOPICS_RESULT
       (sample_options 0) (-1) 5000 RD_KAFKA_ADMIN_STATE_INIT
       [mk_DeleteTopic "a"] None)
  = Some ([Enq_once_add_source "timeout timer"; Timer_start_oneshot 4000;
           Enq_once_reenable; Enq_once_add_source "send"; Request_sent 1;
           Broker_destroy 1],
          RD_KAFKA_OP_RES_KEEP,
          mk_op RD_KAFKA_OP_DELETETOPICS 0 RD_KAFKA_EVENT_DELETETOPICS_RESULT
            (sample_options 0) (-1) 5000 RD_KAFKA_ADMIN_STATE_WAIT_RESPONSE
            [mk_DeleteTopic "a"] None).
Proof. reflexivity. Qed.

Example worker_waits_for_controller :
  rd_kafka_admin_worker (DeleteTopics_cbs (fun _ _ _ => (0, EmptyString)))
    sample_env_timer
    (mk_op RD_KAFKA_OP_DELETETOPICS 0 RD_KAFKA_EVENT_DELETETOPICS_RESULT
       (sample_options 0) (-1) 5000 RD_KAFKA_ADMIN_STATE_INIT
       [mk_DeleteTopic "a"] None)
  = Some ([Enq_once_add_source "timeout timer"; Timer_start_oneshot 4000;
           Enq_once_reenable],
          RD_KAFKA_OP_RES_KEEP,
          mk_op RD_KAFKA_OP_DELETETOPICS 0 RD_KAFKA_EVENT_DELETETOPICS_RESULT
            (sample_options 0) (-1) 5000 RD_KAFKA_ADMIN_STATE_WAIT_CONTROLLER
            [mk_DeleteTopic "a"] None).
Proof. reflexivity. Qed.

Example worker_delivers_parsed_result :
  rd_kafka_admin_worker (DeleteTopics_cbs (fun _ _ _ => (0, EmptyString)))
    sample_env_timer
    (mk_op RD_KAFKA_OP_DELETETOPICS 0 RD_KAFKA_EVENT_DELETETOPICS_RESULT
       (sample_options 0) (-1) 5000 RD_KAFKA_ADMIN_STATE_WAIT_RESPONSE
       [mk_DeleteTopic "a"] (Some (mk_buf 1 0 1 [sample_topic "a" 0])))
  = Some ([Admin_result_enq
             (sample_result RD_KAFKA_EVENT_DELETETOPICS_RESULT
                RD_KAFKA_OP_DELETETOPICS [Some (mk_topic_result "a" 0 None)]);
           Timer_stop; Enq_once_del_source "timeout timer"; Enq_once_destroy],
          RD_KAFKA_OP_RES_HANDLED,
          mk_op RD_KAFKA_OP_DELETETOPICS 0 RD_KAFKA_EVENT_DELETETOPICS_RESULT
            (sample_options 0) (-1) 5000 RD_KAFKA_ADMIN_STATE_WAIT_RESPONSE
            [mk_DeleteTopic "a"] (Some (mk_buf 1 0 1 [sample_topic "a" 0]))).
Proof. reflexivity. Qed.

(** ** The broker option *)

Lemma confval_set_type_int (name : string) (lo hi def value : Z) :
  rd_kafka_confval_set_type (rd_kafka_confval_init_int name lo hi def) value
  = if ((lo <=? value) && (value <=? hi)) || (value =? def)
    then (RD_KAFKA_RESP_ERR_NO_ERROR, mk_confval name true true lo hi def value)
    else (RD_KAFKA_RESP_ERR__INVALID_ARG,
          rd_kafka_confval_init_int name lo hi def).
Proof. reflexivity. Qed.

(** C8. Whatever the API the options are made for, setting the broker
    option to [b] succeeds exactly when [b] is between 0 and INT32_MAX or
    is -1, a refused value is answered with INVALID_ARG and leaves the
    option as it was, an accepted value is the one read back, and the
    option's default is -1. *)
Theorem set_broker_accepts (request_timeout_ms : Z) (api : option string)
    (b : Z) :
  (fst (rd_kafka_AdminOptions_set_broker
          (rd_kafka_AdminOptions_init request_timeout_ms api) b)
   = RD_KAFKA_RESP_ERR_NO_ERROR
   <-> (0 <= b <= INT32_MAX \/ b = -1))
  /\ rd_kafka_AdminOptions_set_broker
       (rd_kafka_AdminOptions_init request_timeout_ms api) b
     = (if ((0 <=? b) && (b <=? INT32_MAX)) || (b =? -1)
        then (RD_KAFKA_RESP_ERR_NO_ERROR,
              set_broker_confval
                (rd_kafka_AdminOptions_init request_timeout_ms api)
                (mk_confval "broker" true true 0 INT32_MAX (-1) b))
        else (RD_KAFKA_RESP_ERR__INVALID_ARG,
              rd_kafka_AdminOptions_init request_timeout_ms api))
  /\ rd_kafka_confval_get_int
       (broker (rd_kafka_AdminOptions_init request_timeout_ms api)) = -1.
Proof.
  assert (Hset : rd_kafka_AdminOptions_set_broker
                   (rd_kafka_AdminOptions_init request_timeout_ms api) b
                 = if ((0 <=? b) && (b <=? INT32_MAX)) || (b =? -1)
                   then (RD_KAFKA_RESP_ERR_NO_ERROR,
                         set_broker_confval
                           (rd_kafka_AdminOptions_init request_timeout_ms api)
                           (mk_confval "broker" true true 0 INT32_MAX (-1) b))
                   else (RD_KAFKA_RESP_ERR__INVALID_ARG,
                         rd_kafka_AdminOptions_init request_timeout_ms api)).
  { unfold rd_kafka_AdminOptions_set_broker.
    cbn [broker rd_kafka_AdminOptions_init].
    rewrite confval_set_type_int.
    destruct (((0 <=? b) && (b <=? INT32_MAX)) || (b =? -1)); reflexivity. }
  split; [| split; [exact Hset | reflexivity]].
  rewrite Hset.
  destruct (Z.leb_spec 0 b), (Z.leb_spec b INT32_MAX), (Z.eqb_spec b (-1));
    simpl; split; intros Hb; try reflexivity; try discriminate Hb; lia.
Qed.

(** With the default of -1 and no BROKER resource the INIT state goes on
    to look up the controller. *)
Lemma default_broker_is_controller {A B R : Type}
    (cbs : rd_kafka_admin_worker_cbs A B R) (env : worker_env)
    (request_timeout_ms now timeout_in : Z) (optype : rd_kafka_op_type_t)
    (evtype : rd_kafka_event_type_t) :
  worker_dispatch cbs env timeout_in
    (rd_kafka_admin_request_op_new request_timeout_ms now optype evtype None)
  = worker_wait_controller cbs env
      [Enq_once_add_source "timeout timer"; Timer_start_oneshot timeout_in]
      (set_state
         (rd_kafka_admin_request_op_new request_timeout_ms now optype evtype
            None)
         RD_KAFKA_ADMIN_STATE_WAIT_CONTROLLER).
Proof. reflexivity. Qed.

(** ** rd_list_t facts *)

Section RdList.
Context {A : Type}.

Lemma rd_list_index_from_spec (rl : list A) (cmp : A -> Z) (i0 : Z) :
  (rd_list_index_from rl cmp i0 = -1 /\ Forall (fun a => cmp a <> 0) rl)
  \/ (exists (k : nat) (a : A),
        rd_list_index_from rl cmp i0 = i0 + Z.of_nat k
        /\ rl !! k = Some a /\ cmp a = 0
        /\ forall (j : nat) (a' : A), (j < k)%nat -> rl !! j = Some a' -> cmp a' <> 0).
Proof.
  revert i0. induction rl as [| x rl IH]; intros i0; simpl.
  - left. split; [reflexivity | constructor].
  - destruct (Z.eqb_spec (cmp x) 0) as [E | NE].
    + right. exists O, x. repeat split; [lia | assumption |].
      intros j a' Hj. lia.
    + destruct (IH (i0 + 1)) as [[Hm Hall] | (k & a & Hk & Ha & Hc & Hfirst)].
      * left. split; [assumption | constructor; assumption].
      * right. exists (S k), a. repeat split; [lia | assumption | assumption |].
        intros [| j] a' Hj Hl; simpl in Hl.
        -- inversion Hl; subst. assumption.
        -- apply (Hfirst j a'); [lia | assumption].
Qed.

Lemma rd_list_index_spec (rl : list A) (cmp : A -> Z) :
  (rd_list_index rl cmp = -1 /\ Forall (fun a => cmp a <> 0) rl)
  \/ (exists (k : nat) (a : A),
        rd_list_index rl cmp = Z.of_nat k
        /\ rl !! k = Some a /\ cmp a = 0
        /\ forall (j : nat) (a' : A), (j < k)%nat -> rl !! j = Some a' -> cmp a' <> 0).
Proof.
  unfold rd_list_index.
  destruct (rd_list_index_from_spec rl cmp 0) as [H | (k & a & H)];
    [left; assumption | right; exists k, a; assumption].
Qed.

Lemma rd_list_elem_of_nat (rl : rd_list_t A) (k : nat) :
  rd_list_elem rl (Z.of_nat k) = mjoin (rl !! k).
Proof.
  unfold rd_list_elem.
  destruct (Z.ltb_spec (Z.of_nat k) 0); [lia |].
  rewrite Nat2Z.id. reflexivity.
Qed.

Lemma rd_list_set_length (rl : rd_list_t A) (k : nat) (x : A) :
  length (rd_list_set rl (Z.of_nat k) x) = Nat.max (length rl) (S k).
Proof.
  unfold rd_list_set. rewrite Nat2Z.id.
  destruct (Nat.leb_spec (length rl) k).
  - rewrite !length_app, length_replicate. simpl. lia.
  - rewrite length_insert. lia.
Qed.

Lemma rd_list_set_lookup_eq (rl : rd_list_t A) (k : nat) (x : A) :
  rd_list_set rl (Z.of_nat k) x !! k = Some (Some x).
Proof.
  unfold rd_list_set. rewrite Nat2Z.id.
  destruct (Nat.leb_spec (length rl) k).
  - rewrite lookup_app_r by lia.
    rewrite lookup_app_r by (rewrite length_replicate; lia).
    rewrite length_replicate.
    replace (k - length rl - (k - length rl))%nat with O by lia. reflexivity.
  - apply list_lookup_insert_eq. assumption.
Qed.

Lemma rd_list_set_lookup_ne (rl : rd_list_t A) (k j : nat) (x y : A) :
  j <> k ->
  rd_list_set rl (Z.of_nat k) x !! j = Some (Some y) <-> rl !! j = Some (Some y).
Proof.
  intros Hne. unfold rd_list_set. rewrite Nat2Z.id.
  destruct (Nat.leb_spec (length rl) k).
  - destruct (Nat.lt_ge_cases j (length rl)) as [Hlt | Hge].
    + rewrite lookup_app_l by assumption. reflexivity.
    + rewrite lookup_app_r by lia.
      rewrite (lookup_ge_None_2 rl j) by lia.
      destruct (Nat.lt_ge_cases (j - length rl) (k - length rl)) as [Hlt | Hge'].
      * rewrite lookup_app_l by (rewrite length_replicate; lia).
        rewrite lookup_replicate_2 by lia. split; discriminate.
      * rewrite lookup_app_r by (rewrite length_replicate; lia).
        rewrite length_replicate.
        rewrite lookup_ge_None_2 by (simpl; lia). split; discriminate.
  - rewrite list_lookup_insert_ne by lia. reflexivity.
Qed.

Lemma set_slots_insert (rl : rd_list_t A) (k : nat) (x : A) :
  rl !! k = Some None ->
  length (set_slots (<[k := Some x]> rl)) = S (length (set_slots rl)).
Proof.
  revert k. induction rl as [| o rl IH]; intros k Hk; [discriminate |].
  destruct k as [| k]; simpl in *.
  - inversion Hk; subst. reflexivity.
  - unfold set_slots in *. simpl. 
    destruct o; simpl; rewrite (IH k Hk); reflexivity.
Qed.

Lemma set_slots_set (rl : rd_list_t A) (k : nat) (x : A) :
  mjoin (rl !! k) = None ->
  length (set_slots (rd_list_set rl (Z.of_nat k) x)) = S (length (set_slots rl)).
Proof.
  intros Hnull. unfold rd_list_set. rewrite Nat2Z.id.
  destruct (Nat.leb_spec (length rl) k).
  - unfold set_slots. rewrite !omap_app, !length_app.
    assert (Hrep : forall n, omap id (replicate n (@None A)) = []).
    { induction n; simpl; auto. }
    rewrite Hrep. simpl. lia.
  - apply set_slots_insert.
    destruct (rl !! k) as [[a |] |] eqn:E; simpl in Hnull;
      [discriminate | reflexivity |].
    apply lookup_ge_None in E. lia.
Qed.

Lemma set_slots_le (rl : rd_list_t A) :
  (length (set_slots rl) <= length rl)%nat.
Proof.
  induction rl as [| [a |] rl IH]; simpl; unfold set_slots in *; simpl; lia.
Qed.

Lemma set_slots_full (rl : rd_list_t A) :
  length (set_slots rl) = length rl ->
  forall i, (i < length rl)%nat -> exists x, rl !! i = Some (Some x).
Proof.
  induction rl as [| [a |] rl IH]; intros Hlen i Hi; simpl in *.
  - lia.
  - destruct i as [| i]; [eauto |].
    apply IH; [unfold set_slots in *; simpl in Hlen; lia | lia].
  - pose proof (set_slots_le rl). unfold set_slots in *. simpl in Hlen. lia.
Qed.
End RdList.

(** ** The loop that places results *)

Section PlaceLoop.
Context {E A R : Type}.
Variable rko_args : list A.
Variable read : E -> parse_result (option R).
Variable cmp : R -> A -> Z.
Variables not_in_request multiple_times : E -> parse_failure.

Local Abbreviation step :=
  (place_step rko_args read cmp not_in_request multiple_times).

(** What one round of the loop does, case by case. *)
Lemma place_step_cases (e : E) (results : rd_list_t R) :
  match read e with
  | PARSE_OK None => step e results = PARSE_OK results
  | PARSE_OK (Some r) =>
      (rd_list_index rko_args (cmp r) = -1
       /\ Forall (fun a => cmp r a <> 0) rko_args
       /\ step e results = rd_kafka_buf_parse_fail (not_in_request e))
      \/ (exists (k : nat) (a : A),
            rd_list_index rko_args (cmp r) = Z.of_nat k
            /\ rko_args !! k = Some a /\ cmp r a = 0
            /\ (forall (j : nat) (a' : A),
                  (j < k)%nat -> rko_args !! j = Some a' -> cmp r a' <> 0)
            /\ ((exists r', results !! k = Some (Some r')
                            /\ step e results
                               = rd_kafka_buf_parse_fail (multiple_times e))
                \/ (mjoin (results !! k) = None
                    /\ step e results
                       = PARSE_OK (rd_list_set results (Z.of_nat k) r))))
  | PARSE_ERR err why => step e results = PARSE_ERR err why
  | PARSE_NULL_DEREF => step e results = PARSE_NULL_DEREF
  | PARSE_DOUBLE_FREE => step e results = PARSE_DOUBLE_FREE
  end.
Proof.
  unfold place_step.
  destruct (read e) as [[r |] | err why | |]; try reflexivity.
  destruct (rd_list_index_spec rko_args (cmp r))
    as [[Hm Hall] | (k & a & Hk & Ha & Hc & Hfirst)].
  - left. rewrite Hm. simpl. repeat split; assumption.
  - right. exists k, a. rewrite Hk.
    destruct (Z.eqb_spec (Z.of_nat k) (-1)); [lia |].
    split; [reflexivity |].
    do 3 (split; [assumption |]).
    rewrite rd_list_elem_of_nat.
    destruct (results !! k) as [[r' |] |] eqn:El; simpl.
    + left. exists r'. split; reflexivity.
    + right. split; reflexivity.
    + right. split; reflexivity.
Qed.

(** The state of the result list after some rounds: it is no longer than
    the args list, every stored result sits at the position of the first
    args entry that compares equal to it, every placed result is stored,
    and the number of non-NULL slots is the number of placed results. *)
Definition placed_inv (results : rd_list_t R) (placed : list R) : Prop :=
  (length results <= length rko_args)%nat
  /\ (forall (i : nat) (r : R),
        results !! i = Some (Some r) ->
        r ∈ placed /\ rd_list_index rko_args (cmp r) = Z.of_nat i)
  /\ (forall r : R,
        r ∈ placed ->
        exists i : nat,
          rd_list_index rko_args (cmp r) = Z.of_nat i
          /\ results !! i = Some (Some r))
  /\ length (set_slots results) = length placed.

Lemma placed_inv_init : placed_inv [] [].
Proof.
  repeat split; simpl; try lia.
  - rewrite lookup_nil in H. discriminate.
  - rewrite lookup_nil in H. discriminate.
  - intros r Hr. apply elem_of_nil in Hr. contradiction.
Qed.

Lemma placed_inv_set (results : rd_list_t R) (placed : list R) (r : R)
    (k : nat) (a : A) :
  placed_inv results placed ->
  rd_list_index rko_args (cmp r) = Z.of_nat k ->
  rko_args !! k = Some a ->
  mjoin (results !! k) = None ->
  placed_inv (rd_list_set results (Z.of_nat k) r) (placed ++ [r]).
Proof.
  intros (Hlen & Hstored & Hplaced & Hcount) Hk Ha Hnull.
  apply lookup_lt_Some in Ha.
  repeat split.
  - rewrite rd_list_set_length. lia.
  - destruct (Nat.eq_dec i k) as [-> | Hne].
    + rewrite rd_list_set_lookup_eq in H. inversion H; subst.
      apply elem_of_app. right. apply list_elem_of_singleton. reflexivity.
    + apply rd_list_set_lookup_ne in H; [| assumption].
      apply elem_of_app. left. apply (Hstored i r0 H).
  - destruct (Nat.eq_dec i k) as [-> | Hne].
    + rewrite rd_list_set_lookup_eq in H. inversion H; subst. assumption.
    + apply rd_list_set_lookup_ne in H; [| assumption].
      apply (Hstored i r0 H).
  - intros r0 Hr0. apply elem_of_app in Hr0. destruct Hr0 as [Hin | Hnew].
    + destruct (Hplaced r0 Hin) as (i & Hi & Hl).
      exists i. split; [assumption |].
      apply rd_list_set_lookup_ne; [| assumption].
      intros ->. rewrite Hl in Hnull. discriminate.
    + apply list_elem_of_singleton in Hnew. subst r0.
      exists k. split; [assumption | apply rd_list_set_lookup_eq].
  - rewrite set_slots_set by assumption.
    rewrite length_app. simpl. lia.
Qed.

(** A run of the loop that succeeds has read [n] elements, none of which
    failed to decode, and leaves the placed results of those elements in
    the list. *)
Lemma read_loop_place (n : nat) :
  forall (elems : list E) (results results' : rd_list_t R) (placed : list R),
    read_loop step n elems results = PARSE_OK results' ->
    placed_inv results placed ->
    (n <= length elems)%nat
    /\ placed_inv results' (placed ++ placed_of read (take n elems))
    /\ Forall (fun e => exists o, read e = PARSE_OK o) (take n elems).
Proof.
  induction n as [| n IH]; intros elems results results' placed Hrun Hinv.
  - simpl in Hrun. inversion Hrun; subst. simpl.
    rewrite take_0. unfold placed_of. simpl. rewrite app_nil_r.
    split; [lia | split; [exact Hinv | constructor]].
  - destruct elems as [| e elems]; [discriminate Hrun |].
    simpl in Hrun.
    pose proof (place_step_cases e results) as Hcases.
    destruct (step e results) as [results1 | | |] eqn:Estep;
      [| discriminate Hrun | discriminate Hrun | discriminate Hrun].
    rewrite firstn_cons. unfold placed_of. simpl omap.
    destruct (read e) as [[r |] | err why | |] eqn:Eread;
      try discriminate Hcases.
    + destruct Hcases as [(_ & _ & Hc) | (k & a & Hk & Ha & Hc0 & _ & Hc)];
        [discriminate Hc |].
      destruct Hc as [(r' & _ & Hc) | (Hnull & Hc)]; [discriminate Hc |].
      inversion Hc; subst results1.
      pose proof (placed_inv_set results placed r k a Hinv Hk Ha Hnull) as Hinv'.
      destruct (IH elems _ results' _ Hrun Hinv') as (Hn & Hfin & Hall).
      rewrite <- app_assoc in Hfin. simpl in Hfin.
      split; [simpl; lia | split; [exact Hfin |]].
      constructor; [eauto | assumption].
    + inversion Hcases; subst results1.
      destruct (IH elems _ results' _ Hrun Hinv) as (Hn & Hfin & Hall).
      split; [simpl; lia | split; [exact Hfin |]].
      constructor; [eauto | assumption].
Qed.

(** Bodies that agree on every input run alike. *)
Lemma read_loop_ext {S : Type} (f g : E -> S -> parse_result S) (n : nat) :
  (forall e s, f e s = g e s) ->
  forall elems s, read_loop f n elems s = read_loop g n elems s.
Proof.
  intros Hfg. induction n as [| n IH]; intros elems s; [reflexivity |].
  destruct elems as [| e elems]; [reflexivity |].
  simpl. rewrite Hfg. destruct (g e s); auto.
Qed.

(** A body that goes on wherever another one does runs to the same end
    wherever the other one runs to the end. *)
Lemma read_loop_ok_impl {S : Type} (f g : E -> S -> parse_result S) (n : nat) :
  (forall e s s', f e s = PARSE_OK s' -> g e s = PARSE_OK s') ->
  forall elems s s',
    read_loop f n elems s = PARSE_OK s' -> read_loop g n elems s = PARSE_OK s'.
Proof.
  intros Hfg. induction n as [| n IH]; intros elems s s' Hrun;
    [exact Hrun |].
  destruct elems as [| e elems]; [discriminate Hrun |].
  simpl in *. destruct (f e s) as [s1 | | |] eqn:Ef; try discriminate Hrun.
  rewrite (Hfg e s s1 Ef). apply IH. exact Hrun.
Qed.

(** The loop reads no more elements than it makes rounds. *)
Lemma read_loop_take {S : Type} (body : E -> S -> parse_result S) (n : nat) :
  forall elems s, read_loop body n (take n elems) s = read_loop body n elems s.
Proof.
  induction n as [| n IH]; intros elems s; [reflexivity |].
  destruct elems as [| e elems]; [reflexivity |].
  simpl. destruct (body e s); auto.
Qed.

(** One more round after [i] rounds that went well ends as the body ends
    on the element at position [i]. *)
Lemma read_loop_next {S : Type} (body : E -> S -> parse_result S) (i : nat) :
  forall elems s s1 e,
    elems !! i = Some e ->
    read_loop body i elems s = PARSE_OK s1 ->
    read_loop body (Datatypes.S i) elems s = body e s1.
Proof.
  induction i as [| i IH]; intros elems s s1 e He Hrun.
  - destruct elems as [| e0 elems]; [discriminate He |].
    simpl in He, Hrun. inversion He; subst e0. inversion Hrun; subst s1.
    simpl. destruct (body e s); reflexivity.
  - destruct elems as [| e0 elems]; [discriminate He |].
    simpl in He.
    change (read_loop body (Datatypes.S i) (e0 :: elems) s)
      with (match body e0 s with
            | PARSE_OK s' => read_loop body i elems s'
            | PARSE_ERR err why => PARSE_ERR err why
            | PARSE_NULL_DEREF => PARSE_NULL_DEREF
            | PARSE_DOUBLE_FREE => PARSE_DOUBLE_FREE
            end) in Hrun.
    change (read_loop body (Datatypes.S (Datatypes.S i)) (e0 :: elems) s)
      with (match body e0 s with
            | PARSE_OK s' => read_loop body (Datatypes.S i) elems s'
            | PARSE_ERR err why => PARSE_ERR err why
            | PARSE_NULL_DEREF => PARSE_NULL_DEREF
            | PARSE_DOUBLE_FREE => PARSE_DOUBLE_FREE
            end).
    destruct (body e0 s) as [s0 | | |]; try discriminate Hrun.
    apply (IH elems s0 s1 e He Hrun).
Qed.

(** A loop that gave up gives up alike however many more rounds it is
    asked to make. *)
Lemma read_loop_gave_up {S : Type} (body : E -> S -> parse_result S)
    (n : nat) :
  forall elems s (r : parse_result S) (m : nat),
    read_loop body n elems s = r ->
    (forall s', r <> PARSE_OK s') ->
    (n <= m)%nat ->
    read_loop body m elems s = r.
Proof.
  induction n as [| n IH]; intros elems s r m Hrun Hbad Hnm.
  - simpl in Hrun. subst r. exfalso. exact (Hbad s eq_refl).
  - destruct m as [| m]; [lia |].
    destruct elems as [| e elems]; [exact Hrun |].
    simpl in *. destruct (body e s) as [s1 | | |]; try exact Hrun.
    apply IH; [exact Hrun | exact Hbad | lia].
Qed.
End PlaceLoop.

(** ** Comparators *)

Lemma uchar_inj (c d : ascii) : uchar c = uchar d -> c = d.
Proof.
  unfold uchar. intros H. apply N2Z.inj in H.
  rewrite <- (ascii_N_embedding c), <- (ascii_N_embedding d), H. reflexivity.
Qed.

(** [strcmp] returns 0 exactly on buffers that hold the same C string. *)
Lemma strcmp_eq (a b : string) : strcmp a b = 0 <-> c_str a = c_str b.
Proof.
  revert b. induction a as [| c a IH]; intros [| d b]; simpl.
  - split; reflexivity.
  - destruct (Z.eqb_spec (uchar d) 0) as [E | NE];
      split; intros H; try reflexivity; try lia; discriminate H.
  - destruct (Z.eqb_spec (uchar c) 0) as [E | NE];
      split; intros H; try reflexivity; try lia; discriminate H.
  - destruct (Z.eqb_spec (uchar c) (uchar d)) as [E | NE].
    + rewrite <- E. apply uchar_inj in E. subst d.
      destruct (Z.eqb_spec (uchar c) 0) as [E0 | NE0].
      * split; reflexivity.
      * rewrite IH. split; intros H; [rewrite H; reflexivity |].
        inversion H. reflexivity.
    + destruct (Z.eqb_spec (uchar c) 0) as [Ec | NEc],
               (Z.eqb_spec (uchar d) 0) as [Ed | NEd];
        split; intros H; try lia; try discriminate H.
      inversion H. subst. contradiction.
Qed.

Lemma strcmp_refl (a : string) : strcmp a a = 0.
Proof. apply strcmp_eq. reflexivity. Qed.

Lemma topic_cmp_NewTopic_eq (r : rd_kafka_topic_result_t)
    (a : rd_kafka_NewTopic_t) :
  topic_cmp_NewTopic r a = 0 <-> c_str (tr_topic r) = c_str (nt_topic a).
Proof. apply strcmp_eq. Qed.

Lemma topic_cmp_DeleteTopic_eq (r : rd_kafka_topic_result_t)
    (a : rd_kafka_DeleteTopic_t) :
  topic_cmp_DeleteTopic r a = 0 <-> c_str (tr_topic r) = c_str (dt_topic a).
Proof. apply strcmp_eq. Qed.

Lemma topic_cmp_NewPartitions_eq (r : rd_kafka_topic_result_t)
    (a : rd_kafka_NewPartitions_t) :
  topic_cmp_NewPartitions r a = 0 <-> c_str (tr_topic r) = c_str (np_topic a).
Proof. apply strcmp_eq. Qed.

Lemma resource_cmp_eq (r a : rd_kafka_ConfigResource_t) :
  resource_cmp r a = 0
  <-> cr_restype r = cr_restype a /\ c_str (cr_name r) = c_str (cr_name a).
Proof.
  unfold resource_cmp, rd_kafka_ConfigResource_cmp, ConfigResource_skel.
  simpl. destruct (Z.eqb_spec (cr_restype r) (cr_restype a)) as [E | NE]; simpl.
  - rewrite strcmp_eq. tauto.
  - split; [lia | tauto].
Qed.

(** ** The loop bodies and the common shape *)

Lemma CreateTopics_body_shape
    (rko_req : rd_kafka_op_t rd_kafka_NewTopic_t topics_reply)
    (reply : topics_reply) (e : topic_elem) (results : topic_results) :
  CreateTopicsResponse_parse_topic rko_req reply e results
  = place_step (args rko_req)
      (fun e => PARSE_OK (Some (CreateTopicsResponse_topic_result rko_req reply e)))
      topic_cmp_NewTopic topic_not_in_request topic_multiple_times e results.
Proof. reflexivity. Qed.

Lemma DeleteTopics_body_shape
    (rko_req : rd_kafka_op_t rd_kafka_DeleteTopic_t topics_reply)
    (reply : topics_reply) (e : topic_elem) (results : topic_results) :
  DeleteTopicsResponse_parse_topic rko_req reply e results
  = place_step (args rko_req)
      (fun e => PARSE_OK (Some (DeleteTopicsResponse_topic_result rko_req reply e)))
      topic_cmp_DeleteTopic topic_not_in_request topic_multiple_times e results.
Proof. reflexivity. Qed.

Lemma CreatePartitions_body_shape
    (rko_req : rd_kafka_op_t rd_kafka_NewPartitions_t topics_reply)
    (reply : topics_reply) (e : topic_elem) (results : topic_results) :
  CreatePartitionsResponse_parse_topic rko_req reply e results
  = place_step (args rko_req)
      (fun e =>
         PARSE_OK (Some (CreatePartitionsResponse_topic_result rko_req reply e)))
      topic_cmp_NewPartitions topic_not_in_request topic_multiple_times
      e results.
Proof. reflexivity. Qed.

Lemma AlterConfigs_body_shape
    (rko_req : rd_kafka_op_t rd_kafka_ConfigResource_t configs_reply)
    (reply : configs_reply) (e : resource_elem) (results : resource_results) :
  AlterConfigsResponse_parse_resource rko_req reply e results
  = place_step (args rko_req)
      (fun e => PARSE_OK (ConfigsResponse_new_resource e))
      resource_cmp resource_not_in_request resource_multiple_times e results.
Proof.
  unfold AlterConfigsResponse_parse_resource, place_step.
  destruct (ConfigsResponse_new_resource e); reflexivity.
Qed.

(** The body of the DescribeConfigs loop goes on exactly where the common
    shape does, with the same result list; where the common shape gives up
    at [err_parse], this body destroys the resource twice. *)
Lemma DescribeConfigs_body_shape
    (rko_req : rd_kafka_op_t rd_kafka_ConfigResource_t configs_reply)
    (reply : configs_reply) (e : resource_elem)
    (results results' : resource_results) :
  DescribeConfigsResponse_parse_resource rko_req reply e results
  = PARSE_OK results'
  <-> place_step (args rko_req) (DescribeConfigsResponse_read_resource reply)
        resource_cmp resource_not_in_request resource_multiple_times e results
      = PARSE_OK results'.
Proof.
  unfold DescribeConfigsResponse_parse_resource, place_step,
    DescribeConfigs_insert_result, rd_kafka_buf_parse_fail.
  destruct (DescribeConfigsResponse_read_resource reply e) as [[c |] | | |];
    try reflexivity.
  change (rd_kafka_ConfigResource_cmp
            (ConfigResource_skel (cr_restype c) (cr_name c)))
    with (resource_cmp c).
  destruct (rd_list_index (args rko_req) (resource_cmp c) =? -1);
    [split; discriminate |].
  destruct (negb (is_null (rd_list_elem results
                             (rd_list_index (args rko_req) (resource_cmp c)))));
    [split; discriminate | reflexivity].
Qed.

Lemma parse_return_ok {R : Type} (rko_result : rd_kafka_admin_result R)
    (r : parse_result (rd_list_t R)) (res : rd_kafka_admin_result R) :
  parse_return rko_result r = PARSE_OK res ->
  r = PARSE_OK (results res) /\ res = set_results rko_result (results res).
Proof.
  destruct r as [rl | | |]; simpl; intros H; inversion H; subst.
  split; reflexivity.
Qed.

(** A parser that succeeds has passed the count check and run its loop to
    the end. *)
Lemma CreateTopics_parse_ok rko_req reply res :
  rd_kafka_CreateTopicsResponse_parse rko_req reply = PARSE_OK res ->
  elem_cnt reply <= rd_list_cnt (args rko_req)
  /\ read_loop
       (place_step (args rko_req)
          (fun e =>
             PARSE_OK (Some (CreateTopicsResponse_topic_result rko_req reply e)))
          topic_cmp_NewTopic topic_not_in_request topic_multiple_times)
       (Z.to_nat (elem_cnt reply)) (elems reply) []
     = PARSE_OK (results res).
Proof.
  unfold rd_kafka_CreateTopicsResponse_parse.
  destruct (Z.gtb_spec (elem_cnt reply) (rd_list_cnt (args rko_req)));
    [discriminate |].
  intros Hp. apply parse_return_ok in Hp. destruct Hp as [Hp _].
  split; [assumption |]. rewrite <- Hp. apply read_loop_ext.
  intros. symmetry. apply CreateTopics_body_shape.
Qed.

Lemma DeleteTopics_parse_ok rko_req reply res :
  rd_kafka_DeleteTopicsResponse_parse rko_req reply = PARSE_OK res ->
  elem_cnt reply <= rd_list_cnt (args rko_req)
  /\ read_loop
       (place_step (args rko_req)
          (fun e =>
             PARSE_OK (Some (DeleteTopicsResponse_topic_result rko_req reply e)))
          topic_cmp_DeleteTopic topic_not_in_request topic_multiple_times)
       (Z.to_nat (elem_cnt reply)) (elems reply) []
     = PARSE_OK (results res).
Proof.
  unfold rd_kafka_DeleteTopicsResponse_parse.
  destruct (Z.gtb_spec (elem_cnt reply) (rd_list_cnt (args rko_req)));
    [discriminate |].
  intros Hp. apply parse_return_ok in Hp. destruct Hp as [Hp _].
  split; [assumption |]. rewrite <- Hp. apply read_loop_ext.
  intros. symmetry. apply DeleteTopics_body_shape.
Qed.

Lemma CreatePartitions_parse_ok rko_req reply res :
  rd_kafka_CreatePartitionsResponse_parse rko_req reply = PARSE_OK res ->
  elem_cnt reply <= rd_list_cnt (args rko_req)
  /\ read_loop
       (place_step (args rko_req)
          (fun e =>
             PARSE_OK
               (Some (CreatePartitionsResponse_topic_result rko_req reply e)))
          topic_cmp_NewPartitions topic_not_in_request topic_multiple_times)
       (Z.to_nat (elem_cnt reply)) (elems reply) []
     = PARSE_OK (results res).
Proof.
  unfold rd_kafka_CreatePartitionsResponse_parse.
  destruct (Z.gtb_spec (elem_cnt reply) (rd_list_cnt (args rko_req)));
    [discriminate |].
  intros Hp. apply parse_return_ok in Hp. destruct Hp as [Hp _].
  split; [assumption |]. rewrite <- Hp. apply read_loop_ext.
  intros. symmetry. apply CreatePartitions_body_shape.
Qed.

Lemma AlterConfigs_parse_ok rko_req reply res :
  rd_kafka_AlterConfigsResponse_parse rko_req reply = PARSE_OK res ->
  elem_cnt reply <= rd_list_cnt (args rko_req)
  /\ read_loop
       (place_step (args rko_req)
          (fun e => PARSE_OK (ConfigsResponse_new_resource e))
          resource_cmp resource_not_in_request resource_multiple_times)
       (Z.to_nat (elem_cnt reply)) (elems reply) []
     = PARSE_OK (results res).
Proof.
  unfold rd_kafka_AlterConfigsResponse_parse.
  destruct (Z.gtb_spec (elem_cnt reply) (rd_list_cnt (args rko_req)));
    [discriminate |].
  intros Hp. apply parse_return_ok in Hp. destruct Hp as [Hp _].
  split; [assumption |]. rewrite <- Hp. apply read_loop_ext.
  intros. symmetry. apply AlterConfigs_body_shape.
Qed.

Lemma DescribeConfigs_parse_ok rko_req reply res :
  rd_kafka_DescribeConfigsResponse_parse rko_req reply = PARSE_OK res ->
  elem_cnt reply <= rd_list_cnt (args rko_req)
  /\ read_loop
       (place_step (args rko_req) (DescribeConfigsResponse_read_resource reply)
          resource_cmp resource_not_in_request resource_multiple_times)
       (Z.to_nat (elem_cnt reply)) (elems reply) []
     = PARSE_OK (results res).
Proof.
  unfold rd_kafka_DescribeConfigsResponse_parse.
  destruct (Z.gtb_spec (elem_cnt reply) (rd_list_cnt (args rko_req)));
    [discriminate |].
  intros Hp. apply parse_return_ok in Hp. destruct Hp as [Hp _].
  split; [assumption |].
  eapply read_loop_ok_impl; [| exact Hp].
  intros e s s'. apply DescribeConfigs_body_shape.
Qed.

(** ** Placement by key *)

Section PlaceSpec.
Context {E A R : Type}.
Variable rko_args : list A.
Variable read : E -> parse_result (option R).
Variable cmp : R -> A -> Z.
Variables not_in_request multiple_times : E -> parse_failure.

Local Abbreviation step :=
  (place_step rko_args read cmp not_in_request multiple_times).

Lemma rd_list_index_no_match (r : R) :
  no_match rko_args cmp r -> rd_list_index rko_args (cmp r) = -1.
Proof.
  intros Hno.
  destruct (rd_list_index_spec rko_args (cmp r))
    as [[Hm _] | (k & a & _ & Ha & Hc & _)]; [assumption |].
  exfalso. unfold no_match in Hno. rewrite Forall_lookup in Hno.
  exact (Hno k a Ha Hc).
Qed.

Lemma rd_list_index_first_match (r : R) (k : nat) :
  first_match rko_args cmp r k <->
  rd_list_index rko_args (cmp r) = Z.of_nat k.
Proof.
  split.
  - intros [(a & Ha & Hc) Hfirst].
    destruct (rd_list_index_spec rko_args (cmp r))
      as [[_ Hall] | (k' & a' & Hk' & Ha' & Hc' & Hfirst')].
    + exfalso. rewrite Forall_lookup in Hall. exact (Hall k a Ha Hc).
    + rewrite Hk'. f_equal.
      destruct (Nat.lt_trichotomy k' k) as [Hlt | [Heq | Hgt]];
        [| assumption |].
      * exfalso. exact (Hfirst k' a' Hlt Ha' Hc').
      * exfalso. exact (Hfirst' k a Hgt Ha Hc).
  - intros Hk.
    destruct (rd_list_index_spec rko_args (cmp r))
      as [[Hm _] | (k' & a' & Hk' & Ha' & Hc' & Hfirst')]; [lia |].
    assert (k' = k) by lia. subst k'.
    split; [exists a'; split; assumption | assumption].
Qed.

(** The run of the loop over a reply whose element at position [i] cannot
    be placed, after the elements before it were. *)
Lemma place_loop_gives_up (n i : nat) (elems : list E) (e : E) (r : R)
    (results0 : rd_list_t R) :
  elems !! i = Some e ->
  (i < n)%nat ->
  read_loop step i (take i elems) [] = PARSE_OK results0 ->
  read e = PARSE_OK (Some r) ->
  (no_match rko_args cmp r ->
   read_loop step n elems [] = rd_kafka_buf_parse_fail (not_in_request e))
  /\ (forall (k : nat) (r' : R),
        first_match rko_args cmp r k ->
        results0 !! k = Some (Some r') ->
        read_loop step n elems [] = rd_kafka_buf_parse_fail (multiple_times e)).
Proof.
  intros He Hin Hpre Hread.
  rewrite read_loop_take in Hpre.
  pose proof (read_loop_next step i elems [] results0 e He Hpre) as Hnext.
  pose proof (place_step_cases rko_args read cmp not_in_request
                multiple_times e results0) as Hcases.
  rewrite Hread in Hcases.
  split.
  - intros Hno. apply rd_list_index_no_match in Hno.
    destruct Hcases as [(_ & _ & Hc) | (k & a & Hk & _)]; [| lia].
    rewrite Hc in Hnext.
    apply (read_loop_gave_up step (S i)); [exact Hnext | discriminate | lia].
  - intros k r' Hfirst Hr'. apply rd_list_index_first_match in Hfirst.
    destruct Hcases as [(Hm & _) | (k' & a & Hk & Ha & Hc & Hf & Hcase)];
      [lia |].
    assert (k' = k) by lia. subst k'.
    destruct Hcase as [(r'' & _ & Hs) | (Hnull & _)].
    + rewrite Hs in Hnext.
      apply (read_loop_gave_up step (S i)); [exact Hnext | discriminate | lia].
    + rewrite Hr' in Hnull. discriminate.
Qed.

Lemma elem_of_placed_of (l : list E) (r : R) :
  r ∈ placed_of read l <-> exists e, e ∈ l /\ read e = PARSE_OK (Some r).
Proof.
  unfold placed_of. rewrite list_elem_of_omap.
  split; intros (e & He & Hr); exists e; (split; [assumption |]).
  - destruct (read e) as [[r' |] | | |]; inversion Hr; reflexivity.
  - rewrite Hr. reflexivity.
Qed.

(** What a successful run of the loop from the empty list leaves. *)
Lemma place_loop_results (n : nat) (elems : list E) (results' : rd_list_t R) :
  read_loop step n elems [] = PARSE_OK results' ->
  (n <= length elems)%nat
  /\ (length results' <= length rko_args)%nat
  /\ (forall e r,
        e ∈ take n elems -> read e = PARSE_OK (Some r) ->
        exists k, first_match rko_args cmp r k
                  /\ results' !! k = Some (Some r))
  /\ (forall k r,
        results' !! k = Some (Some r) ->
        first_match rko_args cmp r k
        /\ exists e, e ∈ take n elems /\ read e = PARSE_OK (Some r))
  /\ (length (placed_of read (take n elems)) = length rko_args ->
      length results' = length rko_args
      /\ forall i, (i < length rko_args)%nat ->
                   exists x, results' !! i = Some (Some x))
  /\ Forall (fun e => exists o, read e = PARSE_OK o) (take n elems).
Proof.
  intros Hrun.
  destruct (read_loop_place rko_args read cmp not_in_request multiple_times
              n elems [] results' [] Hrun
              (placed_inv_init rko_args cmp))
    as (Hn & (Hlen & Hstored & Hplaced & Hcount) & Hreads).
  simpl in Hstored, Hplaced, Hcount.
  split; [assumption |]. split; [assumption |].
  split; [| split; [| split; [| assumption]]].
  - intros e r He Hr.
    destruct (Hplaced r) as (k & Hk & Hl).
    { apply elem_of_placed_of. exists e. split; assumption. }
    exists k. split; [apply rd_list_index_first_match |]; assumption.
  - intros k r Hl. destruct (Hstored k r Hl) as [Hin Hk].
    split; [apply rd_list_index_first_match; assumption |].
    apply elem_of_placed_of. assumption.
  - intros Hall. pose proof (set_slots_le results') as Hle.
    assert (Heq : length results' = length rko_args) by lia.
    split; [assumption |].
    intros i Hi. apply set_slots_full; lia.
Qed.
End PlaceSpec.

Lemma placed_of_all {E R : Type} (read : E -> parse_result (option R))
    (l : list E) :
  Forall (fun e => exists r, read e = PARSE_OK (Some r)) l ->
  length (placed_of read l) = length l.
Proof.
  induction 1 as [| e l (r & Hr) _ IH]; [reflexivity |].
  unfold placed_of in *. simpl. rewrite Hr. simpl. f_equal. exact IH.
Qed.

(** ** More elements than requested *)

(** What each parser does with a reply that declares more elements than
    the request has args. None hands back a result op. AlterConfigs
    returns BAD_MSG; the four others go through [rd_kafka_buf_parse_fail]
    to [err_parse] and return their local [err], which nothing has set. *)
Lemma more_than_requested_gives_up :
  (forall rko_req reply,
      rd_list_cnt (args rko_req) < elem_cnt reply ->
      rd_kafka_CreateTopicsResponse_parse rko_req reply
      = PARSE_ERR RD_KAFKA_RESP_ERR_NO_ERROR
          (Fail_more_than_requested (elem_cnt reply)
             (rd_list_cnt (args rko_req))))
  /\ (forall rko_req reply,
        rd_list_cnt (args rko_req) < elem_cnt reply ->
        rd_kafka_DeleteTopicsResponse_parse rko_req reply
        = PARSE_ERR RD_KAFKA_RESP_ERR_NO_ERROR
            (Fail_more_than_requested (elem_cnt reply)
               (rd_list_cnt (args rko_req))))
  /\ (forall rko_req reply,
        rd_list_cnt (args rko_req) < elem_cnt reply ->
        rd_kafka_CreatePartitionsResponse_parse rko_req reply
        = PARSE_ERR RD_KAFKA_RESP_ERR_NO_ERROR
            (Fail_more_than_requested (elem_cnt reply)
               (rd_list_cnt (args rko_req))))
  /\ (forall rko_req reply,
        rd_list_cnt (args rko_req) < elem_cnt reply ->
        rd_kafka_AlterConfigsResponse_parse rko_req reply
        = PARSE_ERR RD_KAFKA_RESP_ERR__BAD_MSG
            (Fail_more_than_requested (elem_cnt reply)
               (rd_list_cnt (args rko_req))))
  /\ (forall rko_req reply,
        rd_list_cnt (args rko_req) < elem_cnt reply ->
        rd_kafka_DescribeConfigsResponse_parse rko_req reply
        = PARSE_ERR RD_KAFKA_RESP_ERR_NO_ERROR
            (Fail_more_than_requested (elem_cnt reply)
               (rd_list_cnt (args rko_req)))).
Proof.
  repeat split; intros rko_req reply Hmore;
    [ unfold rd_kafka_CreateTopicsResponse_parse
    | unfold rd_kafka_DeleteTopicsResponse_parse
    | unfold rd_kafka_CreatePartitionsResponse_parse
    | unfold rd_kafka_AlterConfigsResponse_parse
    | unfold rd_kafka_DescribeConfigsResponse_parse ];
    (destruct (Z.gtb_spec (elem_cnt reply) (rd_list_cnt (args rko_req)));
     [reflexivity | lia]).
Qed.

(** A parser that returns NO_ERROR without a result op leaves the worker
    with a result op that was never set, which it enqueues: the run is
    undefined. *)
Lemma worker_enqueues_unset_result {A B R : Type}
    (cbs : rd_kafka_admin_worker_cbs A B R) (env : worker_env)
    (rko : rd_kafka_op_t A B) (reply : B) (why : parse_failure) :
  reply_buf rko = Some reply ->
  parse cbs rko reply = PARSE_ERR RD_KAFKA_RESP_ERR_NO_ERROR why ->
  worker_wait_response cbs env rko = None.
Proof.
  intros Hbuf Hparse. unfold worker_wait_response.
  rewrite Hbuf, Hparse. reflexivity.
Qed.

(** C6, a defect of the code. A DeleteTopics request for one topic is
    answered by a reply that declares two: the parser hands back no result
    op and returns NO_ERROR, not BAD_MSG. The count check goes through
    [rd_kafka_buf_parse_fail] to [err_parse], which returns the local
    [err], and nothing has set it. The worker, told NO_ERROR, enqueues a
    result op that was never set. The AlterConfigs parser does at the same
    check what the claim says: it returns BAD_MSG, which the worker turns
    into a failure result. *)
Theorem more_than_requested_returns_no_error :
  rd_kafka_DeleteTopicsResponse_parse (sample_DeleteTopics 0 ["a"])
    (mk_buf 1 0 2 [sample_topic "a" 0; sample_topic "b" 0])
  = PARSE_ERR RD_KAFKA_RESP_ERR_NO_ERROR (Fail_more_than_requested 2 1)
  /\ rd_kafka_admin_worker (DeleteTopics_cbs (fun _ _ _ => (0, EmptyString)))
       sample_env_timer
       (mk_op RD_KAFKA_OP_DELETETOPICS 0 RD_KAFKA_EVENT_DELETETOPICS_RESULT
          (sample_options 0) (-1) 5000 RD_KAFKA_ADMIN_STATE_WAIT_RESPONSE
          [mk_DeleteTopic "a"]
          (Some (mk_buf 1 0 2 [sample_topic "a" 0; sample_topic "b" 0])))
     = None
  /\ rd_kafka_AlterConfigsResponse_parse
       (sample_AlterConfigs [sample_resource RD_KAFKA_RESOURCE_TOPIC "t"])
       (mk_buf 0 0 2 [])
     = PARSE_ERR RD_KAFKA_RESP_ERR__BAD_MSG (Fail_more_than_requested 2 1)
  /\ rd_kafka_admin_worker (AlterConfigs_cbs (fun _ _ _ => (0, EmptyString)))
       sample_env_timer
       (mk_op RD_KAFKA_OP_ALTERCONFIGS 0 RD_KAFKA_EVENT_ALTERCONFIGS_RESULT
          (sample_options 0) (-1) 5000 RD_KAFKA_ADMIN_STATE_WAIT_RESPONSE
          [sample_resource RD_KAFKA_RESOURCE_TOPIC "t"]
          (Some (mk_buf 0 0 2 [])))
     = Some ([Admin_result_enq
                (mk_result RD_KAFKA_EVENT_ALTERCONFIGS_RESULT
                   RD_KAFKA_OP_ALTERCONFIGS 0 RD_KAFKA_RESP_ERR__BAD_MSG
                   (Some (Errstr_parse RD_KAFKA_OP_ALTERCONFIGS
                            (Fail_more_than_requested 2 1))) []);
              Timer_stop; Enq_once_del_source "timeout timer";
              Enq_once_destroy],
             RD_KAFKA_OP_RES_HANDLED,
             mk_op RD_KAFKA_OP_ALTERCONFIGS 0
               RD_KAFKA_EVENT_ALTERCONFIGS_RESULT (sample_options 0) (-1) 5000
               RD_KAFKA_ADMIN_STATE_WAIT_RESPONSE
               [sample_resource RD_KAFKA_RESOURCE_TOPIC "t"]
               (Some (mk_buf 0 0 2 []))).
Proof. repeat split. Qed.

(** The worker turns a parse that returns BAD_MSG into a failure result
    with that code and dismantles the request. *)
Lemma worker_posts_parse_failure {A B R : Type}
    (cbs : rd_kafka_admin_worker_cbs A B R) (env : worker_env)
    (rko : rd_kafka_op_t A B) (reply : B) (why : parse_failure) :
  reply_buf rko = Some reply ->
  parse cbs rko reply = PARSE_ERR RD_KAFKA_RESP_ERR__BAD_MSG why ->
  worker_wait_response cbs env rko
  = Some (rd_kafka_admin_result_fail rko RD_KAFKA_RESP_ERR__BAD_MSG
            (Errstr_parse (rko_type rko) why)
            :: rd_kafka_admin_common_worker_destroy env,
          RD_KAFKA_OP_RES_HANDLED, rko).
Proof.
  intros Hbuf Hparse. unfold worker_wait_response.
  rewrite Hbuf, Hparse. reflexivity.
Qed.

(** ** Config entries of a DescribeConfigs reply *)

Lemma ConfigEntry_new0_fresh (n v : rd_kafkap_str_t)
    (entry : rd_kafka_ConfigEntry_t) :
  rd_kafka_ConfigEntry_new0 n v = Some entry ->
  a_source entry = RD_KAFKA_CONFIG_SOURCE_UNKNOWN_CONFIG
  /\ a_is_default entry = false /\ a_is_synonym entry = false
  /\ synonyms entry = [].
Proof.
  unfold rd_kafka_ConfigEntry_new0. destruct n as [n |]; [| discriminate].
  intros H. inversion H. repeat split.
Qed.

Lemma read_attrs_normalized (reply : configs_reply) (c : entry_elem)
    (entry0 : rd_kafka_ConfigEntry_t) :
  a_source entry0 = RD_KAFKA_CONFIG_SOURCE_UNKNOWN_CONFIG ->
  a_is_default entry0 = false ->
  a_is_synonym entry0 = false ->
  normalized_entry reply c (DescribeConfigsResponse_read_attrs reply c entry0).
Proof.
  intros Hsrc Hdef Hsyn.
  unfold normalized_entry, DescribeConfigsResponse_read_attrs.
  destruct (Z.eqb_spec (ApiVersion reply) 0) as [Ev | Ev].
  - destruct (read_bool (default_or_source c)) eqn:Eb; simpl;
      rewrite ?Hsrc, ?Hsyn;
      (split; [intros _; split; [reflexivity | intros H; try discriminate H; reflexivity] |]);
      (split; [intros H; contradiction |]);
      (split; [| reflexivity]); split; intros H; try reflexivity;
      discriminate H.
  - destruct (Z.eqb_spec (default_or_source c)
                RD_KAFKA_CONFIG_SOURCE_DEFAULT_CONFIG) as [Es | Es]; simpl;
      rewrite ?Hdef, ?Hsyn;
      (split; [intros H; contradiction |]);
      (split; [intros _; split; [reflexivity | intros H; try reflexivity; contradiction] |]);
      (split; [| reflexivity]); split; intros H; try reflexivity;
      try assumption; try contradiction; discriminate H.
Qed.

(** The synonym loop appends one synonym entry per element read and leaves
    the attributes of the entry alone. *)
Lemma synonym_loop_ok (n : nat) :
  forall (syns : list synonym_elem) (entry entry' : rd_kafka_ConfigEntry_t),
    read_loop DescribeConfigsResponse_parse_synonym n syns entry
    = PARSE_OK entry' ->
    a_source entry' = a_source entry
    /\ a_is_default entry' = a_is_default entry
    /\ a_is_synonym entry' = a_is_synonym entry
    /\ exists new,
         synonyms entry' = synonyms entry ++ new
         /\ Forall2 synonym_entry (take n syns) new.
Proof.
  induction n as [| n IH]; intros syns entry entry' Hrun.
  - simpl in Hrun. inversion Hrun; subst.
    repeat (split; [reflexivity |]). exists []. rewrite app_nil_r, take_0.
    split; [reflexivity | constructor].
  - destruct syns as [| s syns]; [discriminate Hrun |].
    simpl in Hrun.
    destruct (DescribeConfigsResponse_parse_synonym s entry)
      as [entry1 | | |] eqn:Estep; try discriminate Hrun.
    unfold DescribeConfigsResponse_parse_synonym in Estep.
    destruct (rd_kafka_ConfigEntry_new0 (syn_name s) (syn_value s))
      as [syn_entry |] eqn:Enew; [| discriminate Estep].
    destruct (ConfigEntry_new0_fresh _ _ _ Enew) as (_ & Hd & _ & _).
    inversion Estep; subst entry1. clear Estep.
    apply IH in Hrun. destruct Hrun as (Hs & Hdf & Hsy & new & Hnew & Hall).
    simpl in Hs, Hdf, Hsy, Hnew.
    repeat (split; [assumption |]).
    eexists (_ :: new). unfold rd_list_add in Hnew.
    rewrite <- app_assoc in Hnew. simpl in Hnew.
    split; [exact Hnew |]. rewrite firstn_cons. constructor; [| assumption].
    unfold synonym_entry. simpl. repeat split. assumption.
Qed.

(** One round of the entry loop appends one normalized entry to the
    resource and leaves the rest of the resource alone. *)
Lemma parse_entry_ok (reply : configs_reply) (c : entry_elem)
    (config config' : rd_kafka_ConfigResource_t) :
  DescribeConfigsResponse_parse_entry reply c config = PARSE_OK config' ->
  exists entry,
    config' = rd_kafka_ConfigResource_add_ConfigEntry config entry
    /\ normalized_entry reply c entry
    /\ exists n, Forall2 synonym_entry (take n (syn_elems c)) (synonyms entry).
Proof.
  unfold DescribeConfigsResponse_parse_entry.
  destruct (rd_kafka_ConfigEntry_new0 (config_name c) (config_value c))
    as [entry0 |] eqn:Enew; [| discriminate].
  destruct (ConfigEntry_new0_fresh _ _ _ Enew) as (Hs & Hd & Hsy & Hsyn).
  pose proof (read_attrs_normalized reply c entry0 Hs Hd Hsy) as Hnorm.
  set (entry1 := DescribeConfigsResponse_read_attrs reply c entry0) in *.
  assert (Hsyn1 : synonyms entry1 = []).
  { subst entry1. unfold DescribeConfigsResponse_read_attrs.
    destruct (ApiVersion reply =? 0); exact Hsyn. }
  destruct (if ApiVersion reply =? 1
            then if syn_cnt c >? 100000 then None else Some (syn_cnt c)
            else Some 0) as [n |]; [| discriminate].
  destruct (read_loop DescribeConfigsResponse_parse_synonym (Z.to_nat n)
              (syn_elems c) entry1) as [entry | | |] eqn:Eloop;
    try discriminate.
  intros H. inversion H; subst config'.
  apply synonym_loop_ok in Eloop.
  destruct Eloop as (Es & Ed & Ey & new & Hnew & Hall).
  exists entry. split; [reflexivity |]. split.
  - unfold normalized_entry in *. rewrite Es, Ed, Ey. exact Hnorm.
  - exists (Z.to_nat n). rewrite Hnew, Hsyn1. exact Hall.
Qed.

Lemma entry_loop_ok (reply : configs_reply) (n : nat) :
  forall (cs : list entry_elem) (config config' : rd_kafka_ConfigResource_t),
    read_loop (DescribeConfigsResponse_parse_entry reply) n cs config
    = PARSE_OK config' ->
    cr_restype config' = cr_restype config
    /\ cr_name config' = cr_name config
    /\ cr_err config' = cr_err config
    /\ cr_errstr config' = cr_errstr config
    /\ exists new,
         cr_config config' = cr_config config ++ new
         /\ Forall2 (fun c entry =>
                       normalized_entry reply c entry
                       /\ exists m, Forall2 synonym_entry (take m (syn_elems c))
                                      (synonyms entry))
              (take n cs) new.
Proof.
  induction n as [| n IH]; intros cs config config' Hrun.
  - simpl in Hrun. inversion Hrun; subst.
    repeat (split; [reflexivity |]). exists []. rewrite app_nil_r, take_0.
    split; [reflexivity | constructor].
  - destruct cs as [| c cs]; [discriminate Hrun |].
    simpl in Hrun.
    destruct (DescribeConfigsResponse_parse_entry reply c config)
      as [config1 | | |] eqn:Estep; try discriminate Hrun.
    apply parse_entry_ok in Estep.
    destruct Estep as (entry & -> & Hnorm & Hsyn).
    apply IH in Hrun.
    destruct Hrun as (Ht & Hn & He & Hes & new & Hnew & Hall).
    simpl in Ht, Hn, He, Hes, Hnew.
    repeat (split; [assumption |]).
    exists (entry :: new). unfold rd_list_add in Hnew.
    rewrite <- app_assoc in Hnew. simpl in Hnew.
    split; [exact Hnew |]. rewrite firstn_cons.
    constructor; [split; assumption | assumption].
Qed.

Lemma new_resource_key (e : resource_elem) (config : rd_kafka_ConfigResource_t) :
  ConfigsResponse_new_resource e = Some config ->
  cr_restype config = res_type e
  /\ cr_name config = c_str (kstr_bytes (kres_name e))
  /\ cr_config config = []
  /\ cr_err config = res_error_code e
  /\ 0 <= res_type e.
Proof.
  unfold ConfigsResponse_new_resource, rd_kafka_ConfigResource_new.
  destruct (strlen (kstr_bytes (kres_name e)) =? 0); [discriminate |].
  destruct (Z.ltb_spec (res_type e) 0) as [Hneg | Hpos]; [discriminate |].
  simpl. intros Hsome. inversion Hsome. repeat split. assumption.
Qed.

Lemma read_resource_ok (reply : configs_reply) (e : resource_elem)
    (config : rd_kafka_ConfigResource_t) :
  DescribeConfigsResponse_read_resource reply e = PARSE_OK (Some config) ->
  cr_restype config = res_type e
  /\ cr_name config = c_str (kstr_bytes (kres_name e))
  /\ cr_err config = res_error_code e
  /\ Forall2 (fun c entry =>
                normalized_entry reply c entry
                /\ exists m, Forall2 synonym_entry (take m (syn_elems c))
                               (synonyms entry))
       (take (Z.to_nat (entry_cnt e)) (entry_elems e)) (cr_config config).
Proof.
  unfold DescribeConfigsResponse_read_resource.
  destruct (ConfigsResponse_new_resource e) as [config0 |] eqn:Enew;
    [| discriminate].
  apply new_resource_key in Enew. destruct Enew as (Ht & Hn & Hc & He & _).
  destruct (read_loop (DescribeConfigsResponse_parse_entry reply)
              (Z.to_nat (entry_cnt e)) (entry_elems e) config0)
    as [config1 | | |] eqn:Eloop; try discriminate.
  intros H. inversion H; subst config1.
  apply entry_loop_ok in Eloop.
  destruct Eloop as (Ht' & Hn' & He' & _ & new & Hnew & Hall).
  rewrite Hc in Hnew. simpl in Hnew. rewrite Hnew.
  repeat split; congruence.
Qed.

(** ** Results are placed by key *)

Example DeleteTopics_keeps_request_order :
  rd_kafka_DeleteTopicsResponse_parse
    (sample_DeleteTopics 0 ["beta"; "alpha"; "gamma"])
    (mk_buf 1 0 3 [sample_topic "gamma" 0; sample_topic "alpha" 0;
                   sample_topic "beta" 0])
  = PARSE_OK
      (sample_result RD_KAFKA_EVENT_DELETETOPICS_RESULT RD_KAFKA_OP_DELETETOPICS
         [Some (mk_topic_result "beta" 0 None);
          Some (mk_topic_result "alpha" 0 None);
          Some (mk_topic_result "gamma" 0 None)]).
Proof. reflexivity. Qed.

Example DeleteTopics_unknown_topic :
  rd_kafka_DeleteTopicsResponse_parse
    (sample_DeleteTopics 0 ["beta"; "alpha"])
    (mk_buf 1 0 1 [sample_topic "delta" 0])
  = PARSE_ERR RD_KAFKA_RESP_ERR_NO_ERROR (Fail_not_in_request None "delta").
Proof. reflexivity. Qed.

Example DeleteTopics_topic_twice :
  rd_kafka_DeleteTopicsResponse_parse
    (sample_DeleteTopics 0 ["beta"; "alpha"])
    (mk_buf 1 0 2 [sample_topic "alpha" 0; sample_topic "alpha" 0])
  = PARSE_ERR RD_KAFKA_RESP_ERR_NO_ERROR (Fail_multiple_times None "alpha").
Proof. reflexivity. Qed.

Example AlterConfigs_keeps_request_order :
  rd_kafka_AlterConfigsResponse_parse
    (sample_AlterConfigs [sample_resource RD_KAFKA_RESOURCE_TOPIC "t";
                          sample_resource RD_KAFKA_RESOURCE_BROKER "1"])
    (mk_buf 0 0 2
       [mk_resource_elem 0 None RD_KAFKA_RESOURCE_BROKER (Some "1") 0 [];
        mk_resource_elem 40 (Some "bad value") RD_KAFKA_RESOURCE_TOPIC
          (Some "t") 0 []])
  = PARSE_OK
      (sample_result RD_KAFKA_EVENT_ALTERCONFIGS_RESULT RD_KAFKA_OP_ALTERCONFIGS
         [Some (mk_ConfigResource RD_KAFKA_RESOURCE_TOPIC "t" [] 40
                  (Some (Errmsg "bad value")));
          Some (mk_ConfigResource RD_KAFKA_RESOURCE_BROKER "1" [] 0 None)]).
Proof. reflexivity. Qed.

Example AlterConfigs_same_name_other_type :
  rd_kafka_AlterConfigsResponse_parse
    (sample_AlterConfigs [sample_resource RD_KAFKA_RESOURCE_TOPIC "1"])
    (mk_buf 0 0 1
       [mk_resource_elem 0 None RD_KAFKA_RESOURCE_BROKER (Some "1") 0 []])
  = PARSE_ERR RD_KAFKA_RESP_ERR_NO_ERROR
      (Fail_not_in_request (Some RD_KAFKA_RESOURCE_BROKER) "1").
Proof. reflexivity. Qed.

(** The DescribeConfigs parser destroys a resource that the request does
    not hold before it gives up, and again at [err_parse]. *)
Example DescribeConfigs_unknown_resource :
  rd_kafka_DescribeConfigsResponse_parse
    (sample_DescribeConfigs [sample_resource RD_KAFKA_RESOURCE_TOPIC "1"])
    (mk_buf 0 0 1
       [mk_resource_elem 0 None RD_KAFKA_RESOURCE_BROKER (Some "1") 0 []])
  = PARSE_DOUBLE_FREE.
Proof. reflexivity. Qed.

Example CreatePartitions_keeps_request_order :
  rd_kafka_CreatePartitionsResponse_parse
    (sample_CreatePartitions 0 ["t1"; "t2"])
    (mk_buf 0 0 2 [mk_topic_elem (Some "t2") 37 (Some "too few");
                   mk_topic_elem (Some "t1") 0 None])
  = PARSE_OK
      (sample_result RD_KAFKA_EVENT_CREATEPARTITIONS_RESULT
         RD_KAFKA_OP_CREATEPARTITIONS
         [Some (mk_topic_result "t1" 0 None);
          Some (mk_topic_result "t2" 37 (Some (Err2str 37)))]).
Proof. reflexivity. Qed.

(** C2 as stated fails on an element that the config parsers ignore: the
    reply's only resource has type -1, no resource of the request has that
    type, and the parse neither fails nor stores a result. *)
Lemma ignored_resource_is_not_refused :
  rd_kafka_AlterConfigsResponse_parse
    (sample_AlterConfigs [sample_resource RD_KAFKA_RESOURCE_TOPIC "t"])
    (mk_buf 0 0 1 [mk_resource_elem 0 None (-1) (Some "x") 0 []])
  = PARSE_OK
      (sample_result RD_KAFKA_EVENT_ALTERCONFIGS_RESULT
         RD_KAFKA_OP_ALTERCONFIGS [])
  /\ rd_kafka_DescribeConfigsResponse_parse
       (sample_DescribeConfigs [sample_resource RD_KAFKA_RESOURCE_TOPIC "t"])
       (mk_buf 0 0 1 [mk_resource_elem 0 None (-1) (Some "x") 0 []])
     = PARSE_OK
         (sample_result RD_KAFKA_EVENT_DESCRIBECONFIGS_RESULT
            RD_KAFKA_OP_DESCRIBECONFIGS [])
  /\ Forall (fun a => cr_restype a <> -1)
       (args (sample_AlterConfigs
                [sample_resource RD_KAFKA_RESOURCE_TOPIC "t"])).
Proof.
  split; [reflexivity |]. split; [reflexivity |].
  constructor; [discriminate | constructor].
Qed.

(** The five parsers place by key. *)
Ltac places_by_loop Hp parse_ok :=
  let Hplaced := fresh "Hplaced" in
  let Hstored := fresh "Hstored" in
  apply parse_ok in Hp; destruct Hp as [_ Hp];
  apply place_loop_results in Hp;
  destruct Hp as (_ & _ & Hplaced & Hstored & _);
  split;
  [ intros e r He Hr; apply (Hplaced e r He)
  | intros k r Hl; destruct (Hstored k r Hl) as [Hf (e & He & Hr)];
    split; [exact Hf |]; exists e; split; [exact He |] ].

Lemma CreateTopics_places_by_key :
  places_by_key rd_kafka_CreateTopicsResponse_parse
    (fun rko_req reply e =>
       Some (CreateTopicsResponse_topic_result rko_req reply e))
    topic_cmp_NewTopic.
Proof.
  intros rko_req reply res Hp.
  places_by_loop Hp CreateTopics_parse_ok.
  - inversion Hr. reflexivity.
  - inversion Hr. reflexivity.
Qed.

Lemma DeleteTopics_places_by_key :
  places_by_key rd_kafka_DeleteTopicsResponse_parse
    (fun rko_req reply e =>
       Some (DeleteTopicsResponse_topic_result rko_req reply e))
    topic_cmp_DeleteTopic.
Proof.
  intros rko_req reply res Hp.
  places_by_loop Hp DeleteTopics_parse_ok.
  - inversion Hr. reflexivity.
  - inversion Hr. reflexivity.
Qed.

Lemma CreatePartitions_places_by_key :
  places_by_key rd_kafka_CreatePartitionsResponse_parse
    (fun rko_req reply e =>
       Some (CreatePartitionsResponse_topic_result rko_req reply e))
    topic_cmp_NewPartitions.
Proof.
  intros rko_req reply res Hp.
  places_by_loop Hp CreatePartitions_parse_ok.
  - inversion Hr. reflexivity.
  - inversion Hr. reflexivity.
Qed.

Lemma AlterConfigs_places_by_key :
  places_by_key rd_kafka_AlterConfigsResponse_parse
    (fun _ _ e => ConfigsResponse_new_resource e) resource_cmp.
Proof.
  intros rko_req reply res Hp.
  places_by_loop Hp AlterConfigs_parse_ok.
  - rewrite Hr. reflexivity.
  - inversion Hr. reflexivity.
Qed.

Lemma DescribeConfigs_resource_read (reply : configs_reply) (e : resource_elem)
    (config : rd_kafka_ConfigResource_t) :
  DescribeConfigs_resource reply e = Some config
  <-> DescribeConfigsResponse_read_resource reply e = PARSE_OK (Some config).
Proof.
  unfold DescribeConfigs_resource.
  destruct (DescribeConfigsResponse_read_resource reply e) as [o | | |];
    split; intros H; try discriminate H.
  - rewrite H. reflexivity.
  - inversion H. reflexivity.
Qed.

Lemma DescribeConfigs_places_by_key :
  places_by_key rd_kafka_DescribeConfigsResponse_parse
    (fun _ reply e => DescribeConfigs_resource reply e) resource_cmp.
Proof.
  intros rko_req reply res Hp.
  places_by_loop Hp DescribeConfigs_parse_ok.
  - apply DescribeConfigs_resource_read. exact Hr.
  - apply DescribeConfigs_resource_read. exact Hr.
Qed.

(** The three topic parsers and the AlterConfigs parser give up by key. *)
Ltac gives_up_by_loop Hpre parse_ok read cmp He :=
  let Hno := fresh "Hno" in
  let Htwice := fresh "Htwice" in
  apply parse_ok in Hpre; destruct Hpre as [_ Hpre];
  cbn [reply_prefix elem_cnt elems] in Hpre; rewrite Nat2Z.id in Hpre;
  match goal with
  | |- context [Z.gtb ?c ?a] => destruct (Z.gtb_spec c a); [lia |]
  end;
  match goal with
  | |- context [read_loop _ ?n ?l _] =>
      match type of Hpre with
      | read_loop _ ?i _ _ = PARSE_OK ?r0 =>
          destruct (place_loop_gives_up _ read cmp topic_not_in_request
                      topic_multiple_times n i l _ _ r0 He ltac:(lia) Hpre
                      eq_refl) as [Hno Htwice]
      end
  end;
  split;
  [ intros Hnm; exists parser_err;
    exact (f_equal (parse_return _) (Hno Hnm))
  | intros k r' Hf Hr'; exists parser_err;
    exact (f_equal (parse_return _) (Htwice k r' Hf Hr')) ].

Lemma CreateTopics_gives_up_by_key :
  gives_up_by_key rd_kafka_CreateTopicsResponse_parse
    (fun rko_req reply e =>
       Some (CreateTopicsResponse_topic_result rko_req reply e))
    topic_cmp_NewTopic topic_not_in_request topic_multiple_times.
Proof.
  intros rko_req reply i e r res0 He [Hi Hcnt] Hpre Hread.
  inversion Hread; subst r. unfold rd_kafka_CreateTopicsResponse_parse.
  gives_up_by_loop Hpre CreateTopics_parse_ok
    (fun e : topic_elem =>
       PARSE_OK (Some (CreateTopicsResponse_topic_result rko_req reply e)))
    topic_cmp_NewTopic He.
Qed.

Lemma DeleteTopics_gives_up_by_key :
  gives_up_by_key rd_kafka_DeleteTopicsResponse_parse
    (fun rko_req reply e =>
       Some (DeleteTopicsResponse_topic_result rko_req reply e))
    topic_cmp_DeleteTopic topic_not_in_request topic_multiple_times.
Proof.
  intros rko_req reply i e r res0 He [Hi Hcnt] Hpre Hread.
  inversion Hread; subst r. unfold rd_kafka_DeleteTopicsResponse_parse.
  gives_up_by_loop Hpre DeleteTopics_parse_ok
    (fun e : topic_elem =>
       PARSE_OK (Some (DeleteTopicsResponse_topic_result rko_req reply e)))
    topic_cmp_DeleteTopic He.
Qed.

Lemma CreatePartitions_gives_up_by_key :
  gives_up_by_key rd_kafka_CreatePartitionsResponse_parse
    (fun rko_req reply e =>
       Some (CreatePartitionsResponse_topic_result rko_req reply e))
    topic_cmp_NewPartitions topic_not_in_request topic_multiple_times.
Proof.
  intros rko_req reply i e r res0 He [Hi Hcnt] Hpre Hread.
  inversion Hread; subst r. unfold rd_kafka_CreatePartitionsResponse_parse.
  gives_up_by_loop Hpre CreatePartitions_parse_ok
    (fun e : topic_elem =>
       PARSE_OK
         (Some (CreatePartitionsResponse_topic_result rko_req reply e)))
    topic_cmp_NewPartitions He.
Qed.

Lemma AlterConfigs_gives_up_by_key :
  gives_up_by_key rd_kafka_AlterConfigsResponse_parse
    (fun _ _ e => ConfigsResponse_new_resource e) resource_cmp
    resource_not_in_request resource_multiple_times.
Proof.
  intros rko_req reply i e r res0 He [Hi Hcnt] Hpre Hread.
  unfold rd_kafka_AlterConfigsResponse_parse.
  apply AlterConfigs_parse_ok in Hpre; destruct Hpre as [_ Hpre].
  cbn [reply_prefix elem_cnt elems] in Hpre. rewrite Nat2Z.id in Hpre.
  destruct (Z.gtb_spec (elem_cnt reply) (rd_list_cnt (args rko_req)));
    [lia |].
  rewrite (read_loop_ext _ _ _ (AlterConfigs_body_shape rko_req reply)).
  destruct (place_loop_gives_up (args rko_req)
              (fun e => PARSE_OK (ConfigsResponse_new_resource e))
              resource_cmp resource_not_in_request resource_multiple_times
              (Z.to_nat (elem_cnt reply)) i (elems reply) e r (results res0)
              He ltac:(lia) Hpre (f_equal PARSE_OK Hread))
    as [Hno Htwice].
  split.
  - intros Hnm. exists parser_err.
    exact (f_equal (parse_return _) (Hno Hnm)).
  - intros k r' Hf Hr'. exists parser_err.
    exact (f_equal (parse_return _) (Htwice k r' Hf Hr')).
Qed.

(** C2, amended. Each of the five parsers, when it hands back a result
    op, has stored the result of every element it read and did not ignore
    (the config parsers ignore an element with a negative resource type or
    an empty name) at the position of the first args entry with the same
    key, and nothing else: the key is the topic name for CreateTopics,
    DeleteTopics and CreatePartitions, the resource type and name for
    AlterConfigs and DescribeConfigs. The three topic parsers and the
    AlterConfigs parser, at an element whose key no args entry has, give up
    as "not included in the original request", and at an element whose
    position already holds a result, as "returned multiple times": no
    result op is handed back. The code returned then, and what the
    DescribeConfigs parser does at such an element, are not part of the
    statement. *)
Theorem results_placed_by_key :
  (places_by_key rd_kafka_CreateTopicsResponse_parse
     (fun rko_req reply e =>
        Some (CreateTopicsResponse_topic_result rko_req reply e))
     topic_cmp_NewTopic
   /\ gives_up_by_key rd_kafka_CreateTopicsResponse_parse
        (fun rko_req reply e =>
           Some (CreateTopicsResponse_topic_result rko_req reply e))
        topic_cmp_NewTopic topic_not_in_request topic_multiple_times
   /\ forall rko_req reply e,
        tr_topic (CreateTopicsResponse_topic_result rko_req reply e)
        = kstr_bytes (ktopic e))
  /\ (places_by_key rd_kafka_DeleteTopicsResponse_parse
        (fun rko_req reply e =>
           Some (DeleteTopicsResponse_topic_result rko_req reply e))
        topic_cmp_DeleteTopic
      /\ gives_up_by_key rd_kafka_DeleteTopicsResponse_parse
           (fun rko_req reply e =>
              Some (DeleteTopicsResponse_topic_result rko_req reply e))
           topic_cmp_DeleteTopic topic_not_in_request topic_multiple_times
      /\ forall rko_req reply e,
           tr_topic (DeleteTopicsResponse_topic_result rko_req reply e)
           = kstr_bytes (ktopic e))
  /\ (places_by_key rd_kafka_CreatePartitionsResponse_parse
        (fun rko_req reply e =>
           Some (CreatePartitionsResponse_topic_result rko_req reply e))
        topic_cmp_NewPartitions
      /\ gives_up_by_key rd_kafka_CreatePartitionsResponse_parse
           (fun rko_req reply e =>
              Some (CreatePartitionsResponse_topic_result rko_req reply e))
           topic_cmp_NewPartitions topic_not_in_request topic_multiple_times
      /\ forall rko_req reply e,
           tr_topic (CreatePartitionsResponse_topic_result rko_req reply e)
           = kstr_bytes (ktopic e))
  /\ (places_by_key rd_kafka_AlterConfigsResponse_parse
        (fun _ _ e => ConfigsResponse_new_resource e) resource_cmp
      /\ gives_up_by_key rd_kafka_AlterConfigsResponse_parse
           (fun _ _ e => ConfigsResponse_new_resource e) resource_cmp
           resource_not_in_request resource_multiple_times
      /\ forall e config,
           ConfigsResponse_new_resource e = Some config ->
           cr_restype config = res_type e
           /\ cr_name config = c_str (kstr_bytes (kres_name e)))
  /\ (places_by_key rd_kafka_DescribeConfigsResponse_parse
        (fun _ reply e => DescribeConfigs_resource reply e) resource_cmp
      /\ forall reply e config,
           DescribeConfigs_resource reply e = Some config ->
           cr_restype config = res_type e
           /\ cr_name config = c_str (kstr_bytes (kres_name e)))
  /\ (forall r a,
        topic_cmp_NewTopic r a = 0 <-> c_str (tr_topic r) = c_str (nt_topic a))
  /\ (forall r a,
        topic_cmp_DeleteTopic r a = 0
        <-> c_str (tr_topic r) = c_str (dt_topic a))
  /\ (forall r a,
        topic_cmp_NewPartitions r a = 0
        <-> c_str (tr_topic r) = c_str (np_topic a))
  /\ (forall r a,
        resource_cmp r a = 0
        <-> cr_restype r = cr_restype a
            /\ c_str (cr_name r) = c_str (cr_name a)).
Proof.
  split; [| split; [| split; [| split; [| split]]]].
  - split; [exact CreateTopics_places_by_key |].
    split; [exact CreateTopics_gives_up_by_key | reflexivity].
  - split; [exact DeleteTopics_places_by_key |].
    split; [exact DeleteTopics_gives_up_by_key | reflexivity].
  - split; [exact CreatePartitions_places_by_key |].
    split; [exact CreatePartitions_gives_up_by_key | reflexivity].
  - split; [exact AlterConfigs_places_by_key |].
    split; [exact AlterConfigs_gives_up_by_key |].
    intros e config Hnew. apply new_resource_key in Hnew.
    split; apply Hnew.
  - split; [exact DescribeConfigs_places_by_key |].
    intros reply e config Hread.
    apply DescribeConfigs_resource_read, read_resource_ok in Hread.
    split; apply Hread.
  - split; [exact topic_cmp_NewTopic_eq |].
    split; [exact topic_cmp_DeleteTopic_eq |].
    split; [exact topic_cmp_NewPartitions_eq | exact resource_cmp_eq].
Qed.

Lemma results_placed_by_key_witness :
  (exists k,
      first_match (args (sample_DeleteTopics 0 ["beta"; "alpha"]))
        topic_cmp_DeleteTopic (mk_topic_result "alpha" 0 None) k
      /\ [None; Some (mk_topic_result "alpha" 0 None)] !! k
         = Some (Some (mk_topic_result "alpha" 0 None)))
  /\ (exists err,
        rd_kafka_DeleteTopicsResponse_parse
          (sample_DeleteTopics 0 ["beta"; "alpha"])
          (mk_buf 1 0 2 [sample_topic "alpha" 0; sample_topic "delta" 0])
        = PARSE_ERR err (Fail_not_in_request None "delta"))
  /\ (exists err,
        rd_kafka_DeleteTopicsResponse_parse
          (sample_DeleteTopics 0 ["beta"; "alpha"])
          (mk_buf 1 0 2 [sample_topic "alpha" 0; sample_topic "alpha" 3])
        = PARSE_ERR err (Fail_multiple_times None "alpha")).
Proof.
  destruct (proj1 (proj2 results_placed_by_key)) as (Hplaces & Hgives & _).
  split; [| split].
  - apply (proj1 (Hplaces (sample_DeleteTopics 0 ["beta"; "alpha"])
                    (mk_buf 1 0 1 [sample_topic "alpha" 0])
                    (sample_result RD_KAFKA_EVENT_DELETETOPICS_RESULT
                       RD_KAFKA_OP_DELETETOPICS
                       [None; Some (mk_topic_result "alpha" 0 None)])
                    eq_refl)
             (sample_topic "alpha" 0)).
    + apply elem_of_cons. left. reflexivity.
    + reflexivity.
  - apply (proj1 (Hgives (sample_DeleteTopics 0 ["beta"; "alpha"])
                    (mk_buf 1 0 2
                       [sample_topic "alpha" 0; sample_topic "delta" 0])
                    1%nat (sample_topic "delta" 0) _
                    (sample_result RD_KAFKA_EVENT_DELETETOPICS_RESULT
                       RD_KAFKA_OP_DELETETOPICS
                       [None; Some (mk_topic_result "alpha" 0 None)])
                    eq_refl ltac:(split; reflexivity || discriminate)
                    eq_refl eq_refl)).
    apply Forall_cons_2; [discriminate |].
    apply Forall_cons_2; [discriminate | apply Forall_nil_2].
  - apply (proj2 (Hgives (sample_DeleteTopics 0 ["beta"; "alpha"])
                    (mk_buf 1 0 2
                       [sample_topic "alpha" 0; sample_topic "alpha" 3])
                    1%nat (sample_topic "alpha" 3) _
                    (sample_result RD_KAFKA_EVENT_DELETETOPICS_RESULT
                       RD_KAFKA_OP_DELETETOPICS
                       [None; Some (mk_topic_result "alpha" 0 None)])
                    eq_refl ltac:(split; reflexivity || discriminate)
                    eq_refl eq_refl)
             1%nat (mk_topic_result "alpha" 0 None)).
    + split.
      * exists (mk_DeleteTopic "alpha"). split; reflexivity.
      * intros j a' Hj Ha'. assert (j = O) by lia. subst j.
        inversion Ha'. discriminate.
    + reflexivity.
Defined.

(** ** Length of the result sequence *)

(** C3 as stated fails on a reply with fewer elements than the request:
    two topics are requested, the reply answers for the first one only, the
    parse succeeds and the result sequence has one element. *)
Lemma short_reply_gives_short_result :
  rd_kafka_DeleteTopicsResponse_parse
    (sample_DeleteTopics 0 ["a"; "b"]) (mk_buf 1 0 1 [sample_topic "a" 0])
  = PARSE_OK
      (sample_result RD_KAFKA_EVENT_DELETETOPICS_RESULT RD_KAFKA_OP_DELETETOPICS
         [Some (mk_topic_result "a" 0 None)])
  /\ snd (rd_kafka_admin_result_ret
            (sample_result RD_KAFKA_EVENT_DELETETOPICS_RESULT
               RD_KAFKA_OP_DELETETOPICS [Some (mk_topic_result "a" 0 None)]))
     = 1
  /\ rd_list_cnt (args (sample_DeleteTopics 0 ["a"; "b"])) = 2.
Proof. repeat split. Qed.

(** A reply that answers for the last topic only leaves a NULL slot. *)
Example reply_for_last_topic_leaves_hole :
  rd_kafka_DeleteTopicsResponse_parse
    (sample_DeleteTopics 0 ["a"; "b"]) (mk_buf 1 0 1 [sample_topic "b" 0])
  = PARSE_OK
      (sample_result RD_KAFKA_EVENT_DELETETOPICS_RESULT RD_KAFKA_OP_DELETETOPICS
         [None; Some (mk_topic_result "b" 0 None)]).
Proof. reflexivity. Qed.

Lemma take_all_reads {E R : Type} (read : E -> parse_result (option R))
    (n : nat) (elems : list E) :
  (n <= length elems)%nat ->
  Forall (fun e => exists r, read e = PARSE_OK (Some r)) (take n elems) ->
  length (placed_of read (take n elems)) = n.
Proof.
  intros Hn Hall. rewrite placed_of_all by assumption.
  rewrite length_take. lia.
Qed.

(** The facts about the result list of a run that the length bounds
    need. *)
Ltac full_result Hrun Hcnt :=
  let Hn := fresh "Hn" in
  let Hlen := fresh "Hlen" in
  let Hfull := fresh "Hfull" in
  let Hreads := fresh "Hreads" in
  apply place_loop_results in Hrun;
  destruct Hrun as (Hn & Hlen & _ & _ & Hfull & Hreads);
  unfold rd_list_cnt in *;
  split; [lia |].

(** C3, amended. After a successful parse the result sequence is never
    longer than the request's args sequence. It has the same length, with a
    result in every slot, when the reply declares as many elements as the
    request has args and none of them is ignored; the topic parsers ignore
    none, AlterConfigs and DescribeConfigs ignore those with a negative
    resource type or an empty name. *)
Theorem result_length_bounded :
  (forall rko_req reply res,
      rd_kafka_CreateTopicsResponse_parse rko_req reply = PARSE_OK res ->
      rd_list_cnt (results res) <= rd_list_cnt (args rko_req)
      /\ (elem_cnt reply = rd_list_cnt (args rko_req) ->
          rd_list_cnt (results res) = rd_list_cnt (args rko_req)
          /\ forall i, (i < length (args rko_req))%nat ->
                       exists x, results res !! i = Some (Some x)))
  /\ (forall rko_req reply res,
        rd_kafka_DeleteTopicsResponse_parse rko_req reply = PARSE_OK res ->
        rd_list_cnt (results res) <= rd_list_cnt (args rko_req)
        /\ (elem_cnt reply = rd_list_cnt (args rko_req) ->
            rd_list_cnt (results res) = rd_list_cnt (args rko_req)
            /\ forall i, (i < length (args rko_req))%nat ->
                         exists x, results res !! i = Some (Some x)))
  /\ (forall rko_req reply res,
        rd_kafka_CreatePartitionsResponse_parse rko_req reply = PARSE_OK res ->
        rd_list_cnt (results res) <= rd_list_cnt (args rko_req)
        /\ (elem_cnt reply = rd_list_cnt (args rko_req) ->
            rd_list_cnt (results res) = rd_list_cnt (args rko_req)
            /\ forall i, (i < length (args rko_req))%nat ->
                         exists x, results res !! i = Some (Some x)))
  /\ (forall rko_req reply res,
        rd_kafka_AlterConfigsResponse_parse rko_req reply = PARSE_OK res ->
        rd_list_cnt (results res) <= rd_list_cnt (args rko_req)
        /\ (elem_cnt reply = rd_list_cnt (args rko_req) ->
            Forall (fun e => is_Some (ConfigsResponse_new_resource e))
              (take (Z.to_nat (elem_cnt reply)) (elems reply)) ->
            rd_list_cnt (results res) = rd_list_cnt (args rko_req)
            /\ forall i, (i < length (args rko_req))%nat ->
                         exists x, results res !! i = Some (Some x)))
  /\ (forall rko_req reply res,
        rd_kafka_DescribeConfigsResponse_parse rko_req reply = PARSE_OK res ->
        rd_list_cnt (results res) <= rd_list_cnt (args rko_req)
        /\ (elem_cnt reply = rd_list_cnt (args rko_req) ->
            Forall (fun e => is_Some (ConfigsResponse_new_resource e))
              (take (Z.to_nat (elem_cnt reply)) (elems reply)) ->
            rd_list_cnt (results res) = rd_list_cnt (args rko_req)
            /\ forall i, (i < length (args rko_req))%nat ->
                         exists x, results res !! i = Some (Some x))).
Proof.
  split; [| split; [| split; [| split]]]; intros rko_req reply res Hparse.
  - apply CreateTopics_parse_ok in Hparse. destruct Hparse as [Hcnt Hrun].
    full_result Hrun Hcnt. intros Hsame.
    destruct Hfull as [Heq Hslots]; [| split; [lia | exact Hslots]].
    rewrite take_all_reads; [lia | lia |].
    apply Forall_forall. intros e _. eauto.
  - apply DeleteTopics_parse_ok in Hparse. destruct Hparse as [Hcnt Hrun].
    full_result Hrun Hcnt. intros Hsame.
    destruct Hfull as [Heq Hslots]; [| split; [lia | exact Hslots]].
    rewrite take_all_reads; [lia | lia |].
    apply Forall_forall. intros e _. eauto.
  - apply CreatePartitions_parse_ok in Hparse. destruct Hparse as [Hcnt Hrun].
    full_result Hrun Hcnt. intros Hsame.
    destruct Hfull as [Heq Hslots]; [| split; [lia | exact Hslots]].
    rewrite take_all_reads; [lia | lia |].
    apply Forall_forall. intros e _. eauto.
  - apply AlterConfigs_parse_ok in Hparse. destruct Hparse as [Hcnt Hrun].
    full_result Hrun Hcnt. intros Hsame Hnone.
    destruct Hfull as [Heq Hslots]; [| split; [lia | exact Hslots]].
    rewrite take_all_reads; [lia | lia |].
    eapply Forall_impl; [exact Hnone |].
    intros e [c Hc]. exists c. rewrite Hc. reflexivity.
  - apply DescribeConfigs_parse_ok in Hparse. destruct Hparse as [Hcnt Hrun].
    full_result Hrun Hcnt. intros Hsame Hnone.
    destruct Hfull as [Heq Hslots]; [| split; [lia | exact Hslots]].
    rewrite take_all_reads; [lia | lia |].
    rewrite Forall_forall in Hnone, Hreads. apply Forall_forall.
    intros e He. destruct (Hnone e He) as [c Hc].
    destruct (Hreads e He) as [o Ho]. rewrite Ho.
    unfold DescribeConfigsResponse_read_resource in Ho. rewrite Hc in Ho.
    destruct (read_loop (DescribeConfigsResponse_parse_entry reply)
                (Z.to_nat (entry_cnt e)) (entry_elems e) c);
      inversion Ho; eauto.
Qed.

Lemma result_length_bounded_witness :
  rd_list_cnt
    (results (sample_result RD_KAFKA_EVENT_DELETETOPICS_RESULT
                RD_KAFKA_OP_DELETETOPICS
                [Some (mk_topic_result "beta" 0 None);
                 Some (mk_topic_result "alpha" 0 None)]))
  = rd_list_cnt (args (sample_DeleteTopics 0 ["beta"; "alpha"])).
Proof.
  apply (proj1 (proj2 result_length_bounded)
           (sample_DeleteTopics 0 ["beta"; "alpha"])
           (mk_buf 1 0 2 [sample_topic "alpha" 0; sample_topic "beta" 0]));
    reflexivity.
Defined.

(** ** REQUEST_TIMED_OUT on a topic *)

Example CreateTopics_in_progress_is_no_error :
  rd_kafka_CreateTopicsResponse_parse (sample_CreateTopics 0 ["t1"])
    (mk_buf 2 0 1 [mk_topic_elem (Some "t1")
                     RD_KAFKA_RESP_ERR_REQUEST_TIMED_OUT (Some "timed out")])
  = PARSE_OK
      (sample_result RD_KAFKA_EVENT_CREATETOPICS_RESULT RD_KAFKA_OP_CREATETOPICS
         [Some (mk_topic_result "t1" RD_KAFKA_RESP_ERR_NO_ERROR None)]).
Proof. reflexivity. Qed.

Example CreateTopics_timed_out_is_kept :
  rd_kafka_CreateTopicsResponse_parse (sample_CreateTopics 1000 ["t1"])
    (mk_buf 2 0 1 [mk_topic_elem (Some "t1")
                     RD_KAFKA_RESP_ERR_REQUEST_TIMED_OUT (Some "timed out")])
  = PARSE_OK
      (sample_result RD_KAFKA_EVENT_CREATETOPICS_RESULT RD_KAFKA_OP_CREATETOPICS
         [Some (mk_topic_result "t1" RD_KAFKA_RESP_ERR_REQUEST_TIMED_OUT
                  (Some (Errmsg "timed out")))]).
Proof. reflexivity. Qed.

(** The error code that the three topic parsers give a topic result. *)
Lemma topic_result_err rko_ct rko_dt rko_cp (reply : topics_reply)
    (e : topic_elem) :
  tr_err (CreateTopicsResponse_topic_result rko_ct reply e)
  = (if (error_code e =? RD_KAFKA_RESP_ERR_REQUEST_TIMED_OUT)
        && (rd_kafka_confval_get_int (operation_timeout (options rko_ct)) <=? 0)
     then RD_KAFKA_RESP_ERR_NO_ERROR else error_code e)
  /\ tr_err (DeleteTopicsResponse_topic_result rko_dt reply e)
     = (if (error_code e =? RD_KAFKA_RESP_ERR_REQUEST_TIMED_OUT)
           && (rd_kafka_confval_get_int (operation_timeout (options rko_dt))
               <=? 0)
        then RD_KAFKA_RESP_ERR_NO_ERROR else error_code e)
  /\ tr_err (CreatePartitionsResponse_topic_result rko_cp reply e)
     = (if (error_code e =? RD_KAFKA_RESP_ERR_REQUEST_TIMED_OUT)
           && (rd_kafka_confval_get_int (operation_timeout (options rko_cp))
               <=? 0)
        then RD_KAFKA_RESP_ERR_NO_ERROR else error_code e).
Proof. repeat split. Qed.

(** C4. In the CreateTopics, DeleteTopics and CreatePartitions parsers an
    element whose error code is REQUEST_TIMED_OUT gets a topic result with
    no error when the request's operation_timeout is at most 0, and one
    with REQUEST_TIMED_OUT when it is greater than 0; that topic result is
    the one stored in the result list of a successful parse. *)
Theorem request_timed_out_rewritten :
  (forall rko_req reply e,
      error_code e = RD_KAFKA_RESP_ERR_REQUEST_TIMED_OUT ->
      (rd_kafka_confval_get_int (operation_timeout (options rko_req)) <= 0 ->
       tr_err (CreateTopicsResponse_topic_result rko_req reply e)
       = RD_KAFKA_RESP_ERR_NO_ERROR)
      /\ (0 < rd_kafka_confval_get_int (operation_timeout (options rko_req)) ->
          tr_err (CreateTopicsResponse_topic_result rko_req reply e)
          = RD_KAFKA_RESP_ERR_REQUEST_TIMED_OUT))
  /\ (forall rko_req reply e,
        error_code e = RD_KAFKA_RESP_ERR_REQUEST_TIMED_OUT ->
        (rd_kafka_confval_get_int (operation_timeout (options rko_req)) <= 0 ->
         tr_err (DeleteTopicsResponse_topic_result rko_req reply e)
         = RD_KAFKA_RESP_ERR_NO_ERROR)
        /\ (0 < rd_kafka_confval_get_int (operation_timeout (options rko_req)) ->
            tr_err (DeleteTopicsResponse_topic_result rko_req reply e)
            = RD_KAFKA_RESP_ERR_REQUEST_TIMED_OUT))
  /\ (forall rko_req reply e,
        error_code e = RD_KAFKA_RESP_ERR_REQUEST_TIMED_OUT ->
        (rd_kafka_confval_get_int (operation_timeout (options rko_req)) <= 0 ->
         tr_err (CreatePartitionsResponse_topic_result rko_req reply e)
         = RD_KAFKA_RESP_ERR_NO_ERROR)
        /\ (0 < rd_kafka_confval_get_int (operation_timeout (options rko_req)) ->
            tr_err (CreatePartitionsResponse_topic_result rko_req reply e)
            = RD_KAFKA_RESP_ERR_REQUEST_TIMED_OUT))
  /\ (forall rko_req reply res e,
        rd_kafka_CreateTopicsResponse_parse rko_req reply = PARSE_OK res ->
        e ∈ take (Z.to_nat (elem_cnt reply)) (elems reply) ->
        exists k,
          results res !! k
          = Some (Some (CreateTopicsResponse_topic_result rko_req reply e)))
  /\ (forall rko_req reply res e,
        rd_kafka_DeleteTopicsResponse_parse rko_req reply = PARSE_OK res ->
        e ∈ take (Z.to_nat (elem_cnt reply)) (elems reply) ->
        exists k,
          results res !! k
          = Some (Some (DeleteTopicsResponse_topic_result rko_req reply e)))
  /\ (forall rko_req reply res e,
        rd_kafka_CreatePartitionsResponse_parse rko_req reply = PARSE_OK res ->
        e ∈ take (Z.to_nat (elem_cnt reply)) (elems reply) ->
        exists k,
          results res !! k
          = Some (Some (CreatePartitionsResponse_topic_result rko_req reply e))).
Proof.
  split; [| split; [| split; [| split; [| split]]]].
  - intros rko_req reply e He.
    destruct (topic_result_err rko_req (sample_DeleteTopics 0 [])
                (sample_CreatePartitions 0 []) reply e) as (-> & _).
    rewrite He. simpl.
    destruct (Z.leb_spec
                (rd_kafka_confval_get_int (operation_timeout (options rko_req)))
                0); split; intros; try reflexivity; lia.
  - intros rko_req reply e He.
    destruct (topic_result_err (sample_CreateTopics 0 []) rko_req
                (sample_CreatePartitions 0 []) reply e) as (_ & -> & _).
    rewrite He. simpl.
    destruct (Z.leb_spec
                (rd_kafka_confval_get_int (operation_timeout (options rko_req)))
                0); split; intros; try reflexivity; lia.
  - intros rko_req reply e He.
    destruct (topic_result_err (sample_CreateTopics 0 [])
                (sample_DeleteTopics 0 []) rko_req reply e) as (_ & _ & ->).
    rewrite He. simpl.
    destruct (Z.leb_spec
                (rd_kafka_confval_get_int (operation_timeout (options rko_req)))
                0); split; intros; try reflexivity; lia.
  - intros rko_req reply res e Hparse He.
    apply CreateTopics_parse_ok in Hparse. destruct Hparse as [_ Hrun].
    apply place_loop_results in Hrun.
    destruct Hrun as (_ & _ & Hplaced & _).
    destruct (Hplaced e _ He eq_refl) as (k & _ & Hk). eauto.
  - intros rko_req reply res e Hparse He.
    apply DeleteTopics_parse_ok in Hparse. destruct Hparse as [_ Hrun].
    apply place_loop_results in Hrun.
    destruct Hrun as (_ & _ & Hplaced & _).
    destruct (Hplaced e _ He eq_refl) as (k & _ & Hk). eauto.
  - intros rko_req reply res e Hparse He.
    apply CreatePartitions_parse_ok in Hparse. destruct Hparse as [_ Hrun].
    apply place_loop_results in Hrun.
    destruct Hrun as (_ & _ & Hplaced & _).
    destruct (Hplaced e _ He eq_refl) as (k & _ & Hk). eauto.
Qed.

Lemma request_timed_out_rewritten_witness :
  tr_err (DeleteTopicsResponse_topic_result (sample_DeleteTopics (-1) ["t"])
            (mk_buf 1 0 1 [sample_topic "t" 7]) (sample_topic "t" 7))
  = RD_KAFKA_RESP_ERR_NO_ERROR
  /\ tr_err (DeleteTopicsResponse_topic_result (sample_DeleteTopics 1 ["t"])
               (mk_buf 1 0 1 [sample_topic "t" 7]) (sample_topic "t" 7))
     = RD_KAFKA_RESP_ERR_REQUEST_TIMED_OUT.
Proof.
  split.
  - apply (proj1 (proj2 request_timed_out_rewritten)
             (sample_DeleteTopics (-1) ["t"])
             (mk_buf 1 0 1 [sample_topic "t" 7]) (sample_topic "t" 7));
      [reflexivity | simpl; lia].
  - apply (proj1 (proj2 request_timed_out_rewritten)
             (sample_DeleteTopics 1 ["t"])
             (mk_buf 1 0 1 [sample_topic "t" 7]) (sample_topic "t" 7));
      [reflexivity | simpl; lia].
Defined.

(** ** Source and default flag of DescribeConfigs entries *)

(** C5 as stated fails on synonym entries: the parser hands out a synonym
    whose source is DEFAULT_CONFIG and whose default flag is not set. *)
Lemma synonym_with_default_source_is_not_default :
  rd_kafka_DescribeConfigsResponse_parse
    (sample_DescribeConfigs [sample_resource RD_KAFKA_RESOURCE_TOPIC "t"])
    sample_v1_reply
  = PARSE_OK
      (sample_result RD_KAFKA_EVENT_DESCRIBECONFIGS_RESULT
         RD_KAFKA_OP_DESCRIBECONFIGS
         [Some (mk_ConfigResource RD_KAFKA_RESOURCE_TOPIC "t"
                  [mk_ConfigEntry "retention.ms" (Some "1000")
                     RD_KAFKA_ALTER_OP_ADD 1 false false false false
                     [mk_ConfigEntry "log.retention.ms" (Some "2000")
                        RD_KAFKA_ALTER_OP_ADD
                        RD_KAFKA_CONFIG_SOURCE_DEFAULT_CONFIG
                        false false false true []]]
                  0 None)]).
Proof. reflexivity. Qed.

Example DescribeConfigs_v0_default :
  rd_kafka_DescribeConfigsResponse_parse
    (sample_DescribeConfigs [sample_resource RD_KAFKA_RESOURCE_TOPIC "t"])
    (mk_buf 0 0 1
       [mk_resource_elem 0 None RD_KAFKA_RESOURCE_TOPIC (Some "t") 1
          [mk_entry_elem (Some "retention.ms") (Some "1000") 0 1 0 0 []]])
  = PARSE_OK
      (sample_result RD_KAFKA_EVENT_DESCRIBECONFIGS_RESULT
         RD_KAFKA_OP_DESCRIBECONFIGS
         [Some (mk_ConfigResource RD_KAFKA_RESOURCE_TOPIC "t"
                  [mk_ConfigEntry "retention.ms" (Some "1000")
                     RD_KAFKA_ALTER_OP_ADD
                     RD_KAFKA_CONFIG_SOURCE_DEFAULT_CONFIG
                     false true false false []]
                  0 None)]).
Proof. reflexivity. Qed.

Example DescribeConfigs_v1_default :
  rd_kafka_DescribeConfigsResponse_parse
    (sample_DescribeConfigs [sample_resource RD_KAFKA_RESOURCE_TOPIC "t"])
    (mk_buf 1 0 1
       [mk_resource_elem 0 None RD_KAFKA_RESOURCE_TOPIC (Some "t") 1
          [mk_entry_elem (Some "retention.ms") (Some "1000") 0
             RD_KAFKA_CONFIG_SOURCE_DEFAULT_CONFIG 0 0 []]])
  = PARSE_OK
      (sample_result RD_KAFKA_EVENT_DESCRIBECONFIGS_RESULT
         RD_KAFKA_OP_DESCRIBECONFIGS
         [Some (mk_ConfigResource RD_KAFKA_RESOURCE_TOPIC "t"
                  [mk_ConfigEntry "retention.ms" (Some "1000")
                     RD_KAFKA_ALTER_OP_ADD
                     RD_KAFKA_CONFIG_SOURCE_DEFAULT_CONFIG
                     false true false false []]
                  0 None)]).
Proof. reflexivity. Qed.

(** C5, amended. Every config entry of every resource in the result of a
    successful DescribeConfigs parse comes from an element of the reply to
    which it is related as [normalized_entry] says: read from version 0
    with the flag set it has source DEFAULT_CONFIG, read from a later
    version with source DEFAULT_CONFIG it has the flag set, and its source
    is DEFAULT_CONFIG exactly when its flag is set. The entries in its
    synonym list carry the source read and the synonym mark; their default
    flag is never set. *)
Theorem describe_configs_entries_normalized :
  forall rko_req reply res k config,
    rd_kafka_DescribeConfigsResponse_parse rko_req reply = PARSE_OK res ->
    results res !! k = Some (Some config) ->
    exists e,
      e ∈ take (Z.to_nat (elem_cnt reply)) (elems reply)
      /\ Forall2 (fun c entry =>
                    normalized_entry reply c entry
                    /\ exists m,
                         Forall2 synonym_entry (take m (syn_elems c))
                           (synonyms entry))
           (take (Z.to_nat (entry_cnt e)) (entry_elems e)) (cr_config config).
Proof.
  intros rko_req reply res k config Hparse Hk.
  apply DescribeConfigs_parse_ok in Hparse. destruct Hparse as [_ Hrun].
  apply place_loop_results in Hrun.
  destruct Hrun as (_ & _ & _ & Hstored & _).
  destruct (Hstored k config Hk) as (_ & e & He & Hread).
  exists e. split; [assumption |].
  apply read_resource_ok in Hread. apply Hread.
Qed.

Lemma describe_configs_entries_normalized_witness :
  exists e,
    e ∈ take (Z.to_nat (elem_cnt sample_v1_reply)) (elems sample_v1_reply)
    /\ Forall2 (fun c entry =>
                  normalized_entry sample_v1_reply c entry
                  /\ exists m,
                       Forall2 synonym_entry (take m (syn_elems c))
                         (synonyms entry))
         (take (Z.to_nat (entry_cnt e)) (entry_elems e))
         [mk_ConfigEntry "retention.ms" (Some "1000")
            RD_KAFKA_ALTER_OP_ADD 1 false false false false
            [mk_ConfigEntry "log.retention.ms" (Some "2000")
               RD_KAFKA_ALTER_OP_ADD RD_KAFKA_CONFIG_SOURCE_DEFAULT_CONFIG
               false false false true []]].
Proof.
  apply (describe_configs_entries_normalized
           (sample_DescribeConfigs [sample_resource RD_KAFKA_RESOURCE_TOPIC "t"])
           sample_v1_reply
           (sample_result RD_KAFKA_EVENT_DESCRIBECONFIGS_RESULT
              RD_KAFKA_OP_DESCRIBECONFIGS
              [Some (mk_ConfigResource RD_KAFKA_RESOURCE_TOPIC "t"
                       [mk_ConfigEntry "retention.ms" (Some "1000")
                          RD_KAFKA_ALTER_OP_ADD 1 false false false false
                          [mk_ConfigEntry "log.retention.ms" (Some "2000")
                             RD_KAFKA_ALTER_OP_ADD
                             RD_KAFKA_CONFIG_SOURCE_DEFAULT_CONFIG
                             false false false true []]]
                       0 None)])
           O
           (mk_ConfigResource RD_KAFKA_RESOURCE_TOPIC "t"
              [mk_ConfigEntry "retention.ms" (Some "1000")
                 RD_KAFKA_ALTER_OP_ADD 1 false false false false
                 [mk_ConfigEntry "log.retention.ms" (Some "2000")
                    RD_KAFKA_ALTER_OP_ADD RD_KAFKA_CONFIG_SOURCE_DEFAULT_CONFIG
                    false false false true []]]
              0 None));
    reflexivity.
Defined.

(** ** Broker ids from resource names *)

Lemma to_int32_small (x : Z) : INT32_MIN <= x <= INT32_MAX -> to_int32 x = x.
Proof.
  unfold to_int32, INT32_MIN, INT32_MAX. intros H.
  Z.div_mod_to_equations. lia.
Qed.

Lemma to_int32_range (x : Z) : INT32_MIN <= to_int32 x <= INT32_MAX.
Proof.
  unfold to_int32, INT32_MIN, INT32_MAX. Z.div_mod_to_equations. lia.
Qed.

Lemma broker_id_of_name_range (name : string) (r : Z) :
  broker_id_of_name name = Some r -> 0 <= r <= INT32_MAX.
Proof.
  unfold broker_id_of_name. destruct (strtol name) as [v endptr].
  pose proof (to_int32_range v) as Hr.
  destruct (to_int32 v =? LONG_MIN), (to_int32 v =? LONG_MAX),
    (endptr =? 0)%nat; simpl; try discriminate.
  destruct (Z.ltb_spec (to_int32 v) 0); [discriminate |].
  intros H'. inversion H'; subst. lia.
Qed.

Lemma broker_id_of_name_no_conversion (name : string) :
  snd (strtol name) = O -> broker_id_of_name name = None.
Proof.
  unfold broker_id_of_name. destruct (strtol name) as [v endptr]. simpl.
  intros ->. simpl. rewrite !orb_true_r. reflexivity.
Qed.

Lemma uint_value_pos (d : Decimal.uint) :
  forall p : positive, uint_value d (Z.pos p) = Z.pos (Pos.of_uint_acc d p).
Proof.
  induction d; intros p; cbn [uint_value Pos.of_uint_acc];
    try reflexivity; rewrite <- IHd; f_equal; lia.
Qed.

Lemma uint_value_0 (d : Decimal.uint) :
  uint_value d 0 = Z.of_N (Pos.of_uint d).
Proof.
  induction d; cbn [uint_value Pos.of_uint]; try reflexivity;
    try exact IHd; apply uint_value_pos.
Qed.

Lemma uint_value_to_uint (n : N) : uint_value (N.to_uint n) 0 = Z.of_N n.
Proof.
  rewrite uint_value_0. change (Pos.of_uint (N.to_uint n)) with
    (N.of_uint (N.to_uint n)).
  rewrite DecimalN.Unsigned.of_to. reflexivity.
Qed.

Lemma scan_digits_string_of_uint (d : Decimal.uint) :
  forall acc : Z,
    scan_digits (NilEmpty.string_of_uint d) acc
    = (Decimal.nb_digits d, uint_value d acc).
Proof.
  induction d; intros acc;
    cbn [NilEmpty.string_of_uint scan_digits Decimal.nb_digits uint_value];
    try reflexivity;
    match goal with
    | |- context [isdigit ?c] =>
        change (isdigit c) with true; cbv iota;
        match goal with
        | |- context [uchar c - 48] =>
            let v := eval vm_compute in (uchar c - 48) in
            change (uchar c - 48) with v
        end
    end;
    rewrite IHd; reflexivity.
Qed.

(** [strtol] on a string that starts with a decimal numeral and has no
    sign or white space before it. *)
Lemma strtol_string_of_uint (d : Decimal.uint) :
  d <> Decimal.Nil ->
  strtol (NilEmpty.string_of_uint d)
  = (Z.max LONG_MIN (Z.min LONG_MAX (uint_value d 0)), Decimal.nb_digits d).
Proof.
  intros Hd. unfold strtol.
  assert (Hsp : skip_spaces (NilEmpty.string_of_uint d)
                = (O, NilEmpty.string_of_uint d)).
  { destruct d; [contradiction | reflexivity..]. }
  rewrite Hsp.
  assert (Hsign :
            match NilEmpty.string_of_uint d with
            | String c s' =>
                if uchar c =? 45 then (1%nat, true, s')
                else if uchar c =? 43 then (1%nat, false, s')
                     else (0%nat, false, NilEmpty.string_of_uint d)
            | EmptyString => (0%nat, false, NilEmpty.string_of_uint d)
            end = (0%nat, false, NilEmpty.string_of_uint d)).
  { destruct d; [contradiction | reflexivity..]. }
  rewrite Hsign. rewrite scan_digits_string_of_uint.
  destruct d; [contradiction | reflexivity..].
Qed.

Lemma strtol_minus_string_of_uint (d : Decimal.uint) :
  d <> Decimal.Nil ->
  strtol (String "-" (NilEmpty.string_of_uint d))
  = (Z.max LONG_MIN (Z.min LONG_MAX (- uint_value d 0)),
     S (Decimal.nb_digits d)).
Proof.
  intros Hd. unfold strtol.
  change (skip_spaces (String "-" (NilEmpty.string_of_uint d)))
    with (O, String "-" (NilEmpty.string_of_uint d)).
  cbv iota beta. change (uchar "-" =? 45) with true. cbv iota beta.
  rewrite scan_digits_string_of_uint.
  destruct d; [contradiction | reflexivity..].
Qed.

Lemma to_uint_not_nil (n : N) : N.to_uint n <> Decimal.Nil.
Proof.
  intros H. pose proof (DecimalN.Unsigned.of_to n) as Hn. rewrite H in Hn.
  simpl in Hn. subst n. discriminate H.
Qed.

Lemma decimal_string_of_uint (n : N) :
  decimal n = NilEmpty.string_of_uint (N.to_uint n).
Proof.
  unfold decimal, NilZero.string_of_uint.
  pose proof (to_uint_not_nil n). destruct (N.to_uint n); congruence.
Qed.

(** The decimal numeral of a broker id converts to that id. *)
Lemma broker_id_of_decimal (n : N) :
  Z.of_N n <= INT32_MAX -> broker_id_of_name (decimal n) = Some (Z.of_N n).
Proof.
  intros Hn. unfold broker_id_of_name.
  rewrite decimal_string_of_uint, strtol_string_of_uint
    by apply to_uint_not_nil.
  rewrite uint_value_to_uint.
  assert (Hclamp : Z.max LONG_MIN (Z.min LONG_MAX (Z.of_N n)) = Z.of_N n).
  { unfold LONG_MIN, LONG_MAX, INT32_MAX in *. lia. }
  rewrite Hclamp. rewrite to_int32_small
    by (unfold INT32_MIN, INT32_MAX in *; lia).
  unfold LONG_MIN, LONG_MAX, INT32_MAX in *.
  destruct (Z.eqb_spec (Z.of_N n) (-9223372036854775808)); [lia |].
  destruct (Z.eqb_spec (Z.of_N n) 9223372036854775807); [lia |].
  destruct (Z.ltb_spec (Z.of_N n) 0); [lia |].
  pose proof (to_uint_not_nil n) as Hnil.
  destruct (N.to_uint n); [contradiction | reflexivity..].
Qed.

(** A minus sign before the numeral of a positive number is refused. *)
Lemma broker_id_of_negative (n : N) :
  1 <= Z.of_N n <= 2147483648 ->
  broker_id_of_name (String "-" (decimal n)) = None.
Proof.
  intros Hn. unfold broker_id_of_name.
  rewrite decimal_string_of_uint, strtol_minus_string_of_uint
    by apply to_uint_not_nil.
  rewrite uint_value_to_uint.
  assert (Hclamp : Z.max LONG_MIN (Z.min LONG_MAX (- Z.of_N n)) = - Z.of_N n).
  { unfold LONG_MIN, LONG_MAX. lia. }
  rewrite Hclamp. rewrite to_int32_small
    by (unfold INT32_MIN, INT32_MAX; lia).
  destruct (Z.ltb_spec (- Z.of_N n) 0); [| lia].
  rewrite !orb_true_r. reflexivity.
Qed.

(** A name that does not start with white space, a sign or a digit, and
    the empty name, are refused. *)
Lemma broker_id_of_non_numeral (name : string) :
  match name with
  | EmptyString => True
  | String c _ =>
      isspace c = false /\ isdigit c = false
      /\ uchar c <> 45 /\ uchar c <> 43
  end ->
  broker_id_of_name name = None.
Proof.
  intros H. apply broker_id_of_name_no_conversion.
  destruct name as [| c s]; [reflexivity |].
  destruct H as (Hsp & Hdg & Hm & Hp).
  unfold strtol. cbn [skip_spaces]. rewrite Hsp.
  destruct (Z.eqb_spec (uchar c) 45); [contradiction |].
  destruct (Z.eqb_spec (uchar c) 43); [contradiction |].
  cbn [scan_digits]. rewrite Hdg. reflexivity.
Qed.

Example broker_id_of_name_42 : broker_id_of_name "42" = Some 42.
Proof. reflexivity. Qed.

Example broker_id_of_name_abc : broker_id_of_name "abc" = None.
Proof. reflexivity. Qed.

Example broker_id_of_name_minus_5 : broker_id_of_name "-5" = None.
Proof. reflexivity. Qed.

(** ** The BROKER-resource pre-flight *)

Lemma broker_resources_cons (c : rd_kafka_ConfigResource_t)
    (configs : list rd_kafka_ConfigResource_t) :
  broker_resources (c :: configs)
  = if cr_restype c =? RD_KAFKA_RESOURCE_BROKER
    then c :: broker_resources configs else broker_resources configs.
Proof.
  unfold broker_resources. rewrite filter_cons.
  destruct (Z.eqb_spec (cr_restype c) RD_KAFKA_RESOURCE_BROKER);
    destruct (decide (cr_restype c = RD_KAFKA_RESOURCE_BROKER));
    try reflexivity; contradiction.
Qed.

(** Once a broker id is held, another BROKER resource is a conflict. *)
Lemma get_single_broker_id_loop_held (configs : list rd_kafka_ConfigResource_t)
    (id : Z) :
  id <> -1 ->
  get_single_broker_id_loop configs id
  = match broker_resources configs with
    | [] => inr id
    | _ :: _ => inl (RD_KAFKA_RESP_ERR__CONFLICT, Errstr_only_one_broker)
    end.
Proof.
  intros Hid. induction configs as [| c configs IH]; [reflexivity |].
  cbn [get_single_broker_id_loop]. rewrite broker_resources_cons.
  destruct (cr_restype c =? RD_KAFKA_RESOURCE_BROKER); simpl.
  - destruct (Z.eqb_spec id (-1)); [contradiction | reflexivity].
  - exact IH.
Qed.

Lemma get_single_broker_id_spec (configs : list rd_kafka_ConfigResource_t) :
  rd_kafka_ConfigResource_get_single_broker_id configs
  = match broker_resources configs with
    | [] => inr (-1)
    | b :: rest =>
        match broker_id_of_name (cr_name b) with
        | None =>
            inl (RD_KAFKA_RESP_ERR__INVALID_ARG,
                 Errstr_expected_int32_broker_id (cr_name b))
        | Some r =>
            match rest with
            | [] => inr r
            | _ :: _ => inl (RD_KAFKA_RESP_ERR__CONFLICT, Errstr_only_one_broker)
            end
        end
    end.
Proof.
  unfold rd_kafka_ConfigResource_get_single_broker_id.
  induction configs as [| c configs IH]; [reflexivity |].
  cbn [get_single_broker_id_loop]. rewrite broker_resources_cons.
  destruct (cr_restype c =? RD_KAFKA_RESOURCE_BROKER); simpl; [| exact IH].
  destruct (broker_id_of_name (cr_name c)) as [r |] eqn:Er; [| reflexivity].
  apply broker_id_of_name_range in Er.
  apply get_single_broker_id_loop_held. lia.
Qed.

Lemma submit_configs_spec (request_timeout_ms : Z) (env : worker_env)
    (optype : rd_kafka_op_type_t) (evtype : rd_kafka_event_type_t)
    (configs copies : list rd_kafka_ConfigResource_t)
    (options : option rd_kafka_AdminOptions_t) :
  mapM rd_kafka_ConfigResource_copy configs = Some copies ->
  submit_configs request_timeout_ms env optype evtype configs options
  = Some (preflight_outcome env
            (set_args
               (rd_kafka_admin_request_op_new request_timeout_ms (rd_clock env)
                  optype evtype options)
               copies)).
Proof.
  intros Hcopies. unfold submit_configs, preflight_outcome.
  rewrite Hcopies. rewrite get_single_broker_id_spec.
  cbn [args set_args].
  destruct (broker_resources copies) as [| b rest]; [reflexivity |].
  destruct (broker_id_of_name (cr_name b)) as [r |]; [| reflexivity].
  destruct rest; reflexivity.
Qed.

(** C7 as stated fails on two BROKER resources of which the first has a
    name that is not a number: the submission fails with INVALID_ARG, not
    CONFLICT. *)
Lemma two_brokers_first_invalid_is_invalid_arg :
  rd_kafka_AlterConfigs 5000 sample_env
    [sample_resource RD_KAFKA_RESOURCE_BROKER "x";
     sample_resource RD_KAFKA_RESOURCE_BROKER "1"] None
  = Some (submit_failure sample_env
            (set_args
               (rd_kafka_admin_request_op_new 5000 1000
                  RD_KAFKA_OP_ALTERCONFIGS RD_KAFKA_EVENT_ALTERCONFIGS_RESULT
                  None)
               [sample_resource RD_KAFKA_RESOURCE_BROKER "x";
                sample_resource RD_KAFKA_RESOURCE_BROKER "1"])
            RD_KAFKA_RESP_ERR__INVALID_ARG
            (Errstr_expected_int32_broker_id "x"))
  /\ length (broker_resources
               [sample_resource RD_KAFKA_RESOURCE_BROKER "x";
                sample_resource RD_KAFKA_RESOURCE_BROKER "1"]) = 2%nat
  /\ RD_KAFKA_RESP_ERR__INVALID_ARG <> RD_KAFKA_RESP_ERR__CONFLICT.
Proof. split; [reflexivity |]. split; [reflexivity | discriminate]. Qed.

Lemma ConfigResource_copy_key (c c' : rd_kafka_ConfigResource_t) :
  rd_kafka_ConfigResource_copy c = Some c' ->
  cr_restype c' = cr_restype c /\ cr_name c' = c_str (cr_name c)
  /\ cr_config c' = cr_config c.
Proof.
  unfold rd_kafka_ConfigResource_copy, rd_kafka_ConfigResource_new.
  destruct ((strlen (cr_name c) =? 0) || (cr_restype c <? 0));
    [discriminate |].
  intros H. inversion H. repeat split.
Qed.

(** C7, amended. A submission of AlterConfigs or DescribeConfigs ends as
    [preflight_outcome] says for the copied args: with no BROKER resource
    the request is enqueued with target -1 (the controller); with exactly
    one whose name converts to [r], it is enqueued with target [r]; when
    the first BROKER resource's name does not convert, the submission fails
    with INVALID_ARG and nothing is enqueued; with more than one BROKER
    resource of which the first converts, it fails with CONFLICT and
    nothing is enqueued. The decimal numeral of a number up to INT32_MAX
    converts to that number; a name that starts with neither white space,
    a sign nor a digit, the empty name, and a minus sign before the numeral
    of a number from 1 to 2^31 (the negative 32-bit integers) do not
    convert; what converts lies between 0 and INT32_MAX. Numbers beyond 32
    bits are not part of the statement. *)
Theorem broker_resource_preflight
    (request_timeout_ms : Z) (env : worker_env)
    (configs copies : list rd_kafka_ConfigResource_t)
    (options : option rd_kafka_AdminOptions_t) :
  mapM rd_kafka_ConfigResource_copy configs = Some copies ->
  rd_kafka_AlterConfigs request_timeout_ms env configs options
  = Some (preflight_outcome env
            (set_args
               (rd_kafka_admin_request_op_new request_timeout_ms (rd_clock env)
                  RD_KAFKA_OP_ALTERCONFIGS RD_KAFKA_EVENT_ALTERCONFIGS_RESULT
                  options)
               copies))
  /\ rd_kafka_DescribeConfigs request_timeout_ms env configs options
     = Some (preflight_outcome env
               (set_args
                  (rd_kafka_admin_request_op_new request_timeout_ms
                     (rd_clock env) RD_KAFKA_OP_DESCRIBECONFIGS
                     RD_KAFKA_EVENT_DESCRIBECONFIGS_RESULT options)
                  copies))
  /\ Forall2 (fun c c' => cr_restype c' = cr_restype c
                          /\ cr_name c' = c_str (cr_name c))
       configs copies
  /\ (forall n : N,
        Z.of_N n <= INT32_MAX ->
        broker_id_of_name (decimal n) = Some (Z.of_N n))
  /\ (forall n : N,
        1 <= Z.of_N n <= 2147483648 ->
        broker_id_of_name (String "-" (decimal n)) = None)
  /\ (forall name : string,
        match name with
        | EmptyString => True
        | String c _ =>
            isspace c = false /\ isdigit c = false
            /\ uchar c <> 45 /\ uchar c <> 43
        end ->
        broker_id_of_name name = None)
  /\ (forall (name : string) (r : Z),
        broker_id_of_name name = Some r -> 0 <= r <= INT32_MAX).
Proof.
  intros Hcopies.
  split; [apply submit_configs_spec; exact Hcopies |].
  split; [apply submit_configs_spec; exact Hcopies |].
  split.
  { apply mapM_Some_1 in Hcopies.
    eapply Forall2_impl; [exact Hcopies |].
    intros c c' Hc. apply ConfigResource_copy_key in Hc.
    split; apply Hc. }
  split; [exact broker_id_of_decimal |].
  split; [exact broker_id_of_negative |].
  split; [exact broker_id_of_non_numeral | exact broker_id_of_name_range].
Qed.

Lemma broker_resource_preflight_witness :
  rd_kafka_AlterConfigs 5000 sample_env
    [sample_resource RD_KAFKA_RESOURCE_TOPIC "t";
     sample_resource RD_KAFKA_RESOURCE_BROKER "7"] None
  = Some (Ops_enq
            (set_broker_id
               (set_args
                  (rd_kafka_admin_request_op_new 5000 1000
                     RD_KAFKA_OP_ALTERCONFIGS
                     RD_KAFKA_EVENT_ALTERCONFIGS_RESULT None)
                  [sample_resource RD_KAFKA_RESOURCE_TOPIC "t";
                   sample_resource RD_KAFKA_RESOURCE_BROKER "7"])
               7)).
Proof.
  rewrite (proj1 (broker_resource_preflight 5000 sample_env
                    [sample_resource RD_KAFKA_RESOURCE_TOPIC "t";
                     sample_resource RD_KAFKA_RESOURCE_BROKER "7"]
                    [sample_resource RD_KAFKA_RESOURCE_TOPIC "t";
                     sample_resource RD_KAFKA_RESOURCE_BROKER "7"]
                    None eq_refl)).
  reflexivity.
Defined.

Example two_brokers_conflict :
  rd_kafka_AlterConfigs 5000 sample_env
    [sample_resource RD_KAFKA_RESOURCE_BROKER "1";
     sample_resource RD_KAFKA_RESOURCE_BROKER "2"] None
  = Some (submit_failure sample_env
            (set_args
               (rd_kafka_admin_request_op_new 5000 1000
                  RD_KAFKA_OP_ALTERCONFIGS RD_KAFKA_EVENT_ALTERCONFIGS_RESULT
                  None)
               [sample_resource RD_KAFKA_RESOURCE_BROKER "1";
                sample_resource RD_KAFKA_RESOURCE_BROKER "2"])
            RD_KAFKA_RESP_ERR__CONFLICT Errstr_only_one_broker).
Proof. reflexivity. Qed.

Example no_broker_is_controller :
  rd_kafka_DescribeConfigs 5000 sample_env
    [sample_resource RD_KAFKA_RESOURCE_TOPIC "t"] None
  = Some (Ops_enq
            (set_broker_id
               (set_args
                  (rd_kafka_admin_request_op_new 5000 1000
                     RD_KAFKA_OP_DESCRIBECONFIGS
                     RD_KAFKA_EVENT_DESCRIBECONFIGS_RESULT None)
                  [sample_resource RD_KAFKA_RESOURCE_TOPIC "t"])
               (-1))).
Proof. reflexivity. Qed.

(** The conversion stops at the first character that is not a digit and
    reduces the number read to 32 bits before it is checked; the amended
    C7 says nothing about such names. *)
Example broker_id_of_name_trailing : broker_id_of_name "1x" = Some 1.
Proof. reflexivity. Qed.

Example broker_id_of_name_wraps : broker_id_of_name "4294967297" = Some 1.
Proof. reflexivity. Qed.

(** ** One invocation of the worker *)

(** Every way through the worker, one goal each. *)
Ltac worker_paths H :=
  unfold rd_kafka_admin_worker, worker_dispatch, worker_init,
    worker_wait_broker, worker_wait_controller, worker_construct_request,
    worker_wait_response, rd_kafka_admin_common_get_broker,
    rd_kafka_admin_common_get_controller, worker_goto_destroy in H;
  repeat match type of H with
         | context [if ?b then _ else _] => destruct b eqn:?
         | context [match ?x with _ => _ end] => destruct x eqn:?
         end;
  try discriminate H;
  inversion H; subst; clear H.

Ltac list_elem :=
  rewrite ?elem_of_app, ?elem_of_cons, ?elem_of_nil;
  try tauto; try (intuition discriminate); try (intuition congruence).

(** Splits a list of calls that ends with the calls of [d]. *)
Ltac split_before d :=
  lazymatch goal with
  | |- @ex (list ?T) (fun pre => ?l = pre ++ d /\ _) =>
      let rec go l acc :=
        lazymatch l with
        | d => exists acc
        | ?x :: ?l' => go l' (acc ++ [x])
        | ?p ++ d => exists (acc ++ p)
        end in
      go l (@nil T);
      split; [simpl; rewrite <- ?app_assoc; reflexivity |]
  end.

Ltac init_done Hs :=
  do 3 eexists; (split; [reflexivity |]); (split; [reflexivity |]);
  (split; [unfold worker_goto_destroy; list_elem |]);
  unfold requests_sent in *; rewrite ?omap_app, ?Hs; reflexivity.

Section WorkerRun.
Context {A B R : Type}.
Variable cbs : rd_kafka_admin_worker_cbs A B R.
Variable env : worker_env.

Lemma results_enqueued_app (l1 l2 : list (action R)) :
  results_enqueued (l1 ++ l2) = results_enqueued l1 ++ results_enqueued l2.
Proof. apply omap_app. Qed.

Lemma results_enqueued_destroy :
  results_enqueued (rd_kafka_admin_common_worker_destroy (R := R) env) = [].
Proof.
  unfold rd_kafka_admin_common_worker_destroy.
  destruct (rd_kafka_timer_stop env); reflexivity.
Qed.

Lemma destroy_ends_with_Enq_once_destroy :
  Enq_once_destroy ∈ rd_kafka_admin_common_worker_destroy (R := R) env.
Proof.
  unfold rd_kafka_admin_common_worker_destroy.
  destruct (rd_kafka_timer_stop env); simpl; list_elem.
Qed.

(** X1. One invocation of the worker that finishes the request (HANDLED)
    ends with the calls of [rd_kafka_admin_common_worker_destroy], which
    stop the timer and destroy the enq_once only there, and puts exactly
    one result op on the application's queue, none when the client is
    terminating or the op's error is DESTROY. An invocation that keeps the
    request (KEEP) puts no result on the queue, does not stop the timer
    and does not destroy the enq_once. *)
Theorem worker_posts_one_result_when_done (rko rko' : rd_kafka_op_t A B)
    (acts : list (action R)) (res : rd_kafka_op_res_t) :
  rd_kafka_admin_worker cbs env rko = Some (acts, res, rko') ->
  match res with
  | RD_KAFKA_OP_RES_KEEP =>
      results_enqueued acts = []
      /\ (Timer_stop ∉ acts) /\ (Enq_once_destroy ∉ acts)
  | RD_KAFKA_OP_RES_HANDLED =>
      (exists pre, acts = pre ++ rd_kafka_admin_common_worker_destroy env
                   /\ (Timer_stop ∉ pre) /\ (Enq_once_destroy ∉ pre))
      /\ length (results_enqueued acts)
         = (if rd_kafka_terminating env
               || (rko_err rko =? RD_KAFKA_RESP_ERR__DESTROY)
            then 0%nat else 1%nat)
  end.
Proof.
  intros H. pose proof results_enqueued_destroy as Hd. worker_paths H.
  all: try (split; [reflexivity | split; list_elem]).
  all: split;
    [ split_before (rd_kafka_admin_common_worker_destroy (R := R) env);
      simpl; split; list_elem
    | unfold results_enqueued in *;
      generalize dependent (rd_kafka_admin_common_worker_destroy (R := R) env);
      intros d Hd; rewrite ?omap_app; cbn in Hd |- *; rewrite ?Hd;
      rewrite ?orb_true_r; reflexivity ].
Qed.

Lemma requests_sent_destroy :
  requests_sent (rd_kafka_admin_common_worker_destroy (R := R) env) = [].
Proof.
  unfold rd_kafka_admin_common_worker_destroy.
  destruct (rd_kafka_timer_stop env); reflexivity.
Qed.

Lemma brokers_released_destroy :
  brokers_released (rd_kafka_admin_common_worker_destroy (R := R) env) = [].
Proof.
  unfold rd_kafka_admin_common_worker_destroy.
  destruct (rd_kafka_timer_stop env); reflexivity.
Qed.

(** X2. One invocation of the worker calls the request callback at most
    once, and the broker references it releases are exactly those of the
    brokers it sent a request to. A request is only sent from the states
    INIT, WAIT_BROKER and WAIT_CONTROLLER. A request that is kept is left
    waiting for its broker or for the controller when nothing was sent,
    and waiting for the response when a request was sent. The args, the
    options, the deadline, the request type and the reply event type of
    the op are never changed. *)
Theorem worker_sends_one_request_at_most (rko rko' : rd_kafka_op_t A B)
    (acts : list (action R)) (res : rd_kafka_op_res_t) :
  rd_kafka_admin_worker cbs env rko = Some (acts, res, rko') ->
  (length (requests_sent acts) <= 1)%nat
  /\ brokers_released acts = requests_sent acts
  /\ (requests_sent acts <> [] ->
      state rko = RD_KAFKA_ADMIN_STATE_INIT
      \/ state rko = RD_KAFKA_ADMIN_STATE_WAIT_BROKER
      \/ state rko = RD_KAFKA_ADMIN_STATE_WAIT_CONTROLLER)
  /\ (res = RD_KAFKA_OP_RES_KEEP ->
      (requests_sent acts = [] ->
       state rko' = RD_KAFKA_ADMIN_STATE_WAIT_BROKER
       \/ state rko' = RD_KAFKA_ADMIN_STATE_WAIT_CONTROLLER)
      /\ (requests_sent acts <> [] ->
          state rko' = RD_KAFKA_ADMIN_STATE_WAIT_RESPONSE))
  /\ args rko' = args rko /\ options rko' = options rko
  /\ abs_timeout rko' = abs_timeout rko /\ rko_type rko' = rko_type rko
  /\ reply_event_type rko' = reply_event_type rko.
Proof.
  intros H.
  pose proof requests_sent_destroy as Hs.
  pose proof brokers_released_destroy as Hb.
  worker_paths H.
  all: unfold requests_sent, brokers_released in *;
    generalize dependent (rd_kafka_admin_common_worker_destroy (R := R) env);
    intros d Hs Hb; rewrite ?omap_app; cbn in Hs, Hb |- *; rewrite ?Hs, ?Hb;
    cbn.
  all: repeat split; try reflexivity; try lia; try congruence; try tauto;
    try (intros; discriminate).
Qed.

Lemma worker_init_target (rko : rd_kafka_op_t A B) :
  state rko = RD_KAFKA_ADMIN_STATE_INIT ->
  rd_kafka_terminating env = false ->
  rko_err rko = 0 ->
  rd_clock env < abs_timeout rko ->
  let explicit := to_int32 (rd_kafka_confval_get_int (broker (options rko))) in
  let target := if explicit =? -1 then broker_id rko else explicit in
  exists acts res rko',
    rd_kafka_admin_worker cbs env rko = Some (acts, res, rko')
    /\ broker_id rko' = target
    /\ Timer_start_oneshot (abs_timeout rko - rd_clock env) ∈ acts
    /\ requests_sent acts
       = match (if target =? -1 then rd_kafka_broker_controller_async env
                else rd_kafka_broker_get_async env target) with
         | Some rkb => [rkb]
         | None => []
         end.
Proof.
  intros Hstate Hterm Herr Hclock explicit target.
  pose proof requests_sent_destroy as Hs.
  unfold rd_kafka_admin_worker, worker_dispatch, worker_init.
  rewrite Hterm, Herr, Hstate. simpl negb. cbv iota.
  change (0 =? RD_KAFKA_RESP_ERR__DESTROY) with false. cbv iota.
  unfold rd_timeout_remains_us.
  destruct (Z.leb_spec (abs_timeout rko - rd_clock env) 0) as [Hle | _]; [lia |].
  fold explicit.
  destruct (Z.eqb_spec explicit (-1)) as [He | He]; simpl negb; cbv iota.
  - subst target. rewrite ?He. simpl.
    destruct (Z.eqb_spec (broker_id rko) (-1)) as [Hb | Hb]; simpl negb;
      cbv iota.
    + unfold worker_wait_controller, rd_kafka_admin_common_get_controller.
      destruct (rd_kafka_broker_controller_async env) as [rkb |];
        [unfold worker_construct_request;
         destruct (request cbs rkb _ _) as [e errstr];
         destruct (negb (e =? 0)) |];
        init_done Hs.
    + unfold worker_wait_broker, rd_kafka_admin_common_get_broker.
      cbn [broker_id set_state].
      destruct (rd_kafka_broker_get_async env (broker_id rko)) as [rkb |];
        [unfold worker_construct_request;
         destruct (request cbs rkb _ _) as [e errstr];
         destruct (negb (e =? 0)) |];
        init_done Hs.
  - subst target.
    destruct (Z.eqb_spec explicit (-1)) as [He' | _]; [contradiction |].
    cbn [broker_id set_broker_id].
    destruct (Z.eqb_spec explicit (-1)) as [He' | _]; [contradiction |].
    simpl negb. cbv iota.
    unfold worker_wait_broker, rd_kafka_admin_common_get_broker.
    cbn [broker_id set_state set_broker_id].
    destruct (rd_kafka_broker_get_async env explicit) as [rkb |];
      [unfold worker_construct_request;
       destruct (request cbs rkb _ _) as [e errstr];
       destruct (negb (e =? 0)) |];
      init_done Hs.
Qed.

(** X3. The first run of a request (state INIT, no error, the deadline
    ahead, the client not terminating) starts the timeout timer for the
    time left to the deadline and settles the target: the broker option
    when the application set one (it is not -1), the op's [broker_id]
    otherwise. The request callback is called for the target broker in
    this very run when that broker (the controller for -1) is up, and is
    not called otherwise. *)
Theorem worker_init_picks_target (rko : rd_kafka_op_t A B) :
  state rko = RD_KAFKA_ADMIN_STATE_INIT ->
  rd_kafka_terminating env = false ->
  rko_err rko = 0 ->
  rd_clock env < abs_timeout rko ->
  let explicit := to_int32 (rd_kafka_confval_get_int (broker (options rko))) in
  let target := if explicit =? -1 then broker_id rko else explicit in
  exists acts res rko',
    rd_kafka_admin_worker cbs env rko = Some (acts, res, rko')
    /\ broker_id rko' = target
    /\ Timer_start_oneshot (abs_timeout rko - rd_clock env) ∈ acts
    /\ requests_sent acts
       = match (if target =? -1 then rd_kafka_broker_controller_async env
                else rd_kafka_broker_get_async env target) with
         | Some rkb => [rkb]
         | None => []
         end.
Proof. exact (worker_init_target rko). Qed.

(** X4. [rd_kafka_admin_handle_response] does nothing when the enq_once
    was triggered before (a NULL op). For a request that waits for its
    response, the client not terminating and the error not DESTROY: a
    request error posts a failure result with that error; a reply that
    comes at or after the deadline posts a TIMED_OUT failure; and whatever
    the reply, the request ends there: exactly one result op is put on
    the application's queue and the op is not kept. *)
Theorem response_ends_the_request (rko : rd_kafka_op_t A B)
    (err : rd_kafka_resp_err_t) (reply : option B) :
  reply_buf rko = None ->
  state rko = RD_KAFKA_ADMIN_STATE_WAIT_RESPONSE ->
  rd_kafka_terminating env = false ->
  err <> RD_KAFKA_RESP_ERR__DESTROY ->
  rd_kafka_admin_handle_response cbs env None err reply = Some ([], None)
  /\ (err <> 0 ->
      rd_kafka_admin_handle_response cbs env (Some rko) err reply
      = Some (rd_kafka_admin_result_fail (set_reply rko reply err) err
                (Errstr_failed_while RD_KAFKA_ADMIN_STATE_WAIT_RESPONSE err)
              :: rd_kafka_admin_common_worker_destroy env, None))
  /\ (err = 0 -> abs_timeout rko <= rd_clock env ->
      rd_kafka_admin_handle_response cbs env (Some rko) err reply
      = Some (rd_kafka_admin_result_fail (set_reply rko reply err)
                RD_KAFKA_RESP_ERR__TIMED_OUT
                (Errstr_timed_out RD_KAFKA_ADMIN_STATE_WAIT_RESPONSE)
              :: rd_kafka_admin_common_worker_destroy env, None))
  /\ (forall acts left,
        rd_kafka_admin_handle_response cbs env (Some rko) err reply
        = Some (acts, left) ->
        left = None /\ length (results_enqueued acts) = 1%nat).
Proof.
  intros Hbuf Hstate Hterm Hdestroy.
  split; [reflexivity |].
  unfold rd_kafka_admin_handle_response. rewrite Hbuf. simpl negb. cbv iota.
  unfold rd_kafka_admin_worker. rewrite Hterm.
  change (state (set_reply rko reply err)) with (state rko).
  change (abs_timeout (set_reply rko reply err)) with (abs_timeout rko).
  change (rko_err (set_reply rko reply err)) with err.
  rewrite Hstate.
  destruct (Z.eqb_spec err RD_KAFKA_RESP_ERR__DESTROY) as [E | _];
    [contradiction |].
  split; [| split].
  - intros Herr. destruct (Z.eqb_spec err 0) as [E | _]; [contradiction |].
    simpl negb. cbv iota. reflexivity.
  - intros Herr Hpast. subst err. simpl negb. cbv iota.
    unfold rd_timeout_remains_us.
    destruct (Z.leb_spec (abs_timeout rko - rd_clock env) 0); [| lia].
    reflexivity.
  - intros acts left H. pose proof results_enqueued_destroy as Hd.
    unfold worker_dispatch, worker_wait_response in H.
    change (state (set_reply rko reply err)) with (state rko) in H.
    rewrite Hstate in H. unfold worker_goto_destroy in H.
    change (reply_buf (set_reply rko reply err)) with reply in H.
    assert (Hfin : forall pre : list (action R),
               length (results_enqueued pre) = 1%nat ->
               length (results_enqueued
                         (pre ++ rd_kafka_admin_common_worker_destroy env))
               = 1%nat).
    { intros pre Hpre. rewrite results_enqueued_app, Hd, app_nil_r.
      exact Hpre. }
    destruct (negb (err =? 0));
      [inversion H; subst; split; [reflexivity | apply (Hfin [_]); reflexivity] |].
    destruct (rd_timeout_remains_us (abs_timeout rko) (rd_clock env) <=? 0);
      [inversion H; subst; split; [reflexivity | apply (Hfin [_]); reflexivity] |].
    destruct reply as [buf |]; [| discriminate H].
    destruct (parse cbs _ buf) as [res | e why | |];
      [| | discriminate H | discriminate H].
    + inversion H; subst. split; [reflexivity | apply (Hfin [_]); reflexivity].
    + destruct (negb (e =? 0)); [| discriminate H].
      inversion H; subst. split; [reflexivity | apply (Hfin [_]); reflexivity].
Qed.

End WorkerRun.

Lemma worker_posts_one_result_when_done_witness :
  (exists pre,
      [Admin_result_enq
         (mk_result RD_KAFKA_EVENT_DELETETOPICS_RESULT
            RD_KAFKA_OP_DELETETOPICS 0 RD_KAFKA_RESP_ERR__TIMED_OUT
            (Some (Errstr_failed_while RD_KAFKA_ADMIN_STATE_WAIT_CONTROLLER
                     RD_KAFKA_RESP_ERR__TIMED_OUT)) []);
       Timer_stop; Enq_once_del_source "timeout timer"; Enq_once_destroy]
      = pre ++ rd_kafka_admin_common_worker_destroy (R := unit)
                 sample_env_timer
      /\ (Timer_stop ∉ pre) /\ (Enq_once_destroy ∉ pre))
  /\ length (results_enqueued
               (fst (fst (default ([], RD_KAFKA_OP_RES_KEEP,
                                   sample_worker_op 0 0)
                            (rd_kafka_admin_worker sample_cbs sample_env_timer
                               (sample_worker_op RD_KAFKA_RESP_ERR__TIMED_OUT
                                  5000))))))
     = 1%nat.
Proof.
  exact (worker_posts_one_result_when_done sample_cbs sample_env_timer
           (sample_worker_op RD_KAFKA_RESP_ERR__TIMED_OUT 5000)
           _ _ RD_KAFKA_OP_RES_HANDLED eq_refl).
Defined.

Lemma worker_sends_one_request_at_most_witness :
  rd_kafka_admin_worker sample_cbs sample_env_up (sample_worker_op 0 5000)
  = Some ([Enq_once_reenable; Enq_once_add_source "send"; Request_sent 7;
           Broker_destroy 7],
          RD_KAFKA_OP_RES_KEEP,
          set_state (set_state (sample_worker_op 0 5000)
                       RD_KAFKA_ADMIN_STATE_CONSTRUCT_REQUEST)
            RD_KAFKA_ADMIN_STATE_WAIT_RESPONSE)
  /\ (length (requests_sent (R := unit)
                [Enq_once_reenable; Enq_once_add_source "send";
                 Request_sent 7%Z; Broker_destroy 7%Z]) <= 1)%nat
  /\ brokers_released (R := unit)
       [Enq_once_reenable; Enq_once_add_source "send"; Request_sent 7;
        Broker_destroy 7]
     = [7].
Proof.
  split; [reflexivity |].
  destruct (worker_sends_one_request_at_most sample_cbs sample_env_up
              (sample_worker_op 0 5000) _ _ _ eq_refl) as (Hle & Hrel & _).
  split; [exact Hle | exact Hrel].
Defined.

Lemma worker_init_picks_target_witness :
  exists acts res rko',
    rd_kafka_admin_worker sample_cbs sample_env_up (sample_init_op 3)
    = Some (acts, res, rko')
    /\ broker_id rko' = 3
    /\ Timer_start_oneshot (5000000 - 1000) ∈ acts
    /\ requests_sent acts = [3].
Proof.
  apply (worker_init_picks_target sample_cbs sample_env_up (sample_init_op 3));
    reflexivity.
Defined.

Lemma response_ends_the_request_witness :
  rd_kafka_admin_handle_response sample_cbs sample_env None
    RD_KAFKA_RESP_ERR__TIMED_OUT None = Some ([], None)
  /\ rd_kafka_admin_handle_response sample_cbs sample_env
       (Some (set_state (sample_worker_op 0 5000)
                RD_KAFKA_ADMIN_STATE_WAIT_RESPONSE))
       RD_KAFKA_RESP_ERR__TIMED_OUT None
     = Some (rd_kafka_admin_result_fail
               (set_reply (set_state (sample_worker_op 0 5000)
                             RD_KAFKA_ADMIN_STATE_WAIT_RESPONSE) None
                  RD_KAFKA_RESP_ERR__TIMED_OUT)
               RD_KAFKA_RESP_ERR__TIMED_OUT
               (Errstr_failed_while RD_KAFKA_ADMIN_STATE_WAIT_RESPONSE
                  RD_KAFKA_RESP_ERR__TIMED_OUT)
             :: rd_kafka_admin_common_worker_destroy sample_env, None).
Proof.
  destruct (response_ends_the_request sample_cbs sample_env
              (set_state (sample_worker_op 0 5000)
                 RD_KAFKA_ADMIN_STATE_WAIT_RESPONSE)
              RD_KAFKA_RESP_ERR__TIMED_OUT None)
    as (Hnone & Herr & _); [reflexivity | reflexivity | reflexivity
                            | discriminate |].
  split; [exact Hnone |]. apply Herr. discriminate.
Defined.

(** ** C strings, again *)

Lemma c_str_idem (s : string) : c_str (c_str s) = c_str s.
Proof.
  induction s as [| c s IH]; [reflexivity |]. simpl.
  destruct (uchar c =? 0) eqn:E; [reflexivity |].
  simpl. rewrite E, IH. reflexivity.
Qed.

Lemma is_empty_str_strlen (s : string) :
  is_empty_str s = (strlen s =? 0).
Proof.
  unfold strlen. destruct s as [| c s]; [reflexivity |]. simpl.
  destruct (uchar c =? 0); reflexivity.
Qed.

Lemma strlen_c_str (s : string) : strlen (c_str s) = strlen s.
Proof. unfold strlen. rewrite c_str_idem. reflexivity. Qed.

Lemma c_str_fmap_idem (v : option string) :
  c_str <$> (c_str <$> v) = c_str <$> v.
Proof. destruct v; simpl; [rewrite c_str_idem |]; reflexivity. Qed.

(** ** Copies of config entries *)

(** Induction on a config entry and, inside it, on its synonyms. *)
Lemma ConfigEntry_nested_ind (P : rd_kafka_ConfigEntry_t -> Prop) :
  (forall name value operation source readonly default sensitive synonym syns,
      Forall P syns ->
      P (mk_ConfigEntry name value operation source readonly default
           sensitive synonym syns)) ->
  forall entry : rd_kafka_ConfigEntry_t, P entry.
Proof.
  intros step. fix IH 1.
  intros [name value operation source readonly default sensitive synonym syns].
  apply step. induction syns as [| x syns IHsyns]; constructor.
  - apply IH.
  - exact IHsyns.
Qed.

Lemma ConfigEntry_copy_eq (src : rd_kafka_ConfigEntry_t) :
  rd_kafka_ConfigEntry_copy src
  = match mapM rd_kafka_ConfigEntry_copy (synonyms src) with
    | None => None
    | Some syns =>
        Some (mk_ConfigEntry (c_str (kv_name src)) (c_str <$> kv_value src)
                (a_operation src) (a_source src) (a_is_readonly src)
                (a_is_default src) (a_is_sensitive src) (a_is_synonym src)
                syns)
    end.
Proof.
  destruct src as [name value operation source readonly default sensitive
                     synonym syns].
  cbn [rd_kafka_ConfigEntry_copy]. unfold rd_kafka_ConfigEntry_new.
  cbn [fmap option_fmap option_map rd_kafka_ConfigEntry_new0].
  cbn [kv_name kv_value a_operation a_source a_is_readonly a_is_default
       a_is_sensitive a_is_synonym synonyms].
  reflexivity.
Qed.

(** X5. [rd_kafka_ConfigEntry_copy] always yields an entry: it has the
    attributes of the source, its name and value as C strings, and a copy
    of every synonym, at any depth of nesting. A copy of a copy is the
    copy. *)
Theorem ConfigEntry_copy_is_deep (src : rd_kafka_ConfigEntry_t) :
  exists dst,
    rd_kafka_ConfigEntry_copy src = Some dst
    /\ ConfigEntry_same src dst
    /\ rd_kafka_ConfigEntry_copy dst = Some dst.
Proof.
  induction src as [name value operation source readonly default sensitive
                      synonym syns IH] using ConfigEntry_nested_ind.
  assert (Hsyns : exists syns',
             mapM rd_kafka_ConfigEntry_copy syns = Some syns'
             /\ Forall2 ConfigEntry_same syns syns'
             /\ mapM rd_kafka_ConfigEntry_copy syns' = Some syns').
  { induction IH as [| x syns (x' & Hx & Hsame & Hidem) _ (syns' & Hs & Hall & Hi)].
    - exists []. repeat split; constructor.
    - exists (x' :: syns'). split; [| split].
      + cbn [mapM]. rewrite Hx. simpl. rewrite Hs. reflexivity.
      + constructor; assumption.
      + cbn [mapM]. rewrite Hidem. simpl. rewrite Hi. reflexivity. }
  destruct Hsyns as (syns' & Hs & Hall & Hi).
  eexists. rewrite ConfigEntry_copy_eq. cbn [synonyms]. rewrite Hs.
  split; [reflexivity |]. split.
  - constructor; try reflexivity. exact Hall.
  - rewrite ConfigEntry_copy_eq. cbn [synonyms]. rewrite Hi.
    cbn [kv_name kv_value a_operation a_source a_is_readonly a_is_default
         a_is_sensitive a_is_synonym].
    rewrite c_str_idem, c_str_fmap_idem. reflexivity.
Qed.

(** ** The setters of a ConfigResource *)

Lemma add_config0_some (rl : list rd_kafka_ConfigEntry_t) (name : string)
    (value : option string) (operation : Z) :
  rd_kafka_admin_add_config0 rl (Some name) value operation
  = (RD_KAFKA_RESP_ERR_NO_ERROR,
     rl ++ [mk_ConfigEntry (c_str name) (c_str <$> value) operation 0
              false false false false []]).
Proof. reflexivity. Qed.

(** One setter call appends the entry asked for, or refuses the call and
    leaves the resource alone. *)
Lemma apply_config_call_spec (config : rd_kafka_ConfigResource_t)
    (call : config_call) :
  apply_config_call config call
  = match entry_of_call call with
    | Some entry =>
        (RD_KAFKA_RESP_ERR_NO_ERROR,
         set_cr_config config (cr_config config ++ [entry]))
    | None => (RD_KAFKA_RESP_ERR__INVALID_ARG, config)
    end.
Proof.
  destruct call as [[name |] [value |] | [name |] [value |] | [name |]];
    cbn [apply_config_call entry_of_call];
    unfold rd_kafka_ConfigResource_add_config,
      rd_kafka_ConfigResource_set_config,
      rd_kafka_ConfigResource_delete_config;
    cbn [is_null default from_option id orb]; unfold id;
    rewrite ?orb_false_r, ?orb_true_r;
    try reflexivity;
    rewrite is_empty_str_strlen; destruct (strlen name =? 0); reflexivity.
Qed.

(** X6. Calls of [rd_kafka_ConfigResource_add_config], [_set_config] and
    [_delete_config], made one after the other, append one entry for each
    accepted call, in the order of the calls, with the name and value
    given and the operation ADD, SET or DELETE of the call. A call with a
    NULL or empty name, or an add or set with a NULL value, returns
    INVALID_ARG and appends nothing. The number of entries reported by
    [rd_kafka_ConfigResource_configs] grows by the number of accepted
    calls; the type and the name of the resource are never changed. *)
Theorem config_setters_append_in_call_order
    (config : rd_kafka_ConfigResource_t) (calls : list config_call) :
  let '(errs, config') := apply_config_calls config calls in
  cr_config config' = cr_config config ++ omap entry_of_call calls
  /\ errs = (fun call => match entry_of_call call with
                         | Some _ => RD_KAFKA_RESP_ERR_NO_ERROR
                         | None => RD_KAFKA_RESP_ERR__INVALID_ARG
                         end) <$> calls
  /\ snd (rd_kafka_ConfigResource_configs config')
     = snd (rd_kafka_ConfigResource_configs config)
       + Z.of_nat (length (filter (fun err => err = RD_KAFKA_RESP_ERR_NO_ERROR)
                             errs))
  /\ cr_restype config' = cr_restype config
  /\ cr_name config' = cr_name config.
Proof.
  revert config. induction calls as [| call calls IH]; intros config.
  - cbn [apply_config_calls]. rewrite app_nil_r.
    repeat split. simpl. lia.
  - cbn [apply_config_calls]. rewrite apply_config_call_spec.
    destruct (entry_of_call call) as [entry |] eqn:Eentry.
    + specialize (IH (set_cr_config config (cr_config config ++ [entry]))).
      destruct (apply_config_calls _ calls) as [errs config'].
      destruct IH as (Hc & He & Hn & Ht & Hname).
      cbn [cr_config set_cr_config cr_restype cr_name] in *.
      split; [| split; [| split; [| split]]]; try assumption.
      * rewrite Hc. cbn [omap list_omap]. rewrite Eentry.
        rewrite <- app_assoc. reflexivity.
      * cbn [fmap list_fmap]. rewrite Eentry, He. reflexivity.
      * rewrite Hn. rewrite filter_cons_True by reflexivity.
        unfold rd_kafka_ConfigResource_configs, rd_list_cnt.
        cbn [cr_config set_cr_config].
        destruct (Z.of_nat (length (cr_config config ++ [entry])) =? 0),
          (Z.of_nat (length (cr_config config)) =? 0);
          cbn [snd]; rewrite length_app; simpl; lia.
    + specialize (IH config).
      destruct (apply_config_calls _ calls) as [errs config'].
      destruct IH as (Hc & He & Hn & Ht & Hname).
      split; [| split; [| split; [| split]]]; try assumption.
      * rewrite Hc. cbn [omap list_omap]. rewrite Eentry. reflexivity.
      * cbn [fmap list_fmap]. rewrite Eentry, He. reflexivity.
Qed.

(** ** Values built by the application are copied as they are *)

Lemma plain_entry_copy (entry : rd_kafka_ConfigEntry_t) :
  plain_entry entry -> rd_kafka_ConfigEntry_copy entry = Some entry.
Proof.
  intros (Hn & Hv & Hs). rewrite ConfigEntry_copy_eq, Hs, Hn, Hv.
  destruct entry; simpl in *; subst; reflexivity.
Qed.

Lemma plain_entries_copy (l : list rd_kafka_ConfigEntry_t) :
  Forall plain_entry l -> mapM rd_kafka_ConfigEntry_copy l = Some l.
Proof.
  induction 1 as [| e l He _ IH]; [reflexivity |].
  cbn [mapM]. rewrite (plain_entry_copy e He). simpl. rewrite IH. reflexivity.
Qed.

Lemma add_config0_plain (rl rl' : list rd_kafka_ConfigEntry_t)
    (name value : option string) (operation : Z) (err : rd_kafka_resp_err_t) :
  Forall plain_entry rl ->
  rd_kafka_admin_add_config0 rl name value operation = (err, rl') ->
  Forall plain_entry rl'.
Proof.
  intros Hrl. destruct name as [name |]; simpl; intros H; inversion H; subst;
    [| assumption].
  apply Forall_app. split; [assumption |]. constructor; [| constructor].
  unfold plain_entry. simpl. rewrite c_str_idem, c_str_fmap_idem. auto.
Qed.

Lemma entry_of_call_plain (call : config_call) (entry : rd_kafka_ConfigEntry_t) :
  entry_of_call call = Some entry -> plain_entry entry.
Proof.
  destruct call as [[name |] [value |] | [name |] [value |] | [name |]];
    simpl; try discriminate;
    destruct (strlen name =? 0); try discriminate;
    intros H; inversion H; unfold plain_entry; simpl;
    rewrite !c_str_idem; auto.
Qed.

Lemma ConfigResource_built_inv (config : rd_kafka_ConfigResource_t) :
  ConfigResource_built config ->
  0 <= cr_restype config
  /\ strlen (cr_name config) <> 0
  /\ c_str (cr_name config) = cr_name config
  /\ cr_err config = RD_KAFKA_RESP_ERR_NO_ERROR
  /\ cr_errstr config = None
  /\ Forall plain_entry (cr_config config).
Proof.
  induction 1 as [restype resname config Hnew | config call _ IH].
  - unfold rd_kafka_ConfigResource_new in Hnew.
    destruct resname as [name |]; [| discriminate Hnew].
    cbn [kstr_bytes] in Hnew.
    destruct (Z.eqb_spec (strlen name) 0) as [E | NE]; [discriminate Hnew |].
    destruct (Z.ltb_spec restype 0) as [Hneg | Hpos]; [discriminate Hnew |].
    simpl in Hnew. inversion Hnew; subst; simpl.
    rewrite strlen_c_str, c_str_idem. repeat split; auto.
  - destruct IH as (Ht & Hl & Hc & He & Hes & Hentries).
    rewrite apply_config_call_spec.
    destruct (entry_of_call call) as [entry |] eqn:Eentry; simpl;
      repeat split; auto.
    apply Forall_app. split; [assumption |].
    constructor; [| constructor]. eapply entry_of_call_plain; eassumption.
Qed.

Lemma ConfigResource_built_copy (config : rd_kafka_ConfigResource_t) :
  ConfigResource_built config ->
  rd_kafka_ConfigResource_copy config = Some config.
Proof.
  intros Hc. apply ConfigResource_built_inv in Hc.
  destruct Hc as (Ht & Hl & Hn & He & Hes & _).
  unfold rd_kafka_ConfigResource_copy, rd_kafka_ConfigResource_new.
  cbn [kstr_bytes].
  destruct (Z.eqb_spec (strlen (cr_name config)) 0); [contradiction |].
  destruct (Z.ltb_spec (cr_restype config) 0); [lia |].
  simpl. rewrite Hn. destruct config; simpl in *; subst; reflexivity.
Qed.

(** X7. A resource made by [rd_kafka_ConfigResource_new] and changed by
    the three setters is copied by [rd_kafka_ConfigResource_copy] to an
    equal value, each of its entries by [rd_kafka_ConfigEntry_copy] to an
    equal entry. So [rd_kafka_AlterConfigs] and [rd_kafka_DescribeConfigs]
    run the pre-flight on a request in state INIT whose args are the
    resources given, in the order given. *)
Theorem built_resources_are_submitted_as_given
    (request_timeout_ms : Z) (env : worker_env)
    (configs : list rd_kafka_ConfigResource_t)
    (options : option rd_kafka_AdminOptions_t) :
  Forall ConfigResource_built configs ->
  mapM rd_kafka_ConfigResource_copy configs = Some configs
  /\ Forall (fun config =>
               mapM rd_kafka_ConfigEntry_copy (cr_config config)
               = Some (cr_config config)) configs
  /\ rd_kafka_AlterConfigs request_timeout_ms env configs options
     = Some (preflight_outcome env
               (set_args
                  (rd_kafka_admin_request_op_new request_timeout_ms
                     (rd_clock env) RD_KAFKA_OP_ALTERCONFIGS
                     RD_KAFKA_EVENT_ALTERCONFIGS_RESULT options)
                  configs))
  /\ rd_kafka_DescribeConfigs request_timeout_ms env configs options
     = Some (preflight_outcome env
               (set_args
                  (rd_kafka_admin_request_op_new request_timeout_ms
                     (rd_clock env) RD_KAFKA_OP_DESCRIBECONFIGS
                     RD_KAFKA_EVENT_DESCRIBECONFIGS_RESULT options)
                  configs)).
Proof.
  intros Hbuilt.
  assert (Hcopies : mapM rd_kafka_ConfigResource_copy configs = Some configs).
  { induction Hbuilt as [| config configs Hc _ IH]; [reflexivity |].
    cbn [mapM]. rewrite (ConfigResource_built_copy config Hc). simpl.
    rewrite IH. reflexivity. }
  split; [exact Hcopies |]. split.
  - eapply Forall_impl; [exact Hbuilt |]. intros config Hc.
    apply plain_entries_copy. apply ConfigResource_built_inv in Hc. apply Hc.
  - split; apply submit_configs_spec; exact Hcopies.
Qed.

(** ** Replica assignments *)

Lemma to_size_t_small (x : Z) : 0 <= x <= INT32_MAX -> to_size_t x = x.
Proof.
  unfold to_size_t, INT32_MAX. intros H. apply Z.mod_small. lia.
Qed.

Section Replicas.
Variables RD_KAFKAP_PARTITIONS_MAX RD_KAFKAP_BROKERS_MAX : Z.
Hypothesis BROKERS_MAX_is_int : 0 <= RD_KAFKAP_BROKERS_MAX <= INT32_MAX.

Lemma take_broker_ids (broker_ids : list Z) :
  Z.of_nat (length broker_ids) <= RD_KAFKAP_BROKERS_MAX ->
  take (Z.to_nat (to_int32 (Z.of_nat (length broker_ids)))) broker_ids
  = broker_ids.
Proof.
  intros Hcnt. rewrite to_int32_small by (unfold INT32_MIN, INT32_MAX in *; lia).
  rewrite Nat2Z.id. apply firstn_all.
Qed.

Lemma NewTopic_set_replica_assignment_ok (new_topic : rd_kafka_NewTopic_t)
    (broker_ids : list Z) :
  replication_factor new_topic = -1 ->
  Z.of_nat (length broker_ids) <= RD_KAFKAP_BROKERS_MAX ->
  rd_kafka_NewTopic_set_replica_assignment RD_KAFKAP_BROKERS_MAX new_topic
    (Z.of_nat (length (nt_replicas new_topic))) broker_ids
  = (RD_KAFKA_RESP_ERR_NO_ERROR, None,
     set_nt_replicas new_topic (nt_replicas new_topic ++ [broker_ids])).
Proof.
  intros Hrf Hcnt. unfold rd_kafka_NewTopic_set_replica_assignment.
  rewrite Hrf. simpl negb. cbv iota. unfold rd_list_cnt.
  rewrite Z.eqb_refl. simpl negb. cbv iota.
  rewrite to_size_t_small by assumption.
  destruct (Z.gtb_spec (Z.of_nat (length broker_ids)) RD_KAFKAP_BROKERS_MAX);
    [lia |].
  rewrite take_broker_ids by assumption. reflexivity.
Qed.

Lemma NewTopic_assign_replicas_ok (assignments : list (list Z)) :
  forall new_topic : rd_kafka_NewTopic_t,
    replication_factor new_topic = -1 ->
    Forall (fun broker_ids =>
              Z.of_nat (length broker_ids) <= RD_KAFKAP_BROKERS_MAX)
      assignments ->
    NewTopic_assign_replicas RD_KAFKAP_BROKERS_MAX new_topic
      (Z.of_nat (length (nt_replicas new_topic))) assignments
    = (replicate (length assignments) RD_KAFKA_RESP_ERR_NO_ERROR,
       set_nt_replicas new_topic (nt_replicas new_topic ++ assignments)).
Proof.
  induction assignments as [| broker_ids rest IH]; intros new_topic Hrf Hall.
  - simpl. rewrite app_nil_r. destruct new_topic; reflexivity.
  - inversion Hall as [| ? ? Hcnt Hrest]; subst.
    cbn [NewTopic_assign_replicas].
    rewrite NewTopic_set_replica_assignment_ok by assumption.
    specialize (IH (set_nt_replicas new_topic
                      (nt_replicas new_topic ++ [broker_ids])) Hrf Hrest).
    cbn [nt_replicas set_nt_replicas] in IH.
    rewrite length_app in IH. simpl length in IH.
    replace (Z.of_nat (length (nt_replicas new_topic)) + 1)
      with (Z.of_nat (length (nt_replicas new_topic) + 1)) by lia.
    rewrite IH. rewrite <- app_assoc. reflexivity.
Qed.

(** X8. On a topic with replication factor -1, replica assignments given
    for consecutive partitions, starting at the first one without an
    assignment, each of at most RD_KAFKAP_BROKERS_MAX brokers, all return
    NO_ERROR and are stored in that order with the broker ids as given.
    An assignment for any other partition is refused with INVALID_ARG and
    the text that names the partition expected, one of more than
    RD_KAFKAP_BROKERS_MAX brokers with INVALID_ARG, and a refused call
    leaves the topic as it was. The replicas list is preallocated for
    [num_partitions] elements; the statement is about assignments within
    that capacity, what [rd_list_add] does beyond it being rdlist.c's. *)
Theorem NewTopic_replicas_are_assigned_in_order
    (new_topic : rd_kafka_NewTopic_t) (assignments : list (list Z)) :
  replication_factor new_topic = -1 ->
  Z.of_nat (length (nt_replicas new_topic ++ assignments))
  <= num_partitions new_topic ->
  Forall (fun broker_ids =>
            Z.of_nat (length broker_ids) <= RD_KAFKAP_BROKERS_MAX)
    assignments ->
  NewTopic_assign_replicas RD_KAFKAP_BROKERS_MAX new_topic
    (Z.of_nat (length (nt_replicas new_topic))) assignments
  = (replicate (length assignments) RD_KAFKA_RESP_ERR_NO_ERROR,
     set_nt_replicas new_topic (nt_replicas new_topic ++ assignments))
  /\ (forall partition broker_ids,
        partition <> Z.of_nat (length (nt_replicas new_topic)) ->
        rd_kafka_NewTopic_set_replica_assignment RD_KAFKAP_BROKERS_MAX
          new_topic partition broker_ids
        = (RD_KAFKA_RESP_ERR__INVALID_ARG,
           Some (Errstr_partitions_in_order
                   (Z.of_nat (length (nt_replicas new_topic))) partition),
           new_topic))
  /\ (forall partition broker_ids,
        partition = Z.of_nat (length (nt_replicas new_topic)) ->
        RD_KAFKAP_BROKERS_MAX < Z.of_nat (length broker_ids) ->
        rd_kafka_NewTopic_set_replica_assignment RD_KAFKAP_BROKERS_MAX
          new_topic partition broker_ids
        = (RD_KAFKA_RESP_ERR__INVALID_ARG,
           Some (Errstr_too_many_brokers RD_KAFKAP_BROKERS_MAX), new_topic)).
Proof.
  intros Hrf _ Hall.
  split; [apply NewTopic_assign_replicas_ok; assumption |].
  split.
  - intros partition broker_ids Hp.
    unfold rd_kafka_NewTopic_set_replica_assignment.
    rewrite Hrf. simpl negb. cbv iota. unfold rd_list_cnt.
    destruct (Z.eqb_spec partition (Z.of_nat (length (nt_replicas new_topic))));
      [contradiction | reflexivity].
  - intros partition broker_ids -> Hmany.
    unfold rd_kafka_NewTopic_set_replica_assignment.
    rewrite Hrf. simpl negb. cbv iota. unfold rd_list_cnt.
    rewrite Z.eqb_refl. simpl negb. cbv iota.
    rewrite to_size_t_small by assumption.
    destruct (Z.gtb_spec (Z.of_nat (length broker_ids)) RD_KAFKAP_BROKERS_MAX);
      [reflexivity | lia].
Qed.

(** X9. Every topic specification that the application can build with
    [rd_kafka_NewTopic_new], [rd_kafka_NewTopic_set_replica_assignment]
    and [rd_kafka_NewTopic_set_config] has between 1 and
    RD_KAFKAP_PARTITIONS_MAX partitions and a replication factor between
    -1 and RD_KAFKAP_BROKERS_MAX, and each of its replica assignments has
    at most RD_KAFKAP_BROKERS_MAX brokers. A replication factor other than
    -1 excludes replica assignments: such a topic has none, and every call
    that would set one is refused with INVALID_ARG and leaves the topic as
    it was. *)
Theorem NewTopic_replication_factor_excludes_replicas
    (new_topic : rd_kafka_NewTopic_t) :
  NewTopic_built RD_KAFKAP_PARTITIONS_MAX RD_KAFKAP_BROKERS_MAX new_topic ->
  1 <= num_partitions new_topic <= RD_KAFKAP_PARTITIONS_MAX
  /\ -1 <= replication_factor new_topic <= RD_KAFKAP_BROKERS_MAX
  /\ (replication_factor new_topic <> -1 -> nt_replicas new_topic = [])
  /\ Forall (fun broker_ids =>
               Z.of_nat (length broker_ids) <= RD_KAFKAP_BROKERS_MAX)
       (nt_replicas new_topic)
  /\ (replication_factor new_topic <> -1 ->
      forall partition broker_ids,
        rd_kafka_NewTopic_set_replica_assignment RD_KAFKAP_BROKERS_MAX
          new_topic partition broker_ids
        = (RD_KAFKA_RESP_ERR__INVALID_ARG, Some Errstr_mutually_exclusive,
           new_topic)).
Proof.
  intros Hbuilt.
  assert (Hlast : replication_factor new_topic <> -1 ->
                  forall partition broker_ids,
                    rd_kafka_NewTopic_set_replica_assignment
                      RD_KAFKAP_BROKERS_MAX new_topic partition broker_ids
                    = (RD_KAFKA_RESP_ERR__INVALID_ARG,
                       Some Errstr_mutually_exclusive, new_topic)).
  { intros Hrf partition broker_ids.
    unfold rd_kafka_NewTopic_set_replica_assignment.
    destruct (Z.eqb_spec (replication_factor new_topic) (-1));
      [contradiction | reflexivity]. }
  cut (1 <= num_partitions new_topic <= RD_KAFKAP_PARTITIONS_MAX
       /\ -1 <= replication_factor new_topic <= RD_KAFKAP_BROKERS_MAX
       /\ (replication_factor new_topic <> -1 -> nt_replicas new_topic = [])
       /\ Forall (fun broker_ids =>
                    Z.of_nat (length broker_ids) <= RD_KAFKAP_BROKERS_MAX)
            (nt_replicas new_topic)).
  { intros (H1 & H2 & H3 & H4). repeat split; try assumption; apply H1 || apply H2. }
  clear Hlast.
  induction Hbuilt as [topic np rf new_topic Hnew
                      | new_topic partition broker_ids _ IH
                      | new_topic name value _ IH].
  - unfold rd_kafka_NewTopic_new in Hnew.
    destruct topic as [topic |]; [| discriminate Hnew].
    destruct (Z.ltb_spec np 1); [discriminate Hnew |].
    destruct (Z.gtb_spec np RD_KAFKAP_PARTITIONS_MAX); [discriminate Hnew |].
    destruct (Z.ltb_spec rf (-1)); [discriminate Hnew |].
    destruct (Z.gtb_spec rf RD_KAFKAP_BROKERS_MAX); [discriminate Hnew |].
    simpl in Hnew. inversion Hnew; subst; simpl.
    repeat split; auto; lia.
  - destruct IH as (Hnp & Hrf & Hex & Hall).
    unfold rd_kafka_NewTopic_set_replica_assignment.
    destruct (Z.eqb_spec (replication_factor new_topic) (-1)) as [E | NE];
      simpl negb; cbv iota; [| simpl; auto].
    destruct (negb (partition =? rd_list_cnt (nt_replicas new_topic)));
      [simpl; auto |].
    rewrite to_size_t_small by assumption.
    destruct (Z.gtb_spec (Z.of_nat (length broker_ids)) RD_KAFKAP_BROKERS_MAX);
      [simpl; auto |].
    cbn [snd nt_replicas set_nt_replicas num_partitions replication_factor].
    split; [assumption |]. split; [assumption |].
    split; [intros; contradiction |].
    apply Forall_app. split; [assumption |]. constructor; [| constructor].
    rewrite take_broker_ids by lia. lia.
  - destruct IH as (Hnp & Hrf & Hex & Hall).
    unfold rd_kafka_NewTopic_set_config.
    destruct (rd_kafka_admin_add_config0 _ _ _ _) as [err rl].
    simpl. auto.
Qed.

Lemma NewPartitions_set_replica_assignment_ok
    (newp : rd_kafka_NewPartitions_t) (broker_ids : list Z) :
  Z.of_nat (length broker_ids) <= RD_KAFKAP_BROKERS_MAX ->
  rd_kafka_NewPartitions_set_replica_assignment RD_KAFKAP_BROKERS_MAX newp
    (Z.of_nat (length (np_replicas newp))) broker_ids
  = (RD_KAFKA_RESP_ERR_NO_ERROR, None,
     set_np_replicas newp (np_replicas newp ++ [broker_ids])).
Proof.
  intros Hcnt. unfold rd_kafka_NewPartitions_set_replica_assignment.
  unfold rd_list_cnt. rewrite Z.eqb_refl. simpl negb. cbv iota.
  rewrite to_size_t_small by assumption.
  destruct (Z.gtb_spec (Z.of_nat (length broker_ids)) RD_KAFKAP_BROKERS_MAX);
    [lia |].
  rewrite take_broker_ids by assumption. reflexivity.
Qed.

Lemma NewPartitions_assign_replicas_ok (assignments : list (list Z)) :
  forall newp : rd_kafka_NewPartitions_t,
    Forall (fun broker_ids =>
              Z.of_nat (length broker_ids) <= RD_KAFKAP_BROKERS_MAX)
      assignments ->
    NewPartitions_assign_replicas RD_KAFKAP_BROKERS_MAX newp
      (Z.of_nat (length (np_replicas newp))) assignments
    = (replicate (length assignments) RD_KAFKA_RESP_ERR_NO_ERROR,
       set_np_replicas newp (np_replicas newp ++ assignments)).
Proof.
  induction assignments as [| broker_ids rest IH]; intros newp Hall.
  - simpl. rewrite app_nil_r. destruct newp; reflexivity.
  - inversion Hall as [| ? ? Hcnt Hrest]; subst.
    cbn [NewPartitions_assign_replicas].
    rewrite NewPartitions_set_replica_assignment_ok by assumption.
    specialize (IH (set_np_replicas newp (np_replicas newp ++ [broker_ids]))
                  Hrest).
    cbn [np_replicas set_np_replicas] in IH.
    rewrite length_app in IH. simpl length in IH.
    replace (Z.of_nat (length (np_replicas newp)) + 1)
      with (Z.of_nat (length (np_replicas newp) + 1)) by lia.
    rewrite IH. rewrite <- app_assoc. reflexivity.
Qed.

(** X10. Replica assignments given to a NewPartitions for consecutive new
    partitions, starting at the first one without an assignment, each of
    at most RD_KAFKAP_BROKERS_MAX brokers, all return NO_ERROR and are
    stored in that order with the broker ids as given. An assignment for
    any other index is refused with INVALID_ARG and the text that names
    the index expected, one of more than RD_KAFKAP_BROKERS_MAX brokers
    with INVALID_ARG, and a refused call leaves the value as it was. The
    replicas list is preallocated for [total_cnt] elements; the statement
    is about assignments within that capacity. *)
Theorem NewPartitions_replicas_are_assigned_in_order
    (newp : rd_kafka_NewPartitions_t) (assignments : list (list Z)) :
  Z.of_nat (length (np_replicas newp ++ assignments)) <= total_cnt newp ->
  Forall (fun broker_ids =>
            Z.of_nat (length broker_ids) <= RD_KAFKAP_BROKERS_MAX)
    assignments ->
  NewPartitions_assign_replicas RD_KAFKAP_BROKERS_MAX newp
    (Z.of_nat (length (np_replicas newp))) assignments
  = (replicate (length assignments) RD_KAFKA_RESP_ERR_NO_ERROR,
     set_np_replicas newp (np_replicas newp ++ assignments))
  /\ (forall new_partition_idx broker_ids,
        new_partition_idx <> Z.of_nat (length (np_replicas newp)) ->
        rd_kafka_NewPartitions_set_replica_assignment RD_KAFKAP_BROKERS_MAX
          newp new_partition_idx broker_ids
        = (RD_KAFKA_RESP_ERR__INVALID_ARG,
           Some (Errstr_partitions_in_order
                   (Z.of_nat (length (np_replicas newp))) new_partition_idx),
           newp))
  /\ (forall new_partition_idx broker_ids,
        new_partition_idx = Z.of_nat (length (np_replicas newp)) ->
        RD_KAFKAP_BROKERS_MAX < Z.of_nat (length broker_ids) ->
        rd_kafka_NewPartitions_set_replica_assignment RD_KAFKAP_BROKERS_MAX
          newp new_partition_idx broker_ids
        = (RD_KAFKA_RESP_ERR__INVALID_ARG,
           Some (Errstr_too_many_brokers RD_KAFKAP_BROKERS_MAX), newp)).
Proof.
  intros _ Hall.
  split; [apply NewPartitions_assign_replicas_ok; assumption |].
  split.
  - intros idx broker_ids Hp.
    unfold rd_kafka_NewPartitions_set_replica_assignment, rd_list_cnt.
    destruct (Z.eqb_spec idx (Z.of_nat (length (np_replicas newp))));
      [contradiction | reflexivity].
  - intros idx broker_ids -> Hmany.
    unfold rd_kafka_NewPartitions_set_replica_assignment, rd_list_cnt.
    rewrite Z.eqb_refl. simpl negb. cbv iota.
    rewrite to_size_t_small by assumption.
    destruct (Z.gtb_spec (Z.of_nat (length broker_ids)) RD_KAFKAP_BROKERS_MAX);
      [reflexivity | lia].
Qed.

End Replicas.

(** ** Topic requests carry copies of what the application built *)

Section TopicSubmission.
Variables RD_KAFKAP_PARTITIONS_MAX RD_KAFKAP_BROKERS_MAX : Z.

Lemma NewTopic_built_copy (new_topic : rd_kafka_NewTopic_t) :
  NewTopic_built RD_KAFKAP_PARTITIONS_MAX RD_KAFKAP_BROKERS_MAX new_topic ->
  rd_kafka_NewTopic_copy RD_KAFKAP_PARTITIONS_MAX RD_KAFKAP_BROKERS_MAX
    new_topic = Some new_topic.
Proof.
  intros Hbuilt.
  assert (Hinv : rd_kafka_NewTopic_new RD_KAFKAP_PARTITIONS_MAX
                   RD_KAFKAP_BROKERS_MAX (Some (nt_topic new_topic))
                   (num_partitions new_topic) (replication_factor new_topic)
                 = inr (mk_NewTopic (nt_topic new_topic)
                          (num_partitions new_topic)
                          (replication_factor new_topic) [] [])
                 /\ Forall plain_entry (nt_config new_topic)).
  { induction Hbuilt as [topic np rf new_topic Hnew
                        | new_topic partition broker_ids _ IH
                        | new_topic name value _ IH].
    - unfold rd_kafka_NewTopic_new in *.
      destruct topic as [topic |]; [| discriminate Hnew].
      destruct ((np <? 1) || (np >? RD_KAFKAP_PARTITIONS_MAX)) eqn:E1;
        [discriminate Hnew |].
      destruct ((rf <? -1) || (rf >? RD_KAFKAP_BROKERS_MAX)) eqn:E2;
        [discriminate Hnew |].
      inversion Hnew; subst; simpl. rewrite E1, E2, c_str_idem.
      split; [reflexivity | constructor].
    - destruct IH as [Hnew Hcfg].
      unfold rd_kafka_NewTopic_set_replica_assignment.
      destruct (negb (replication_factor new_topic =? -1));
        [split; assumption |].
      destruct (negb (partition =? rd_list_cnt (nt_replicas new_topic)));
        [split; assumption |].
      destruct (Z.of_nat (length broker_ids) >? to_size_t RD_KAFKAP_BROKERS_MAX);
        split; assumption.
    - destruct IH as [Hnew Hcfg]. unfold rd_kafka_NewTopic_set_config.
      destruct (rd_kafka_admin_add_config0 _ _ _ _) as [err rl] eqn:Eadd.
      split; [exact Hnew |]. simpl.
      eapply add_config0_plain; eassumption. }
  destruct Hinv as [Hnew Hcfg].
  unfold rd_kafka_NewTopic_copy. rewrite Hnew.
  rewrite (plain_entries_copy _ Hcfg). destruct new_topic; reflexivity.
Qed.

Lemma NewPartitions_built_copy (newp : rd_kafka_NewPartitions_t) :
  NewPartitions_built RD_KAFKAP_PARTITIONS_MAX RD_KAFKAP_BROKERS_MAX newp ->
  rd_kafka_NewPartitions_copy RD_KAFKAP_PARTITIONS_MAX newp = Some newp.
Proof.
  intros Hbuilt.
  assert (Hinv : rd_kafka_NewPartitions_new RD_KAFKAP_PARTITIONS_MAX
                   (Some (np_topic newp)) (total_cnt newp)
                 = Some (inr (mk_NewPartitions (np_topic newp)
                                (total_cnt newp) []))).
  { induction Hbuilt as [topic cnt newp Hnew | newp idx broker_ids _ IH].
    - unfold rd_kafka_NewPartitions_new in *.
      destruct topic as [topic |]; [| discriminate Hnew].
      destruct ((cnt <? 1) || (cnt >? to_size_t RD_KAFKAP_PARTITIONS_MAX))
        eqn:E1; [discriminate Hnew |].
      inversion Hnew; subst; simpl. rewrite E1, c_str_idem. reflexivity.
    - unfold rd_kafka_NewPartitions_set_replica_assignment.
      destruct (negb (idx =? rd_list_cnt (np_replicas newp))); [assumption |].
      destruct (Z.of_nat (length broker_ids) >? to_size_t RD_KAFKAP_BROKERS_MAX);
        assumption. }
  unfold rd_kafka_NewPartitions_copy. rewrite Hinv.
  destruct newp; reflexivity.
Qed.

Lemma DeleteTopic_built_copy (del_topic : rd_kafka_DeleteTopic_t) :
  DeleteTopic_built del_topic ->
  rd_kafka_DeleteTopic_copy del_topic = Some del_topic.
Proof.
  intros ([topic |] & Hnew); [| discriminate Hnew].
  inversion Hnew; subst. unfold rd_kafka_DeleteTopic_copy. simpl.
  rewrite c_str_idem. reflexivity.
Qed.

Lemma mapM_copy_all {X : Type} (copy : X -> option X) (l : list X) :
  Forall (fun x => copy x = Some x) l -> mapM copy l = Some l.
Proof.
  induction 1 as [| x l Hx _ IH]; [reflexivity |].
  cbn [mapM]. rewrite Hx. simpl. rewrite IH. reflexivity.
Qed.

(** X11. [rd_kafka_CreateTopics], [rd_kafka_DeleteTopics] and
    [rd_kafka_CreatePartitions], given values made by the constructors and
    setters of the API, put on the client's queue a request op in state
    INIT, of the request type and reply event type of the API, with the
    deadline and options of [rd_kafka_admin_request_op_new], whose args
    are equal to the values given, in the order given. *)
Theorem built_topics_are_submitted_as_given (request_timeout_ms : Z)
    (env : worker_env) (options : option rd_kafka_AdminOptions_t) :
  (forall new_topics,
      Forall (NewTopic_built RD_KAFKAP_PARTITIONS_MAX RD_KAFKAP_BROKERS_MAX)
        new_topics ->
      rd_kafka_CreateTopics RD_KAFKAP_PARTITIONS_MAX RD_KAFKAP_BROKERS_MAX
        request_timeout_ms env new_topics options
      = Some (set_args
                (rd_kafka_admin_request_op_new request_timeout_ms
                   (rd_clock env) RD_KAFKA_OP_CREATETOPICS
                   RD_KAFKA_EVENT_CREATETOPICS_RESULT options)
                new_topics))
  /\ (forall del_topics,
        Forall DeleteTopic_built del_topics ->
        rd_kafka_DeleteTopics request_timeout_ms env del_topics options
        = Some (set_args
                  (rd_kafka_admin_request_op_new request_timeout_ms
                     (rd_clock env) RD_KAFKA_OP_DELETETOPICS
                     RD_KAFKA_EVENT_DELETETOPICS_RESULT options)
                  del_topics))
  /\ (forall newps,
        Forall (NewPartitions_built RD_KAFKAP_PARTITIONS_MAX
                  RD_KAFKAP_BROKERS_MAX) newps ->
        rd_kafka_CreatePartitions RD_KAFKAP_PARTITIONS_MAX request_timeout_ms
          env newps options
        = Some (set_args
                  (rd_kafka_admin_request_op_new request_timeout_ms
                     (rd_clock env) RD_KAFKA_OP_CREATEPARTITIONS
                     RD_KAFKA_EVENT_CREATEPARTITIONS_RESULT options)
                  newps)).
Proof.
  split; [| split]; intros l Hall;
    unfold rd_kafka_CreateTopics, rd_kafka_DeleteTopics,
      rd_kafka_CreatePartitions, submit_topics;
    rewrite mapM_copy_all; try reflexivity;
    (eapply Forall_impl; [exact Hall |]); intros x Hx.
  - apply NewTopic_built_copy. exact Hx.
  - apply DeleteTopic_built_copy. exact Hx.
  - apply NewPartitions_built_copy. exact Hx.
Qed.

End TopicSubmission.

(** ** Where a config request is sent *)

Lemma preflight_enqueued {B R : Type} (env : worker_env)
    (rko0 rko : rd_kafka_op_t rd_kafka_ConfigResource_t B) :
  preflight_outcome (R := R) env rko0 = Ops_enq rko ->
  (broker_resources (args rko0) = [] /\ rko = set_broker_id rko0 (-1))
  \/ (exists b r, broker_resources (args rko0) = [b]
                  /\ broker_id_of_name (cr_name b) = Some r
                  /\ rko = set_broker_id rko0 r).
Proof.
  unfold preflight_outcome, submit_failure.
  destruct (broker_resources (args rko0)) as [| b rest].
  - intros H. inversion H. left. split; reflexivity.
  - destruct (broker_id_of_name (cr_name b)) as [r |] eqn:Er;
      [| discriminate].
    destruct rest as [| b' rest]; [| discriminate].
    intros H. inversion H. right. exists b, r. repeat split. assumption.
Qed.

(** X12. An AlterConfigs or DescribeConfigs request that passed the
    pre-flight is sent, by the first run of the worker (the client not
    terminating, the deadline ahead), to the broker of the broker option
    when the application set one; otherwise to the broker that the only
    BROKER resource of the request names; otherwise, with no BROKER
    resource, to the controller; in each case provided that this broker
    is up. *)
Theorem config_request_target
    (request_timeout_ms : Z) (env0 env : worker_env)
    (configs copies : list rd_kafka_ConfigResource_t)
    (admin_options : option rd_kafka_AdminOptions_t)
    (rko : rd_kafka_op_t rd_kafka_ConfigResource_t configs_reply)
    (cbs : rd_kafka_admin_worker_cbs rd_kafka_ConfigResource_t configs_reply
             rd_kafka_ConfigResource_t) :
  mapM rd_kafka_ConfigResource_copy configs = Some copies ->
  rd_kafka_AlterConfigs request_timeout_ms env0 configs admin_options
  = Some (Ops_enq rko)
  \/ rd_kafka_DescribeConfigs request_timeout_ms env0 configs admin_options
     = Some (Ops_enq rko) ->
  rd_kafka_terminating env = false ->
  rd_clock env < abs_timeout rko ->
  let explicit :=
    match admin_options with
    | Some o => to_int32 (rd_kafka_confval_get_int (broker o))
    | None => -1
    end in
  exists acts res rko',
    rd_kafka_admin_worker cbs env rko = Some (acts, res, rko')
    /\ (explicit <> -1 ->
        forall rkb,
          rd_kafka_broker_get_async env explicit = Some rkb ->
          requests_sent acts = [rkb])
    /\ (explicit = -1 ->
        forall b r rkb,
          broker_resources copies = [b] ->
          broker_id_of_name (cr_name b) = Some r ->
          rd_kafka_broker_get_async env r = Some rkb ->
          requests_sent acts = [rkb])
    /\ (explicit = -1 ->
        broker_resources copies = [] ->
        forall rkb,
          rd_kafka_broker_controller_async env = Some rkb ->
          requests_sent acts = [rkb]).
Proof.
  intros Hcopies Hsubmit Hterm Hclock explicit.
  assert (Hpre : exists optype evtype,
             preflight_outcome (R := rd_kafka_ConfigResource_t) env0
               (set_args
                  (rd_kafka_admin_request_op_new request_timeout_ms
                     (rd_clock env0) optype evtype admin_options) copies)
             = Ops_enq rko).
  { destruct Hsubmit as [H | H];
      unfold rd_kafka_AlterConfigs, rd_kafka_DescribeConfigs in H;
      rewrite (submit_configs_spec _ _ _ _ _ _ _ Hcopies) in H;
      injection H as H'; do 2 eexists; exact H'. }
  destruct Hpre as (optype & evtype & Hpre).
  apply preflight_enqueued in Hpre. cbn [args set_args] in Hpre.
  assert (Hop : exists id,
             rko = set_broker_id
                     (set_args
                        (rd_kafka_admin_request_op_new request_timeout_ms
                           (rd_clock env0) optype evtype admin_options) copies) id
             /\ ((broker_resources copies = [] /\ id = -1)
                 \/ exists b, broker_resources copies = [b]
                              /\ broker_id_of_name (cr_name b) = Some id)).
  { destruct Hpre as [[Hnone ->] | (b & r & Hone & Hr & ->)].
    - exists (-1). split; [reflexivity |]. left. split; [assumption | reflexivity].
    - exists r. split; [reflexivity |]. right. exists b. split; assumption. }
  destruct Hop as (id & -> & Hid).
  match type of Hclock with
  | _ < abs_timeout ?op => set (rko := op) in *
  end.
  assert (Hexp : to_int32 (rd_kafka_confval_get_int (broker (options rko)))
                 = explicit).
  { subst rko explicit. destruct admin_options as [o |]; reflexivity. }
  destruct (worker_init_target cbs env rko) as
    (acts & res & rko' & Hrun & _ & _ & Hsent); try assumption; try reflexivity.
  exists acts, res, rko'. split; [exact Hrun |].
  rewrite Hexp in Hsent. change (broker_id rko) with id in Hsent.
  split; [| split].
  - intros Hne rkb Hrkb.
    destruct (Z.eqb_spec explicit (-1)) as [E | _]; [contradiction |].
    destruct (Z.eqb_spec explicit (-1)) as [E | _]; [contradiction |].
    rewrite Hrkb in Hsent. exact Hsent.
  - intros He b r rkb Hb Hr Hrkb. rewrite He in Hsent. simpl in Hsent.
    destruct Hid as [[Hnone _] | (b' & Hb' & Hr')]; [congruence |].
    assert (b' = b) by congruence. subst b'.
    assert (id = r) by congruence. subst id.
    apply broker_id_of_name_range in Hr.
    destruct (Z.eqb_spec r (-1)) as [E | _]; [lia |].
    rewrite Hrkb in Hsent. exact Hsent.
  - intros He Hnone rkb Hrkb. rewrite He in Hsent. simpl in Hsent.
    destruct Hid as [[_ ->] | (b' & Hb' & _)]; [| congruence].
    simpl in Hsent. rewrite Hrkb in Hsent. exact Hsent.
Qed.

Lemma sample_built_resource_built : ConfigResource_built sample_built_resource.
Proof.
  apply ConfigResource_built_call.
  apply (ConfigResource_built_new RD_KAFKA_RESOURCE_TOPIC (Some "t")).
  reflexivity.
Defined.

Lemma built_resources_are_submitted_as_given_witness :
  rd_kafka_AlterConfigs 5000 sample_env [sample_built_resource] None
  = Some (preflight_outcome sample_env
            (set_args
               (rd_kafka_admin_request_op_new 5000 1000
                  RD_KAFKA_OP_ALTERCONFIGS RD_KAFKA_EVENT_ALTERCONFIGS_RESULT
                  None)
               [sample_built_resource]))
  /\ mapM rd_kafka_ConfigResource_copy [sample_built_resource]
     = Some [sample_built_resource].
Proof.
  destruct (built_resources_are_submitted_as_given 5000 sample_env
              [sample_built_resource] None) as (Hcopy & _ & Halter & _).
  - apply Forall_cons_2; [exact sample_built_resource_built |].
    apply Forall_nil_2.
  - split; [exact Halter | exact Hcopy].
Defined.

Lemma sample_brokers_max_is_int : 0 <= 10000 <= INT32_MAX.
Proof. split; discriminate. Defined.

Lemma NewTopic_replicas_are_assigned_in_order_witness :
  NewTopic_assign_replicas 10000 (mk_NewTopic "t" 3 (-1) [] []) 0
    [[1; 2]; [2; 3]]
  = ([RD_KAFKA_RESP_ERR_NO_ERROR; RD_KAFKA_RESP_ERR_NO_ERROR],
     mk_NewTopic "t" 3 (-1) [[1; 2]; [2; 3]] [])
  /\ rd_kafka_NewTopic_set_replica_assignment 10000
       (mk_NewTopic "t" 3 (-1) [] []) 1 [1; 2]
     = (RD_KAFKA_RESP_ERR__INVALID_ARG,
        Some (Errstr_partitions_in_order 0 1), mk_NewTopic "t" 3 (-1) [] []).
Proof.
  destruct (NewTopic_replicas_are_assigned_in_order 10000
              sample_brokers_max_is_int (mk_NewTopic "t" 3 (-1) [] [])
              [[1; 2]; [2; 3]]) as (Hall & Horder & _).
  - reflexivity.
  - discriminate.
  - apply Forall_cons_2; [discriminate |].
    apply Forall_cons_2; [discriminate | apply Forall_nil_2].
  - split; [exact Hall |]. apply Horder. discriminate.
Defined.

Lemma NewTopic_replication_factor_excludes_replicas_witness :
  rd_kafka_NewTopic_new 100000 10000 (Some "t") 3 1
  = inr (mk_NewTopic "t" 3 1 [] [])
  /\ rd_kafka_NewTopic_set_replica_assignment 10000
       (mk_NewTopic "t" 3 1 [] []) 0 [1]
     = (RD_KAFKA_RESP_ERR__INVALID_ARG, Some Errstr_mutually_exclusive,
        mk_NewTopic "t" 3 1 [] []).
Proof.
  split; [reflexivity |].
  destruct (NewTopic_replication_factor_excludes_replicas 100000 10000
              sample_brokers_max_is_int (mk_NewTopic "t" 3 1 [] []))
    as (_ & _ & _ & _ & Hexcl).
  - apply (NewTopic_built_new 100000 10000 (Some "t") 3 1). reflexivity.
  - apply Hexcl. discriminate.
Defined.

Lemma NewPartitions_replicas_are_assigned_in_order_witness :
  NewPartitions_assign_replicas 10000 (mk_NewPartitions "t" 4 []) 0
    [[1; 2]; [2; 3]]
  = ([RD_KAFKA_RESP_ERR_NO_ERROR; RD_KAFKA_RESP_ERR_NO_ERROR],
     mk_NewPartitions "t" 4 [[1; 2]; [2; 3]])
  /\ rd_kafka_NewPartitions_set_replica_assignment 10000
       (mk_NewPartitions "t" 4 []) 1 [1; 2]
     = (RD_KAFKA_RESP_ERR__INVALID_ARG,
        Some (Errstr_partitions_in_order 0 1), mk_NewPartitions "t" 4 []).
Proof.
  destruct (NewPartitions_replicas_are_assigned_in_order 10000
              sample_brokers_max_is_int (mk_NewPartitions "t" 4 [])
              [[1; 2]; [2; 3]]) as (Hall & Horder & _).
  - discriminate.
  - apply Forall_cons_2; [discriminate |].
    apply Forall_cons_2; [discriminate | apply Forall_nil_2].
  - split; [exact Hall |]. apply Horder. discriminate.
Defined.

Lemma built_topics_are_submitted_as_given_witness :
  rd_kafka_DeleteTopics 5000 sample_env [mk_DeleteTopic "a"] None
  = Some (set_args
            (rd_kafka_admin_request_op_new 5000 1000 RD_KAFKA_OP_DELETETOPICS
               RD_KAFKA_EVENT_DELETETOPICS_RESULT None)
            [mk_DeleteTopic "a"])
  /\ rd_kafka_CreateTopics 100000 10000 5000 sample_env
       [mk_NewTopic "t" 3 1 [] []] None
     = Some (set_args
               (rd_kafka_admin_request_op_new 5000 1000
                  RD_KAFKA_OP_CREATETOPICS RD_KAFKA_EVENT_CREATETOPICS_RESULT
                  None)
               [mk_NewTopic "t" 3 1 [] []]).
Proof.
  destruct (built_topics_are_submitted_as_given 100000 10000 5000 sample_env
              None) as (Hcreate & Hdelete & _).
  split.
  - apply Hdelete. apply Forall_cons_2; [| apply Forall_nil_2].
    exists (Some "a"). reflexivity.
  - apply Hcreate. apply Forall_cons_2; [| apply Forall_nil_2].
    apply (NewTopic_built_new 100000 10000 (Some "t") 3 1). reflexivity.
Defined.

Lemma config_request_target_witness :
  exists acts res rko',
    rd_kafka_admin_worker (AlterConfigs_cbs (fun _ _ _ => (0, EmptyString)))
      sample_env_up
      (set_broker_id
         (set_args
            (rd_kafka_admin_request_op_new 5000 1000 RD_KAFKA_OP_ALTERCONFIGS
               RD_KAFKA_EVENT_ALTERCONFIGS_RESULT None)
            [sample_resource RD_KAFKA_RESOURCE_BROKER "3"]) 3)
    = Some (acts, res, rko')
    /\ requests_sent acts = [3].
Proof.
  destruct (config_request_target 5000 sample_env sample_env_up
              [sample_resource RD_KAFKA_RESOURCE_BROKER "3"]
              [sample_resource RD_KAFKA_RESOURCE_BROKER "3"] None
              (set_broker_id
                 (set_args
                    (rd_kafka_admin_request_op_new 5000 1000
                       RD_KAFKA_OP_ALTERCONFIGS
                       RD_KAFKA_EVENT_ALTERCONFIGS_RESULT None)
                    [sample_resource RD_KAFKA_RESOURCE_BROKER "3"]) 3)
              (AlterConfigs_cbs (fun _ _ _ => (0, EmptyString))))
    as (acts & res & rko' & Hrun & _ & Hbroker & _).
  - reflexivity.
  - left. reflexivity.
  - reflexivity.
  - reflexivity.
  - exists acts, res, rko'. split; [exact Hrun |].
    apply (Hbroker eq_refl (sample_resource RD_KAFKA_RESOURCE_BROKER "3") 3 3);
      reflexivity.
Defined.

(** ** Replies that answer every element of the request *)

Section CompleteReply.
Context {E A R K : Type}.
Variable rko_args : list A.
Variable read : E -> parse_result (option R).
Variable cmp : R -> A -> Z.
Variables not_in_request multiple_times : E -> parse_failure.
Variable key_R : R -> K.
Variable key_A : A -> K.
Hypothesis cmp_key : forall r a, cmp r a = 0 <-> key_R r = key_A a.

Local Abbreviation step :=
  (place_step rko_args read cmp not_in_request multiple_times).

(** The loop runs to its end when every element is read into a result
    whose key is the key of some args entry, and no key comes twice. *)
Lemma read_loop_complete (elems : list E) :
  forall (results : rd_list_t R) (placed : list R),
    placed_inv rko_args cmp results placed ->
    Forall (fun e => exists r a, read e = PARSE_OK (Some r)
                                 /\ a ∈ rko_args /\ key_R r = key_A a) elems ->
    NoDup (key_R <$> (placed ++ placed_of read elems)) ->
    exists results',
      read_loop step (length elems) elems results = PARSE_OK results'.
Proof.
  induction elems as [| e elems IH]; intros results placed Hinv Hall Hnodup.
  - exists results. reflexivity.
  - inversion Hall as [| ? ? (r & a & Hread & Ha & Hkey) Hrest]; subst.
    cbn [length read_loop].
    pose proof (place_step_cases rko_args read cmp not_in_request
                  multiple_times e results) as Hcases.
    rewrite Hread in Hcases.
    assert (Hplaced_e : placed_of read (e :: elems) = r :: placed_of read elems).
    { unfold placed_of. cbn [omap list_omap]. rewrite Hread. reflexivity. }
    rewrite Hplaced_e in Hnodup.
    destruct Hcases as [(_ & Hnone & _) | (k & a' & Hk & Ha' & Hc & _ & Hcase)].
    + exfalso. rewrite Forall_forall in Hnone.
      apply (Hnone a Ha). apply cmp_key. exact Hkey.
    + destruct Hcase as [(r' & Hr' & _) | (Hnull & Hstep)].
      * exfalso. destruct Hinv as (_ & Hstored & _ & _).
        destruct (Hstored k r' Hr') as [Hin Hidx].
        destruct (rd_list_index_spec rko_args (cmp r'))
          as [[Hm _] | (k' & a'' & Hk' & Ha'' & Hc' & _)]; [lia |].
        assert (k' = k) by lia. subst k'.
        assert (a'' = a') by congruence. subst a''.
        assert (Hsame : key_R r' = key_R r).
        { apply cmp_key in Hc, Hc'. congruence. }
        rewrite fmap_app, fmap_cons in Hnodup.
        apply NoDup_app in Hnodup. destruct Hnodup as (_ & Hdisj & _).
        apply (Hdisj (key_R r')).
        -- apply list_elem_of_fmap. exists r'. split; [reflexivity | exact Hin].
        -- rewrite Hsame. left.
      * rewrite Hstep.
        apply (IH _ (placed ++ [r])).
        -- eapply placed_inv_set; eassumption.
        -- exact Hrest.
        -- rewrite <- app_assoc. exact Hnodup.
Qed.

(** A reply that answers every args entry once, in any order, is parsed
    into a full result list in the order of the args. *)
Lemma complete_reply_in_request_order (elems : list E) :
  Forall (fun e => exists r, read e = PARSE_OK (Some r)) elems ->
  NoDup (key_A <$> rko_args) ->
  key_R <$> placed_of read elems ≡ₚ key_A <$> rko_args ->
  exists results',
    read_loop step (length elems) elems [] = PARSE_OK results'
    /\ length results' = length rko_args
    /\ forall (i : nat) (a : A),
         rko_args !! i = Some a ->
         exists e r, e ∈ elems /\ read e = PARSE_OK (Some r)
                     /\ results' !! i = Some (Some r)
                     /\ key_R r = key_A a.
Proof.
  intros Hreads Hnodup Hperm.
  assert (Hlen : length (placed_of read elems) = length elems).
  { apply placed_of_all. exact Hreads. }
  assert (Hlen' : length elems = length rko_args).
  { rewrite <- Hlen. apply Permutation_length in Hperm.
    rewrite !length_fmap in Hperm. exact Hperm. }
  destruct (read_loop_complete elems [] []) as [results' Hrun].
  - apply placed_inv_init.
  - rewrite Forall_forall in Hreads |- *. intros e He.
    destruct (Hreads e He) as [r Hr].
    assert (Hin : key_R r ∈ key_A <$> rko_args).
    { rewrite <- Hperm. apply list_elem_of_fmap. exists r.
      split; [reflexivity |]. apply elem_of_placed_of. exists e.
      split; assumption. }
    apply list_elem_of_fmap in Hin. destruct Hin as (a & Hkey & Ha).
    exists r, a. repeat split; assumption.
  - simpl. rewrite Hperm. exact Hnodup.
  - exists results'. split; [exact Hrun |].
    destruct (place_loop_results rko_args read cmp not_in_request
                multiple_times _ _ _ Hrun)
      as (_ & _ & _ & Hstored & Hfull & _).
    rewrite firstn_all in Hstored, Hfull.
    destruct Hfull as [Hl Hslots]; [congruence |].
    split; [exact Hl |].
    intros i a Ha.
    destruct (Hslots i) as [r Hr]; [eapply lookup_lt_Some; exact Ha |].
    destruct (Hstored i r Hr) as [[(a' & Ha' & Hc) _] (e & He & Hread)].
    assert (a' = a) by congruence. subst a'.
    exists e, r. repeat split; try assumption. apply cmp_key. exact Hc.
Qed.

End CompleteReply.

Lemma placed_of_total {E R : Type} (f : E -> R) (l : list E) :
  placed_of (fun e => PARSE_OK (Some (f e))) l = f <$> l.
Proof.
  unfold placed_of. induction l as [| e l IH]; [reflexivity |].
  simpl in *. f_equal; try exact IH.
Qed.

(** The common part of the three topic parsers, for a reply that answers
    every topic of the request once. *)
Lemma topic_reply_complete {A : Type} (rko_args : list A)
    (cmp : rd_kafka_topic_result_t -> A -> Z) (topic_of : A -> string)
    (f : topic_elem -> rd_kafka_topic_result_t) (l : list topic_elem) :
  (forall r a, cmp r a = 0 <-> c_str (tr_topic r) = c_str (topic_of a)) ->
  (forall e, tr_topic (f e) = kstr_bytes (ktopic e)) ->
  NoDup ((fun a => c_str (topic_of a)) <$> rko_args) ->
  (fun e => c_str (kstr_bytes (ktopic e))) <$> l
  ≡ₚ (fun a => c_str (topic_of a)) <$> rko_args ->
  exists results',
    read_loop
      (place_step rko_args (fun e => PARSE_OK (Some (f e))) cmp
         topic_not_in_request topic_multiple_times)
      (length l) l [] = PARSE_OK results'
    /\ length results' = length rko_args
    /\ forall (i : nat) (a : A),
         rko_args !! i = Some a ->
         exists e, e ∈ l /\ results' !! i = Some (Some (f e))
                   /\ c_str (kstr_bytes (ktopic e)) = c_str (topic_of a).
Proof.
  intros Hcmp Htopic Hnodup Hperm.
  destruct (complete_reply_in_request_order rko_args
              (fun e => PARSE_OK (Some (f e))) cmp
              topic_not_in_request topic_multiple_times
              (fun r => c_str (tr_topic r)) (fun a => c_str (topic_of a))
              Hcmp l) as (results' & Hrun & Hlen & Hall).
  - apply Forall_forall. intros e _. eauto.
  - exact Hnodup.
  - rewrite placed_of_total, <- list_fmap_compose.
    assert (Heq : (fun r => c_str (tr_topic r)) ∘ f <$> l
                  = (fun e => c_str (kstr_bytes (ktopic e))) <$> l).
    { apply list_fmap_ext. intros i e _. simpl. rewrite Htopic. reflexivity. }
    rewrite Heq. exact Hperm.
  - exists results'. split; [exact Hrun |]. split; [exact Hlen |].
    intros i a Ha. destruct (Hall i a Ha) as (e & r & He & Hr & Hl & Hk).
    inversion Hr; subst r. exists e. repeat split; try assumption.
    rewrite <- Htopic. exact Hk.
Qed.

Lemma CreateTopics_reply_complete
    (rko_req : rd_kafka_op_t rd_kafka_NewTopic_t topics_reply)
    (reply : topics_reply) :
  elem_cnt reply = Z.of_nat (length (elems reply)) ->
  NoDup ((fun a => c_str (nt_topic a)) <$> args rko_req) ->
  (fun e => c_str (kstr_bytes (ktopic e))) <$> elems reply
  ≡ₚ (fun a => c_str (nt_topic a)) <$> args rko_req ->
  exists res,
    rd_kafka_CreateTopicsResponse_parse rko_req reply = PARSE_OK res
    /\ length (results res) = length (args rko_req)
    /\ forall i a,
         args rko_req !! i = Some a ->
         exists e,
           e ∈ elems reply
           /\ results res !! i
              = Some (Some (CreateTopicsResponse_topic_result rko_req
                              reply e))
           /\ c_str (kstr_bytes (ktopic e)) = c_str (nt_topic a).
Proof.
  intros Hcnt Hnodup Hperm.
  pose proof (Permutation_length Hperm) as Hlen.
  rewrite !length_fmap in Hlen.
  destruct (topic_reply_complete (args rko_req) topic_cmp_NewTopic nt_topic
              (CreateTopicsResponse_topic_result rko_req reply) (elems reply)
              topic_cmp_NewTopic_eq (fun e => eq_refl) Hnodup Hperm)
    as (results' & Hrun & Hl & Hall).
  exists (set_results (rd_kafka_admin_result_new rko_req) results').
  split; [| split; [exact Hl | exact Hall]].
  unfold rd_kafka_CreateTopicsResponse_parse, rd_list_cnt.
  destruct (Z.gtb_spec (elem_cnt reply) (Z.of_nat (length (args rko_req))));
    [lia |].
  rewrite Hcnt, Nat2Z.id.
  rewrite (read_loop_ext _ _ _ (CreateTopics_body_shape rko_req reply)).
  unfold rd_list_init. rewrite Hrun. reflexivity.
Qed.

Lemma DeleteTopics_reply_complete
    (rko_req : rd_kafka_op_t rd_kafka_DeleteTopic_t topics_reply)
    (reply : topics_reply) :
  elem_cnt reply = Z.of_nat (length (elems reply)) ->
  NoDup ((fun a => c_str (dt_topic a)) <$> args rko_req) ->
  (fun e => c_str (kstr_bytes (ktopic e))) <$> elems reply
  ≡ₚ (fun a => c_str (dt_topic a)) <$> args rko_req ->
  exists res,
    rd_kafka_DeleteTopicsResponse_parse rko_req reply = PARSE_OK res
    /\ length (results res) = length (args rko_req)
    /\ forall i a,
         args rko_req !! i = Some a ->
         exists e,
           e ∈ elems reply
           /\ results res !! i
              = Some (Some (DeleteTopicsResponse_topic_result rko_req
                              reply e))
           /\ c_str (kstr_bytes (ktopic e)) = c_str (dt_topic a).
Proof.
  intros Hcnt Hnodup Hperm.
  pose proof (Permutation_length Hperm) as Hlen.
  rewrite !length_fmap in Hlen.
  destruct (topic_reply_complete (args rko_req) topic_cmp_DeleteTopic dt_topic
              (DeleteTopicsResponse_topic_result rko_req reply) (elems reply)
              topic_cmp_DeleteTopic_eq (fun e => eq_refl) Hnodup Hperm)
    as (results' & Hrun & Hl & Hall).
  exists (set_results (rd_kafka_admin_result_new rko_req) results').
  split; [| split; [exact Hl | exact Hall]].
  unfold rd_kafka_DeleteTopicsResponse_parse, rd_list_cnt.
  destruct (Z.gtb_spec (elem_cnt reply) (Z.of_nat (length (args rko_req))));
    [lia |].
  rewrite Hcnt, Nat2Z.id.
  rewrite (read_loop_ext _ _ _ (DeleteTopics_body_shape rko_req reply)).
  unfold rd_list_init. rewrite Hrun. reflexivity.
Qed.

Lemma CreatePartitions_reply_complete
    (rko_req : rd_kafka_op_t rd_kafka_NewPartitions_t topics_reply)
    (reply : topics_reply) :
  elem_cnt reply = Z.of_nat (length (elems reply)) ->
  NoDup ((fun a => c_str (np_topic a)) <$> args rko_req) ->
  (fun e => c_str (kstr_bytes (ktopic e))) <$> elems reply
  ≡ₚ (fun a => c_str (np_topic a)) <$> args rko_req ->
  exists res,
    rd_kafka_CreatePartitionsResponse_parse rko_req reply = PARSE_OK res
    /\ length (results res) = length (args rko_req)
    /\ forall i a,
         args rko_req !! i = Some a ->
         exists e,
           e ∈ elems reply
           /\ results res !! i
              = Some (Some (CreatePartitionsResponse_topic_result rko_req
                              reply e))
           /\ c_str (kstr_bytes (ktopic e)) = c_str (np_topic a).
Proof.
  intros Hcnt Hnodup Hperm.
  pose proof (Permutation_length Hperm) as Hlen.
  rewrite !length_fmap in Hlen.
  destruct (topic_reply_complete (args rko_req) topic_cmp_NewPartitions np_topic
              (CreatePartitionsResponse_topic_result rko_req reply) (elems reply)
              topic_cmp_NewPartitions_eq (fun e => eq_refl) Hnodup Hperm)
    as (results' & Hrun & Hl & Hall).
  exists (set_results (rd_kafka_admin_result_new rko_req) results').
  split; [| split; [exact Hl | exact Hall]].
  unfold rd_kafka_CreatePartitionsResponse_parse, rd_list_cnt.
  destruct (Z.gtb_spec (elem_cnt reply) (Z.of_nat (length (args rko_req))));
    [lia |].
  rewrite Hcnt, Nat2Z.id.
  rewrite (read_loop_ext _ _ _ (CreatePartitions_body_shape rko_req reply)).
  unfold rd_list_init. rewrite Hrun. reflexivity.
Qed.

(** X13. For CreateTopics, DeleteTopics and CreatePartitions: when the
    topic names of the request are distinct and the reply holds as many
    elements as it declares, one for each requested topic, in whatever
    order, the parser succeeds and the result list has one result for
    each element of the request, at the index of that element, made from
    the reply element of the same topic name. *)
Theorem topic_replies_complete_in_request_order :
  (forall rko_req reply,
      elem_cnt reply = Z.of_nat (length (elems reply)) ->
      NoDup ((fun a => c_str (nt_topic a)) <$> args rko_req) ->
      (fun e => c_str (kstr_bytes (ktopic e))) <$> elems reply
      ≡ₚ (fun a => c_str (nt_topic a)) <$> args rko_req ->
      exists res,
        rd_kafka_CreateTopicsResponse_parse rko_req reply = PARSE_OK res
        /\ length (results res) = length (args rko_req)
        /\ forall i a,
             args rko_req !! i = Some a ->
             exists e,
               e ∈ elems reply
               /\ results res !! i
                  = Some (Some (CreateTopicsResponse_topic_result rko_req
                                  reply e))
               /\ c_str (kstr_bytes (ktopic e)) = c_str (nt_topic a))
  /\ (forall rko_req reply,
        elem_cnt reply = Z.of_nat (length (elems reply)) ->
        NoDup ((fun a => c_str (dt_topic a)) <$> args rko_req) ->
        (fun e => c_str (kstr_bytes (ktopic e))) <$> elems reply
        ≡ₚ (fun a => c_str (dt_topic a)) <$> args rko_req ->
        exists res,
          rd_kafka_DeleteTopicsResponse_parse rko_req reply = PARSE_OK res
          /\ length (results res) = length (args rko_req)
          /\ forall i a,
               args rko_req !! i = Some a ->
               exists e,
                 e ∈ elems reply
                 /\ results res !! i
                    = Some (Some (DeleteTopicsResponse_topic_result rko_req
                                    reply e))
                 /\ c_str (kstr_bytes (ktopic e)) = c_str (dt_topic a))
  /\ (forall rko_req reply,
        elem_cnt reply = Z.of_nat (length (elems reply)) ->
        NoDup ((fun a => c_str (np_topic a)) <$> args rko_req) ->
        (fun e => c_str (kstr_bytes (ktopic e))) <$> elems reply
        ≡ₚ (fun a => c_str (np_topic a)) <$> args rko_req ->
        exists res,
          rd_kafka_CreatePartitionsResponse_parse rko_req reply = PARSE_OK res
          /\ length (results res) = length (args rko_req)
          /\ forall i a,
               args rko_req !! i = Some a ->
               exists e,
                 e ∈ elems reply
                 /\ results res !! i
                    = Some (Some (CreatePartitionsResponse_topic_result rko_req
                                    reply e))
                 /\ c_str (kstr_bytes (ktopic e)) = c_str (np_topic a)).
Proof.
  split; [exact CreateTopics_reply_complete |].
  split; [exact DeleteTopics_reply_complete |].
  exact CreatePartitions_reply_complete.
Qed.

Lemma resource_cmp_key (r a : rd_kafka_ConfigResource_t) :
  resource_cmp r a = 0 <-> resource_key r = resource_key a.
Proof.
  rewrite resource_cmp_eq. unfold resource_key.
  split; [intros [-> ->]; reflexivity | intros H; inversion H; auto].
Qed.

Lemma new_resource_some (e : resource_elem) :
  0 <= res_type e -> strlen (kstr_bytes (kres_name e)) <> 0 ->
  exists config,
    ConfigsResponse_new_resource e = Some config
    /\ resource_key config = resource_elem_key e
    /\ cr_err config = res_error_code e
    /\ cr_config config = [].
Proof.
  intros Ht Hn. unfold ConfigsResponse_new_resource, rd_kafka_ConfigResource_new.
  destruct (Z.eqb_spec (strlen (kstr_bytes (kres_name e))) 0); [contradiction |].
  destruct (Z.ltb_spec (res_type e) 0); [lia |].
  simpl. eexists. split; [reflexivity |].
  unfold resource_key, resource_elem_key. simpl. rewrite c_str_idem.
  repeat split.
Qed.

Lemma placed_of_fmap_key {E R K : Type} (read : E -> parse_result (option R))
    (key_R : R -> K) (key_E : E -> K) (l : list E) :
  Forall (fun e => exists r, read e = PARSE_OK (Some r) /\ key_R r = key_E e) l ->
  key_R <$> placed_of read l = key_E <$> l.
Proof.
  induction 1 as [| e l (r & Hr & Hk) _ IH]; [reflexivity |].
  unfold placed_of in *. simpl. rewrite Hr. simpl. rewrite Hk. f_equal.
  exact IH.
Qed.

(** X14. For AlterConfigs: when the resources of the request have a
    non-negative type, a non-empty name and distinct (type, name) pairs,
    and the reply holds as many elements as it declares, one for each
    requested resource, in whatever order, the parser succeeds and the
    result list has one resource for each element of the request, at the
    index of that element, of the same type and name and with the error
    code of the reply element. *)
Theorem AlterConfigs_reply_complete_in_request_order
    (rko_req : rd_kafka_op_t rd_kafka_ConfigResource_t configs_reply)
    (reply : configs_reply) :
  elem_cnt reply = Z.of_nat (length (elems reply)) ->
  Forall (fun a => 0 <= cr_restype a /\ strlen (cr_name a) <> 0)
    (args rko_req) ->
  NoDup (resource_key <$> args rko_req) ->
  resource_elem_key <$> elems reply ≡ₚ resource_key <$> args rko_req ->
  exists res,
    rd_kafka_AlterConfigsResponse_parse rko_req reply = PARSE_OK res
    /\ length (results res) = length (args rko_req)
    /\ forall i a,
         args rko_req !! i = Some a ->
         exists e config,
           e ∈ elems reply
           /\ ConfigsResponse_new_resource e = Some config
           /\ results res !! i = Some (Some config)
           /\ resource_key config = resource_key a
           /\ cr_err config = res_error_code e.
Proof.
  intros Hcnt Hargs Hnodup Hperm.
  pose proof (Permutation_length Hperm) as Hlen. rewrite !length_fmap in Hlen.
  assert (Hreads : Forall (fun e => exists r,
                             ConfigsResponse_new_resource e = Some r
                             /\ resource_key r = resource_elem_key e
                             /\ cr_err r = res_error_code e)
                     (elems reply)).
  { apply Forall_forall. intros e He.
    assert (Hin : resource_elem_key e ∈ resource_key <$> args rko_req).
    { rewrite <- Hperm. apply list_elem_of_fmap. exists e. split; auto. }
    apply list_elem_of_fmap in Hin. destruct Hin as (a & Hkey & Ha).
    rewrite Forall_forall in Hargs. destruct (Hargs a Ha) as [Ht Hn].
    unfold resource_elem_key, resource_key in Hkey. inversion Hkey as [[Ht' Hn']].
    destruct (new_resource_some e) as (config & Hnew & Hk & He' & _).
    - lia.
    - rewrite <- strlen_c_str, Hn', strlen_c_str. exact Hn.
    - exists config. repeat split; assumption. }
  destruct (complete_reply_in_request_order (args rko_req)
              (fun e => PARSE_OK (ConfigsResponse_new_resource e)) resource_cmp
              resource_not_in_request resource_multiple_times
              resource_key resource_key resource_cmp_key (elems reply))
    as (results' & Hrun & Hl & Hall).
  - eapply Forall_impl; [exact Hreads |]. intros e (r & Hr & _).
    exists r. rewrite Hr. reflexivity.
  - exact Hnodup.
  - rewrite (placed_of_fmap_key _ resource_key resource_elem_key);
      [exact Hperm |].
    eapply Forall_impl; [exact Hreads |]. intros e (r & Hr & Hk & _).
    exists r. rewrite Hr. split; [reflexivity | exact Hk].
  - exists (set_results (rd_kafka_admin_result_new rko_req) results').
    split; [| split; [exact Hl |]].
    + unfold rd_kafka_AlterConfigsResponse_parse, rd_list_cnt.
      destruct (Z.gtb_spec (elem_cnt reply) (Z.of_nat (length (args rko_req))));
        [lia |].
      rewrite Hcnt, Nat2Z.id.
      rewrite (read_loop_ext _ _ _ (AlterConfigs_body_shape rko_req reply)).
      unfold rd_list_init. rewrite Hrun. reflexivity.
    + intros i a Ha. destruct (Hall i a Ha) as (e & r & He & Hr & Hlk & Hk).
      exists e, r. rewrite Forall_forall in Hreads.
      destruct (Hreads e He) as (r' & Hr' & _ & Herr).
      rewrite Hr' in Hr. inversion Hr; subst r'.
      repeat split; assumption.
Qed.

Lemma sample_topics_nodup : NoDup ["beta"; "alpha"].
Proof.
  apply NoDup_cons. split.
  - intros H. apply elem_of_cons in H as [H | H]; [discriminate H |].
    inversion H.
  - apply NoDup_cons. split; [intros H; inversion H | apply NoDup_nil_2].
Defined.

Lemma topic_replies_complete_in_request_order_witness :
  exists res,
    rd_kafka_DeleteTopicsResponse_parse
      (sample_DeleteTopics 0 ["beta"; "alpha"]) sample_topics_reply
    = PARSE_OK res
    /\ length (results res) = 2%nat
    /\ forall i a,
         args (sample_DeleteTopics 0 ["beta"; "alpha"]) !! i = Some a ->
         exists e,
           e ∈ elems sample_topics_reply
           /\ results res !! i
              = Some (Some (DeleteTopicsResponse_topic_result
                              (sample_DeleteTopics 0 ["beta"; "alpha"])
                              sample_topics_reply e))
           /\ c_str (kstr_bytes (ktopic e)) = c_str (dt_topic a).
Proof.
  apply (proj1 (proj2 topic_replies_complete_in_request_order)
           (sample_DeleteTopics 0 ["beta"; "alpha"]) sample_topics_reply).
  - reflexivity.
  - exact sample_topics_nodup.
  - apply perm_swap.
Defined.

Lemma AlterConfigs_reply_complete_in_request_order_witness :
  exists res,
    rd_kafka_AlterConfigsResponse_parse
      (sample_AlterConfigs sample_two_resources) sample_resources_reply
    = PARSE_OK res
    /\ length (results res) = 2%nat
    /\ forall i a,
         sample_two_resources !! i = Some a ->
         exists e config,
           e ∈ elems sample_resources_reply
           /\ ConfigsResponse_new_resource e = Some config
           /\ results res !! i = Some (Some config)
           /\ resource_key config = resource_key a
           /\ cr_err config = res_error_code e.
Proof.
  apply (AlterConfigs_reply_complete_in_request_order
           (sample_AlterConfigs sample_two_resources) sample_resources_reply).
  - reflexivity.
  - apply Forall_cons_2; [split; discriminate |].
    apply Forall_cons_2; [split; discriminate | apply Forall_nil_2].
  - apply NoDup_cons. split.
    + intros H. apply elem_of_cons in H as [H | H]; [discriminate H |].
      inversion H.
    + apply NoDup_cons. split; [intros H; inversion H | apply NoDup_nil_2].
  - apply perm_swap.
Defined.

(** ** The entries of a DescribeConfigs result mirror the reply *)

Lemma synonym_loop_mirrors (n : nat) :
  forall (syns : list synonym_elem) (entry entry' : rd_kafka_ConfigEntry_t),
    read_loop DescribeConfigsResponse_parse_synonym n syns entry
    = PARSE_OK entry' ->
    (n <= length syns)%nat
    /\ kv_name entry' = kv_name entry /\ kv_value entry' = kv_value entry
    /\ a_is_readonly entry' = a_is_readonly entry
    /\ a_is_sensitive entry' = a_is_sensitive entry
    /\ a_is_synonym entry' = a_is_synonym entry
    /\ exists new,
         synonyms entry' = synonyms entry ++ new
         /\ Forall2 synonym_mirrors (take n syns) new.
Proof.
  induction n as [| n IH]; intros syns entry entry' Hrun.
  - simpl in Hrun. inversion Hrun; subst.
    split; [lia |]. repeat (split; [reflexivity |]).
    exists []. rewrite app_nil_r, take_0. split; [reflexivity | constructor].
  - destruct syns as [| s syns]; [discriminate Hrun |].
    simpl in Hrun.
    destruct (DescribeConfigsResponse_parse_synonym s entry)
      as [entry1 | | |] eqn:Estep; try discriminate Hrun.
    unfold DescribeConfigsResponse_parse_synonym in Estep.
    unfold rd_kafka_ConfigEntry_new0 in Estep.
    destruct (syn_name s) as [name |] eqn:Ename; [| discriminate Estep].
    inversion Estep; subst entry1. clear Estep.
    apply IH in Hrun.
    destruct Hrun as (Hn & Hname & Hval & Hro & Hse & Hsy & new & Hnew & Hall).
    simpl in Hname, Hval, Hro, Hse, Hsy, Hnew.
    split; [simpl; lia |]. repeat (split; [assumption |]).
    eexists (_ :: new). unfold rd_list_add in Hnew.
    rewrite <- app_assoc in Hnew. simpl in Hnew.
    split; [exact Hnew |]. rewrite firstn_cons. constructor; [| assumption].
    unfold synonym_mirrors. simpl. rewrite Ename. repeat split.
Qed.

Lemma parse_entry_mirrors (reply : configs_reply) (c : entry_elem)
    (config config' : rd_kafka_ConfigResource_t) :
  DescribeConfigsResponse_parse_entry reply c config = PARSE_OK config' ->
  exists entry,
    config' = rd_kafka_ConfigResource_add_ConfigEntry config entry
    /\ entry_mirrors reply c entry.
Proof.
  unfold DescribeConfigsResponse_parse_entry, rd_kafka_ConfigEntry_new0.
  destruct (config_name c) as [name |] eqn:Ename; [| discriminate].
  set (entry0 := mk_ConfigEntry name (config_value c) RD_KAFKA_ALTER_OP_ADD
                   RD_KAFKA_CONFIG_SOURCE_UNKNOWN_CONFIG false false false
                   false []).
  set (entry1 := DescribeConfigsResponse_read_attrs reply c entry0).
  assert (H1 : kv_name entry1 = name /\ kv_value entry1 = config_value c
               /\ a_is_readonly entry1 = read_bool (is_readonly c)
               /\ a_is_sensitive entry1 = read_bool (is_sensitive c)
               /\ a_is_synonym entry1 = false /\ synonyms entry1 = []).
  { subst entry1. unfold DescribeConfigsResponse_read_attrs.
    destruct (ApiVersion reply =? 0); repeat split. }
  destruct H1 as (Hname & Hval & Hro & Hse & Hsy & Hsyn).
  unfold entry_mirrors, synonyms_read.
  destruct (Z.eqb_spec (ApiVersion reply) 1) as [Ev | Ev].
  - destruct (Z.gtb_spec (syn_cnt c) 100000) as [Hmany | Hfew]; [discriminate |].
    destruct (read_loop DescribeConfigsResponse_parse_synonym
                (Z.to_nat (syn_cnt c)) (syn_elems c) entry1)
      as [entry | | |] eqn:Eloop; try discriminate.
    intros H. inversion H; subst config'. clear H.
    apply synonym_loop_mirrors in Eloop.
    destruct Eloop as (Hn & Hname' & Hval' & Hro' & Hse' & Hsy' & new & Hnew
                       & Hall).
    exists entry. split; [reflexivity |].
    rewrite Hsyn in Hnew. simpl in Hnew. rewrite Hnew.
    assert (Hlen : length new = Z.to_nat (syn_cnt c)).
    { apply Forall2_length in Hall. rewrite <- Hall, length_take. lia. }
    repeat split; try congruence; try assumption; lia.
  - simpl.
    intros H. inversion H; subst config'. clear H.
    exists entry1. split; [reflexivity |].
    rewrite Hsyn, take_0. repeat split; try congruence; try constructor.
Qed.

Lemma entry_loop_mirrors (reply : configs_reply) (n : nat) :
  forall (cs : list entry_elem) (config config' : rd_kafka_ConfigResource_t),
    read_loop (DescribeConfigsResponse_parse_entry reply) n cs config
    = PARSE_OK config' ->
    (n <= length cs)%nat
    /\ cr_restype config' = cr_restype config
    /\ cr_name config' = cr_name config
    /\ cr_err config' = cr_err config
    /\ cr_errstr config' = cr_errstr config
    /\ exists new,
         cr_config config' = cr_config config ++ new
         /\ Forall2 (entry_mirrors reply) (take n cs) new.
Proof.
  induction n as [| n IH]; intros cs config config' Hrun.
  - simpl in Hrun. inversion Hrun; subst.
    split; [lia |]. repeat (split; [reflexivity |]).
    exists []. rewrite app_nil_r, take_0. split; [reflexivity | constructor].
  - destruct cs as [| c cs]; [discriminate Hrun |].
    simpl in Hrun.
    destruct (DescribeConfigsResponse_parse_entry reply c config)
      as [config1 | | |] eqn:Estep; try discriminate Hrun.
    apply parse_entry_mirrors in Estep.
    destruct Estep as (entry & -> & Hmirror).
    apply IH in Hrun.
    destruct Hrun as (Hn & Ht & Hname & He & Hes & new & Hnew & Hall).
    simpl in Ht, Hname, He, Hes, Hnew.
    split; [simpl; lia |]. repeat (split; [assumption |]).
    exists (entry :: new). unfold rd_list_add in Hnew.
    rewrite <- app_assoc in Hnew. simpl in Hnew.
    split; [exact Hnew |]. rewrite firstn_cons.
    constructor; assumption.
Qed.

Lemma read_resource_mirrors (reply : configs_reply) (e : resource_elem)
    (config : rd_kafka_ConfigResource_t) :
  DescribeConfigsResponse_read_resource reply e = PARSE_OK (Some config) ->
  0 <= res_type e
  /\ cr_restype config = res_type e
  /\ cr_name config = c_str (kstr_bytes (kres_name e))
  /\ cr_err config = res_error_code e
  /\ length (cr_config config) = Z.to_nat (entry_cnt e)
  /\ Forall2 (entry_mirrors reply)
       (take (Z.to_nat (entry_cnt e)) (entry_elems e)) (cr_config config).
Proof.
  unfold DescribeConfigsResponse_read_resource.
  destruct (ConfigsResponse_new_resource e) as [config0 |] eqn:Enew;
    [| discriminate].
  apply new_resource_key in Enew. destruct Enew as (Ht & Hn & Hc & He & Hpos).
  destruct (read_loop (DescribeConfigsResponse_parse_entry reply)
              (Z.to_nat (entry_cnt e)) (entry_elems e) config0)
    as [config1 | | |] eqn:Eloop; try discriminate.
  intros H. inversion H; subst config1.
  apply entry_loop_mirrors in Eloop.
  destruct Eloop as (Hcnt & Ht' & Hn' & He' & _ & new & Hnew & Hall).
  rewrite Hc in Hnew. simpl in Hnew. rewrite Hnew.
  assert (Hlen : length new = Z.to_nat (entry_cnt e)).
  { apply Forall2_length in Hall. rewrite <- Hall, length_take. lia. }
  repeat split; try congruence; assumption.
Qed.

(** X15. Every resource of a DescribeConfigs result was read from an
    element of the reply: its type, name and error code are the
    element's, and it has one config entry for each entry that the
    element declares, in the order of the reply, with the name, the
    value and the read-only and sensitive flags read, not marked as a
    synonym. For a v1 reply the entry has one synonym entry for each
    synonym declared (at most 100000), with the name, value and source
    read, marked as a synonym and without synonyms of its own; for a v0
    reply it has none. *)
Theorem DescribeConfigs_entries_mirror_reply
    (rko_req : rd_kafka_op_t rd_kafka_ConfigResource_t configs_reply)
    (reply : configs_reply)
    (res : rd_kafka_admin_result rd_kafka_ConfigResource_t) :
  rd_kafka_DescribeConfigsResponse_parse rko_req reply = PARSE_OK res ->
  forall (i : nat) (config : rd_kafka_ConfigResource_t),
    results res !! i = Some (Some config) ->
    exists e,
      e ∈ elems reply
      /\ cr_restype config = res_type e
      /\ cr_name config = c_str (kstr_bytes (kres_name e))
      /\ cr_err config = res_error_code e
      /\ length (cr_config config) = Z.to_nat (entry_cnt e)
      /\ Forall2 (entry_mirrors reply)
           (take (Z.to_nat (entry_cnt e)) (entry_elems e)) (cr_config config).
Proof.
  intros Hparse i config Hi.
  apply DescribeConfigs_parse_ok in Hparse. destruct Hparse as [_ Hrun].
  apply place_loop_results in Hrun.
  destruct Hrun as (_ & _ & _ & Hstored & _).
  destruct (Hstored i config Hi) as [_ (e & He & Hread)].
  apply elem_of_take in He. destruct He as (j & He & _).
  apply list_elem_of_lookup_2 in He.
  apply read_resource_mirrors in Hread.
  destruct Hread as (_ & Ht & Hn & Herr & Hlen & Hall).
  exists e. repeat split; assumption.
Qed.

Lemma DescribeConfigs_entries_mirror_reply_witness :
  exists e,
    e ∈ elems sample_v1_reply
    /\ cr_restype sample_described = res_type e
    /\ cr_name sample_described = c_str (kstr_bytes (kres_name e))
    /\ cr_err sample_described = res_error_code e
    /\ length (cr_config sample_described) = Z.to_nat (entry_cnt e)
    /\ Forall2 (entry_mirrors sample_v1_reply)
         (take (Z.to_nat (entry_cnt e)) (entry_elems e))
         (cr_config sample_described).
Proof.
  apply (DescribeConfigs_entries_mirror_reply
           (sample_DescribeConfigs [sample_resource RD_KAFKA_RESOURCE_TOPIC "t"])
           sample_v1_reply
           (sample_result RD_KAFKA_EVENT_DESCRIBECONFIGS_RESULT
              RD_KAFKA_OP_DESCRIBECONFIGS [Some sample_described])
           eq_refl 0%nat sample_described eq_refl).
Defined.

(** ** Error texts of the per-element results *)

Lemma element_errstr_text (code : Z) (msg : rd_kafkap_str_t) :
  strdup_errstr <$> element_errstr code msg = error_text code msg.
Proof.
  unfold element_errstr, error_text.
  destruct (code =? 0); [reflexivity |]. simpl.
  destruct msg as [m |]; [| reflexivity]. simpl.
  destruct m; reflexivity.
Qed.

Lemma stored_result_origin {E A R : Type} (rko_args : list A)
    (f : E -> R) (cmp : R -> A -> Z)
    (not_in_request multiple_times : E -> parse_failure)
    (n : nat) (l : list E) (results' : rd_list_t R) (i : nat) (r : R) :
  read_loop
    (place_step rko_args (fun e => PARSE_OK (Some (f e))) cmp not_in_request
       multiple_times) n l [] = PARSE_OK results' ->
  results' !! i = Some (Some r) ->
  exists e, e ∈ l /\ r = f e.
Proof.
  intros Hrun Hi. apply place_loop_results in Hrun.
  destruct Hrun as (_ & _ & _ & Hstored & _).
  destruct (Hstored i r Hi) as [_ (e & He & Hread)].
  apply elem_of_take in He. destruct He as (j & He & _).
  apply list_elem_of_lookup_2 in He. inversion Hread. eauto.
Qed.

(** X16. The error string of a topic result is absent when the result's
    error code is 0. Otherwise, for CreateTopics it is the broker's
    message when the reply is of version 1 or later and the message is
    neither null nor empty, and the description of the error code when
    not; for DeleteTopics and for CreatePartitions it is always the
    description of the error code: CreatePartitions reads the broker's
    message and does not pass it on. *)
Theorem topic_results_error_text :
  (forall rko_req reply res i r,
      rd_kafka_CreateTopicsResponse_parse rko_req reply = PARSE_OK res ->
      results res !! i = Some (Some r) ->
      exists e,
        e ∈ elems reply /\ tr_topic r = kstr_bytes (ktopic e)
        /\ tr_errstr r
           = error_text (tr_err r)
               (if ApiVersion reply >=? 1 then error_msg e else None))
  /\ (forall rko_req reply res i r,
        rd_kafka_DeleteTopicsResponse_parse rko_req reply = PARSE_OK res ->
        results res !! i = Some (Some r) ->
        tr_errstr r = error_text (tr_err r) None)
  /\ (forall rko_req reply res i r,
        rd_kafka_CreatePartitionsResponse_parse rko_req reply = PARSE_OK res ->
        results res !! i = Some (Some r) ->
        tr_errstr r = error_text (tr_err r) None).
Proof.
  split; [| split]; intros rko_req reply res i r Hparse Hi.
  - apply CreateTopics_parse_ok in Hparse. destruct Hparse as [_ Hrun].
    destruct (stored_result_origin _ _ _ _ _ _ _ _ _ _ Hrun Hi)
      as (e & He & ->).
    exists e. split; [exact He |]. split; [reflexivity |].
    unfold CreateTopicsResponse_topic_result, rd_kafka_topic_result_new.
    cbn [tr_errstr tr_err]. apply element_errstr_text.
  - apply DeleteTopics_parse_ok in Hparse. destruct Hparse as [_ Hrun].
    destruct (stored_result_origin _ _ _ _ _ _ _ _ _ _ Hrun Hi)
      as (e & He & ->).
    unfold DeleteTopicsResponse_topic_result, rd_kafka_topic_result_new,
      error_text.
    cbn [tr_errstr tr_err].
    match goal with |- context [negb (?c =? 0)] => destruct (c =? 0) end;
      reflexivity.
  - apply CreatePartitions_parse_ok in Hparse. destruct Hparse as [_ Hrun].
    destruct (stored_result_origin _ _ _ _ _ _ _ _ _ _ Hrun Hi)
      as (e & He & ->).
    unfold CreatePartitionsResponse_topic_result, rd_kafka_topic_result_new,
      error_text.
    cbn [tr_errstr tr_err].
    match goal with |- context [negb (?c =? 0)] => destruct (c =? 0) end;
      reflexivity.
Qed.

Lemma new_resource_error_string (e : resource_elem)
    (config : rd_kafka_ConfigResource_t) :
  ConfigsResponse_new_resource e = Some config ->
  cr_err config = res_error_code e
  /\ cr_errstr config = error_text (res_error_code e) (res_error_msg e).
Proof.
  unfold ConfigsResponse_new_resource.
  destruct (rd_kafka_ConfigResource_new _ _) as [config0 |]; [| discriminate].
  intros H. inversion H; subst; simpl. split; [reflexivity |].
  rewrite <- element_errstr_text.
  destruct (element_errstr _ _) as [[] |]; simpl; rewrite ?c_str_idem;
    reflexivity.
Qed.

Lemma error_string_of_text (config : rd_kafka_ConfigResource_t)
    (msg : rd_kafkap_str_t) :
  cr_errstr config = error_text (cr_err config) msg ->
  rd_kafka_ConfigResource_error_string config
  = error_text (cr_err config) msg
  /\ (rd_kafka_ConfigResource_error_string config = None
      <-> cr_err config = RD_KAFKA_RESP_ERR_NO_ERROR).
Proof.
  intros Htext. unfold rd_kafka_ConfigResource_error_string.
  rewrite Htext. unfold error_text, RD_KAFKA_RESP_ERR_NO_ERROR.
  destruct (Z.eqb_spec (cr_err config) 0) as [E | NE].
  - split; [reflexivity | tauto].
  - destruct msg as [m |]; [destruct (String.length m =? 0)%nat |];
      (split; [reflexivity | split; [discriminate | contradiction]]).
Qed.

(** X17. For every resource of an AlterConfigs or DescribeConfigs
    result, [rd_kafka_ConfigResource_error_string] is NULL exactly when
    the resource's error code is 0. The code is that of the reply element
    the resource was read from, and the string is the broker's message,
    or the description of the code when the message is null or empty. *)
Theorem config_results_error_string :
  (forall rko_req reply res i config,
      rd_kafka_AlterConfigsResponse_parse rko_req reply = PARSE_OK res ->
      results res !! i = Some (Some config) ->
      (rd_kafka_ConfigResource_error_string config = None
       <-> cr_err config = RD_KAFKA_RESP_ERR_NO_ERROR)
      /\ exists e,
           e ∈ elems reply /\ cr_err config = res_error_code e
           /\ rd_kafka_ConfigResource_error_string config
              = error_text (res_error_code e) (res_error_msg e))
  /\ (forall rko_req reply res i config,
        rd_kafka_DescribeConfigsResponse_parse rko_req reply = PARSE_OK res ->
        results res !! i = Some (Some config) ->
        (rd_kafka_ConfigResource_error_string config = None
         <-> cr_err config = RD_KAFKA_RESP_ERR_NO_ERROR)
        /\ exists e,
             e ∈ elems reply /\ cr_err config = res_error_code e
             /\ rd_kafka_ConfigResource_error_string config
                = error_text (res_error_code e) (res_error_msg e)).
Proof.
  split; intros rko_req reply res i config Hparse Hi.
  - apply AlterConfigs_parse_ok in Hparse. destruct Hparse as [_ Hrun].
    apply place_loop_results in Hrun.
    destruct Hrun as (_ & _ & _ & Hstored & _).
    destruct (Hstored i config Hi) as [_ (e & He & Hread)].
    apply elem_of_take in He. destruct He as (j & He & _).
    apply list_elem_of_lookup_2 in He.
    inversion Hread as [Hnew]. apply new_resource_error_string in Hnew.
    destruct Hnew as [Herr Htext]. rewrite <- Herr in Htext.
    destruct (error_string_of_text config _ Htext) as [Hs Hnone].
    split; [exact Hnone |]. exists e. rewrite Hs, Herr. auto.
  - apply DescribeConfigs_parse_ok in Hparse. destruct Hparse as [_ Hrun].
    apply place_loop_results in Hrun.
    destruct Hrun as (_ & _ & _ & Hstored & _).
    destruct (Hstored i config Hi) as [_ (e & He & Hread)].
    apply elem_of_take in He. destruct He as (j & He & _).
    apply list_elem_of_lookup_2 in He.
    unfold DescribeConfigsResponse_read_resource in Hread.
    destruct (ConfigsResponse_new_resource e) as [config0 |] eqn:Enew;
      [| discriminate Hread].
    apply new_resource_error_string in Enew. destruct Enew as [Herr Htext].
    destruct (read_loop _ _ _ config0) as [config1 | | |] eqn:Eloop;
      try discriminate Hread.
    inversion Hread; subst config1.
    apply entry_loop_mirrors in Eloop.
    destruct Eloop as (_ & _ & _ & He' & Hes' & _).
    rewrite <- He' in Herr. rewrite <- Hes', <- Herr in Htext.
    destruct (error_string_of_text config _ Htext) as [Hs Hnone].
    split; [exact Hnone |]. exists e. rewrite Hs, Herr. auto.
Qed.

Lemma topic_results_error_text_witness :
  exists e,
    e ∈ [mk_topic_elem (Some "t") 36 (Some "exists")]
    /\ "t" = kstr_bytes (ktopic e)
    /\ Some (Errmsg "exists")
       = error_text 36 (if 1 >=? 1 then error_msg e else None).
Proof.
  apply (proj1 topic_results_error_text (sample_CreateTopics 0 ["t"])
           (mk_buf 1 0 1 [mk_topic_elem (Some "t") 36 (Some "exists")])
           (sample_result RD_KAFKA_EVENT_CREATETOPICS_RESULT
              RD_KAFKA_OP_CREATETOPICS
              [Some (mk_topic_result "t" 36 (Some (Errmsg "exists")))])
           0%nat (mk_topic_result "t" 36 (Some (Errmsg "exists")))
           eq_refl eq_refl).
Defined.

Lemma config_results_error_string_witness :
  (rd_kafka_ConfigResource_error_string
     (mk_ConfigResource RD_KAFKA_RESOURCE_TOPIC "t" [] 40
        (Some (Errmsg "bad value"))) = None
   <-> 40 = RD_KAFKA_RESP_ERR_NO_ERROR)
  /\ exists e,
       e ∈ [mk_resource_elem 40 (Some "bad value") RD_KAFKA_RESOURCE_TOPIC
              (Some "t") 0 []]
       /\ 40 = res_error_code e
       /\ rd_kafka_ConfigResource_error_string
            (mk_ConfigResource RD_KAFKA_RESOURCE_TOPIC "t" [] 40
               (Some (Errmsg "bad value")))
          = error_text (res_error_code e) (res_error_msg e).
Proof.
  apply (proj1 config_results_error_string
           (sample_AlterConfigs [sample_resource RD_KAFKA_RESOURCE_TOPIC "t"])
           (mk_buf 0 0 1
              [mk_resource_elem 40 (Some "bad value") RD_KAFKA_RESOURCE_TOPIC
                 (Some "t") 0 []])
           (sample_result RD_KAFKA_EVENT_ALTERCONFIGS_RESULT
              RD_KAFKA_OP_ALTERCONFIGS
              [Some (mk_ConfigResource RD_KAFKA_RESOURCE_TOPIC "t" [] 40
                       (Some (Errmsg "bad value")))])
           0%nat _ eq_refl eq_refl).
Defined.

(** ** Result ops name their request *)

Lemma parse_return_answers {A B R : Type} (rko : rd_kafka_op_t A B)
    (x : parse_result (rd_list_t R)) (r : rd_kafka_admin_result R) :
  parse_return (rd_kafka_admin_result_new rko) x = PARSE_OK r ->
  answers_request rko r /\ result_err r = RD_KAFKA_RESP_ERR_NO_ERROR
  /\ result_errstr r = None.
Proof.
  destruct x as [rl | | |]; simpl; intros H; inversion H; subst.
  unfold answers_request. simpl. auto.
Qed.

(** X18. Every result op that the worker puts on the application's
    queue, failure results included, carries the reply event type, the
    request type and the opaque of the request it answers, provided that
    the parser's results do; and the results of the five parsers do, with
    the error code NO_ERROR. *)
Theorem results_name_their_request :
  (forall (A B R : Type) (cbs : rd_kafka_admin_worker_cbs A B R)
          (env : worker_env) (rko rko' : rd_kafka_op_t A B)
          (acts : list (action R)) (res : rd_kafka_op_res_t),
      (forall reply r,
          parse cbs rko reply = PARSE_OK r -> answers_request rko r) ->
      rd_kafka_admin_worker cbs env rko = Some (acts, res, rko') ->
      Forall (answers_request rko) (results_enqueued acts))
  /\ (forall rko reply r,
        rd_kafka_CreateTopicsResponse_parse rko reply = PARSE_OK r ->
        answers_request rko r /\ result_err r = RD_KAFKA_RESP_ERR_NO_ERROR)
  /\ (forall rko reply r,
        rd_kafka_DeleteTopicsResponse_parse rko reply = PARSE_OK r ->
        answers_request rko r /\ result_err r = RD_KAFKA_RESP_ERR_NO_ERROR)
  /\ (forall rko reply r,
        rd_kafka_CreatePartitionsResponse_parse rko reply = PARSE_OK r ->
        answers_request rko r /\ result_err r = RD_KAFKA_RESP_ERR_NO_ERROR)
  /\ (forall rko reply r,
        rd_kafka_AlterConfigsResponse_parse rko reply = PARSE_OK r ->
        answers_request rko r /\ result_err r = RD_KAFKA_RESP_ERR_NO_ERROR)
  /\ (forall rko reply r,
        rd_kafka_DescribeConfigsResponse_parse rko reply = PARSE_OK r ->
        answers_request rko r /\ result_err r = RD_KAFKA_RESP_ERR_NO_ERROR).
Proof.
  split.
  - intros A B R cbs env rko rko' acts res Hparse H.
    pose proof (results_enqueued_destroy (R := R) env) as Hd.
    worker_paths H;
      unfold results_enqueued in *;
      generalize dependent (rd_kafka_admin_common_worker_destroy (R := R) env);
      intros d Hd; rewrite ?omap_app; cbn in Hd |- *; rewrite ?Hd;
      try apply Forall_nil_2;
      (apply Forall_cons_2; [| apply Forall_nil_2]);
      first [eapply Hparse; eassumption | repeat split].
  - split; [| split; [| split; [| split]]]; intros rko reply r;
      unfold rd_kafka_CreateTopicsResponse_parse,
        rd_kafka_DeleteTopicsResponse_parse,
        rd_kafka_CreatePartitionsResponse_parse,
        rd_kafka_AlterConfigsResponse_parse,
        rd_kafka_DescribeConfigsResponse_parse;
      (destruct (elem_cnt reply >? rd_list_cnt (args rko)); [discriminate |]);
      intros H; apply parse_return_answers in H;
      destruct H as (H1 & H2 & _); split; assumption.
Qed.

Lemma results_name_their_request_witness :
  answers_request (sample_DeleteTopics 0 ["beta"; "alpha"])
    (sample_result RD_KAFKA_EVENT_DELETETOPICS_RESULT RD_KAFKA_OP_DELETETOPICS
       [Some (mk_topic_result "beta" 3 (Some (Err2str 3)));
        Some (mk_topic_result "alpha" 0 None)])
  /\ RD_KAFKA_RESP_ERR_NO_ERROR = RD_KAFKA_RESP_ERR_NO_ERROR.
Proof.
  apply (proj1 (proj2 (proj2 results_name_their_request))
           (sample_DeleteTopics 0 ["beta"; "alpha"]) sample_topics_reply
           (sample_result RD_KAFKA_EVENT_DELETETOPICS_RESULT
              RD_KAFKA_OP_DELETETOPICS
              [Some (mk_topic_result "beta" 3 (Some (Err2str 3)));
               Some (mk_topic_result "alpha" 0 None)])
           eq_refl).
Defined.

(** ** The options of each API *)

Lemma rd_strcasecmp_eq (a b : string) :
  rd_strcasecmp a b = 0 <-> lower_case a = lower_case b.
Proof.
  assert (Hpos : forall c, 0 <= tolower c).
  { intros c. unfold tolower, uchar.
    destruct ((65 <=? Z.of_N (N_of_ascii c)) && (Z.of_N (N_of_ascii c) <=? 90));
      lia. }
  revert b. induction a as [| c a IH]; intros [| d b]; simpl.
  - split; reflexivity.
  - destruct (Z.eqb_spec (tolower d) 0) as [E | NE];
      split; intros H; try reflexivity; try lia; discriminate H.
  - destruct (Z.eqb_spec (tolower c) 0) as [E | NE];
      split; intros H; try reflexivity; try lia; discriminate H.
  - destruct (Z.eqb_spec (tolower c) (tolower d)) as [E | NE].
    + rewrite <- E.
      destruct (Z.eqb_spec (tolower c) 0) as [E0 | NE0].
      * split; reflexivity.
      * rewrite IH. split; intros H; [rewrite H; reflexivity |].
        inversion H. reflexivity.
    + destruct (Z.eqb_spec (tolower c) 0) as [Ec | NEc],
               (Z.eqb_spec (tolower d) 0) as [Ed | NEd];
        split; intros H; try lia; try discriminate H.
      inversion H. contradiction.
Qed.

Lemma for_api_is_lower (api : string) (names : list string) :
  for_api_is (Some api) names
  = existsb (fun n => bool_decide (lower_case api = lower_case n)) names.
Proof.
  unfold for_api_is. induction names as [| n names IH]; [reflexivity |].
  simpl. rewrite IH. f_equal.
  destruct (Z.eqb_spec (rd_strcasecmp api n) 0) as [E | NE];
    destruct (bool_decide_reflect (lower_case api = lower_case n)) as [L | NL];
    try reflexivity; exfalso.
  - apply NL, rd_strcasecmp_eq, E.
  - apply NE, rd_strcasecmp_eq, L.
Qed.

(** X19. [rd_kafka_AdminOptions_new] compares [for_api] with the five API
    names without regard to case and returns NULL for any other name.
    The options made for an API have [operation_timeout], [validate_only]
    and [incremental] enabled as the table says: CreateTopics and
    CreatePartitions the first two, DeleteTopics the first, AlterConfigs
    the last two, DescribeConfigs none. Options made for no API in
    particular (NULL) have all three. *)
Theorem options_of_each_api (request_timeout_ms : Z) (api : string) :
  (forall name row,
      (name, row) ∈ options_table ->
      rd_strcasecmp api name = 0 ->
      rd_kafka_AdminOptions_new request_timeout_ms (Some api)
      = Some (rd_kafka_AdminOptions_init request_timeout_ms (Some api))
      /\ enabled_options
           (rd_kafka_AdminOptions_init request_timeout_ms (Some api)) = row)
  /\ ((forall name row,
         (name, row) ∈ options_table -> rd_strcasecmp api name <> 0) ->
      rd_kafka_AdminOptions_new request_timeout_ms (Some api) = None)
  /\ rd_kafka_AdminOptions_new request_timeout_ms None
     = Some (rd_kafka_AdminOptions_init request_timeout_ms None)
  /\ enabled_options (rd_kafka_AdminOptions_init request_timeout_ms None)
     = (true, true, true).
Proof.
  split; [| split; [| split; reflexivity]].
  - intros name row Hrow Hname. apply rd_strcasecmp_eq in Hname.
    assert (Htable : forall names,
               for_api_is (Some api) names
               = existsb (fun n => bool_decide (lower_case name = lower_case n))
                   names).
    { intros names. rewrite for_api_is_lower, Hname. reflexivity. }
    unfold rd_kafka_AdminOptions_new, enabled_options,
      rd_kafka_AdminOptions_init.
    cbn [operation_timeout validate_only incremental].
    rewrite !Htable. unfold options_table in Hrow.
    repeat (apply elem_of_cons in Hrow;
            destruct Hrow as [Hrow | Hrow];
            [inversion Hrow; subst; split; reflexivity |]).
    apply elem_of_nil in Hrow. contradiction.
  - intros Hnone. unfold rd_kafka_AdminOptions_new, for_api_is, valid_apis.
    cbn [existsb].
    repeat match goal with
           | |- context [rd_strcasecmp api ?n =? 0] =>
               destruct (Z.eqb_spec (rd_strcasecmp api n) 0) as [E | _];
               [exfalso; eapply (Hnone n); [| exact E];
                unfold options_table; list_elem |]
           end.
    reflexivity.
Qed.

Lemma options_of_each_api_witness :
  rd_kafka_AdminOptions_new 5000 (Some "deletetopics")
  = Some (rd_kafka_AdminOptions_init 5000 (Some "deletetopics"))
  /\ enabled_options (rd_kafka_AdminOptions_init 5000 (Some "deletetopics"))
     = (true, false, false).
Proof.
  apply (proj1 (options_of_each_api 5000 "deletetopics") "DeleteTopics").
  - apply elem_of_cons. right. apply elem_of_cons. left. reflexivity.
  - reflexivity.
Defined.

(** ** What the conversion of a broker name lets through *)

Lemma broker_id_of_strtol (name : string) :
  broker_id_of_name name
  = let '(v, endptr) := strtol name in
    if (endptr =? 0)%nat || (to_int32 v <? 0) then None
    else Some (to_int32 v).
Proof.
  unfold broker_id_of_name. destruct (strtol name) as [v endptr].
  pose proof (to_int32_range v) as Hr. unfold INT32_MIN, INT32_MAX in Hr.
  destruct (Z.eqb_spec (to_int32 v) LONG_MIN) as [E | _];
    [unfold LONG_MIN in E; lia |].
  destruct (Z.eqb_spec (to_int32 v) LONG_MAX) as [E | _];
    [unfold LONG_MAX in E; lia |].
  reflexivity.
Qed.

Lemma scan_digits_append (d : Decimal.uint) (suffix : string) :
  forall acc : Z,
    scan_digits (String.append (NilEmpty.string_of_uint d) suffix) acc
    = let '(m, v) := scan_digits suffix (uint_value d acc) in
      ((Decimal.nb_digits d + m)%nat, v).
Proof.
  induction d; intros acc;
    cbn [NilEmpty.string_of_uint String.append scan_digits Decimal.nb_digits
         uint_value];
    try (destruct (scan_digits suffix acc); reflexivity);
    match goal with
    | |- context [isdigit ?c] =>
        change (isdigit c) with true; cbv iota;
        match goal with
        | |- context [uchar c - 48] =>
            let v := eval vm_compute in (uchar c - 48) in
            change (uchar c - 48) with v
        end
    end;
    rewrite IHd; destruct (scan_digits suffix _); reflexivity.
Qed.

Lemma skip_spaces_append (ws s : string) :
  Forall (fun c => isspace c = true) (list_ascii_of_string ws) ->
  match s with
  | EmptyString => True
  | String c _ => isspace c = false
  end ->
  skip_spaces (String.append ws s) = (String.length ws, s).
Proof.
  intros Hws Hs. induction ws as [| c ws IH]; simpl.
  - destruct s as [| c s]; [reflexivity |]. simpl. rewrite Hs. reflexivity.
  - simpl in Hws. inversion Hws as [| ? ? Hc Hrest]; subst.
    rewrite Hc, (IH Hrest). reflexivity.
Qed.

Lemma string_of_uint_head (d : Decimal.uint) :
  d <> Decimal.Nil ->
  exists c s, NilEmpty.string_of_uint d = String c s
              /\ isdigit c = true /\ isspace c = false
              /\ (uchar c =? 45) = false /\ (uchar c =? 43) = false.
Proof.
  intros Hd. destruct d; [contradiction | ..]; simpl; do 2 eexists;
    (split; [reflexivity |]); repeat split.
Qed.

(** [strtol] on white space, a decimal numeral and whatever follows it. *)
Lemma strtol_numeral (ws suffix : string) (d : Decimal.uint) :
  d <> Decimal.Nil ->
  Forall (fun c => isspace c = true) (list_ascii_of_string ws) ->
  match suffix with
  | EmptyString => True
  | String c _ => isdigit c = false
  end ->
  strtol (String.append ws (String.append (NilEmpty.string_of_uint d) suffix))
  = (Z.max LONG_MIN (Z.min LONG_MAX (uint_value d 0)),
     (String.length ws + 0 + (Decimal.nb_digits d + 0))%nat).
Proof.
  intros Hd Hws Hsuffix. unfold strtol.
  destruct (string_of_uint_head d Hd) as (c & s & Hcs & Hdig & Hsp & Hm & Hp).
  rewrite skip_spaces_append;
    [| exact Hws | rewrite Hcs; simpl; exact Hsp].
  assert (Hsign :
            match String.append (NilEmpty.string_of_uint d) suffix with
            | String c s' =>
                if uchar c =? 45 then (1%nat, true, s')
                else if uchar c =? 43 then (1%nat, false, s')
                     else (0%nat, false,
                           String.append (NilEmpty.string_of_uint d) suffix)
            | EmptyString =>
                (0%nat, false, String.append (NilEmpty.string_of_uint d) suffix)
            end
            = (0%nat, false, String.append (NilEmpty.string_of_uint d) suffix)).
  { rewrite Hcs. simpl. rewrite Hm, Hp. reflexivity. }
  rewrite Hsign. rewrite scan_digits_append.
  assert (Hsuf : scan_digits suffix (uint_value d 0) = (O, uint_value d 0)).
  { destruct suffix as [| c' suffix]; [reflexivity |]. simpl.
    rewrite Hsuffix. reflexivity. }
  rewrite Hsuf.
  assert (Hnb : exists k, Decimal.nb_digits d = S k).
  { destruct d; [contradiction | ..]; simpl; eauto. }
  destruct Hnb as [k Hk]. rewrite Hk. simpl. reflexivity.
Qed.

Lemma broker_id_of_numeral (ws suffix : string) (n : N) :
  Forall (fun c => isspace c = true) (list_ascii_of_string ws) ->
  match suffix with
  | EmptyString => True
  | String c _ => isdigit c = false
  end ->
  broker_id_of_name (String.append ws (String.append (decimal n) suffix))
  = (let r := to_int32 (Z.min LONG_MAX (Z.of_N n)) in
     if r <? 0 then None else Some r).
Proof.
  intros Hws Hsuffix.
  rewrite broker_id_of_strtol, decimal_string_of_uint.
  rewrite strtol_numeral by (try apply to_uint_not_nil; assumption).
  rewrite uint_value_to_uint.
  replace (Z.max LONG_MIN (Z.min LONG_MAX (Z.of_N n)))
    with (Z.min LONG_MAX (Z.of_N n)) by (unfold LONG_MIN, LONG_MAX; lia).
  pose proof (to_uint_not_nil n) as Hnil.
  assert (Hend : ((String.length ws + 0
                   + (Decimal.nb_digits (N.to_uint n) + 0))%nat =? 0)%nat
                 = false).
  { apply Nat.eqb_neq. destruct (N.to_uint n); [contradiction | ..];
      simpl; lia. }
  rewrite Hend. reflexivity.
Qed.

Lemma append_empty (s : string) : String.append s EmptyString = s.
Proof.
  induction s as [| c s IH]; [reflexivity |]. simpl. rewrite IH. reflexivity.
Qed.

(** X20. The name of a BROKER resource is converted leniently: white
    space before the number is skipped and whatever follows its digits is
    ignored. White space, then the decimal numeral of an id up to
    INT32_MAX, then any text that does not start with a digit, names that
    id. *)
Theorem broker_name_is_read_leniently (ws suffix : string) (n : N) :
  Forall (fun c => isspace c = true) (list_ascii_of_string ws) ->
  match suffix with
  | EmptyString => True
  | String c _ => isdigit c = false
  end ->
  Z.of_N n <= INT32_MAX ->
  broker_id_of_name (String.append ws (String.append (decimal n) suffix))
  = Some (Z.of_N n).
Proof.
  intros Hws Hsuffix Hsmall. rewrite broker_id_of_numeral by assumption.
  replace (Z.min LONG_MAX (Z.of_N n)) with (Z.of_N n)
    by (unfold LONG_MAX, INT32_MAX in *; lia).
  cbv zeta. rewrite to_int32_small by (unfold INT32_MIN, INT32_MAX in *; lia).
  destruct (Z.ltb_spec (Z.of_N n) 0); [lia | reflexivity].
Qed.

(** X21. The number read from the name of a BROKER resource is reduced to
    32 bits before its sign is looked at. For an id between 0 and
    INT32_MAX: the numeral of id + k * 2^32, up to LONG_MAX, names that
    id, and so does a minus sign followed by the numeral of k * 2^32 - id
    (k >= 1, down to LONG_MIN). A minus sign followed by a numeral of
    2^63 or more names broker 0, and a numeral of LONG_MAX or more is
    refused. *)
Theorem broker_name_is_reduced_to_32_bits (id k : Z) :
  0 <= id <= INT32_MAX ->
  (0 <= k -> id + k * 4294967296 <= LONG_MAX ->
   broker_id_of_name (decimal (Z.to_N (id + k * 4294967296))) = Some id)
  /\ (1 <= k -> k * 4294967296 - id <= - LONG_MIN ->
      broker_id_of_name
        (String "-" (decimal (Z.to_N (k * 4294967296 - id)))) = Some id)
  /\ (forall n : N,
        - LONG_MIN <= Z.of_N n ->
        broker_id_of_name (String "-" (decimal n)) = Some 0)
  /\ (forall n : N,
        LONG_MAX <= Z.of_N n -> broker_id_of_name (decimal n) = None).
Proof.
  intros Hid.
  assert (Hwrap : forall v, to_int32 (id + v * 4294967296) = id).
  { intros v. unfold to_int32.
    replace (id + v * 4294967296 + 2147483648)
      with (id + 2147483648 + v * 4294967296) by lia.
    rewrite Z.mod_add by lia. unfold INT32_MAX in Hid.
    rewrite Z.mod_small by lia. lia. }
  assert (Hpos : forall n : N,
             broker_id_of_name (decimal n)
             = (let r := to_int32 (Z.min LONG_MAX (Z.of_N n)) in
                if r <? 0 then None else Some r)).
  { intros n.
    pose proof (broker_id_of_numeral EmptyString EmptyString n
                  (Forall_nil_2 _) I) as H.
    simpl String.append in H. rewrite append_empty in H. exact H. }
  assert (Hneg : forall n : N,
             broker_id_of_name (String "-" (decimal n))
             = (let r := to_int32 (Z.max LONG_MIN (- Z.of_N n)) in
                if r <? 0 then None else Some r)).
  { intros n. rewrite broker_id_of_strtol, decimal_string_of_uint.
    rewrite strtol_minus_string_of_uint by apply to_uint_not_nil.
    rewrite uint_value_to_uint.
    replace (Z.max LONG_MIN (Z.min LONG_MAX (- Z.of_N n)))
      with (Z.max LONG_MIN (- Z.of_N n)) by (unfold LONG_MIN, LONG_MAX; lia).
    reflexivity. }
  split; [| split; [| split]].
  - intros Hk Hmax. rewrite Hpos.
    rewrite Z2N.id by lia.
    replace (Z.min LONG_MAX (id + k * 4294967296)) with (id + k * 4294967296)
      by lia.
    cbv zeta. rewrite Hwrap.
    destruct (Z.ltb_spec id 0); [lia | reflexivity].
  - intros Hk Hmin. rewrite Hneg.
    rewrite Z2N.id by (unfold INT32_MAX in Hid; lia).
    replace (Z.max LONG_MIN (- (k * 4294967296 - id)))
      with (id + (- k) * 4294967296) by lia.
    cbv zeta. rewrite Hwrap.
    destruct (Z.ltb_spec id 0); [lia | reflexivity].
  - intros n Hn. rewrite Hneg.
    replace (Z.max LONG_MIN (- Z.of_N n)) with LONG_MIN by lia.
    reflexivity.
  - intros n Hn. rewrite Hpos.
    replace (Z.min LONG_MAX (Z.of_N n)) with LONG_MAX by lia.
    reflexivity.
Qed.

Lemma broker_name_is_read_leniently_witness :
  broker_id_of_name " 12x" = Some 12.
Proof.
  apply (broker_name_is_read_leniently " " "x" 12).
  - apply Forall_cons_2; [reflexivity | apply Forall_nil_2].
  - reflexivity.
  - discriminate.
Defined.

Lemma broker_name_is_reduced_to_32_bits_witness :
  broker_id_of_name "4294967297" = Some 1
  /\ broker_id_of_name "-4294967295" = Some 1.
Proof.
  destruct (broker_name_is_reduced_to_32_bits 1 1) as (Hpos & Hneg & _).
  - split; discriminate.
  - split; [apply Hpos | apply Hneg]; discriminate.
Defined.

(** ** From the submission to the result *)

(** X22. A DeleteTopics request from the submission to its result, with
    the controller up, the client not terminating and the deadline ahead:
    [rd_kafka_DeleteTopics] makes the request op; the first run of the
    worker sends the request to the controller, keeps the op and posts no
    result; when the reply comes with one element for each of the
    distinct topics, in whatever order, [rd_kafka_admin_handle_response]
    posts exactly one result op and dismantles the request. That result
    has the error code NO_ERROR, and [rd_kafka_admin_result_ret_topics]
    hands out as many topic results as topics were given, the result at
    each index being that of the topic given at that index. *)
Theorem DeleteTopics_delivers_results_in_request_order
    (request_timeout_ms : Z) (env0 env1 env2 : worker_env)
    (del_topics : list rd_kafka_DeleteTopic_t)
    (send_request : rd_kafka_broker_t -> list rd_kafka_DeleteTopic_t ->
               rd_kafka_AdminOptions_t -> rd_kafka_resp_err_t * string)
    (rkb : rd_kafka_broker_t) (reply : topics_reply) :
  Forall DeleteTopic_built del_topics ->
  NoDup ((fun a => c_str (dt_topic a)) <$> del_topics) ->
  rd_kafka_terminating env1 = false ->
  rd_kafka_terminating env2 = false ->
  rd_clock env1 < rd_clock env0 + request_timeout_ms * 1000 ->
  rd_clock env2 < rd_clock env0 + request_timeout_ms * 1000 ->
  rd_kafka_broker_controller_async env1 = Some rkb ->
  fst (send_request rkb del_topics
         (rd_kafka_AdminOptions_init request_timeout_ms None)) = 0 ->
  elem_cnt reply = Z.of_nat (length (elems reply)) ->
  (fun e => c_str (kstr_bytes (ktopic e))) <$> elems reply
  ≡ₚ (fun a => c_str (dt_topic a)) <$> del_topics ->
  exists rko rko1 acts1 res,
    rd_kafka_DeleteTopics request_timeout_ms env0 del_topics None = Some rko
    /\ rd_kafka_admin_worker (DeleteTopics_cbs send_request) env1 rko
       = Some (acts1, RD_KAFKA_OP_RES_KEEP, rko1)
    /\ requests_sent acts1 = [rkb]
    /\ results_enqueued acts1 = []
    /\ rd_kafka_admin_handle_response (DeleteTopics_cbs send_request) env2
         (Some rko1) 0 (Some reply)
       = Some (Admin_result_enq res
               :: rd_kafka_admin_common_worker_destroy env2, None)
    /\ result_err res = RD_KAFKA_RESP_ERR_NO_ERROR
    /\ rd_kafka_admin_result_ret_topics res
       = Some (results res, Z.of_nat (length del_topics))
    /\ forall i a,
         del_topics !! i = Some a ->
         exists r,
           results res !! i = Some (Some r)
           /\ c_str (tr_topic r) = c_str (dt_topic a).
Proof.
  intros Hbuilt Hnodup Hterm1 Hterm2 Hclock1 Hclock2 Hctrl Hreq Hcnt Hperm.
  assert (Hsubmit : rd_kafka_DeleteTopics request_timeout_ms env0 del_topics
                      None
                    = Some (set_args
                              (rd_kafka_admin_request_op_new request_timeout_ms
                                 (rd_clock env0) RD_KAFKA_OP_DELETETOPICS
                                 RD_KAFKA_EVENT_DELETETOPICS_RESULT None)
                              del_topics)).
  { unfold rd_kafka_DeleteTopics, submit_topics.
    rewrite mapM_copy_all; [reflexivity |].
    eapply Forall_impl; [exact Hbuilt |]. apply DeleteTopic_built_copy. }
  set (rko := set_args
                (rd_kafka_admin_request_op_new request_timeout_ms
                   (rd_clock env0) RD_KAFKA_OP_DELETETOPICS
                   RD_KAFKA_EVENT_DELETETOPICS_RESULT None) del_topics) in *.
  set (rko1 := set_state (set_state (set_state rko
                 RD_KAFKA_ADMIN_STATE_WAIT_CONTROLLER)
                 RD_KAFKA_ADMIN_STATE_CONSTRUCT_REQUEST)
                 RD_KAFKA_ADMIN_STATE_WAIT_RESPONSE).
  destruct (send_request rkb del_topics
              (rd_kafka_AdminOptions_init request_timeout_ms None))
    as [err errstr] eqn:Ereq.
  simpl in Hreq. subst err.
  assert (Hrun1 : rd_kafka_admin_worker (DeleteTopics_cbs send_request) env1 rko
                  = Some ([Enq_once_add_source "timeout timer";
                           Timer_start_oneshot
                             (rd_clock env0 + request_timeout_ms * 1000
                              - rd_clock env1);
                           Enq_once_reenable; Enq_once_add_source "send";
                           Request_sent rkb; Broker_destroy rkb],
                          RD_KAFKA_OP_RES_KEEP, rko1)).
  { unfold rd_kafka_admin_worker. rewrite Hterm1.
    change (rko_err rko) with 0. simpl negb. cbv iota.
    change (0 =? RD_KAFKA_RESP_ERR__DESTROY) with false. cbv iota.
    change (abs_timeout rko) with (rd_clock env0 + request_timeout_ms * 1000).
    unfold rd_timeout_remains_us.
    destruct (Z.leb_spec (rd_clock env0 + request_timeout_ms * 1000
                          - rd_clock env1) 0); [lia |].
    unfold worker_dispatch. change (state rko) with RD_KAFKA_ADMIN_STATE_INIT.
    cbv iota. unfold worker_init.
    change (to_int32 (rd_kafka_confval_get_int (broker (options rko))))
      with (-1).
    simpl negb. cbv iota. change (broker_id rko) with (-1).
    simpl negb. cbv iota.
    unfold worker_wait_controller, rd_kafka_admin_common_get_controller.
    rewrite Hctrl. unfold worker_construct_request.
    change (request (DeleteTopics_cbs send_request)) with send_request.
    change (args (set_state (set_state rko _) _)) with del_topics.
    change (options (set_state (set_state rko _) _))
      with (rd_kafka_AdminOptions_init request_timeout_ms None).
    rewrite Ereq. reflexivity. }
  destruct (DeleteTopics_reply_complete (set_reply rko1 (Some reply) 0) reply
              Hcnt Hnodup Hperm) as (res & Hparse & Hlen & Hall).
  exists rko, rko1; eexists; exists res.
  split; [exact Hsubmit |]. split; [exact Hrun1 |].
  split; [reflexivity |]. split; [reflexivity |].
  assert (Hanswers : reqtype res = RD_KAFKA_OP_DELETETOPICS
                     /\ result_err res = RD_KAFKA_RESP_ERR_NO_ERROR).
  { unfold rd_kafka_DeleteTopicsResponse_parse in Hparse.
    destruct (elem_cnt reply >? _); [discriminate Hparse |].
    apply parse_return_answers in Hparse.
    destruct Hparse as ((_ & Hty & _) & Herr & _). split; assumption. }
  destruct Hanswers as [Hty Herr].
  split; [| split; [exact Herr | split]].
  - unfold rd_kafka_admin_handle_response.
    change (reply_buf rko1) with (@None topics_reply). simpl negb. cbv iota.
    unfold rd_kafka_admin_worker. rewrite Hterm2.
    change (rko_err (set_reply rko1 (Some reply) 0)) with 0.
    simpl negb. cbv iota.
    change (0 =? RD_KAFKA_RESP_ERR__DESTROY) with false. cbv iota.
    change (abs_timeout (set_reply rko1 (Some reply) 0))
      with (rd_clock env0 + request_timeout_ms * 1000).
    unfold rd_timeout_remains_us.
    destruct (Z.leb_spec (rd_clock env0 + request_timeout_ms * 1000
                          - rd_clock env2) 0); [lia |].
    unfold worker_dispatch.
    change (state (set_reply rko1 (Some reply) 0))
      with RD_KAFKA_ADMIN_STATE_WAIT_RESPONSE.
    cbv iota. unfold worker_wait_response.
    change (reply_buf (set_reply rko1 (Some reply) 0)) with (Some reply).
    cbv iota.
    change (parse (DeleteTopics_cbs send_request))
      with rd_kafka_DeleteTopicsResponse_parse.
    rewrite Hparse. reflexivity.
  - unfold rd_kafka_admin_result_ret_topics. rewrite Hty.
    unfold rd_list_cnt. rewrite Hlen. reflexivity.
  - intros i a Ha. destruct (Hall i a Ha) as (e & _ & Hr & Hk).
    eexists. split; [exact Hr |]. exact Hk.
Qed.

Lemma DeleteTopics_delivers_results_in_request_order_witness :
  exists rko rko1 acts1 res,
    rd_kafka_DeleteTopics 5000 sample_env sample_del_topics None = Some rko
    /\ rd_kafka_admin_worker (DeleteTopics_cbs (fun _ _ _ => (0, EmptyString)))
         sample_env_up rko
       = Some (acts1, RD_KAFKA_OP_RES_KEEP, rko1)
    /\ requests_sent acts1 = [7]
    /\ results_enqueued acts1 = []
    /\ rd_kafka_admin_handle_response
         (DeleteTopics_cbs (fun _ _ _ => (0, EmptyString))) sample_env_up
         (Some rko1) 0 (Some sample_topics_reply)
       = Some (Admin_result_enq res
               :: rd_kafka_admin_common_worker_destroy sample_env_up, None)
    /\ result_err res = RD_KAFKA_RESP_ERR_NO_ERROR
    /\ rd_kafka_admin_result_ret_topics res = Some (results res, 2)
    /\ forall i a,
         sample_del_topics !! i = Some a ->
         exists r,
           results res !! i = Some (Some r)
           /\ c_str (tr_topic r) = c_str (dt_topic a).
Proof.
  apply (DeleteTopics_delivers_results_in_request_order 5000 sample_env
           sample_env_up sample_env_up sample_del_topics
           (fun _ _ _ => (0, EmptyString)) 7 sample_topics_reply).
  - apply Forall_cons_2; [exists (Some "beta"); reflexivity |].
    apply Forall_cons_2; [exists (Some "alpha"); reflexivity |].
    apply Forall_nil_2.
  - exact sample_topics_nodup.
  - reflexivity.
  - reflexivity.
  - reflexivity.
  - reflexivity.
  - reflexivity.
  - reflexivity.
  - reflexivity.
  - apply perm_swap.
Defined.
